(* ===== verification/_CoqProject ===== *)
-Q . S2P
Prelude.v
Tables.v
PatParser.v
PmtParser.v
Double.v
Calendar.v
TdtParser.v
TotParser.v
Printing.v
ConfigFile.v
Machine.v
World.v
StreamController.v
StreamProperties.v
Typing.v
GiveUp.v
RemoteController.v
Graphics.v
TvApp.v
Program.v
Player.v
Refinement.v
OldApp.v
DateTest.v
