(* ===== verification/Prelude.v ===== *)
(** * A verification of the digital television player

    The repository holds a small digital television receiver in C: it tunes to
    a frequency, reads the programme tables of the transport stream, plays one
    programme, and is used with a remote. This library models its source files
    and proves what the parts do, errors included, and that the whole program
    does what an abstract player promises.

    ** The parts

    - tables_parser.c and tables.h: the parsers of the program association
      table (PAT), the program map table (PMT), the time and date table (TDT)
      and the time offset table (TOT). Files PatParser, PmtParser, TdtParser
      and TotParser, with what they share in Tables. A structure is a record,
      an array of it a list of its capacity, a section a list of bytes, and a
      null pointer is [None]. TdtParser rests on Double (the [double]
      arithmetic of the date) and on Calendar (the Gregorian calendar, the
      specification of the date). The functions that print the tables are in
      Printing: the text they write is a string.
    - stream_controller.c and stream_controller.h: the controller. It loads
      config.ini (file ConfigFile: loadConfigFile and removeWhiteSpaces, over
      the C strings of a character array), keeps its state in static variables
      (World: one record, [world]), and has a thread of its own,
      streamControllerTask, and functions that other threads call
      (StreamController: one definition for each function, and for each stage
      of the long ones). Its section callback prints a TDT or a TOT with the
      functions of Printing; the text goes to the standard output and is
      dropped. StreamProperties proves what the functions do, GiveUp what a
      start that fails leaves behind, Typing that every variable keeps its C
      type and every run ends. Machine holds the heap pointers, the calls to
      the TDP library and the thread library, and the state monad.
    - remote_controller.c and remote_controller.h: the thread that reads the
      input device and calls the registered callback. File RemoteController.
    - graphics_controller.c and graphics_controller.h: the components on the
      screen, their timers, and the render thread. File Graphics.
    - tv_app.c: the program. Its callback for the remote calls the stream
      controller and the graphics, its callbacks for the stream controller
      keep the date and the volume, and digits dial a channel number with a
      timer. File TvApp, over the world of the stream controller whose
      [client] is the program. File Program puts the modules together: main,
      with the order of its starts and ends, and the threads that run while it
      waits, those of the remote, the controller, the timers and the screen.
    - vezba_5.c: an earlier tv_app.c, with its own main. File OldApp, over the
      same stream controller; the graphics controller it was written for is not
      in the repository and is a parameter, [Old.Graphics].
    - test.c: the date computation on one fixed date. File DateTest.

    File Player is the specification of the whole: the state that a viewer
    knows of (selected and played programme, level, dialled digits, what is to
    be on the screen and what the last frame showed) with one function for each
    button and timer, a turn of the controller and a frame. File Refinement
    relates the system of Program to it ([represents]), shows that every step
    of the system matches a step of the player, and draws the consequences for
    main.

    ** The method

    Integers are [Z] with the wrap-around of their C type written out ([u8],
    [u16], [u32], [i16] below). A piece of C code is a function to [res]: it
    gives a value, it runs into undefined behaviour of a kind that is named, or
    the fuel of a loop is used up. Reading a list out of its range is
    [Ub OutOfBounds]. Code that calls the libraries or waits is a program of
    the monad of Machine, which can also end in a wait for something that does
    not come.

    The TDP library (tuner, player, demultiplexer) and DirectFB are not in the
    repository. They are parameters, [TdpApi] and [Graphics.Gc.DirectFb]: an
    answer is any function of the calls made before. Theorems that need calls
    to succeed say so ([library_succeeds], [library_has_memory],
    [dfb_succeeds]), and their examples use a library that does.

    Threads are interleaved by a schedule, a list of events: a section
    arrives, the tuner reports, a client makes a request, a wait returns by
    itself, the task goes round its loop. The functions that other threads call
    are atomic in a schedule; they have effect when the controller thread
    waits, or between two passes of its loop. The tasks of the remote and of
    the screen have schedules of the same kind, and so has main while it waits
    for the exit key: there a pass of the render thread ([Frame]) can stand
    anywhere among the keys, the timers and the turns of the controller. Data
    races between the threads inside one function are not modelled: the program
    has no locks for them. In a schedule of main a step that waits for something
    that does not come ends the run. What the other threads do between their
    start and the wait of main is taken to happen after its beginning.

    ** Fuel

    A loop is run by [loop] with a number of rounds. The parsers of the PAT
    and the PMT leave their loop after at most 21 rounds, since their arrays
    have 20 cells, and have 22; so has the loop that selects the streams. The
    loop of the TOT has 22, that of the entries of a descriptor 21: each round
    writes a cell of an array of 20, or the run ends out of bounds. The loops
    that print have 257, since a count is at most 255. The configuration file
    has one round for each byte and one more, and removeWhiteSpaces one for
    each character and two more. The theorems [..._safe], [..._total],
    [parseTotTable_reference] and [removeWhiteSpaces_spec] show that the fuel is never used up, and Typing
    that this holds for every section, complete or not, and for every run of
    the controller. The loop of the controller task takes one step of its
    schedule in each round, so that the length of the schedule and one more is
    enough ([streamControllerTask_ends]); the loops of the other threads are
    run by their schedules.

    ** The theorems

    - The whole: main run by any presses, timers, turns of the controller,
      frames and sections does what the abstract player does
      ([main_refines_player]): it waits, ends after EXIT in a wait without its
      mutex, starves for a section, or writes out of bounds when a frame is
      drawn with the information rectangle. Channel keys end in the programme
      they select being played ([channel_keys_are_played]).
    - Parsers: each agrees with a recursive reference decoder on every
      complete section ([..._reference]), stays within its buffer and its
      arrays and keeps every field within its width ([..._safe]), and gives
      back what the encoder of the standard wrote ([..._encode]). For the date
      ([parseTdtTable_...]): the floating-point formula is exactly an integer
      formula, it never leaves the range of [int], and it is the calendar date
      but for an error of the day that is given month by month. For the TOT
      [parseTotTable_reference] holds of every section, complete or not, and
      says exactly which are read out of bounds; the offsets of a second
      descriptor and the 16-bit length are wrong.
    - Printing: the text shows exactly the fields of the table, which can be
      read back from it ([printed_tables_read_back]), and what a parser leaves
      is printed within its arrays ([received_tot_prints],
      [received_tdt_prints]).
    - Types and termination: whatever happens, the handlers, the functions of
      the header and the task keep every variable within its type, the handles,
      the configuration and every cell of the tables among them
      ([events_keep_types]), and end ([streamControllerTask_ends]).
    - Configuration: the round trip of files in the form of config.ini, what
      removeWhiteSpaces does to a word, and where the two fail.
    - Controller: start-up with a willing library ([task_boots]) and with any
      library, memory included ([task_gives_up]); the exact calls of a channel change
      ([startChannel_tunes]); runs of requests ([channel_requests],
      [volume_requests]); the dispatch of sections; the time tables; and the
      behaviours at the edges (bounds of channel numbers, a table without
      services, sections after the end, a tuner that does not lock).
    - Program: keys go through the task of the remote to the controller and to
      the screen ([volume_keys], [channel_keys], [info_key]); dialling
      ([dial_number], [timer_dials_number]); and main from its first call to
      the end of its wait, with the image of the level on the next frame
      ([main_runs]). The earlier program treats all keys
      but those of the volume in the same way ([old_keys_agree]), and does not
      survive its start ([old_main_calls_null]).
    - Remote and graphics: delivery of keys and the end of the task; the
      timers take off what is shown; the calls of a pass of the render thread,
      and the thread from its start to its end ([renderThread_runs]).

    ** What is not modelled

    The output of the program, but for the tables and for test.c; the names of
    devices and fonts; textColor; the variable currentTime of tv_app.c, which
    main sets and nothing reads; and mjd.c (a draft that does not compile: its
    variables are not declared). The channel keys that arrive while the
    controller waits are modelled as requests, without what the program then
    shows. The render thread is a step of main in tv_app.c only: the graphics
    controller of vezba_5.c cannot be read.

    ** This file

    Outcomes of C code, loops with fuel, integers and bits, bytes and reads,
    and lemmas on lists, which all the other files use. *)

From stdpp Require Export base list option strings numbers tactics.
From Stdlib Require Export ZArith Lia.

#[global] Open Scope Z_scope.

(** ** Outcomes of C code *)

(** What makes a C execution leave the defined part of the language. *)
Inductive ub_kind :=
  | OutOfBounds      (** access outside an array or buffer *)
  | NullDeref        (** dereference, or call, of a null pointer *)
  | Uninitialized    (** read of an indeterminate value *)
  | IntOverflow      (** conversion or signed arithmetic that does not fit *)
  | UseAfterFree     (** access to a freed object *)
  | NotLocked.       (** wait for a condition without holding its mutex *)

(** The result of running a piece of C code: it yields a value, it runs into
    undefined behaviour, or the fuel of one of its loops is used up. *)
Inductive res (A : Type) :=
  | Val (a : A)
  | Ub (k : ub_kind)
  | NoFuel.
Arguments Val {A} a.
Arguments Ub {A} k.
Arguments NoFuel {A}.

#[export] Instance res_ret : MRet res := fun A a => Val a.
#[export] Instance res_bind : MBind res := fun A B f m =>
  match m with Val a => f a | Ub k => Ub k | NoFuel => NoFuel end.

(** Total correctness: the code yields a value and it satisfies [Q]. *)
Definition returns {A} (m : res A) (Q : A -> Prop) : Prop :=
  match m with Val a => Q a | _ => False end.

Create Rewrite HintDb cres.

Lemma bind_val {A B} (a : A) (f : A -> res B) : (x ← Val a; f x) = f a.
Proof. reflexivity. Qed.

Lemma bind_ub {A B} k (f : A -> res B) : (x ← Ub k; f x) = Ub k.
Proof. reflexivity. Qed.

#[export] Hint Rewrite @bind_val @bind_ub : cres.

Lemma returns_bind {A B} (m : res A) (f : A -> res B) Q :
  returns (x ← m; f x) Q <-> returns m (fun a => returns (f a) Q).
Proof. destruct m; reflexivity. Qed.

Lemma returns_mono {A} (m : res A) (Q R : A -> Prop) :
  returns m Q -> (forall a, Q a -> R a) -> returns m R.
Proof. destruct m; simpl; auto. Qed.

Lemma returns_inv {A} (m : res A) Q : returns m Q -> exists a, m = Val a /\ Q a.
Proof. destruct m; simpl; [eauto | tauto | tauto]. Qed.

Lemma returns_val {A} (m : res A) (a : A) : m = Val a -> returns m (eq a).
Proof. intros ->; reflexivity. Qed.

(** The accesses that go wrong because of the data: no overflow, no
    indeterminate value and no wait without a mutex is among them. *)
Definition memory_error (k : ub_kind) : bool :=
  match k with
  | OutOfBounds | NullDeref | UseAfterFree => true
  | Uninitialized | IntOverflow | NotLocked => false
  end.

(** Correctness up to memory errors: the fuel is enough, a value satisfies [Q],
    and there is no other undefined behaviour. *)
Definition yields {A} (m : res A) (Q : A -> Prop) : Prop :=
  match m with Val a => Q a | Ub k => memory_error k = true | NoFuel => False end.

Lemma yields_bind {A B} (m : res A) (f : A -> res B) Q :
  yields (x ← m; f x) Q <-> yields m (fun a => yields (f a) Q).
Proof. destruct m; reflexivity. Qed.

Lemma yields_mono {A} (m : res A) (Q R : A -> Prop) :
  yields m Q -> (forall a, Q a -> R a) -> yields m R.
Proof. destruct m; simpl; auto. Qed.

Lemma returns_yields {A} (m : res A) Q : returns m Q -> yields m Q.
Proof. destruct m; simpl; tauto. Qed.

(** ** Loops *)

(** One pass through a loop body either goes on with the next state of the
    locals or leaves the loop with a result. *)
Inductive ctl (S R : Type) :=
  | Next (s : S)
  | Stop (r : R).
Arguments Next {S R} s.
Arguments Stop {S R} r.

Fixpoint loop {S R} (fuel : nat) (body : S -> res (ctl S R)) (s : S) : res R :=
  match fuel with
  | O => NoFuel
  | Datatypes.S n =>
      c ← body s;
      match c with Next s' => loop n body s' | Stop r => Val r end
  end.

Section Loop.
Context {S R : Type} (body : S -> res (ctl S R)).

Lemma loop_next n s s' :
  body s = Val (Next s') -> loop (Datatypes.S n) body s = loop n body s'.
Proof. intros H. simpl. rewrite H. reflexivity. Qed.

Lemma loop_stop n s r :
  body s = Val (Stop r) -> loop (Datatypes.S n) body s = Val r.
Proof. intros H. simpl. rewrite H. reflexivity. Qed.

Lemma loop_ub n s k :
  body s = Ub k -> loop (Datatypes.S n) body s = Ub k.
Proof. intros H. simpl. rewrite H. reflexivity. Qed.

(** The rule for total correctness: an invariant and a variant. *)
Lemma loop_returns (I : S -> Prop) (mu : S -> nat) (Q : R -> Prop) :
  (forall s, I s ->
     returns (body s) (fun c =>
       match c with Next s' => I s' /\ (mu s' < mu s)%nat | Stop r => Q r end)) ->
  forall n s, I s -> (mu s < n)%nat -> returns (loop n body s) Q.
Proof.
  intros Hbody n. induction n as [|n IH]; intros s HI Hmu; [lia|].
  simpl. rewrite returns_bind. eapply returns_mono; [apply (Hbody s HI)|].
  intros [s'|r]; simpl; [|auto]. intros [HI' Hlt]. apply IH; [assumption|lia].
Qed.

(** The same up to memory errors. *)
Lemma loop_yields (I : S -> Prop) (mu : S -> nat) (Q : R -> Prop) :
  (forall s, I s ->
     yields (body s) (fun c =>
       match c with Next s' => I s' /\ (mu s' < mu s)%nat | Stop r => Q r end)) ->
  forall n s, I s -> (mu s < n)%nat -> yields (loop n body s) Q.
Proof.
  intros Hbody n. induction n as [|n IH]; intros s HI Hmu; [lia|].
  simpl. rewrite yields_bind. eapply yields_mono; [apply (Hbody s HI)|].
  intros [s'|r]; simpl; [|auto]. intros [HI' Hlt]. apply IH; [assumption|lia].
Qed.

(** Partial correctness: what holds of the result of a loop that ends. *)
Lemma loop_result (I : S -> Prop) (Q : R -> Prop) :
  (forall s c, I s -> body s = Val c -> match c with Next s' => I s' | Stop r => Q r end) ->
  forall n s r, I s -> loop n body s = Val r -> Q r.
Proof.
  intros Hbody n. induction n as [|n IH]; intros s r HI E; [discriminate|].
  simpl in E. destruct (body s) as [c|k|] eqn:Es; [|discriminate..].
  specialize (Hbody s c HI Es). destruct c as [s'|r']; simpl in E; [exact (IH s' r Hbody E)|].
  injection E as <-. exact Hbody.
Qed.

(** More fuel does not change a loop that ends. *)
Lemma loop_fuel_mono n m s r :
  (n <= m)%nat -> loop n body s = Val r -> loop m body s = Val r.
Proof.
  revert m s. induction n as [|n IH]; intros m s Hle H; [discriminate|].
  destruct m as [|m]; [lia|]. simpl in *.
  destruct (body s) as [[s'|r']|k|]; simpl in *; try discriminate; [|assumption].
  apply IH; [lia|assumption].
Qed.
End Loop.

(** ** Machine integers *)

Definition u8 (z : Z) : Z := z mod 256.
Definition u16 (z : Z) : Z := z mod 65536.
Definition u32 (z : Z) : Z := z mod 4294967296.
Definition u64 (z : Z) : Z := z mod 18446744073709551616.
Definition i16 (z : Z) : Z := (z + 32768) mod 65536 - 32768.
Definition i32 (z : Z) : Z := (z + 2147483648) mod 4294967296 - 2147483648.

Arguments u8 : simpl never.
Arguments u16 : simpl never.
Arguments u32 : simpl never.
Arguments u64 : simpl never.
Arguments i16 : simpl never.
Arguments i32 : simpl never.

Definition is_u8 (z : Z) : Prop := 0 <= z < 256.
Definition is_u16 (z : Z) : Prop := 0 <= z < 65536.

#[export] Instance is_u8_dec z : Decision (is_u8 z).
Proof. unfold is_u8. apply _. Defined.
#[export] Instance is_u16_dec z : Decision (is_u16 z).
Proof. unfold is_u16. apply _. Defined.

Create HintDb cint.

Lemma u8_small z : 0 <= z < 256 -> u8 z = z.
Proof. apply Z.mod_small. Qed.
Lemma u16_small z : 0 <= z < 65536 -> u16 z = z.
Proof. apply Z.mod_small. Qed.
Lemma u32_small z : 0 <= z < 4294967296 -> u32 z = z.
Proof. apply Z.mod_small. Qed.
Lemma i16_small z : -32768 <= z < 32768 -> i16 z = z.
Proof. intros. unfold i16. rewrite Z.mod_small; lia. Qed.
Lemma i32_small z : -2147483648 <= z < 2147483648 -> i32 z = z.
Proof. intros. unfold i32. rewrite Z.mod_small; lia. Qed.

Lemma u8_range z : is_u8 (u8 z).
Proof. apply Z.mod_pos_bound. lia. Qed.
Lemma u16_range z : is_u16 (u16 z).
Proof. apply Z.mod_pos_bound. lia. Qed.

#[export] Hint Resolve u8_range u16_range : cint.

(** Masks and shifts of the parsers, as remainders and quotients. *)
Lemma land_mask x n m : 0 <= n -> m = Z.ones n -> Z.land x m = x mod 2 ^ n.
Proof. intros Hn ->. apply Z.land_ones. assumption. Qed.

Lemma land_01 x : Z.land x 0x01 = x mod 2.
Proof. apply (land_mask x 1); [lia | reflexivity]. Qed.
Lemma land_0F x : Z.land x 0x0F = x mod 16.
Proof. apply (land_mask x 4); [lia | reflexivity]. Qed.
Lemma land_1F x : Z.land x 0x1F = x mod 32.
Proof. apply (land_mask x 5); [lia | reflexivity]. Qed.
Lemma land_FF x : Z.land x 0xFF = x mod 256.
Proof. apply (land_mask x 8); [lia | reflexivity]. Qed.
Lemma land_0FFF x : Z.land x 0x0FFF = x mod 4096.
Proof. apply (land_mask x 12); [lia | reflexivity]. Qed.
Lemma land_1FFF x : Z.land x 0x1FFF = x mod 8192.
Proof. apply (land_mask x 13); [lia | reflexivity]. Qed.
Lemma land_FFFF x : Z.land x 0xFFFF = x mod 65536.
Proof. apply (land_mask x 16); [lia | reflexivity]. Qed.

Lemma shiftr_div x n : 0 <= n -> Z.shiftr x n = x / 2 ^ n.
Proof. apply Z.shiftr_div_pow2. Qed.

(** The upper nibble: [(x & 0xF0) >> 4]. *)
Lemma high_nibble x : is_u8 x -> Z.shiftr (Z.land x 0xF0) 4 = x / 16.
Proof.
  intros Hx. rewrite Z.shiftr_land. change (Z.shiftr 0xF0 4) with 0x0F.
  rewrite land_0F, shiftr_div by lia. change (2 ^ 4) with 16.
  apply Z.mod_small. unfold is_u8 in Hx.
  split; [apply Z.div_pos | apply Z.div_lt_upper_bound]; lia.
Qed.

Create Rewrite HintDb cbits.
#[export] Hint Rewrite land_01 land_0F land_1F land_FF land_0FFF land_1FFF
  land_FFFF : cbits.

(** [zdiv] decides linear goals with quotients and remainders by constants. *)
Ltac zdiv := Z.to_euclidean_division_equations; lia.

(** ** Arrays and buffers *)

(** [a[i]] and [a[i] = x], with the bounds the C object has. *)
Definition rd {A} (l : list A) (i : Z) : res A :=
  if i <? 0 then Ub OutOfBounds
  else match l !! Z.to_nat i with Some x => Val x | None => Ub OutOfBounds end.

Definition wr {A} (l : list A) (i : Z) (x : A) : res (list A) :=
  if (0 <=? i) && (i <? Z.of_nat (length l))
  then Val (<[Z.to_nat i := x]> l)
  else Ub OutOfBounds.

Arguments rd : simpl never.
Arguments wr : simpl never.

Section Arrays.
Context {A : Type}.
Implicit Types (l : list A) (x d : A).

Lemma rd_some l i x : 0 <= i -> l !! Z.to_nat i = Some x -> rd l i = Val x.
Proof.
  intros Hi Hx. unfold rd. destruct (Z.ltb_spec i 0); [lia|]. rewrite Hx.
  reflexivity.
Qed.

Lemma rd_nat l (i : nat) x : l !! i = Some x -> rd l (Z.of_nat i) = Val x.
Proof. intros Hx. apply rd_some; [lia|]. rewrite Nat2Z.id. assumption. Qed.

Lemma rd_nth l i d :
  0 <= i < Z.of_nat (length l) -> rd l i = Val (nth (Z.to_nat i) l d).
Proof.
  intros Hi. apply rd_some; [lia|]. rewrite nth_lookup.
  destruct (lookup_lt_is_Some_2 l (Z.to_nat i) ltac:(lia)) as [x Hx].
  rewrite Hx. reflexivity.
Qed.

Lemma rd_oob l i : i < 0 \/ Z.of_nat (length l) <= i -> rd l i = Ub OutOfBounds.
Proof.
  intros Hi. unfold rd. destruct (Z.ltb_spec i 0); [reflexivity|].
  rewrite lookup_ge_None_2 by lia. reflexivity.
Qed.

Lemma rd_cases l i :
  rd l i = Ub OutOfBounds \/ exists x, rd l i = Val x /\ l !! Z.to_nat i = Some x /\ 0 <= i.
Proof.
  unfold rd. destruct (Z.ltb_spec i 0); [auto|].
  destruct (l !! Z.to_nat i) as [x|] eqn:E; [right; eauto | auto].
Qed.

Lemma yields_rd l i (Q : A -> Prop) : (forall x, l !! Z.to_nat i = Some x -> 0 <= i -> Q x) ->
  yields (rd l i) Q.
Proof.
  intros HQ. destruct (rd_cases l i) as [->|(x & -> & Hx & Hi)]; [reflexivity | apply HQ; auto].
Qed.

Lemma yields_wr l i x (Q : list A -> Prop) :
  (0 <= i < Z.of_nat (length l) -> Q (<[Z.to_nat i := x]> l)) -> yields (wr l i x) Q.
Proof.
  intros HQ. unfold wr.
  destruct (Z.leb_spec 0 i), (Z.ltb_spec i (Z.of_nat (length l))); simpl; auto.
Qed.

Lemma rd_returns l i :
  0 <= i < Z.of_nat (length l) -> exists x, rd l i = Val x /\ l !! Z.to_nat i = Some x.
Proof.
  intros Hi. destruct (lookup_lt_is_Some_2 l (Z.to_nat i) ltac:(lia)) as [x Hx].
  exists x. split; [|assumption]. apply rd_some; [lia|assumption].
Qed.

Lemma wr_val l i x :
  0 <= i < Z.of_nat (length l) -> wr l i x = Val (<[Z.to_nat i := x]> l).
Proof.
  intros Hi. unfold wr. destruct (Z.leb_spec 0 i), (Z.ltb_spec i (Z.of_nat (length l)));
    try lia; reflexivity.
Qed.

Lemma rd_drop l (n : nat) i : 0 <= i -> rd (drop n l) i = rd l (Z.of_nat n + i).
Proof.
  intros Hi. unfold rd. destruct (Z.ltb_spec i 0), (Z.ltb_spec (Z.of_nat n + i) 0);
    try lia.
  rewrite lookup_drop. replace (Z.to_nat (Z.of_nat n + i)) with (n + Z.to_nat i)%nat by lia.
  reflexivity.
Qed.

Lemma rd_app_r l l' i :
  0 <= i -> rd (l ++ l') (Z.of_nat (length l) + i) = rd l' i.
Proof.
  intros Hi. rewrite <- (drop_app_length l l') at 2. rewrite rd_drop; auto.
Qed.
End Arrays.

(** A byte buffer as the parsers receive it. *)
Abbreviation bytes := (list Z).
Definition is_bytes (b : bytes) : Prop := Forall is_u8 b.

#[export] Instance is_bytes_dec b : Decision (is_bytes b).
Proof. unfold is_bytes. apply _. Defined.

(** [is_bytes] of a given section. *)
Ltac is_bytes_tac := apply (bool_decide_unpack _); vm_compute; exact I.

Lemma rd_byte b i v : is_bytes b -> rd b i = Val v -> is_u8 v.
Proof.
  intros Hb. unfold rd. destruct (i <? 0); [discriminate|].
  destruct (b !! Z.to_nat i) as [x|] eqn:E; [|discriminate].
  intros [= ->]. exact (Forall_lookup_1 _ _ _ _ Hb E).
Qed.
#[export] Hint Resolve rd_byte : cint.

(** The byte at offset [i] of a section, as the specifications write it. *)
Definition byte_at (b : bytes) (i : nat) : Z := nth i b 0.
Arguments byte_at : simpl never.

Lemma rd_byte_at b i :
  0 <= i < Z.of_nat (length b) -> rd b i = Val (byte_at b (Z.to_nat i)).
Proof. apply rd_nth. Qed.

Lemma byte_at_u8 b i : is_bytes b -> is_u8 (byte_at b i).
Proof.
  intros Hb. unfold byte_at. rewrite nth_lookup.
  destruct (b !! i) eqn:E; [exact (Forall_lookup_1 _ _ _ _ Hb E)|].
  simpl. unfold is_u8. lia.
Qed.
#[export] Hint Resolve byte_at_u8 : cint.

(** [rd_step] runs the reads at the head of a parser whose buffer is long
    enough. *)
Ltac rd_step :=
  rewrite ?bind_val;
  match goal with
  | |- context [rd (drop ?n ?b) ?i] => rewrite (rd_drop b n i) by lia
  | |- context [rd ?b ?i] => rewrite (rd_byte_at b i) by lia
  end.
Ltac is_pos p :=
  lazymatch p with xH => idtac | xO ?q => is_pos q | xI ?q => is_pos q end.
Ltac is_numeral z :=
  lazymatch z with
  | Z0 => idtac | Zpos ?p => is_pos p | Zneg ?p => is_pos p | Z.opp ?z => is_numeral z
  end.
Ltac nat_consts :=
  change (Z.to_nat 0) with 0%nat;
  repeat match goal with
  | |- context [Z.to_nat (Zpos ?p)] =>
      is_pos p;
      let n := eval compute in (Z.to_nat (Zpos p)) in
      change (Z.to_nat (Zpos p)) with n
  end.
Ltac rd_all := repeat rd_step; rewrite ?bind_val; nat_consts.

(** ** Arrays filled from the front *)

(** The first [k] cells of [old] replaced by [f 0], ..., [f (k - 1)]. *)
Definition fill {A} (f : nat -> A) (k : nat) (old : list A) : list A :=
  map f (seq 0 k) ++ drop k old.

Arguments fill : simpl never.

Section Fill.
Context {A : Type} (f : nat -> A) (old : list A).

Lemma fill_0 : fill f 0 old = old.
Proof. reflexivity. Qed.

Lemma length_fill k : (k <= length old)%nat -> length (fill f k old) = length old.
Proof.
  intros. unfold fill. rewrite length_app, length_map, length_seq, length_drop. lia.
Qed.

Lemma fill_insert k :
  (k < length old)%nat -> <[k := f k]> (fill f k old) = fill f (S k) old.
Proof.
  intros Hk. unfold fill.
  destruct (lookup_lt_is_Some_2 old k Hk) as [x Hx].
  rewrite (drop_S old x k Hx), seq_S, map_app, <- app_assoc.
  rewrite insert_app_r_alt by (rewrite length_map, length_seq; lia).
  rewrite length_map, length_seq, Nat.sub_diag. reflexivity.
Qed.

Lemma fill_Forall (P : A -> Prop) k :
  (forall i, (i < k)%nat -> P (f i)) -> Forall P old -> Forall P (fill f k old).
Proof.
  intros Hf Hold. unfold fill. apply Forall_app. split.
  - apply Forall_fmap, Forall_forall. intros i Hi.
    apply in_seq in Hi. apply Hf. lia.
  - apply Forall_drop. assumption.
Qed.

Lemma fill_ext g k : (forall i, (i < k)%nat -> f i = g i) -> fill f k old = fill g k old.
Proof.
  intros H. unfold fill. f_equal. apply map_ext_in. intros i Hi.
  apply in_seq in Hi. apply H. lia.
Qed.
End Fill.

(** The [j]-th byte of the [k]-th of several chunks of the same size. *)
Lemma lookup_concat_chunks {A B} (f : A -> list B) (w : nat) (l : list A) k j x :
  (forall a, length (f a) = w) -> (j < w)%nat -> l !! k = Some x ->
  concat (map f l) !! (w * k + j)%nat = f x !! j.
Proof.
  intros Hw Hj. revert k. induction l as [|a l IH]; intros k Hk; [discriminate|].
  destruct k as [|k]; simpl in *.
  - injection Hk as ->. rewrite lookup_app_l by (rewrite Hw; lia). f_equal. lia.
  - rewrite lookup_app_r by (rewrite Hw; lia). rewrite Hw, <- (IH k Hk). f_equal. lia.
Qed.

Lemma length_concat_chunks {A B} (f : A -> list B) (w : nat) (l : list A) :
  (forall a, length (f a) = w) -> length (concat (map f l)) = (w * length l)%nat.
Proof.
  intros Hw. induction l as [|a l IH]; simpl; [lia|]. rewrite length_app, Hw, IH. lia.
Qed.

Lemma byte_at_lookup b i v : b !! i = Some v -> byte_at b i = v.
Proof. intros H. unfold byte_at. rewrite nth_lookup, H. reflexivity. Qed.

(** A table that starts with the entries [l]. *)
Lemma fill_list {A} (f : nat -> A) (l old : list A) :
  (forall k x, l !! k = Some x -> f k = x) -> fill f (length l) old = l ++ drop (length l) old.
Proof.
  intros H. unfold fill. f_equal. apply list_eq. intros k.
  rewrite list_lookup_fmap. destruct (l !! k) as [x|] eqn:E.
  - rewrite lookup_seq_lt by (eapply lookup_lt_Some; eassumption). simpl.
    f_equal. apply H. assumption.
  - apply lookup_ge_None in E. rewrite lookup_seq_ge by assumption. reflexivity.
Qed.
