(* ===== verification/Tables.v ===== *)
(** * Tables: what the four table parsers share

    The error codes and capacities of tables.h, the null checks every parser
    starts with, and the big-endian 16-bit read the parsers repeat. *)

From S2P Require Import Prelude.

Definition TABLES_MAX_NUMBER_OF_PIDS_IN_PAT : Z := 20.
Definition TABLES_MAX_NUMBER_OF_ELEMENTARY_PID : Z := 20.
Definition TABLES_MAX_NUMBER_OF_LTO_DESCRIPTORS : Z := 20.
Definition TABLES_MAX_NUMBER_OF_TOT_DESCRIPTORS : Z := 20.

Inductive ParseErrorCode := TABLES_PARSE_ERROR | TABLES_PARSE_OK.

#[export] Instance ParseErrorCode_eq_dec : EqDecision ParseErrorCode.
Proof. solve_decision. Defined.

Definition is_ok (c : ParseErrorCode) : bool :=
  match c with TABLES_PARSE_OK => true | TABLES_PARSE_ERROR => false end.

(** [(uint16_t) ((higher8Bits << 8) + lower8Bits)] *)
Definition all16Bits (higher8Bits lower8Bits : Z) : Z :=
  u16 (Z.shiftl higher8Bits 8 + lower8Bits).

Lemma all16Bits_val hi lo : is_u8 hi -> is_u8 lo -> all16Bits hi lo = 256 * hi + lo.
Proof.
  unfold is_u8, all16Bits. intros. rewrite Z.shiftl_mul_pow2 by lia.
  change (2 ^ 8) with 256. rewrite u16_small; lia.
Qed.

Lemma all16Bits_range hi lo : is_u16 (all16Bits hi lo).
Proof. apply u16_range. Qed.
#[export] Hint Resolve all16Bits_range : cint.

(** The masked 16-bit fields of the parsers. *)
Lemma all16Bits_FFFF hi lo :
  is_u8 hi -> is_u8 lo -> Z.land (all16Bits hi lo) 0xFFFF = 256 * hi + lo.
Proof.
  intros. rewrite land_FFFF, all16Bits_val by assumption. unfold is_u8 in *.
  apply Z.mod_small. lia.
Qed.

Lemma all16Bits_0FFF hi lo :
  is_u8 hi -> is_u8 lo -> Z.land (all16Bits hi lo) 0x0FFF = (256 * hi + lo) mod 4096.
Proof. intros. rewrite land_0FFF, all16Bits_val by assumption. reflexivity. Qed.

Lemma all16Bits_1FFF hi lo :
  is_u8 hi -> is_u8 lo -> Z.land (all16Bits hi lo) 0x1FFF = (256 * hi + lo) mod 8192.
Proof. intros. rewrite land_1FFF, all16Bits_val by assumption. reflexivity. Qed.

Lemma land_FF_u8 x : is_u8 x -> Z.land x 0xFF = x.
Proof. intros. rewrite land_FF. apply Z.mod_small. assumption. Qed.

(** The syntax indicator, [(b >> 7) & 0x01]. *)
Lemma top_bit x : is_u8 x -> Z.land (Z.shiftr x 7) 0x01 = x / 128.
Proof. unfold is_u8. intros. rewrite land_01, shiftr_div by lia. zdiv. Qed.

(** The version number, [(b >> 1) & 0x1F]. *)
Lemma version_bits x : Z.land (Z.shiftr x 1) 0x1F = x / 2 mod 32.
Proof. rewrite land_1F, shiftr_div by lia. reflexivity. Qed.

(** [fields] turns the masked fields of a parser into arithmetic on the bytes
    of its buffer. *)
Ltac fields :=
  rewrite ?all16Bits_FFFF, ?all16Bits_0FFF, ?all16Bits_1FFF, ?land_FF_u8,
    ?top_bit, ?version_bits, ?land_01 by auto with cint.

(** A parser called through pointers: a null buffer or a null table makes it
    return [TABLES_PARSE_ERROR] with the table, if any, as it was. *)
Definition nullchecked {T} (f : bytes -> T -> res (ParseErrorCode * T))
    (b : option bytes) (t : option T) : res (ParseErrorCode * option T) :=
  match b, t with
  | Some b, Some t => '(c, t') ← f b t; Val (c, Some t')
  | _, _ => Val (TABLES_PARSE_ERROR, t)
  end.

(** The call of such a parser on a buffer and an object that exist. *)
Definition call {T} (f : option bytes -> option T -> res (ParseErrorCode * option T))
    (b : bytes) (t : T) : res (ParseErrorCode * T) :=
  '(c, t') ← f (Some b) (Some t); Val (c, default t t').

Lemma call_nullchecked {T} (f : bytes -> T -> res (ParseErrorCode * T)) b t :
  call (nullchecked f) b t = f b t.
Proof. unfold call, nullchecked. destruct (f b t) as [[c t']|k|]; reflexivity. Qed.

(** The bytes of a 16-bit big-endian field, for the reference encoders. *)
Definition hi8 (x : Z) : Z := x / 256.
Definition lo8 (x : Z) : Z := x mod 256.

Lemma hi8_u8 x : is_u16 x -> is_u8 (hi8 x).
Proof. unfold is_u16, is_u8, hi8. intros. zdiv. Qed.
Lemma lo8_u8 x : is_u8 (lo8 x).
Proof. apply u8_range. Qed.
#[export] Hint Resolve hi8_u8 lo8_u8 : cint.

Lemma all16Bits_split x : is_u16 x -> all16Bits (hi8 x) (lo8 x) = x.
Proof.
  intros. rewrite all16Bits_val by auto with cint. unfold hi8, lo8. zdiv.
Qed.
