(* ===== verification/PatParser.v ===== *)
(** * PatParser: the program association table

    [PatHeader], [PatServiceInfo] and [PatTable] of tables.h, and
    parsePatHeader, parsePatServiceInfo and parsePatTable of
    tables_parser.c. *)

From S2P Require Import Prelude Tables.

(** ** Data *)

Module Pat.
Record PatHeader := mkPatHeader {
  tableId : Z;
  sectionSyntaxIndicator : Z;
  sectionLength : Z;
  transportStreamId : Z;
  versionNumber : Z;
  currentNextIndicator : Z;
  sectionNumber : Z;
  lastSectionNumber : Z }.

Record PatServiceInfo := mkPatServiceInfo {
  programNumber : Z;
  pid : Z }.

Record PatTable := mkPatTable {
  patHeader : PatHeader;
  patServiceInfoArray : list PatServiceInfo;
  serviceInfoCount : Z }.

(** ** Operations *)

Definition set_tableId (v : Z) (h : PatHeader) : PatHeader :=
  mkPatHeader v (sectionSyntaxIndicator h) (sectionLength h) (transportStreamId h)
    (versionNumber h) (currentNextIndicator h) (sectionNumber h) (lastSectionNumber h).

Definition parsePatHeader_body (patHeaderBuffer : bytes) (patHeader : PatHeader)
    : res (ParseErrorCode * PatHeader) :=
  b0 ← rd patHeaderBuffer 0;
  let patHeader := set_tableId b0 patHeader in
  if negb (tableId patHeader =? 0x00) then Val (TABLES_PARSE_ERROR, patHeader) else
  b1 ← rd patHeaderBuffer 1;
  b2 ← rd patHeaderBuffer 2;
  b3 ← rd patHeaderBuffer 3;
  b4 ← rd patHeaderBuffer 4;
  b5 ← rd patHeaderBuffer 5;
  b6 ← rd patHeaderBuffer 6;
  b7 ← rd patHeaderBuffer 7;
  Val (TABLES_PARSE_OK,
    {| tableId := tableId patHeader;
       sectionSyntaxIndicator := Z.land (Z.shiftr b1 7) 0x01;
       sectionLength := Z.land (all16Bits b1 b2) 0x0FFF;
       transportStreamId := Z.land (all16Bits b3 b4) 0xFFFF;
       versionNumber := Z.land (Z.shiftr b5 1) 0x1F;
       currentNextIndicator := Z.land b5 0x01;
       sectionNumber := Z.land b6 0xFF;
       lastSectionNumber := Z.land b7 0xFF |}).

Definition parsePatHeader := nullchecked parsePatHeader_body.

Definition parsePatServiceInfo_body (patServiceInfoBuffer : bytes)
    (patServiceInfo : PatServiceInfo) : res (ParseErrorCode * PatServiceInfo) :=
  b0 ← rd patServiceInfoBuffer 0;
  b1 ← rd patServiceInfoBuffer 1;
  b2 ← rd patServiceInfoBuffer 2;
  b3 ← rd patServiceInfoBuffer 3;
  Val (TABLES_PARSE_OK,
    {| programNumber := Z.land (all16Bits b0 b1) 0xFFFF;
       pid := Z.land (all16Bits b2 b3) 0x1FFF |}).

Definition parsePatServiceInfo := nullchecked parsePatServiceInfo_body.

(** The locals of the loop of parsePatTable and the table it fills: the offset
    of [currentBufferPosition] in the section, [parsedLength], [*patTable]. *)
Definition pat_state : Type := Z * Z * PatTable.

Definition parsePatTable_step (patSectionBuffer : bytes) (s : pat_state)
    : res (ctl pat_state (ParseErrorCode * PatTable)) :=
  let '(currentBufferPosition, parsedLength, t) := s in
  if parsedLength <? sectionLength (patHeader t) then
    if TABLES_MAX_NUMBER_OF_PIDS_IN_PAT - 1 <? serviceInfoCount t
    then Val (Stop (TABLES_PARSE_ERROR, t)) else
    info ← rd (patServiceInfoArray t) (serviceInfoCount t);
    '(c, info) ← call parsePatServiceInfo
                   (drop (Z.to_nat currentBufferPosition) patSectionBuffer) info;
    arr ← wr (patServiceInfoArray t) (serviceInfoCount t) info;
    if is_ok c then
      Val (Next (currentBufferPosition + 4, u32 (parsedLength + 4),
                 mkPatTable (patHeader t) arr (u8 (serviceInfoCount t + 1))))
    else
      Val (Next (currentBufferPosition, parsedLength,
                 mkPatTable (patHeader t) arr (serviceInfoCount t)))
  else Val (Stop (TABLES_PARSE_OK, t)).

(** At most 20 passes fill the table and one more leaves the loop. *)
Definition pat_fuel : nat := 22.

Definition parsePatTable_body (patSectionBuffer : bytes) (patTable : PatTable)
    : res (ParseErrorCode * PatTable) :=
  '(c, h) ← call parsePatHeader patSectionBuffer (patHeader patTable);
  let patTable := mkPatTable h (patServiceInfoArray patTable) (serviceInfoCount patTable) in
  if negb (is_ok c) then Val (TABLES_PARSE_ERROR, patTable) else
  let parsedLength := 12 - 3 in
  let currentBufferPosition := 8 in
  let patTable := mkPatTable h (patServiceInfoArray patTable) 0 in
  loop pat_fuel (parsePatTable_step patSectionBuffer)
       (currentBufferPosition, parsedLength, patTable).

Definition parsePatTable := nullchecked parsePatTable_body.

(** ** What a section says *)

(** The header fields of a section, by the layout of the standard. *)
Definition header_of (b : bytes) : PatHeader :=
  {| tableId := byte_at b 0;
     sectionSyntaxIndicator := byte_at b 1 / 128;
     sectionLength := (256 * byte_at b 1 + byte_at b 2) mod 4096;
     transportStreamId := 256 * byte_at b 3 + byte_at b 4;
     versionNumber := byte_at b 5 / 2 mod 32;
     currentNextIndicator := byte_at b 5 mod 2;
     sectionNumber := byte_at b 6;
     lastSectionNumber := byte_at b 7 |}.

(** The [k]-th service entry. *)
Definition service_of (b : bytes) (k : nat) : PatServiceInfo :=
  let p := (8 + 4 * k)%nat in
  {| programNumber := 256 * byte_at b p + byte_at b (p + 1);
     pid := (256 * byte_at b (p + 2) + byte_at b (p + 3)) mod 8192 |}.

(** How many entries a section of length [L] announces: the entries between
    the 9 bytes of header and CRC that [L] counts. *)
Definition entries (L : Z) : nat := Z.to_nat ((L - 6) / 4).

Definition section_length (b : bytes) : Z := sectionLength (header_of b).

(** The section is there in full: the 3 bytes before the length and the bytes
    the length counts. *)
Definition complete (b : bytes) : Prop :=
  is_bytes b /\ 8 <= Z.of_nat (length b) /\ 3 + section_length b <= Z.of_nat (length b).

(** The field widths and the capacity of a table. *)
Record header_wf (h : PatHeader) : Prop := {
  hw_tid : is_u8 (tableId h);
  hw_ssi : 0 <= sectionSyntaxIndicator h < 2;
  hw_len : 0 <= sectionLength h < 4096;
  hw_ts : is_u16 (transportStreamId h);
  hw_ver : 0 <= versionNumber h < 32;
  hw_cni : 0 <= currentNextIndicator h < 2;
  hw_sn : is_u8 (sectionNumber h);
  hw_lsn : is_u8 (lastSectionNumber h) }.

Definition service_wf (s : PatServiceInfo) : Prop :=
  is_u16 (programNumber s) /\ 0 <= pid s < 8192.

Record table_wf (t : PatTable) : Prop := {
  tw_header : header_wf (patHeader t);
  tw_length : length (patServiceInfoArray t) = 20%nat;
  tw_services : Forall service_wf (patServiceInfoArray t);
  tw_count : 0 <= serviceInfoCount t <= 20 }.

(** ** Lemmas *)

Lemma parsePatHeader_body_ok b h :
  is_bytes b -> 8 <= Z.of_nat (length b) -> byte_at b 0 = 0 ->
  parsePatHeader_body b h = Val (TABLES_PARSE_OK, header_of b).
Proof.
  intros Hb Hlen H0. unfold parsePatHeader_body. rd_all. simpl. rewrite H0. simpl.
  fields. unfold header_of. rewrite H0. reflexivity.
Qed.

Lemma parsePatHeader_body_other b h :
  1 <= Z.of_nat (length b) -> byte_at b 0 <> 0 ->
  parsePatHeader_body b h = Val (TABLES_PARSE_ERROR, set_tableId (byte_at b 0) h).
Proof.
  intros Hlen H0. unfold parsePatHeader_body. rd_all. simpl.
  apply Z.eqb_neq in H0. rewrite H0. reflexivity.
Qed.

Lemma parsePatServiceInfo_body_ok b k i :
  is_bytes b -> 12 + 4 * Z.of_nat k <= Z.of_nat (length b) ->
  parsePatServiceInfo_body (drop (8 + 4 * k) b) i = Val (TABLES_PARSE_OK, service_of b k).
Proof.
  intros Hb Hlen. unfold parsePatServiceInfo_body. rd_all.
  fields. unfold service_of. do 4 f_equal; repeat f_equal; lia.
Qed.

Lemma pat_header_of_wf b : is_bytes b -> header_wf (header_of b).
Proof.
  intros Hb. pose proof (fun i => byte_at_u8 b i Hb) as Hu.
  split; simpl; auto with cint; try (apply Z.mod_pos_bound; lia).
  - specialize (Hu 1%nat). unfold is_u8 in *. zdiv.
  - generalize (Hu 3%nat), (Hu 4%nat). unfold is_u8, is_u16. lia.
Qed.

Lemma service_of_wf b k : is_bytes b -> service_wf (service_of b k).
Proof.
  intros Hb. pose proof (fun i => byte_at_u8 b i Hb) as Hu.
  split; simpl; [|apply Z.mod_pos_bound; lia].
  generalize (Hu (8 + 4 * k)%nat), (Hu (8 + 4 * k + 1)%nat). unfold is_u8, is_u16. simpl. lia.
Qed.

Lemma pat_set_tableId_wf h v : is_u8 v -> header_wf h -> header_wf (set_tableId v h).
Proof. intros Hv []. split; simpl; assumption. Qed.

#[local] Hint Resolve pat_header_of_wf service_of_wf pat_set_tableId_wf : cint.

(** The loop after [k] entries. *)
Definition loop_state (b : bytes) (old : list PatServiceInfo) (k : nat) : pat_state :=
  (8 + 4 * Z.of_nat k, 9 + 4 * Z.of_nat k,
   mkPatTable (header_of b) (fill (service_of b) k old) (Z.of_nat k)).

(** The table the parser leaves when it has read [k] entries. *)
Definition parsed_table (b : bytes) (k : nat) (t : PatTable) : PatTable :=
  mkPatTable (header_of b) (fill (service_of b) k (patServiceInfoArray t)) (Z.of_nat k).

Lemma entries_lt L k : 0 <= L -> (k < entries L)%nat <-> 9 + 4 * Z.of_nat k < L.
Proof. intros. unfold entries. zdiv. Qed.

Section Loop.
Context (b : bytes) (old : list PatServiceInfo).
Hypothesis Hb : is_bytes b.
Hypothesis Hold : length old = 20%nat.

Lemma pat_section_length_range : 0 <= section_length b < 4096.
Proof. apply (hw_len _ (pat_header_of_wf b Hb)). Qed.

Lemma pat_step_entry k :
  (k < entries (section_length b))%nat -> (k < 20)%nat ->
  12 + 4 * Z.of_nat k <= Z.of_nat (length b) ->
  parsePatTable_step b (loop_state b old k) = Val (Next (loop_state b old (S k))).
Proof.
  intros Hk H20 Hlen. pose proof pat_section_length_range as HL.
  apply entries_lt in Hk; [|lia].
  unfold parsePatTable_step, loop_state. cbn [patHeader serviceInfoCount patServiceInfoArray].
  rewrite (proj2 (Z.ltb_lt _ _)) by exact Hk.
  rewrite (proj2 (Z.ltb_ge _ _)) by (unfold TABLES_MAX_NUMBER_OF_PIDS_IN_PAT; lia).
  destruct (rd_returns (fill (service_of b) k old) (Z.of_nat k)) as (x & -> & _);
    [rewrite length_fill; lia|].
  rewrite bind_val. unfold parsePatServiceInfo. rewrite call_nullchecked.
  replace (Z.to_nat (8 + 4 * Z.of_nat k)) with (8 + 4 * k)%nat by lia.
  rewrite parsePatServiceInfo_body_ok, bind_val by (assumption || lia).
  rewrite wr_val by (rewrite length_fill; lia).
  rewrite bind_val, Nat2Z.id, fill_insert by lia. simpl is_ok. cbv iota.
  rewrite u8_small, u32_small by lia.
  do 2 f_equal. f_equal; [f_equal; lia | f_equal; lia].
Qed.

Lemma pat_step_done k :
  (entries (section_length b) <= k)%nat ->
  parsePatTable_step b (loop_state b old k) =
    Val (Stop (TABLES_PARSE_OK,
               mkPatTable (header_of b) (fill (service_of b) k old) (Z.of_nat k))).
Proof.
  intros Hk. pose proof pat_section_length_range as HL.
  assert (section_length b <= 9 + 4 * Z.of_nat k).
  { destruct (Z.le_gt_cases (section_length b) (9 + 4 * Z.of_nat k)); [assumption|].
    apply entries_lt in H; lia. }
  unfold parsePatTable_step, loop_state. cbn [patHeader].
  rewrite (proj2 (Z.ltb_ge _ _)) by assumption. reflexivity.
Qed.

Lemma pat_step_full :
  (20 < entries (section_length b))%nat ->
  parsePatTable_step b (loop_state b old 20) =
    Val (Stop (TABLES_PARSE_ERROR,
               mkPatTable (header_of b) (fill (service_of b) 20 old) 20)).
Proof.
  intros Hk. pose proof pat_section_length_range as HL. apply entries_lt in Hk; [|lia].
  unfold parsePatTable_step, loop_state. cbn [patHeader serviceInfoCount].
  rewrite (proj2 (Z.ltb_lt _ _)) by exact Hk. reflexivity.
Qed.

(** From the [k]-th entry to the [n]-th. *)
Lemma loop_entries n k fuel :
  (k <= n)%nat -> (n <= entries (section_length b))%nat -> (n <= 20)%nat ->
  8 + 4 * Z.of_nat n <= Z.of_nat (length b) ->
  loop (n - k + fuel) (parsePatTable_step b) (loop_state b old k) =
  loop fuel (parsePatTable_step b) (loop_state b old n).
Proof.
  intros Hkn Hn H20 Hlen. remember (n - k)%nat as d eqn:Hd. revert k Hkn Hd.
  induction d as [|d IH]; intros k Hkn Hd.
  - replace k with n by lia. reflexivity.
  - simpl Nat.add. rewrite (loop_next _ _ _ (loop_state b old (S k))).
    + apply IH; lia.
    + apply pat_step_entry; lia.
Qed.
End Loop.

Lemma parsePatTable_body_loop b t :
  is_bytes b -> 8 <= Z.of_nat (length b) -> byte_at b 0 = 0 ->
  parsePatTable_body b t =
    loop pat_fuel (parsePatTable_step b) (loop_state b (patServiceInfoArray t) 0).
Proof.
  intros. unfold parsePatTable_body, parsePatHeader. rewrite call_nullchecked.
  rewrite parsePatHeader_body_ok by assumption. reflexivity.
Qed.

(** ** The parser on every section *)

Lemma parsePatTable_decodes (b : bytes) (t : PatTable) :
  complete b -> length (patServiceInfoArray t) = 20%nat -> byte_at b 0 = 0 ->
  (entries (section_length b) <= 20)%nat ->
  parsePatTable (Some b) (Some t) =
    Val (TABLES_PARSE_OK, Some (parsed_table b (entries (section_length b)) t)).
Proof.
  intros (Hb & H8 & Hc) Ht H0 Hn. unfold parsePatTable, nullchecked.
  rewrite parsePatTable_body_loop by assumption.
  set (n := entries (section_length b)) in *.
  assert (Hlen : 8 + 4 * Z.of_nat n <= Z.of_nat (length b)).
  { pose proof (pat_section_length_range b Hb). unfold n, entries in *. zdiv. }
  replace pat_fuel with (n - 0 + S (21 - n))%nat by (unfold pat_fuel; lia).
  rewrite (loop_entries b _ Hb Ht n 0) by lia.
  rewrite (loop_stop _ _ _ _ (pat_step_done b _ Hb Ht n ltac:(lia))). reflexivity.
Qed.

Lemma parsePatTable_too_many (b : bytes) (t : PatTable) :
  complete b -> length (patServiceInfoArray t) = 20%nat -> byte_at b 0 = 0 ->
  (20 < entries (section_length b))%nat ->
  parsePatTable (Some b) (Some t) = Val (TABLES_PARSE_ERROR, Some (parsed_table b 20 t)).
Proof.
  intros (Hb & H8 & Hc) Ht H0 Hn. unfold parsePatTable, nullchecked.
  rewrite parsePatTable_body_loop by assumption.
  pose proof (pat_section_length_range b Hb) as HL.
  pose proof (proj1 (entries_lt _ _ (proj1 HL)) Hn).
  replace pat_fuel with (20 - 0 + 2)%nat by reflexivity.
  rewrite (loop_entries b _ Hb Ht 20 0) by lia.
  rewrite (loop_stop _ _ _ _ (pat_step_full b _ Hb Ht Hn)). reflexivity.
Qed.

Lemma parsePatTable_other b t :
  1 <= Z.of_nat (length b) -> byte_at b 0 <> 0 ->
  parsePatTable (Some b) (Some t) =
    Val (TABLES_PARSE_ERROR,
         Some (mkPatTable (set_tableId (byte_at b 0) (patHeader t))
                 (patServiceInfoArray t) (serviceInfoCount t))).
Proof.
  intros Hlen H0. unfold parsePatTable, nullchecked, parsePatTable_body, parsePatHeader.
  rewrite call_nullchecked, parsePatHeader_body_other by assumption. reflexivity.
Qed.

Lemma pat_parsed_table_wf b k t :
  is_bytes b -> (k <= 20)%nat -> table_wf t -> table_wf (parsed_table b k t).
Proof.
  intros Hb Hk [Hh Hl Hs Hc]. split; simpl; auto with cint; [| |lia].
  - rewrite length_fill; lia.
  - apply fill_Forall; auto with cint.
Qed.

(** The reference decoder: what a table becomes. *)
Definition reference (b : bytes) (t : PatTable) : ParseErrorCode * PatTable :=
  let n := entries (section_length b) in
  if byte_at b 0 =? 0 then
    (if (n <=? 20)%nat then TABLES_PARSE_OK else TABLES_PARSE_ERROR,
     parsed_table b (n `min` 20) t)
  else
    (TABLES_PARSE_ERROR,
     mkPatTable (set_tableId (byte_at b 0) (patHeader t)) (patServiceInfoArray t)
       (serviceInfoCount t)).

Lemma parsePatTable_total b t :
  complete b -> length (patServiceInfoArray t) = 20%nat ->
  parsePatTable (Some b) (Some t) = Val ((reference b t).1, Some (reference b t).2).
Proof.
  intros Hc Ht. unfold reference. destruct (Z.eqb_spec (byte_at b 0) 0) as [H0|H0].
  - destruct (Nat.leb_spec (entries (section_length b)) 20).
    + rewrite parsePatTable_decodes, Nat.min_l by assumption. reflexivity.
    + rewrite parsePatTable_too_many, Nat.min_r by (assumption || lia). reflexivity.
  - destruct Hc as (_ & H8 & _). rewrite parsePatTable_other by (assumption || lia). reflexivity.
Qed.

Lemma pat_reference_wf b t : is_bytes b -> table_wf t -> table_wf (reference b t).2.
Proof.
  intros Hb Ht. unfold reference. case_match.
  - apply pat_parsed_table_wf; [assumption | lia | assumption].
  - destruct Ht. split; simpl; auto with cint.
Qed.

(** ** The standard's encoding *)

(** A section as ISO/IEC 13818-1 lays it out: reserved bits set, the length
    counting what follows it, a CRC of four bytes at the end. *)
Definition encode_service (s : PatServiceInfo) : bytes :=
  [hi8 (programNumber s); lo8 (programNumber s); 0xE0 + hi8 (pid s); lo8 (pid s)].

Definition encode_section (h : PatHeader) (services : list PatServiceInfo) (crc : bytes)
    : bytes :=
  [0x00; 128 * sectionSyntaxIndicator h + 0x30 + hi8 (sectionLength h);
   lo8 (sectionLength h); hi8 (transportStreamId h); lo8 (transportStreamId h);
   0xC0 + 2 * versionNumber h + currentNextIndicator h;
   sectionNumber h; lastSectionNumber h] ++
  concat (map encode_service services) ++ crc.

Lemma pat_encode_section_header h services crc :
  header_wf h -> tableId h = 0 -> header_of (encode_section h services crc) = h.
Proof.
  intros [] H0. destruct h; simpl in *. subst. unfold header_of, encode_section, byte_at. simpl.
  unfold hi8, lo8, is_u8, is_u16 in *. f_equal; zdiv.
Qed.

Lemma encode_section_service h services crc k s :
  services !! k = Some s -> service_wf s ->
  service_of (encode_section h services crc) k = s.
Proof.
  intros Hk [Hn Hp].
  assert (Hat : forall j v, encode_service s !! j = Some v ->
            byte_at (encode_section h services crc) (8 + 4 * k + j) = v).
  { intros j v Hj. pose proof (lookup_lt_Some _ _ _ Hj) as Hlt. simpl in Hlt.
    apply byte_at_lookup. unfold encode_section.
    rewrite lookup_app_r by (simpl; lia). simpl length.
    replace (8 + 4 * k + j - 8)%nat with (4 * k + j)%nat by lia.
    rewrite <- Hj, <- (lookup_concat_chunks encode_service 4 services k j s)
      by (assumption || reflexivity).
    apply lookup_app_l. rewrite (length_concat_chunks _ 4) by reflexivity.
    apply lookup_lt_Some in Hk. lia. }
  pose proof (Hat 0%nat _ eq_refl) as A0. rewrite Nat.add_0_r in A0.
  unfold service_of. cbv zeta.
  rewrite A0, (Hat 1%nat _ eq_refl), (Hat 2%nat _ eq_refl), (Hat 3%nat _ eq_refl).
  destruct s; simpl in *.
  unfold hi8, lo8, is_u16 in *. f_equal; zdiv.
Qed.

Lemma encode_service_bytes s : service_wf s -> is_bytes (encode_service s).
Proof.
  intros [Hn Hp]. unfold encode_service.
  repeat apply Forall_cons_2; auto with cint. unfold hi8, is_u8. zdiv.
Qed.

Lemma pat_encode_section_bytes h services crc :
  header_wf h -> Forall service_wf services -> is_bytes crc ->
  is_bytes (encode_section h services crc).
Proof.
  intros [] Hs Hc. unfold encode_section, is_bytes. rewrite !Forall_app. split_and!; [|
    |exact Hc].
  - repeat apply Forall_cons_2; auto with cint; unfold hi8, is_u8; zdiv.
  - apply Forall_concat, Forall_fmap. eapply Forall_impl; [|exact Hs].
    exact encode_service_bytes.
Qed.

Lemma parsePatTable_encoded h services crc t :
  header_wf h -> tableId h = 0 -> Forall service_wf services ->
  is_bytes crc -> length crc = 4%nat -> (length services <= 20)%nat ->
  sectionLength h = 9 + 4 * Z.of_nat (length services) ->
  length (patServiceInfoArray t) = 20%nat ->
  complete (encode_section h services crc) /\
  reference (encode_section h services crc) t =
    (TABLES_PARSE_OK,
     mkPatTable h (services ++ drop (length services) (patServiceInfoArray t))
       (Z.of_nat (length services))).
Proof.
  intros Hh H0 Hs Hc Hc4 Hn HL Ht.
  pose proof (pat_encode_section_header h services crc Hh H0) as Hhd.
  assert (Hent : entries (section_length (encode_section h services crc)) = length services).
  { unfold section_length. rewrite Hhd, HL. unfold entries. zdiv. }
  split; [split_and!|].
  - apply pat_encode_section_bytes; assumption.
  - simpl. lia.
  - unfold section_length. rewrite Hhd, HL. unfold encode_section.
    rewrite !length_app, (length_concat_chunks _ 4), Hc4 by reflexivity. simpl. lia.
  - unfold reference. rewrite Hent.
    change (byte_at (encode_section h services crc) 0 =? 0) with true. cbv iota.
    rewrite (proj2 (Nat.leb_le _ _)), Nat.min_l by lia.
    unfold parsed_table. rewrite Hhd, fill_list; [reflexivity|].
    intros k s Hk. apply encode_section_service; [assumption|].
    exact (Forall_lookup_1 _ _ _ _ Hs Hk).
Qed.

(** ** Properties *)

(** C3: On every section that is there in full, parsePatTable returns and fills the table
    exactly as the reference decoder says: another table id is refused, more than 20 entries
    are an error with the first 20 kept, null pointers are refused. *)
Theorem parsePatTable_reference (b : bytes) (t : PatTable) :
  complete b -> length (patServiceInfoArray t) = 20%nat ->
  parsePatTable (Some b) (Some t) = Val ((reference b t).1, Some (reference b t).2) /\
  parsePatTable None (Some t) = Val (TABLES_PARSE_ERROR, Some t) /\
  parsePatTable (Some b) None = Val (TABLES_PARSE_ERROR, None).
Proof.
  intros Hc Ht. split; [apply parsePatTable_total; assumption | split; reflexivity].
Qed.

(** C5: On every complete section parsePatTable stays within the buffer and the array of the
    table, ends, and keeps every field of the table within its width and the count within
    the capacity. *)
Theorem parsePatTable_safe (b : bytes) (t : PatTable) :
  complete b -> table_wf t ->
  returns (parsePatTable (Some b) (Some t)) (fun r =>
    exists t', r.2 = Some t' /\ table_wf t').
Proof.
  intros Hc Ht. rewrite parsePatTable_total by (assumption || apply (tw_length t Ht)).
  simpl. destruct Hc as (Hb & _). eauto using pat_reference_wf.
Qed.

(** C4: Parsing the ISO/IEC 13818-1 encoding of a program association table with at most 20
    services gives back its header and its services. *)
Theorem parsePatTable_encode (h : PatHeader) (services : list PatServiceInfo) (crc : bytes)
    (t : PatTable) :
  header_wf h -> tableId h = 0 -> Forall service_wf services ->
  is_bytes crc -> length crc = 4%nat -> (length services <= 20)%nat ->
  sectionLength h = 9 + 4 * Z.of_nat (length services) ->
  length (patServiceInfoArray t) = 20%nat ->
  parsePatTable (Some (encode_section h services crc)) (Some t) =
    Val (TABLES_PARSE_OK,
         Some (mkPatTable h (services ++ drop (length services) (patServiceInfoArray t))
                 (Z.of_nat (length services)))).
Proof.
  intros Hh H0 Hs Hc Hc4 Hn HL Ht.
  destruct (parsePatTable_encoded h services crc t) as [Hcomp Href]; try assumption.
  rewrite parsePatTable_total, Href by assumption. reflexivity.
Qed.

(** ** A section with two services *)

Definition two_services : list PatServiceInfo :=
  [mkPatServiceInfo 0 16; mkPatServiceInfo 1001 4097].
Definition two_header : PatHeader := mkPatHeader 0 1 17 5 3 1 0 0.
Definition two_section : bytes := encode_section two_header two_services [1; 2; 3; 4].
Definition empty_table : PatTable :=
  mkPatTable (mkPatHeader 0 0 0 0 0 0 0 0) (replicate 20 (mkPatServiceInfo 0 0)) 0.

Lemma pat_two_complete : complete two_section.
Proof. split_and!; [is_bytes_tac | cbn; lia | vm_compute; discriminate]. Qed.

Lemma pat_empty_table_wf : table_wf empty_table.
Proof.
  split; [split; cbn; unfold is_u8, is_u16; lia | reflexivity | | cbn; lia].
  apply Forall_replicate. split; cbn; unfold is_u16; lia.
Qed.

Lemma parsePatTable_reference_witness :
  parsePatTable (Some two_section) (Some empty_table) =
    Val (TABLES_PARSE_OK,
         Some (mkPatTable two_header (two_services ++ replicate 18 (mkPatServiceInfo 0 0)) 2)).
Proof.
  rewrite (proj1 (parsePatTable_reference two_section empty_table pat_two_complete eq_refl)).
  reflexivity.
Defined.

Lemma parsePatTable_safe_witness :
  returns (parsePatTable (Some two_section) (Some empty_table)) (fun r =>
    exists t', r.2 = Some t' /\ table_wf t').
Proof. apply (parsePatTable_safe two_section empty_table pat_two_complete pat_empty_table_wf). Defined.

Lemma parsePatTable_encode_witness :
  parsePatTable (Some two_section) (Some empty_table) =
    Val (TABLES_PARSE_OK,
         Some (mkPatTable two_header (two_services ++ replicate 18 (mkPatServiceInfo 0 0)) 2)).
Proof.
  apply (parsePatTable_encode two_header two_services [1; 2; 3; 4] empty_table);
    try reflexivity; try (cbn; lia).
  - split; cbn; unfold is_u8, is_u16; lia.
  - repeat constructor; cbn; unfold is_u16; lia.
  - is_bytes_tac.
Defined.
End Pat.
