(* ===== verification/PmtParser.v ===== *)
(** * PmtParser: the program map table

    [PmtTableHeader], [PmtElementaryInfo] and [PmtTable] of tables.h, and
    parsePmtHeader, parsePmtElementaryInfo and parsePmtTable of
    tables_parser.c. The entries have a length of their own
    ([esInfoLength]), so the parser is compared with a recursive reference
    decoder, and that decoder with the encoding of the standard. *)

From S2P Require Import Prelude Tables.

(** ** Data *)

Module Pmt.
Record PmtTableHeader := mkPmtTableHeader {
  tableId : Z;
  sectionSyntaxIndicator : Z;
  sectionLength : Z;
  programNumber : Z;
  versionNumber : Z;
  currentNextIndicator : Z;
  sectionNumber : Z;
  lastSectionNumber : Z;
  pcrPid : Z;
  programInfoLength : Z }.

Record PmtElementaryInfo := mkPmtElementaryInfo {
  streamType : Z;
  elementaryPid : Z;
  esInfoLength : Z }.

Record PmtTable := mkPmtTable {
  pmtHeader : PmtTableHeader;
  pmtElementaryInfoArray : list PmtElementaryInfo;
  elementaryInfoCount : Z }.

(** ** Operations *)

Definition set_tableId (v : Z) (h : PmtTableHeader) : PmtTableHeader :=
  mkPmtTableHeader v (sectionSyntaxIndicator h) (sectionLength h) (programNumber h)
    (versionNumber h) (currentNextIndicator h) (sectionNumber h) (lastSectionNumber h)
    (pcrPid h) (programInfoLength h).

Definition parsePmtHeader_body (pmtHeaderBuffer : bytes) (pmtHeader : PmtTableHeader)
    : res (ParseErrorCode * PmtTableHeader) :=
  b0 ← rd pmtHeaderBuffer 0;
  let pmtHeader := set_tableId b0 pmtHeader in
  if negb (tableId pmtHeader =? 0x02) then Val (TABLES_PARSE_ERROR, pmtHeader) else
  b1 ← rd pmtHeaderBuffer 1;
  b2 ← rd pmtHeaderBuffer 2;
  b3 ← rd pmtHeaderBuffer 3;
  b4 ← rd pmtHeaderBuffer 4;
  b5 ← rd pmtHeaderBuffer 5;
  b6 ← rd pmtHeaderBuffer 6;
  b7 ← rd pmtHeaderBuffer 7;
  b8 ← rd pmtHeaderBuffer 8;
  b9 ← rd pmtHeaderBuffer 9;
  b10 ← rd pmtHeaderBuffer 10;
  b11 ← rd pmtHeaderBuffer 11;
  Val (TABLES_PARSE_OK,
    {| tableId := tableId pmtHeader;
       sectionSyntaxIndicator := Z.land (Z.shiftr b1 7) 0x01;
       sectionLength := Z.land (all16Bits b1 b2) 0x0FFF;
       programNumber := Z.land (all16Bits b3 b4) 0xFFFF;
       versionNumber := Z.land (Z.shiftr b5 1) 0x1F;
       currentNextIndicator := Z.land b5 0x01;
       sectionNumber := Z.land b6 0xFF;
       lastSectionNumber := Z.land b7 0xFF;
       pcrPid := Z.land (all16Bits b8 b9) 0xFFFF;
       programInfoLength := Z.land (all16Bits b10 b11) 0x0FFF |}).

Definition parsePmtHeader := nullchecked parsePmtHeader_body.

Definition parsePmtElementaryInfo_body (pmtElementaryInfoBuffer : bytes)
    (pmtElementaryInfo : PmtElementaryInfo) : res (ParseErrorCode * PmtElementaryInfo) :=
  b0 ← rd pmtElementaryInfoBuffer 0;
  b1 ← rd pmtElementaryInfoBuffer 1;
  b2 ← rd pmtElementaryInfoBuffer 2;
  b3 ← rd pmtElementaryInfoBuffer 3;
  b4 ← rd pmtElementaryInfoBuffer 4;
  Val (TABLES_PARSE_OK,
    {| streamType := b0;
       elementaryPid := Z.land (all16Bits b1 b2) 0x1FFF;
       esInfoLength := Z.land (all16Bits b3 b4) 0x0FFF |}).

Definition parsePmtElementaryInfo := nullchecked parsePmtElementaryInfo_body.

(** The locals of the loop of parsePmtTable and the table it fills: the offset
    of [currentBufferPosition] in the section, [parsedLength], [*pmtTable]. *)
Definition pmt_state : Type := Z * Z * PmtTable.

Definition parsePmtTable_step (pmtSectionBuffer : bytes) (s : pmt_state)
    : res (ctl pmt_state (ParseErrorCode * PmtTable)) :=
  let '(currentBufferPosition, parsedLength, t) := s in
  if parsedLength <? sectionLength (pmtHeader t) then
    if TABLES_MAX_NUMBER_OF_ELEMENTARY_PID - 1 <? elementaryInfoCount t
    then Val (Stop (TABLES_PARSE_ERROR, t)) else
    info ← rd (pmtElementaryInfoArray t) (elementaryInfoCount t);
    '(c, info) ← call parsePmtElementaryInfo
                   (drop (Z.to_nat currentBufferPosition) pmtSectionBuffer) info;
    arr ← wr (pmtElementaryInfoArray t) (elementaryInfoCount t) info;
    if is_ok c then
      Val (Next (currentBufferPosition + (5 + esInfoLength info),
                 u32 (parsedLength + (5 + esInfoLength info)),
                 mkPmtTable (pmtHeader t) arr (u8 (elementaryInfoCount t + 1))))
    else
      Val (Next (currentBufferPosition, parsedLength,
                 mkPmtTable (pmtHeader t) arr (elementaryInfoCount t)))
  else Val (Stop (TABLES_PARSE_OK, t)).

(** At most 20 passes fill the table and one more leaves the loop. *)
Definition pmt_fuel : nat := 22.

Definition parsePmtTable_body (pmtSectionBuffer : bytes) (pmtTable : PmtTable)
    : res (ParseErrorCode * PmtTable) :=
  '(c, h) ← call parsePmtHeader pmtSectionBuffer (pmtHeader pmtTable);
  let pmtTable :=
    mkPmtTable h (pmtElementaryInfoArray pmtTable) (elementaryInfoCount pmtTable) in
  if negb (is_ok c) then Val (TABLES_PARSE_ERROR, pmtTable) else
  let parsedLength := u32 (12 + programInfoLength h + 4 - 3) in
  let currentBufferPosition := 12 + programInfoLength h in
  let pmtTable := mkPmtTable h (pmtElementaryInfoArray pmtTable) 0 in
  loop pmt_fuel (parsePmtTable_step pmtSectionBuffer)
       (currentBufferPosition, parsedLength, pmtTable).

Definition parsePmtTable := nullchecked parsePmtTable_body.

(** ** What a section says *)

Definition header_of (b : bytes) : PmtTableHeader :=
  {| tableId := byte_at b 0;
     sectionSyntaxIndicator := byte_at b 1 / 128;
     sectionLength := (256 * byte_at b 1 + byte_at b 2) mod 4096;
     programNumber := 256 * byte_at b 3 + byte_at b 4;
     versionNumber := byte_at b 5 / 2 mod 32;
     currentNextIndicator := byte_at b 5 mod 2;
     sectionNumber := byte_at b 6;
     lastSectionNumber := byte_at b 7;
     pcrPid := 256 * byte_at b 8 + byte_at b 9;
     programInfoLength := (256 * byte_at b 10 + byte_at b 11) mod 4096 |}.

(** The entry that starts at offset [p]. *)
Definition entry_at (b : bytes) (p : nat) : PmtElementaryInfo :=
  {| streamType := byte_at b p;
     elementaryPid := (256 * byte_at b (p + 1) + byte_at b (p + 2)) mod 8192;
     esInfoLength := (256 * byte_at b (p + 3) + byte_at b (p + 4)) mod 4096 |}.

(** The entries of the section [b] from offset [p] on, at most [n] of them,
    and whether the section has more. The entries end where the CRC starts,
    4 bytes before the end of a section of [3 + L] bytes. *)
Fixpoint decode (n : nat) (b : bytes) (p : nat) (L : Z) : list PmtElementaryInfo * bool :=
  if Z.of_nat p <? 3 + L - 4 then
    match n with
    | O => ([], true)
    | S n =>
        let e := entry_at b p in
        let '(es, more) := decode n b (p + 5 + Z.to_nat (esInfoLength e)) L in
        (e :: es, more)
    end
  else ([], false).

Definition section_length (b : bytes) : Z := sectionLength (header_of b).
Definition first_entry (b : bytes) : nat := Z.to_nat (12 + programInfoLength (header_of b)).

Definition decode_section (b : bytes) : list PmtElementaryInfo * bool :=
  decode 20 b (first_entry b) (section_length b).

Definition complete (b : bytes) : Prop :=
  is_bytes b /\ 12 <= Z.of_nat (length b) /\ 3 + section_length b <= Z.of_nat (length b).

Record header_wf (h : PmtTableHeader) : Prop := {
  hw_tid : is_u8 (tableId h);
  hw_ssi : 0 <= sectionSyntaxIndicator h < 2;
  hw_len : 0 <= sectionLength h < 4096;
  hw_pn : is_u16 (programNumber h);
  hw_ver : 0 <= versionNumber h < 32;
  hw_cni : 0 <= currentNextIndicator h < 2;
  hw_sn : is_u8 (sectionNumber h);
  hw_lsn : is_u8 (lastSectionNumber h);
  hw_pcr : is_u16 (pcrPid h);
  hw_pil : 0 <= programInfoLength h < 4096 }.

Definition entry_wf (e : PmtElementaryInfo) : Prop :=
  is_u8 (streamType e) /\ 0 <= elementaryPid e < 8192 /\ 0 <= esInfoLength e < 4096.

Record table_wf (t : PmtTable) : Prop := {
  tw_header : header_wf (pmtHeader t);
  tw_length : length (pmtElementaryInfoArray t) = 20%nat;
  tw_entries : Forall entry_wf (pmtElementaryInfoArray t);
  tw_count : 0 <= elementaryInfoCount t <= 20 }.

(** The table left when the entries [es] have been read. *)
Definition parsed_table (b : bytes) (es : list PmtElementaryInfo) (t : PmtTable) : PmtTable :=
  mkPmtTable (header_of b) (es ++ drop (length es) (pmtElementaryInfoArray t))
    (Z.of_nat (length es)).

(** ** Lemmas *)

Lemma parsePmtHeader_body_ok b h :
  is_bytes b -> 12 <= Z.of_nat (length b) -> byte_at b 0 = 2 ->
  parsePmtHeader_body b h = Val (TABLES_PARSE_OK, header_of b).
Proof.
  intros Hb Hlen H0. unfold parsePmtHeader_body. rd_all. simpl. rewrite H0. simpl.
  fields. unfold header_of. rewrite H0. reflexivity.
Qed.

Lemma parsePmtHeader_body_other b h :
  1 <= Z.of_nat (length b) -> byte_at b 0 <> 2 ->
  parsePmtHeader_body b h = Val (TABLES_PARSE_ERROR, set_tableId (byte_at b 0) h).
Proof.
  intros Hlen H0. unfold parsePmtHeader_body. rd_all. simpl.
  apply Z.eqb_neq in H0. rewrite H0. reflexivity.
Qed.

Lemma parsePmtElementaryInfo_body_ok b p i :
  is_bytes b -> Z.of_nat p + 5 <= Z.of_nat (length b) ->
  parsePmtElementaryInfo_body (drop p b) i = Val (TABLES_PARSE_OK, entry_at b p).
Proof.
  intros Hb Hlen. unfold parsePmtElementaryInfo_body. rd_all.
  fields. unfold entry_at. do 4 f_equal; repeat f_equal; lia.
Qed.

Lemma pmt_header_of_wf b : is_bytes b -> header_wf (header_of b).
Proof.
  intros Hb. pose proof (fun i => byte_at_u8 b i Hb) as Hu.
  split; simpl; auto with cint; try (apply Z.mod_pos_bound; lia).
  - specialize (Hu 1%nat). unfold is_u8 in *. zdiv.
  - generalize (Hu 3%nat), (Hu 4%nat). unfold is_u8, is_u16. lia.
  - generalize (Hu 8%nat), (Hu 9%nat). unfold is_u8, is_u16. lia.
Qed.

Lemma entry_at_wf b p : is_bytes b -> entry_wf (entry_at b p).
Proof.
  intros Hb. split_and!; simpl; auto with cint; apply Z.mod_pos_bound; lia.
Qed.

Lemma pmt_set_tableId_wf h v : is_u8 v -> header_wf h -> header_wf (set_tableId v h).
Proof. intros Hv []. split; simpl; assumption. Qed.

#[local] Hint Resolve pmt_header_of_wf entry_at_wf pmt_set_tableId_wf : cint.

Lemma decode_length n b p L : (length (decode n b p L).1 <= n)%nat.
Proof.
  revert p. induction n as [|n IH]; intros p; simpl; case_match; simpl; try lia.
  specialize (IH (p + 5 + Z.to_nat (esInfoLength (entry_at b p)))%nat).
  destruct (decode n b _ L). simpl in *. lia.
Qed.

Lemma decode_wf n b p L : is_bytes b -> Forall entry_wf (decode n b p L).1.
Proof.
  intros Hb. revert p. induction n as [|n IH]; intros p; simpl; case_match; simpl; auto.
  specialize (IH (p + 5 + Z.to_nat (esInfoLength (entry_at b p)))%nat).
  destruct (decode n b _ L). simpl in *. auto with cint.
Qed.

Lemma pmt_section_length_range b : is_bytes b -> 0 <= section_length b < 4096.
Proof. intros Hb. apply (hw_len _ (pmt_header_of_wf b Hb)). Qed.

(** The loop at offset [p] with the entries [es] read. *)
Definition loop_state (b : bytes) (old es : list PmtElementaryInfo) (p : nat) : pmt_state :=
  (Z.of_nat p, Z.of_nat p + 1,
   mkPmtTable (header_of b) (es ++ drop (length es) old) (Z.of_nat (length es))).

Lemma insert_end {A} (es old : list A) x :
  (length es < length old)%nat ->
  <[length es := x]> (es ++ drop (length es) old) =
    (es ++ [x]) ++ drop (length (es ++ [x])) old.
Proof.
  intros Hlt. destruct (lookup_lt_is_Some_2 old _ Hlt) as [y Hy].
  rewrite (drop_S old y _ Hy), insert_app_r_alt, Nat.sub_diag by lia.
  rewrite length_app, Nat.add_1_r, <- app_assoc. reflexivity.
Qed.

Section Loop.
Context (b : bytes) (old : list PmtElementaryInfo).
Hypothesis Hc : complete b.
Hypothesis Hold : length old = 20%nat.

Lemma pmt_step_entry es p :
  Z.of_nat p < 3 + section_length b - 4 -> (length es < 20)%nat ->
  parsePmtTable_step b (loop_state b old es p) =
    Val (Next (loop_state b old (es ++ [entry_at b p])
                 (p + 5 + Z.to_nat (esInfoLength (entry_at b p))))).
Proof.
  intros Hp Hes. destruct Hc as (Hb & H12 & HL). pose proof (pmt_section_length_range b Hb).
  destruct (entry_at_wf b p Hb) as (_ & _ & Hel).
  unfold parsePmtTable_step, loop_state. cbn [pmtHeader elementaryInfoCount pmtElementaryInfoArray].
  rewrite (proj2 (Z.ltb_lt _ _)) by (change (sectionLength (header_of b)) with (section_length b); lia).
  rewrite (proj2 (Z.ltb_ge _ _)) by (unfold TABLES_MAX_NUMBER_OF_ELEMENTARY_PID; lia).
  assert (Hlen : length (es ++ drop (length es) old) = 20%nat)
    by (rewrite length_app, length_drop; lia).
  destruct (rd_returns (es ++ drop (length es) old) (Z.of_nat (length es))) as (x & -> & _);
    [lia|].
  rewrite bind_val. unfold parsePmtElementaryInfo. rewrite call_nullchecked, Nat2Z.id.
  rewrite parsePmtElementaryInfo_body_ok, bind_val by (assumption || lia).
  rewrite wr_val by lia.
  rewrite bind_val, Nat2Z.id, insert_end by lia. simpl is_ok. cbv iota.
  rewrite u8_small, u32_small by lia. rewrite (length_app es [_]) at 3. simpl (length [_]).
  do 2 f_equal. f_equal; [f_equal; lia | f_equal; lia].
Qed.

Lemma pmt_step_done es p :
  3 + section_length b - 4 <= Z.of_nat p ->
  parsePmtTable_step b (loop_state b old es p) =
    Val (Stop (TABLES_PARSE_OK, (loop_state b old es p).2)).
Proof.
  intros Hp. unfold parsePmtTable_step, loop_state. cbn [pmtHeader].
  rewrite (proj2 (Z.ltb_ge _ _)); [reflexivity|].
  change (sectionLength (header_of b)) with (section_length b). lia.
Qed.

Lemma pmt_step_full es p :
  Z.of_nat p < 3 + section_length b - 4 -> length es = 20%nat ->
  parsePmtTable_step b (loop_state b old es p) =
    Val (Stop (TABLES_PARSE_ERROR, (loop_state b old es p).2)).
Proof.
  intros Hp Hes. unfold parsePmtTable_step, loop_state.
  cbn [pmtHeader elementaryInfoCount]. rewrite Hes.
  rewrite (proj2 (Z.ltb_lt _ _)); [reflexivity|].
  change (sectionLength (header_of b)) with (section_length b). lia.
Qed.

(** The loop reads what the reference decoder reads. *)
Lemma loop_decode n es p fuel :
  (length es + n)%nat = 20%nat ->
  loop (n + S fuel) (parsePmtTable_step b) (loop_state b old es p) =
    let '(es', more) := decode n b p (section_length b) in
    Val (if more then TABLES_PARSE_ERROR else TABLES_PARSE_OK,
         (loop_state b old (es ++ es') p).2).
Proof.
  revert es p. induction n as [|n IH]; intros es p Hn; simpl Nat.add; simpl decode;
    destruct (Z.ltb_spec (Z.of_nat p) (3 + section_length b - 4)) as [Hp|Hp].
  - rewrite app_nil_r. apply loop_stop, pmt_step_full; lia.
  - rewrite app_nil_r. apply loop_stop, pmt_step_done; assumption.
  - rewrite (loop_next _ _ _ _ (pmt_step_entry es p Hp ltac:(lia))).
    rewrite IH by (rewrite length_app; simpl; lia).
    destruct (decode n b _ _) as [es' more]. rewrite <- app_assoc. reflexivity.
  - rewrite app_nil_r. apply loop_stop, pmt_step_done; assumption.
Qed.
End Loop.

(** ** The parser on every section *)

Lemma parsePmtTable_decodes (b : bytes) (t : PmtTable) :
  complete b -> length (pmtElementaryInfoArray t) = 20%nat -> byte_at b 0 = 2 ->
  parsePmtTable (Some b) (Some t) =
    Val (if (decode_section b).2 then TABLES_PARSE_ERROR else TABLES_PARSE_OK,
         Some (parsed_table b (decode_section b).1 t)).
Proof.
  intros Hc Ht H0. pose proof Hc as (Hb & H12 & HL).
  unfold parsePmtTable, nullchecked, parsePmtTable_body, parsePmtHeader.
  rewrite call_nullchecked, parsePmtHeader_body_ok, bind_val by assumption.
  simpl is_ok. simpl negb. cbv iota zeta.
  pose proof (hw_pil _ (pmt_header_of_wf b Hb)).
  replace (u32 _) with (Z.of_nat (first_entry b) + 1)
    by (unfold first_entry; rewrite u32_small; lia).
  replace (12 + programInfoLength (header_of b)) with (Z.of_nat (first_entry b))
    by (unfold first_entry; lia).
  change pmt_fuel with (20 + 2)%nat.
  match goal with |- context [loop _ _ ?st] =>
    change st with (loop_state b (pmtElementaryInfoArray t) [] (first_entry b)) end.
  rewrite (loop_decode b _ Hc Ht 20 [] _ 1 eq_refl).
  unfold decode_section. destruct (decode _ _ _ _). reflexivity.
Qed.

Lemma parsePmtTable_other b t :
  1 <= Z.of_nat (length b) -> byte_at b 0 <> 2 ->
  parsePmtTable (Some b) (Some t) =
    Val (TABLES_PARSE_ERROR,
         Some (mkPmtTable (set_tableId (byte_at b 0) (pmtHeader t))
                 (pmtElementaryInfoArray t) (elementaryInfoCount t))).
Proof.
  intros Hlen H0. unfold parsePmtTable, nullchecked, parsePmtTable_body, parsePmtHeader.
  rewrite call_nullchecked, parsePmtHeader_body_other by assumption. reflexivity.
Qed.

Lemma pmt_parsed_table_wf b es t :
  is_bytes b -> (length es <= 20)%nat -> Forall entry_wf es -> table_wf t ->
  table_wf (parsed_table b es t).
Proof.
  intros Hb Hn Hes [Hh Hl Hs Hc]. split; simpl; auto with cint; [| |lia].
  - rewrite length_app, length_drop. lia.
  - apply Forall_app_2; [assumption|]. apply Forall_drop. assumption.
Qed.

(** The reference decoder: what a table becomes. *)
Definition reference (b : bytes) (t : PmtTable) : ParseErrorCode * PmtTable :=
  if byte_at b 0 =? 2 then
    (if (decode_section b).2 then TABLES_PARSE_ERROR else TABLES_PARSE_OK,
     parsed_table b (decode_section b).1 t)
  else
    (TABLES_PARSE_ERROR,
     mkPmtTable (set_tableId (byte_at b 0) (pmtHeader t)) (pmtElementaryInfoArray t)
       (elementaryInfoCount t)).

Lemma parsePmtTable_total b t :
  complete b -> length (pmtElementaryInfoArray t) = 20%nat ->
  parsePmtTable (Some b) (Some t) = Val ((reference b t).1, Some (reference b t).2).
Proof.
  intros Hc Ht. unfold reference. destruct (Z.eqb_spec (byte_at b 0) 2) as [H0|H0].
  - apply parsePmtTable_decodes; assumption.
  - destruct Hc as (_ & H12 & _). rewrite parsePmtTable_other by (assumption || lia). reflexivity.
Qed.

Lemma pmt_reference_wf b t : is_bytes b -> table_wf t -> table_wf (reference b t).2.
Proof.
  intros Hb Ht. unfold reference. case_match.
  - apply pmt_parsed_table_wf; [assumption | apply decode_length | apply decode_wf; assumption | assumption].
  - destruct Ht. split; simpl; auto with cint.
Qed.

(** ** The standard's encoding *)

(** An entry with its descriptors, and a section, as ISO/IEC 13818-1 lays
    them out: reserved bits set, a CRC of four bytes at the end. [pcrPid h] is
    here the 13-bit PID. *)
Definition encode_entry (e : PmtElementaryInfo * bytes) : bytes :=
  [streamType e.1; 0xE0 + hi8 (elementaryPid e.1); lo8 (elementaryPid e.1);
   0xF0 + hi8 (esInfoLength e.1); lo8 (esInfoLength e.1)] ++ e.2.

Definition encode_header (h : PmtTableHeader) : bytes :=
  [0x02; 128 * sectionSyntaxIndicator h + 0x30 + hi8 (sectionLength h);
   lo8 (sectionLength h); hi8 (programNumber h); lo8 (programNumber h);
   0xC0 + 2 * versionNumber h + currentNextIndicator h;
   sectionNumber h; lastSectionNumber h;
   0xE0 + hi8 (pcrPid h); lo8 (pcrPid h);
   0xF0 + hi8 (programInfoLength h); lo8 (programInfoLength h)].

Definition encode_section (h : PmtTableHeader) (programInfo : bytes)
    (entries : list (PmtElementaryInfo * bytes)) (crc : bytes) : bytes :=
  encode_header h ++ programInfo ++ concat (map encode_entry entries) ++ crc.

(** What the program makes of an encoded header: [pcrPid] keeps the three
    reserved bits above the PID. *)
Definition received (h : PmtTableHeader) : PmtTableHeader :=
  mkPmtTableHeader (tableId h) (sectionSyntaxIndicator h) (sectionLength h)
    (programNumber h) (versionNumber h) (currentNextIndicator h) (sectionNumber h)
    (lastSectionNumber h) (0xE000 + pcrPid h) (programInfoLength h).

(** A program and its streams that fit a section. *)
Record encodable (h : PmtTableHeader) (programInfo : bytes)
    (entries : list (PmtElementaryInfo * bytes)) (crc : bytes) : Prop := {
  en_header : header_wf h;
  en_tid : tableId h = 2;
  en_pcr : pcrPid h < 8192;
  en_info : is_bytes programInfo;
  en_pil : programInfoLength h = Z.of_nat (length programInfo);
  en_entries : Forall (fun e => entry_wf e.1 /\ is_bytes e.2 /\
                         esInfoLength e.1 = Z.of_nat (length e.2)) entries;
  en_crc : is_bytes crc;
  en_crc4 : length crc = 4%nat;
  en_len : 3 + sectionLength h =
             Z.of_nat (length (encode_section h programInfo entries crc)) }.

Lemma length_encode_entry e : length (encode_entry e) = (5 + length e.2)%nat.
Proof. reflexivity. Qed.

Lemma pmt_encode_section_header h pinfo es crc :
  encodable h pinfo es crc -> header_of (encode_section h pinfo es crc) = received h.
Proof.
  intros [[] H0 Hp _ _ _ _ _ _]. destruct h; simpl in *. subst.
  unfold header_of, received, encode_section, byte_at. simpl.
  unfold hi8, lo8, is_u8, is_u16 in *. f_equal; zdiv.
Qed.

Lemma encode_entry_bytes e :
  entry_wf e.1 -> is_bytes e.2 -> is_bytes (encode_entry e).
Proof.
  intros (Ht & Hp & He) Hd. unfold encode_entry. apply Forall_app_2; [|exact Hd].
  repeat apply Forall_cons_2; auto with cint; unfold hi8, is_u8; zdiv.
Qed.

Lemma pmt_encode_section_bytes h pinfo es crc :
  encodable h pinfo es crc -> is_bytes (encode_section h pinfo es crc).
Proof.
  intros [[] _ Hp Hi _ He Hc _ _]. unfold encode_section, is_bytes. rewrite !Forall_app.
  split_and!; [|exact Hi| |exact Hc].
  - repeat apply Forall_cons_2; auto with cint; unfold hi8, is_u8, is_u16 in *; zdiv.
  - apply Forall_concat, Forall_fmap. eapply Forall_impl; [|exact He].
    intros e (? & ? & _). apply encode_entry_bytes; assumption.
Qed.

(** The entry at the end of a prefix. *)
Lemma entry_at_encoded pre e rest :
  entry_wf e.1 -> entry_at (pre ++ encode_entry e ++ rest) (length pre) = e.1.
Proof.
  intros (Ht & Hp & He).
  assert (Hat : forall j v, encode_entry e !! j = Some v ->
            byte_at (pre ++ encode_entry e ++ rest) (length pre + j) = v).
  { intros j v Hj. apply byte_at_lookup. rewrite lookup_app_r by lia.
    replace (length pre + j - length pre)%nat with j by lia.
    rewrite lookup_app_l by (eapply lookup_lt_Some; eassumption). assumption. }
  pose proof (Hat 0%nat _ eq_refl) as A0. rewrite Nat.add_0_r in A0.
  unfold entry_at.
  rewrite A0, (Hat 1%nat _ eq_refl), (Hat 2%nat _ eq_refl), (Hat 3%nat _ eq_refl),
    (Hat 4%nat _ eq_refl).
  destruct e as [[] d]; simpl in *. unfold hi8, lo8, is_u8 in *. f_equal; zdiv.
Qed.

Lemma decode_encoded es n pre crc L :
  Forall (fun e => entry_wf e.1 /\ is_bytes e.2 /\
            esInfoLength e.1 = Z.of_nat (length e.2)) es ->
  (length es <= n)%nat -> length crc = 4%nat ->
  3 + L = Z.of_nat (length (pre ++ concat (map encode_entry es) ++ crc)) ->
  decode n (pre ++ concat (map encode_entry es) ++ crc) (length pre) L =
    (map fst es, false).
Proof.
  intros Hes. revert n pre. induction Hes as [|e es (He & Hd & Hlen) Hes IH];
    intros n pre Hn Hc HL; cbn [map concat length] in *.
  - rewrite length_app in HL. simpl in HL.
    destruct n; simpl; rewrite (proj2 (Z.ltb_ge _ _)) by lia; reflexivity.
  - destruct n as [|n]; [lia|]. rewrite <- app_assoc in *. cbn [decode].
    rewrite entry_at_encoded by assumption.
    rewrite !length_app, length_encode_entry in HL.
    rewrite (proj2 (Z.ltb_lt _ _)) by lia. rewrite app_assoc.
    replace (length pre + 5 + Z.to_nat (esInfoLength e.1))%nat
      with (length (pre ++ encode_entry e))
      by (rewrite length_app, length_encode_entry; lia).
    rewrite IH; [reflexivity|lia|assumption|].
    rewrite !length_app, length_encode_entry. lia.
Qed.

Lemma encoded_reference h programInfo es crc t :
  encodable h programInfo es crc -> (length es <= 20)%nat ->
  complete (encode_section h programInfo es crc) /\
  reference (encode_section h programInfo es crc) t =
    (TABLES_PARSE_OK,
     mkPmtTable (received h) (map fst es ++ drop (length es) (pmtElementaryInfoArray t))
       (Z.of_nat (length es))).
Proof.
  intros Henc Hn. pose proof (pmt_encode_section_header _ _ _ _ Henc) as Hhd.
  pose proof (pmt_encode_section_bytes _ _ _ _ Henc) as Hb.
  destruct Henc as [[] H0 Hp Hi Hpil Hes Hc Hc4 HL].
  assert (Hdec : decode_section (encode_section h programInfo es crc) = (map fst es, false)).
  { unfold decode_section, first_entry, section_length. rewrite Hhd.
    cbn [received programInfoLength sectionLength].
    rewrite Hpil. unfold encode_section in HL |- *. rewrite app_assoc in HL |- *.
    replace (Z.to_nat (12 + Z.of_nat (length programInfo)))
      with (length (encode_header h ++ programInfo)) by (rewrite length_app; simpl; lia).
    apply decode_encoded; assumption. }
  split; [split_and!|].
  - assumption.
  - unfold encode_section. rewrite length_app. simpl. lia.
  - unfold section_length. rewrite Hhd, <- HL. reflexivity.
  - unfold reference. change (byte_at (encode_section h programInfo es crc) 0 =? 2) with true.
    cbv iota. rewrite Hdec. unfold parsed_table. cbn [fst snd]. rewrite Hhd, length_map.
    reflexivity.
Qed.

(** ** Properties *)

(** C6: On every complete section parsePmtTable returns and fills the table as the reference
    decoder says, walking over the descriptors of each entry; another table id is refused,
    more than 20 entries are an error, null pointers are refused. *)
Theorem parsePmtTable_reference (b : bytes) (t : PmtTable) :
  complete b -> length (pmtElementaryInfoArray t) = 20%nat ->
  parsePmtTable (Some b) (Some t) = Val ((reference b t).1, Some (reference b t).2) /\
  parsePmtTable None (Some t) = Val (TABLES_PARSE_ERROR, Some t) /\
  parsePmtTable (Some b) None = Val (TABLES_PARSE_ERROR, None).
Proof.
  intros Hc Ht. split; [apply parsePmtTable_total; assumption | split; reflexivity].
Qed.

(** C8: On every complete section parsePmtTable stays within the buffer and the array of the
    table, ends, and keeps every field of the table within its width and the count within
    the capacity. *)
Theorem parsePmtTable_safe (b : bytes) (t : PmtTable) :
  complete b -> table_wf t ->
  returns (parsePmtTable (Some b) (Some t)) (fun r =>
    exists t', r.2 = Some t' /\ table_wf t').
Proof.
  intros Hc Ht. rewrite parsePmtTable_total by (assumption || apply (tw_length t Ht)).
  simpl. destruct Hc as (Hb & _). eauto using pmt_reference_wf.
Qed.

(** C7: Parsing the encoding of a program map table with any descriptors and at most 20
    streams gives back its streams and its header, but for pcrPid, which keeps the three
    reserved bits above the 13-bit PID. *)
Theorem parsePmtTable_encode (h : PmtTableHeader) (programInfo : bytes)
    (es : list (PmtElementaryInfo * bytes)) (crc : bytes) (t : PmtTable) :
  encodable h programInfo es crc -> (length es <= 20)%nat ->
  length (pmtElementaryInfoArray t) = 20%nat ->
  parsePmtTable (Some (encode_section h programInfo es crc)) (Some t) =
    Val (TABLES_PARSE_OK,
         Some (mkPmtTable (received h)
                 (map fst es ++ drop (length es) (pmtElementaryInfoArray t))
                 (Z.of_nat (length es)))).
Proof.
  intros Henc Hn Ht. destruct (encoded_reference h programInfo es crc t Henc Hn) as [Hc Href].
  rewrite parsePmtTable_total, Href by assumption. reflexivity.
Qed.

(** ** A section with a video and an audio stream *)

Definition two_streams : list (PmtElementaryInfo * bytes) :=
  [(mkPmtElementaryInfo 2 513 3, [82; 1; 7]); (mkPmtElementaryInfo 3 660 0, [])].
Definition two_header : PmtTableHeader := mkPmtTableHeader 2 1 28 1001 4 1 0 0 513 2.
Definition two_section : bytes := encode_section two_header [9; 9] two_streams [1; 2; 3; 4].
Definition empty_table : PmtTable :=
  mkPmtTable (mkPmtTableHeader 0 0 0 0 0 0 0 0 0 0) (replicate 20 (mkPmtElementaryInfo 0 0 0)) 0.

Lemma pmt_two_complete : complete two_section.
Proof. split_and!; [is_bytes_tac | cbn; lia | vm_compute; discriminate]. Qed.

Lemma two_encodable : encodable two_header [9; 9] two_streams [1; 2; 3; 4].
Proof.
  split; try reflexivity; try is_bytes_tac. split; cbn; unfold is_u8, is_u16; lia.
Qed.

Lemma pmt_empty_table_wf : table_wf empty_table.
Proof.
  split; [split; cbn; unfold is_u8, is_u16; lia | reflexivity | | cbn; lia].
  apply Forall_replicate. unfold entry_wf, is_u8. cbn. lia.
Qed.

Definition two_parsed : PmtTable :=
  mkPmtTable (mkPmtTableHeader 2 1 28 1001 4 1 0 0 57857 2)
    ([mkPmtElementaryInfo 2 513 3; mkPmtElementaryInfo 3 660 0] ++
     replicate 18 (mkPmtElementaryInfo 0 0 0)) 2.

Lemma parsePmtTable_reference_witness :
  parsePmtTable (Some two_section) (Some empty_table) = Val (TABLES_PARSE_OK, Some two_parsed).
Proof.
  rewrite (proj1 (parsePmtTable_reference two_section empty_table pmt_two_complete eq_refl)).
  vm_compute. reflexivity.
Defined.

Lemma parsePmtTable_safe_witness :
  returns (parsePmtTable (Some two_section) (Some empty_table)) (fun r =>
    exists t', r.2 = Some t' /\ table_wf t').
Proof. apply (parsePmtTable_safe two_section empty_table pmt_two_complete pmt_empty_table_wf). Defined.

Lemma parsePmtTable_encode_witness :
  parsePmtTable (Some two_section) (Some empty_table) = Val (TABLES_PARSE_OK, Some two_parsed).
Proof.
  apply (parsePmtTable_encode two_header [9; 9] two_streams [1; 2; 3; 4] empty_table
    two_encodable); [cbn; lia | reflexivity].
Defined.
End Pmt.
