(* ===== verification/Double.v ===== *)
(** * Double: the [double] arithmetic of the date computation

    A finite [double] is kept as the exact rational it stands for, a
    numerator over a positive denominator. An operation computes the exact
    result and rounds it to 53 significant bits, to nearest, ties to even,
    which is what IEEE 754 binary64 does for results in the normal range. The
    values of the date computation lie between 2^-40 and 2^25 in magnitude or
    are zero, so no operation overflows or is subnormal. *)

From S2P Require Import Prelude.
From Stdlib Require Import QArith Qabs Qround Lqa SpecFloat.
Open Scope Z_scope.

Record dbl := Dbl { dnum : Z; dden : Z }.

(** ** Rounding *)

(** The integer nearest to [n / d], the even one of two. *)
Definition rne (n d : Z) : Z :=
  let q := n / d in
  let r := n mod d in
  if 2 * r <? d then q
  else if d <? 2 * r then q + 1
  else if Z.even q then q else q + 1.

(** [n / (d * 2^e)] as a numerator and a denominator. *)
Definition scaled (n d e : Z) : Z * Z :=
  if 0 <=? e then (n, d * 2 ^ e) else (n * 2 ^ (- e), d).

(** The exponent for which [n / d] has a mantissa of 53 bits. *)
Definition exponent (n d : Z) : Z :=
  let e := Z.log2 (Z.abs n) - Z.log2 d - 53 in
  let '(a, b) := scaled n d e in
  if 2 ^ 53 * b <=? Z.abs a then e + 1 else e.

Definition rnd (n d : Z) : dbl :=
  if n =? 0 then Dbl 0 1 else
  let e := exponent n d in
  let '(a, b) := scaled n d e in
  if 0 <=? e then Dbl (rne a b * 2 ^ e) 1 else Dbl (rne a b) (2 ^ (- e)).

(** ** Operations *)

Definition d_of_Z (z : Z) : dbl := rnd z 1.
Definition dsub (x y : dbl) : dbl :=
  rnd (dnum x * dden y - dnum y * dden x) (dden x * dden y).
Definition dmul (x y : dbl) : dbl := rnd (dnum x * dnum y) (dden x * dden y).
Definition ddiv (x y : dbl) : dbl :=
  rnd (dnum x * dden y * Z.sgn (dnum y)) (dden x * Z.abs (dnum y)).

(** [(int) x]: towards zero; undefined when the result is not an [int]. *)
Definition dtrunc (x : dbl) : Z := Z.quot (dnum x) (dden x).
Definition d_to_int (x : dbl) : res Z :=
  let z := dtrunc x in
  if (-2147483648 <=? z) && (z <? 2147483648) then Val z else Ub IntOverflow.

(** ** The rounding error *)

Lemma rne_error n d : 0 < d -> 2 * Z.abs (rne n d * d - n) <= d.
Proof.
  intros Hd. unfold rne. pose proof (Z.div_mod n d ltac:(lia)).
  pose proof (Z.mod_pos_bound n d Hd).
  destruct (Z.ltb_spec (2 * (n mod d)) d); [nia|].
  destruct (Z.ltb_spec d (2 * (n mod d))); [nia|].
  destruct (Z.even (n / d)); nia.
Qed.

Lemma pow2_pos e : 0 <= e -> 0 < 2 ^ e.
Proof. intros. apply Z.pow_pos_nonneg; lia. Qed.
#[local] Hint Resolve pow2_pos : core.

Lemma scaled_pos n d e : 0 < d -> 0 < (scaled n d e).2.
Proof.
  intros. unfold scaled. destruct (Z.leb_spec 0 e); simpl; [|assumption].
  apply Z.mul_pos_pos; auto.
Qed.

(** The mantissa has 53 bits: [2^52 <= |n / d| / 2^e]. *)
Lemma log2_bounds x : 0 < x -> 2 ^ Z.log2 x <= x < 2 * 2 ^ Z.log2 x.
Proof.
  intros Hx. pose proof (Z.log2_spec x Hx) as [H1 H2].
  rewrite Z.pow_succ_r in H2 by apply Z.log2_nonneg. lia.
Qed.

Lemma scaled_first n d :
  n <> 0 -> 0 < d ->
  let e := Z.log2 (Z.abs n) - Z.log2 d - 53 in
  2 ^ 52 * (scaled n d e).2 <= Z.abs (scaled n d e).1.
Proof.
  intros Hn Hd e. pose proof (log2_bounds (Z.abs n) ltac:(lia)) as [N1 N2].
  pose proof (log2_bounds d Hd) as [D1 D2].
  pose proof (Z.log2_nonneg (Z.abs n)). pose proof (Z.log2_nonneg d).
  unfold scaled. destruct (Z.leb_spec 0 e) as [He|He]; simpl.
  - assert (Hp : 2 ^ 52 * (2 * 2 ^ Z.log2 d) * 2 ^ e = 2 ^ Z.log2 (Z.abs n)).
    { change (2 ^ 52 * (2 * 2 ^ Z.log2 d)) with (2 ^ 52 * (2 ^ 1 * 2 ^ Z.log2 d)).
      rewrite <- !Z.pow_add_r by lia. f_equal. lia. }
    pose proof (pow2_pos e He). change (Z.pow_pos 2 52) with (2 ^ 52).
    nia.
  - rewrite Z.abs_mul, (Z.abs_eq (2 ^ (- e))) by (apply Z.pow_nonneg; lia).
    assert (Hp : 2 ^ Z.log2 (Z.abs n) * 2 ^ (- e) = 2 ^ 52 * (2 * 2 ^ Z.log2 d)).
    { change (2 ^ 52 * (2 * 2 ^ Z.log2 d)) with (2 ^ 52 * (2 ^ 1 * 2 ^ Z.log2 d)).
      rewrite <- !Z.pow_add_r by lia. f_equal. lia. }
    pose proof (pow2_pos (- e) ltac:(lia)). change (Z.pow_pos 2 52) with (2 ^ 52).
    nia.
Qed.

Lemma scaled_succ n d e :
  0 < d -> 2 ^ 53 * (scaled n d e).2 <= Z.abs (scaled n d e).1 ->
  2 ^ 52 * (scaled n d (e + 1)).2 <= Z.abs (scaled n d (e + 1)).1.
Proof.
  intros Hd. unfold scaled.
  destruct (Z.leb_spec 0 e), (Z.leb_spec 0 (e + 1)); simpl; try lia.
  - rewrite Z.pow_add_r by lia. change (Z.pow_pos 2 53) with (2 * 2 ^ 52).
    change (Z.pow_pos 2 52) with (2 ^ 52). lia.
  - replace e with (-1) by lia. simpl.
    change (Z.pow_pos 2 53) with (2 * Z.pow_pos 2 52). rewrite Z.abs_mul. lia.
  - replace (- e) with (1 + (- (e + 1))) by lia. rewrite Z.pow_add_r by lia.
    change (Z.pow_pos 2 53) with (2 * Z.pow_pos 2 52). rewrite !Z.abs_mul.
    change (Z.abs (2 ^ 1)) with 2. lia.
Qed.

Lemma exponent_spec n d :
  n <> 0 -> 0 < d ->
  2 ^ 52 * (scaled n d (exponent n d)).2 <= Z.abs (scaled n d (exponent n d)).1.
Proof.
  intros Hn Hd. pose proof (scaled_first n d Hn Hd) as H. cbv zeta in H.
  unfold exponent. set (e := Z.log2 (Z.abs n) - Z.log2 d - 53) in *.
  pose proof (scaled_succ n d e Hd) as Hs.
  destruct (scaled n d e) as [a b] eqn:E.
  destruct (Z.leb_spec (2 ^ 53 * b) (Z.abs a)); [auto | rewrite E; assumption].
Qed.

(** A rounded value is within 2^-53 of the exact one, relatively. *)
Lemma rnd_error n d :
  0 < d ->
  0 < dden (rnd n d) /\
  2 ^ 53 * Z.abs (dnum (rnd n d) * d - n * dden (rnd n d)) <= Z.abs n * dden (rnd n d).
Proof.
  intros Hd. unfold rnd. destruct (Z.eqb_spec n 0) as [->|Hn]; [simpl; lia|].
  pose proof (exponent_spec n d Hn Hd) as He. pose proof (scaled_pos n d (exponent n d) Hd) as Hp.
  set (e := exponent n d) in *. unfold scaled in *.
  destruct (Z.leb_spec 0 e) as [He0|He0]; cbn [fst snd dnum dden] in *.
  - split; [lia|]. pose proof (rne_error n (d * 2 ^ e) Hp). rewrite !Z.mul_1_r.
    replace (rne n (d * 2 ^ e) * 2 ^ e * d) with (rne n (d * 2 ^ e) * (d * 2 ^ e)) by ring.
    change (2 ^ 53) with (2 ^ 52 * 2). lia.
  - split; [apply pow2_pos; lia|]. pose proof (rne_error (n * 2 ^ (- e)) d Hd).
    rewrite Z.abs_mul, (Z.abs_eq (2 ^ (- e))) in He by (apply Z.pow_nonneg; lia).
    change (2 ^ 53) with (2 ^ 52 * 2). lia.
Qed.

(** ** Values *)

Definition wf (x : dbl) : Prop := 0 < dden x.
Definition dval (x : dbl) : Q := (dnum x # Z.to_pos (dden x)).

Definition u : Q := 1 # 9007199254740992.

Lemma rnd_wf n d : 0 < d -> wf (rnd n d).
Proof. intros Hd. apply rnd_error. assumption. Qed.

(** The error in absolute terms, for an exact result of magnitude at most
    [B]. *)
Lemma rnd_near n d B :
  0 < d -> (- B <= n # Z.to_pos d <= B)%Q ->
  ((n # Z.to_pos d) - B * u <= dval (rnd n d) <= (n # Z.to_pos d) + B * u)%Q.
Proof.
  intros Hd HB. destruct (rnd_error n d Hd) as [Hp He].
  set (x := dval (rnd n d)). set (q := (n # Z.to_pos d)%Q).
  assert (Hq : (Qabs (x - q) <= Qabs q * u)%Q).
  { unfold x, q, dval, u, Qabs, Qminus, Qopp, Qplus, Qmult, Qle. cbn [Qnum Qden].
    rewrite !Pos2Z.inj_mul, !Z2Pos.id by assumption.
    change (Z.pos 9007199254740992) with (2 ^ 53).
    replace (dnum (rnd n d) * d + - n * dden (rnd n d))
      with (dnum (rnd n d) * d - n * dden (rnd n d)) by ring.
    apply (Z.mul_le_mono_nonneg_r _ _ d) in He; [|lia].
    rewrite Z.mul_1_r. lia. }
  assert (HqB : (Qabs q <= B)%Q) by (apply Qabs_Qle_condition; exact HB).
  assert (Hu : (Qabs q * u <= B * u)%Q) by (apply Qmult_le_compat_r; [assumption|discriminate]).
  assert (Hx : (Qabs (x - q) <= B * u)%Q) by (eapply Qle_trans; eassumption).
  apply Qabs_Qle_condition in Hx. lra.
Qed.

Section Ops.
Context (x y : dbl) (Hx : wf x) (Hy : wf y).
Local Open Scope Q_scope.

Lemma dsub_wf : wf (dsub x y).
Proof. apply rnd_wf. unfold wf in *. nia. Qed.

Lemma dmul_wf : wf (dmul x y).
Proof. apply rnd_wf. unfold wf in *. nia. Qed.

Lemma ddiv_wf : (dnum y <> 0)%Z -> wf (ddiv x y).
Proof. intros. apply rnd_wf. unfold wf in *. nia. Qed.

Lemma dsub_near B :
  - B <= dval x - dval y <= B ->
  dval x - dval y - B * u <= dval (dsub x y) <= dval x - dval y + B * u.
Proof.
  intros HB. unfold dsub. unfold wf in *.
  assert (E : (dnum x * dden y - dnum y * dden x # Z.to_pos (dden x * dden y)) ==
              dval x - dval y).
  { unfold dval, Qminus, Qopp, Qplus, Qeq. cbn [Qnum Qden].
    rewrite !Pos2Z.inj_mul, !Z2Pos.id by nia. ring. }
  rewrite <- E in *. apply rnd_near; [nia | assumption].
Qed.

Lemma dmul_near B :
  - B <= dval x * dval y <= B ->
  dval x * dval y - B * u <= dval (dmul x y) <= dval x * dval y + B * u.
Proof.
  intros HB. unfold dmul. unfold wf in *.
  assert (E : (dnum x * dnum y # Z.to_pos (dden x * dden y)) == dval x * dval y).
  { unfold dval, Qmult, Qeq. cbn [Qnum Qden].
    rewrite !Pos2Z.inj_mul, !Z2Pos.id by nia. ring. }
  rewrite <- E in *. apply rnd_near; [nia | assumption].
Qed.

Lemma ddiv_near B :
  (0 < dnum y)%Z ->
  - B <= dval x / dval y <= B ->
  dval x / dval y - B * u <= dval (ddiv x y) <= dval x / dval y + B * u.
Proof.
  intros Hn HB. unfold ddiv. unfold wf in *.
  assert (E : (dnum x * dden y * Z.sgn (dnum y) # Z.to_pos (dden x * Z.abs (dnum y))) ==
              dval x / dval y).
  { rewrite Z.sgn_pos, Z.abs_eq by lia.
    unfold dval, Qdiv, Qmult, Qinv, Qeq. cbn [Qnum Qden].
    destruct (dnum y) as [|p|p]; [lia| |lia]. cbn [Qnum Qden].
    rewrite !Pos2Z.inj_mul, !Z2Pos.id by nia. ring. }
  rewrite <- E in *. apply rnd_near; [nia | assumption].
Qed.
End Ops.

(** ** Exact results *)

Lemma rne_exact m d : 0 < d -> rne (m * d) d = m.
Proof.
  intros Hd. unfold rne. rewrite Z.div_mul, Z.mod_mul by lia.
  rewrite (proj2 (Z.ltb_lt _ _)) by lia. reflexivity.
Qed.

(** An exact result [m / 2^k] whose [m] has at most 53 bits is not rounded. *)
Lemma rnd_exact n d m k :
  0 < d -> 0 <= k -> Z.abs m < 2 ^ 53 -> n * 2 ^ k = m * d ->
  dnum (rnd n d) * 2 ^ k = m * dden (rnd n d).
Proof.
  intros Hd Hk Hm Hnd. unfold rnd. destruct (Z.eqb_spec n 0) as [->|Hn].
  { simpl. nia. }
  pose proof (exponent_spec n d Hn Hd) as He. set (e := exponent n d) in *.
  pose proof (pow2_pos k Hk) as Pk.
  assert (Habs : Z.abs n * 2 ^ k = Z.abs m * d)
    by (rewrite <- (Z.abs_eq (2 ^ k)), <- (Z.abs_eq d) at 1 by lia;
        rewrite <- !Z.abs_mul, Hnd; reflexivity).
  unfold scaled in *. change (2 ^ 53) with (2 * 2 ^ 52) in Hm.
  destruct (Z.leb_spec 0 e) as [He0|He0]; cbn [fst snd dnum dden] in *.
  - pose proof (pow2_pos e He0) as Pe.
    assert (Hek : 2 ^ e * 2 ^ k < 2) by nia.
    assert (2 ^ e = 1 /\ 2 ^ k = 1) as [E1 E2] by nia.
    rewrite E1, E2, ?Z.mul_1_r in *. rewrite Hnd, rne_exact by lia. reflexivity.
  - pose proof (pow2_pos (- e) ltac:(lia)) as Pe.
    rewrite Z.abs_mul, (Z.abs_eq (2 ^ (- e))) in He by lia.
    assert (Hlt : 2 ^ k < 2 ^ (- e + 1)) by (rewrite Z.pow_add_r by lia; nia).
    apply Z.pow_lt_mono_r_iff in Hlt; [|lia|lia].
    replace (n * 2 ^ (- e)) with (m * 2 ^ (- e - k) * d).
    + rewrite rne_exact by assumption.
      rewrite <- Z.mul_assoc, <- Z.pow_add_r by lia. repeat f_equal. lia.
    + replace (- e) with (k + (- e - k)) at 2 by lia. rewrite Z.pow_add_r by lia. nia.
Qed.

(** ** Integers *)

Lemma d_of_Z_wf z : wf (d_of_Z z).
Proof. apply rnd_wf. lia. Qed.

Create HintDb cdbl.
#[export] Hint Resolve rnd_wf dsub_wf dmul_wf d_of_Z_wf : cdbl.

Lemma d_of_Z_exact z : Z.abs z < 2 ^ 53 -> dnum (d_of_Z z) = z * dden (d_of_Z z).
Proof.
  intros Hz. pose proof (rnd_exact z 1 z 0 ltac:(lia) ltac:(lia) Hz ltac:(lia)) as H.
  change (2 ^ 0) with 1 in H. rewrite Z.mul_1_r in H. exact H.
Qed.

Lemma d_of_Z_val z : Z.abs z < 2 ^ 53 -> (dval (d_of_Z z) == inject_Z z)%Q.
Proof.
  intros Hz. pose proof (d_of_Z_exact z Hz). pose proof (d_of_Z_wf z) as Hw.
  unfold dval, inject_Z, Qeq. cbn [Qnum Qden]. rewrite Z2Pos.id by exact Hw. lia.
Qed.

(** The conversion to [int], from the bounds on the value. *)
Lemma dtrunc_nonneg x k :
  wf x -> 0 <= k -> (inject_Z k <= dval x < inject_Z (k + 1))%Q -> dtrunc x = k.
Proof.
  unfold wf, dval, inject_Z, Qle, Qlt, dtrunc. cbn [Qnum Qden].
  intros Hw Hk. rewrite Z2Pos.id by exact Hw. intros [H1 H2].
  rewrite Z.quot_div_nonneg by nia. symmetry. apply (Z.div_unique_pos _ _ _ (dnum x - k * dden x)); nia.
Qed.

Lemma dtrunc_range x lo hi :
  wf x -> lo <= 0 <= hi -> (inject_Z lo <= dval x <= inject_Z hi)%Q ->
  lo <= dtrunc x <= hi.
Proof.
  unfold wf, dval, inject_Z, Qle, Qlt, dtrunc. cbn [Qnum Qden].
  intros Hw Hk. rewrite Z2Pos.id by exact Hw. intros [H1 H2].
  pose proof (Z.quot_rem' (dnum x) (dden x)).
  destruct (Z.le_gt_cases 0 (dnum x)).
  - pose proof (Z.rem_bound_pos (dnum x) (dden x) ltac:(lia) ltac:(lia)). nia.
  - pose proof (Z.rem_bound_pos_neg (dnum x) (dden x) ltac:(lia) ltac:(lia)). nia.
Qed.

Lemma d_to_int_val x z :
  dtrunc x = z -> -2147483648 <= z < 2147483648 -> d_to_int x = Val z.
Proof.
  intros <- Hz. unfold d_to_int.
  destruct (Z.leb_spec (-2147483648) (dtrunc x)), (Z.ltb_spec (dtrunc x) 2147483648);
    try lia. reflexivity.
Qed.

(** ** Agreement with the Standard Library's binary64

    The same operations in SpecFloat, on samples: the rounding modelled above
    is the IEEE one. *)
Definition to_spec (x : dbl) : spec_float :=
  SFdiv 53 1024 (binary_normalize 53 1024 (dnum x) 0 false)
                (binary_normalize 53 1024 (dden x) 0 false).

Definition spec_lit (n d : Z) : spec_float :=
  SFdiv 53 1024 (binary_normalize 53 1024 n 0 false) (binary_normalize 53 1024 d 0 false).

Example agree_literal : to_spec (rnd 150782 10) = spec_lit 150782 10.
Proof. vm_compute. reflexivity. Qed.
Example agree_sub :
  to_spec (dsub (d_of_Z 55097) (rnd 150782 10)) =
  SFsub 53 1024 (spec_lit 55097 1) (spec_lit 150782 10).
Proof. vm_compute. reflexivity. Qed.
Example agree_div :
  to_spec (ddiv (dsub (d_of_Z 55097) (rnd 149561 10)) (rnd 306001 10000)) =
  SFdiv 53 1024 (SFsub 53 1024 (spec_lit 55097 1) (spec_lit 149561 10)) (spec_lit 306001 10000).
Proof. vm_compute. reflexivity. Qed.
Example agree_mul :
  to_spec (dmul (d_of_Z 11) (rnd 306001 10000)) =
  SFmul 53 1024 (spec_lit 11 1) (spec_lit 306001 10000).
Proof. vm_compute. reflexivity. Qed.
