(* ===== verification/Calendar.v ===== *)
(** * Calendar: the Gregorian calendar the dates are compared with

    A reference definition, not code of the program: dates, the number of days
    before a date, and the modified Julian day of a date, with day 0 on
    17 November 1858. [mjd_of_next] says that the number of the day after a
    date is one more, so the formula and the calendar agree. *)

From S2P Require Import Prelude.

Module Cal.
Record civil := mkCivil { year : Z; month : Z; mday : Z }.

Definition is_leap (y : Z) : bool :=
  (y mod 4 =? 0) && (negb (y mod 100 =? 0) || (y mod 400 =? 0)).

Definition days_in_month (y m : Z) : Z :=
  match m with
  | 2 => if is_leap y then 29 else 28
  | 4 | 6 | 9 | 11 => 30
  | _ => 31
  end.

Definition valid (c : civil) : Prop :=
  1 <= year c /\ 1 <= month c <= 12 /\ 1 <= mday c <= days_in_month (year c) (month c).

Definition next_day (c : civil) : civil :=
  if mday c <? days_in_month (year c) (month c)
  then mkCivil (year c) (month c) (mday c + 1)
  else if month c <? 12 then mkCivil (year c) (month c + 1) 1
  else mkCivil (year c + 1) 1 1.

(** Days before 1 January of the year [y], from 1 January of the year 1. *)
Definition days_before_year (y : Z) : Z :=
  365 * (y - 1) + (y - 1) / 4 - (y - 1) / 100 + (y - 1) / 400.

(** Days of the year [y] before the month [m]. *)
Definition days_before_month (y m : Z) : Z :=
  match m with
  | 1 => 0 | 2 => 31
  | _ =>
    (if is_leap y then 1 else 0) +
    match m with
    | 3 => 59 | 4 => 90 | 5 => 120 | 6 => 151 | 7 => 181
    | 8 => 212 | 9 => 243 | 10 => 273 | 11 => 304 | _ => 334
    end
  end.

Definition mjd_of (c : civil) : Z :=
  days_before_year (year c) + days_before_month (year c) (month c) + mday c - 678576.

Lemma mjd_epoch : mjd_of (mkCivil 1858 11 17) = 0.
Proof. reflexivity. Qed.

(** The twelve months, one goal each. *)
Ltac months m :=
  assert (m = 1 \/ m = 2 \/ m = 3 \/ m = 4 \/ m = 5 \/ m = 6 \/ m = 7 \/ m = 8 \/
          m = 9 \/ m = 10 \/ m = 11 \/ m = 12)
    as [->|[->|[->|[->|[->|[->|[->|[->|[->|[->|[->| ->]]]]]]]]]]] by lia.

Lemma leap_spec y :
  (is_leap y = true /\ y mod 4 = 0 /\ (y mod 100 <> 0 \/ y mod 400 = 0)) \/
  (is_leap y = false /\ (y mod 4 <> 0 \/ (y mod 100 = 0 /\ y mod 400 <> 0))).
Proof.
  unfold is_leap.
  destruct (Z.eqb_spec (y mod 4) 0), (Z.eqb_spec (y mod 100) 0), (Z.eqb_spec (y mod 400) 0);
    simpl; tauto.
Qed.

Lemma days_before_year_succ y :
  days_before_year (y + 1) = days_before_year y + 365 + (if is_leap y then 1 else 0).
Proof.
  unfold days_before_year. replace (y + 1 - 1) with y by lia.
  destruct (leap_spec y) as [[-> ?]|[-> ?]]; zdiv.
Qed.

Lemma mjd_of_next c : valid c -> mjd_of (next_day c) = mjd_of c + 1.
Proof.
  destruct c as [y m d]. intros (Hy & Hm & Hd). simpl in *. unfold mjd_of, next_day. simpl.
  destruct (Z.ltb_spec d (days_in_month y m)); [simpl; lia|].
  assert (d = days_in_month y m) as -> by lia. clear Hd H.
  months m; simpl; rewrite ?days_before_year_succ; simpl; destruct (is_leap y); lia.
Qed.

Lemma valid_next c : valid c -> valid (next_day c).
Proof.
  destruct c as [y m d]. intros (Hy & Hm & Hd). unfold valid, next_day in *. simpl in *.
  destruct (Z.ltb_spec d (days_in_month y m)); [simpl; lia|].
  months m; simpl; try destruct (is_leap y); simpl; lia.
Qed.

(** Every day from 1 March 1900 (day 15079) on is the day of a date. *)
Lemma mjd_onto n : 15079 <= n -> exists c, valid c /\ mjd_of c = n.
Proof.
  intros Hn. replace n with (15079 + Z.of_nat (Z.to_nat (n - 15079))) by lia.
  induction (Z.to_nat (n - 15079)) as [|k (c & Hc & E)].
  - exists (mkCivil 1900 3 1). split; [|reflexivity]. unfold valid. simpl. lia.
  - exists (next_day c). split; [apply valid_next; assumption|].
    rewrite mjd_of_next by assumption. lia.
Qed.
End Cal.
