(* ===== verification/TdtParser.v ===== *)
(** * TdtParser: the time and date table

    [TdtTable] of tables.h and parseTdtTable of tables_parser.c, which turns
    the 16-bit modified Julian date of the section into a calendar date with
    [double] arithmetic. The program test.c carries out the same computation
    on a fixed date. *)

From S2P Require Import Prelude Tables Double Calendar.
From Stdlib Require Import QArith Lqa.
Open Scope Z_scope.

(** ** Data *)

Module Tdt.
Record TdtTable := mkTdtTable {
  tableId : Z;
  sectionSyntaxIndicator : Z;
  sectionLength : Z;
  MJD : Z;
  tmpYear : Z;
  Year : Z;
  tmpMonth : Z;
  day : Z;
  K : Z }.

(** ** Operations *)

Definition lit_15078_2 : dbl := rnd 150782 10.
Definition lit_14956_1 : dbl := rnd 149561 10.
Definition lit_365_25 : dbl := rnd 36525 100.
Definition lit_30_6001 : dbl := rnd 306001 10000.

(** [(int) (y * 365.25)] *)
Definition year_days (y : Z) : res Z := d_to_int (dmul (d_of_Z y) lit_365_25).
(** [(int) (m * 30.6001)] *)
Definition month_days (m : Z) : res Z := d_to_int (dmul (d_of_Z m) lit_30_6001).

(** [(int) ((mjd - 15078.2) / 365.25)] *)
Definition first_year (mjd : Z) : res Z :=
  d_to_int (ddiv (dsub (d_of_Z mjd) lit_15078_2) lit_365_25).
(** [(int) ((mjd - 14956.1 - i) / 30.6001)] *)
Definition first_month (mjd i : Z) : res Z :=
  d_to_int (ddiv (dsub (dsub (d_of_Z mjd) lit_14956_1) (d_of_Z i)) lit_30_6001).

(** The date fields [tmpYear], [Year], [tmpMonth], [day], [K] of a date. *)
Record date := mkDate {
  d_tmpYear : Z; d_Year : Z; d_tmpMonth : Z; d_day : Z; d_K : Z }.

Definition mjd_date (mjd : Z) : res date :=
  y ← first_year mjd;
  let tmpYear := u16 y in
  i ← year_days tmpYear;
  m ← first_month mjd i;
  let tmpMonth := u16 m in
  let K := if (tmpMonth =? 14) || (tmpMonth =? 15) then 1 else 0 in
  let tmpYear := u16 (tmpYear + K) in
  let tmpMonth := u16 (tmpMonth - 1 - K * 12) in
  i2 ← year_days tmpYear;
  j ← month_days tmpMonth;
  Val (mkDate tmpYear (u16 (tmpYear + 1900)) tmpMonth (u16 (u64 (mjd - 14987 - i2 - j))) K).

Definition parseTdtTable_body (tdtSectionBuffer : bytes) (tdtTable : TdtTable)
    : res (ParseErrorCode * TdtTable) :=
  b0 ← rd tdtSectionBuffer 0;
  b1 ← rd tdtSectionBuffer 1;
  b2 ← rd tdtSectionBuffer 2;
  b3 ← rd tdtSectionBuffer 3;
  b4 ← rd tdtSectionBuffer 4;
  let mjd := all16Bits b3 b4 in
  d ← mjd_date mjd;
  Val (TABLES_PARSE_OK,
    {| tableId := b0;
       sectionSyntaxIndicator := sectionSyntaxIndicator tdtTable;
       sectionLength := Z.land (all16Bits b1 b2) 0x0FFF;
       MJD := mjd;
       tmpYear := d_tmpYear d;
       Year := d_Year d;
       tmpMonth := d_tmpMonth d;
       day := d_day d;
       K := d_K d |}).

Definition parseTdtTable := nullchecked parseTdtTable_body.

(** ** The conversions are exact

    Each cast to [int] gives the integer part of the quotient the formula
    means: the rounding errors, at most 2^-30, never carry a value over an
    integer. *)

Lemma lit_365_25_val : (dval lit_365_25 == 1461 # 4)%Q.
Proof. vm_compute. reflexivity. Qed.

Lemma lit_15078_2_near :
  ((150782 # 10) - (1 # 100000000) <= dval lit_15078_2 <= (150782 # 10) + (1 # 100000000))%Q.
Proof. split; vm_compute; discriminate. Qed.

Lemma lit_14956_1_near :
  ((149561 # 10) - (1 # 100000000) <= dval lit_14956_1 <= (149561 # 10) + (1 # 100000000))%Q.
Proof. split; vm_compute; discriminate. Qed.

Lemma wf_15078_2 : wf lit_15078_2. Proof. reflexivity. Qed.
Lemma wf_14956_1 : wf lit_14956_1. Proof. reflexivity. Qed.
Lemma wf_365_25 : wf lit_365_25. Proof. reflexivity. Qed.
Lemma wf_30_6001 : wf lit_30_6001. Proof. reflexivity. Qed.
#[local] Hint Resolve wf_15078_2 wf_14956_1 wf_365_25 wf_30_6001 : cdbl.

(** Dividing by 30.6001 is multiplying by a factor this close to its inverse. *)
Lemma lit_30_6001_inv :
  ((10000 # 306001) - (1 # 100000000000) <= / dval lit_30_6001
     <= (10000 # 306001) + (1 # 100000000000))%Q.
Proof. split; vm_compute; discriminate. Qed.

Lemma lit_30_6001_near :
  ((306001 # 10000) - (1 # 100000000000) <= dval lit_30_6001
     <= (306001 # 10000) + (1 # 100000000000))%Q.
Proof. split; vm_compute; discriminate. Qed.

(** Integer bounds, in [Q]. *)
Ltac qconst :=
  repeat match goal with
  | |- context [inject_Z ?z] => is_numeral z; change (inject_Z z) with (z # 1)%Q
  | H : context [inject_Z ?z] |- _ => is_numeral z; change (inject_Z z) with (z # 1)%Q in H
  end.
Ltac toQ H :=
  rewrite Zle_Qle in H; unfold Z.sub in H;
  repeat first [rewrite inject_Z_plus in H | rewrite inject_Z_mult in H
               | rewrite inject_Z_opp in H]; qconst.
Ltac goalQ :=
  unfold Z.sub;
  repeat first [rewrite inject_Z_plus | rewrite inject_Z_mult | rewrite inject_Z_opp]; qconst.

Section FirstYear.
Context (mjd : Z) (Hmjd : 0 <= mjd <= 65535).

Let x1 := dsub (d_of_Z mjd) lit_15078_2.
Let x2 := ddiv x1 lit_365_25.

Lemma first_year_near :
  wf x2 /\
  (inject_Z (20 * mjd - 301564) * (1 # 7305) - (1 # 1000000) <= dval x2 <=
   inject_Z (20 * mjd - 301564) * (1 # 7305) + (1 # 1000000))%Q.
Proof.
  assert (Hw1 : wf x1) by (unfold x1; auto with cdbl).
  split; [apply (ddiv_wf _ _ Hw1); vm_compute; discriminate|].
  pose proof (d_of_Z_val mjd ltac:(lia)) as Ev. pose proof lit_15078_2_near as Hl.
  destruct Hmjd as [Hm0 Hm1]. toQ Hm0. toQ Hm1.
  assert (H1 : (- 70000 <= dval (d_of_Z mjd) - dval lit_15078_2 <= 70000)%Q)
    by (rewrite Ev; split; lra).
  pose proof (dsub_near _ _ (d_of_Z_wf mjd) wf_15078_2 70000 H1) as N1. rewrite Ev in N1.
  assert (H2 : (- 300 <= dval x1 / dval lit_365_25 <= 300)%Q).
  { rewrite lit_365_25_val. change (/ (1461 # 4))%Q with (4 # 1461)%Q.
    unfold Qdiv. change (/ (1461 # 4))%Q with (4 # 1461)%Q. unfold x1, u in *. split; lra. }
  pose proof (ddiv_near x1 _ Hw1 wf_365_25 300 ltac:(reflexivity) H2) as N2.
  rewrite lit_365_25_val in N2. unfold Qdiv in N2.
  change (/ (1461 # 4))%Q with (4 # 1461)%Q in N2.
  goalQ. unfold x2, x1, u in *. split; lra.
Qed.
End FirstYear.

(** From bounds within a hair of [n / d] to the integer part: [n / d] is no
    closer than [1 / d] to an integer it is not. *)
Lemma dtrunc_close x n d :
  wf x -> 0 < d -> 0 <= n -> d <= 400000 -> n mod d <> 0 ->
  (inject_Z n * / inject_Z d - (1 # 1000000) <= dval x <=
   inject_Z n * / inject_Z d + (1 # 1000000))%Q ->
  dtrunc x = n / d.
Proof.
  intros Hw Hd Hn Hd4 Hmod Hx. apply dtrunc_nonneg; [assumption|apply Z.div_pos; lia|].
  pose proof (Z.div_mod n d ltac:(lia)) as E. pose proof (Z.mod_pos_bound n d Hd) as Hb.
  assert (L : d * (n / d) + 1 <= n) by lia. assert (R : n + 1 <= d * (n / d) + d) by lia.
  clear E Hb Hmod. assert (Hdq : (0 < inject_Z d)%Q) by (rewrite Zlt_Qlt in Hd; exact Hd).
  toQ L. toQ R. toQ Hd4.
  set (q := (inject_Z n * / inject_Z d)%Q) in *.
  assert (Eq : (inject_Z n == q * inject_Z d)%Q)
    by (unfold q; rewrite <- Qmult_assoc, (Qmult_comm (/ _)), Qmult_inv_r; lra).
  set (k := inject_Z (n / d)) in *. rewrite inject_Z_plus. fold k. qconst.
  set (D := inject_Z d) in *. rewrite Eq in L, R.
  assert (H1 : ((q - k) * D >= 1)%Q) by lra.
  assert (H2 : ((k + 1 - q) * D >= 1)%Q) by lra.
  assert (B : forall z : Q, (z * D >= 1)%Q -> (z >= 1 # 400000)%Q) by (intros; nra).
  apply B in H1, H2. lra.
Qed.

Lemma first_year_exact mjd :
  15079 <= mjd <= 65535 -> first_year mjd = Val ((20 * mjd - 301564) / 7305).
Proof.
  intros H. destruct (first_year_near mjd ltac:(lia)) as [Hw Hn].
  apply d_to_int_val; [|zdiv]. apply dtrunc_close; try lia; [exact Hw | zdiv | exact Hn].
Qed.

Lemma first_year_total mjd :
  0 <= mjd <= 65535 -> exists y, first_year mjd = Val y /\ -50 <= y <= 150.
Proof.
  intros H. destruct (first_year_near mjd H) as [Hw Hn]. destruct H as [H0 H1].
  assert (R : -50 <= dtrunc (ddiv (dsub (d_of_Z mjd) lit_15078_2) lit_365_25) <= 150).
  { apply dtrunc_range; [exact Hw | lia |]. toQ H0. toQ H1. revert Hn. goalQ.
    intros Hn. split; lra. }
  eexists; split; [apply d_to_int_val; [reflexivity | lia] | exact R].
Qed.

(** [y * 365.25] is exact, since it has few bits. *)
Lemma year_days_exact y : 0 <= y <= 65535 -> year_days y = Val (1461 * y / 4).
Proof.
  intros Hy. set (x := dmul (d_of_Z y) lit_365_25).
  assert (Hw : wf x) by (unfold x; auto with cdbl).
  assert (E : dnum x * 4 = 1461 * y * dden x).
  { unfold x, dmul. apply (rnd_exact _ _ _ 2); try lia.
    - pose proof (d_of_Z_wf y). unfold wf in *. change (dden lit_365_25) with (2 ^ 44). lia.
    - rewrite d_of_Z_exact by lia. change (dnum lit_365_25) with (1461 * 2 ^ 42).
      change (dden lit_365_25) with (2 ^ 44). lia. }
  apply d_to_int_val; [|zdiv]. fold x. unfold wf in Hw. unfold dtrunc.
  rewrite Z.quot_div_nonneg by nia.
  rewrite <- (Z.div_mul_cancel_r (dnum x) (dden x) 4) by lia. rewrite E.
  rewrite (Z.mul_comm (dden x) 4). apply Z.div_mul_cancel_r; lia.
Qed.

Lemma Qmult_bound (a b x y : Q) :
  (- a <= x <= a -> - b <= y <= b -> - (a * b) <= x * y <= a * b)%Q.
Proof. intros [] []. split; nra. Qed.

(** Dividing by the literal 30.6001. *)
Lemma div_30_6001 x M :
  (- M <= x <= M ->
   x * (10000 # 306001) - M * (1 # 100000000000) <= x / dval lit_30_6001 <=
   x * (10000 # 306001) + M * (1 # 100000000000))%Q.
Proof.
  intros Hx. pose proof lit_30_6001_inv as Hv. unfold Qdiv.
  set (v := (/ dval lit_30_6001)%Q) in *.
  pose proof (Qmult_bound M (1 # 100000000000) x (v - (10000 # 306001)) Hx ltac:(split; lra)).
  lra.
Qed.

Lemma first_month_near mjd i :
  0 <= mjd <= 65535 -> 0 <= i <= 30000000 ->
  let x := ddiv (dsub (dsub (d_of_Z mjd) lit_14956_1) (d_of_Z i)) lit_30_6001 in
  wf x /\
  (inject_Z (10 * (mjd - i) - 149561) * (1000 # 306001) - (1 # 1000) <= dval x <=
   inject_Z (10 * (mjd - i) - 149561) * (1000 # 306001) + (1 # 1000))%Q /\
  (mjd - 16000 <= i <= mjd ->
   (inject_Z (10 * (mjd - i) - 149561) * (1000 # 306001) - (1 # 1000000) <= dval x <=
    inject_Z (10 * (mjd - i) - 149561) * (1000 # 306001) + (1 # 1000000))%Q).
Proof.
  intros Hm Hi x. set (x1 := dsub (d_of_Z mjd) lit_14956_1) in x.
  set (x2 := dsub x1 (d_of_Z i)) in x.
  assert (Hw1 : wf x1) by (unfold x1; auto with cdbl).
  assert (Hw2 : wf x2) by (unfold x2; auto with cdbl).
  split; [apply (ddiv_wf _ _ Hw2); vm_compute; discriminate|].
  pose proof (d_of_Z_val mjd ltac:(lia)) as Em. pose proof (d_of_Z_val i ltac:(lia)) as Ei.
  pose proof lit_14956_1_near as Hl.
  destruct Hm as [Hm0 Hm1], Hi as [Hi0 Hi1]. toQ Hm0. toQ Hm1. toQ Hi0. toQ Hi1.
  assert (H1 : (- 70000 <= dval (d_of_Z mjd) - dval lit_14956_1 <= 70000)%Q)
    by (rewrite Em; split; lra).
  pose proof (dsub_near _ _ (d_of_Z_wf mjd) wf_14956_1 70000 H1) as N1. fold x1 in N1.
  rewrite Em in N1. unfold u in N1.
  assert (H2 : (- 40000000 <= dval x1 - dval (d_of_Z i) <= 40000000)%Q)
    by (rewrite Ei; split; lra).
  pose proof (dsub_near _ _ Hw1 (d_of_Z_wf i) 40000000 H2) as N2. fold x2 in N2.
  rewrite Ei in N2. unfold u in N2.
  pose proof (div_30_6001 (dval x2) 40000000 ltac:(split; lra)) as D.
  pose proof (ddiv_near x2 _ Hw2 wf_30_6001 2000000 ltac:(reflexivity) ltac:(split; lra)) as N3.
  fold x in N3. unfold u in N3.
  split; [goalQ; split; lra|]. intros [Hc0 Hc1]. toQ Hc0. toQ Hc1. goalQ.
  pose proof (div_30_6001 (dval x2) 20000 ltac:(split; lra)) as D'. split; lra.
Qed.

Lemma first_month_exact mjd i :
  0 <= mjd <= 65535 -> 0 <= i -> 15079 <= mjd - i <= 15444 ->
  first_month mjd i = Val (1000 * (10 * (mjd - i) - 149561) / 306001).
Proof.
  intros Hm Hi Hn.
  destruct (first_month_near mjd i Hm ltac:(lia)) as (Hw & _ & H). specialize (H ltac:(lia)).
  apply d_to_int_val; [|zdiv]. apply dtrunc_close; try lia; [exact Hw | zdiv |].
  rewrite inject_Z_mult, (Qmult_comm (inject_Z 1000)), <- Qmult_assoc. exact H.
Qed.

Lemma first_month_total mjd i :
  0 <= mjd <= 65535 -> 0 <= i <= 30000000 -> exists m, first_month mjd i = Val m.
Proof.
  intros Hm Hi. destruct (first_month_near mjd i Hm Hi) as (Hw & H & _).
  destruct Hm as [Hm0 Hm1], Hi as [Hi0 Hi1].
  eexists. apply d_to_int_val; [reflexivity|].
  match goal with |- _ <= dtrunc ?x < _ => assert (R : -2000000 <= dtrunc x <= 2000000) end.
  { apply dtrunc_range; [exact Hw | lia |]. toQ Hm0. toQ Hm1. toQ Hi0. toQ Hi1.
    revert H. goalQ. intros H. split; lra. }
  lia.
Qed.

Lemma month_days_near m :
  0 <= m <= 65535 ->
  let x := dmul (d_of_Z m) lit_30_6001 in
  wf x /\ (inject_Z (306001 * m) * (1 # 10000) - (1 # 1000000) <= dval x <=
           inject_Z (306001 * m) * (1 # 10000) + (1 # 1000000))%Q.
Proof.
  intros [H0 H1] x. split; [unfold x; auto with cdbl|].
  pose proof (d_of_Z_val m ltac:(lia)) as Em. pose proof lit_30_6001_near as Hl.
  toQ H0. toQ H1.
  pose proof (Qmult_bound 70000 (1 # 100000000000) (inject_Z m)
    (dval lit_30_6001 - (306001 # 10000)) ltac:(split; lra) ltac:(split; lra)) as P.
  assert (E : (dval (d_of_Z m) * dval lit_30_6001 ==
               inject_Z m * (dval lit_30_6001 - (306001 # 10000)) +
               inject_Z m * (306001 # 10000))%Q) by (rewrite Em; ring).
  set (p := (inject_Z m * (dval lit_30_6001 - (306001 # 10000)))%Q) in *.
  pose proof (dmul_near _ _ (d_of_Z_wf m) wf_30_6001 3000000 ltac:(rewrite E; split; lra)) as N.
  rewrite E in N. fold x in N. unfold u in N. goalQ. split; lra.
Qed.

Lemma month_days_exact m : 1 <= m <= 12 -> month_days m = Val (306001 * m / 10000).
Proof.
  intros H. destruct (month_days_near m ltac:(lia)) as [Hw Hn].
  apply d_to_int_val; [|zdiv]. apply dtrunc_close; try lia; [exact Hw | zdiv | exact Hn].
Qed.

Lemma month_days_total m : 0 <= m <= 65535 -> exists j, month_days m = Val j.
Proof.
  intros H. destruct (month_days_near m H) as [Hw Hn]. destruct H as [H0 H1].
  eexists. apply d_to_int_val; [reflexivity|].
  match goal with |- _ <= dtrunc ?x < _ => assert (R : 0 <= dtrunc x + 1 <= 3000001) end.
  { enough (-1 <= dtrunc (dmul (d_of_Z m) lit_30_6001) <= 3000000) by lia.
    apply dtrunc_range; [exact Hw | lia |]. toQ H0. toQ H1.
    revert Hn. goalQ. intros Hn. split; lra. }
  lia.
Qed.

(** ** The date of any 16-bit MJD *)

(** No conversion of the computation overflows, whatever the section holds. *)
Lemma mjd_date_total mjd : 0 <= mjd <= 65535 -> exists d, mjd_date mjd = Val d.
Proof.
  intros H. unfold mjd_date.
  destruct (first_year_total mjd H) as (y & -> & Hy). rewrite bind_val. cbv zeta.
  rewrite year_days_exact, bind_val by (pose proof (u16_range y); unfold is_u16 in *; lia).
  pose proof (u16_range y) as Hu. unfold is_u16 in Hu.
  destruct (first_month_total mjd (1461 * u16 y / 4) H ltac:(zdiv)) as (m & ->).
  rewrite bind_val.
  match goal with |- context [year_days (u16 ?a)] =>
    pose proof (u16_range a) as Hu2; unfold is_u16 in Hu2 end.
  rewrite year_days_exact, bind_val by lia.
  match goal with |- context [month_days (u16 ?a)] =>
    pose proof (u16_range a) as Hu3; unfold is_u16 in Hu3;
    destruct (month_days_total (u16 a) ltac:(lia)) as (j & ->) end.
  eexists. reflexivity.
Qed.

(** From 1 March 1900 on, the date in integer arithmetic. *)
Definition int_date (mjd : Z) : date :=
  let y := (20 * mjd - 301564) / 7305 in
  let m := 1000 * (10 * (mjd - 1461 * y / 4) - 149561) / 306001 in
  let k := if (m =? 14) || (m =? 15) then 1 else 0 in
  let month := m - 1 - k * 12 in
  mkDate (y + k) (y + k + 1900) month
    (u16 (mjd - 14987 - 1461 * (y + k) / 4 - 306001 * month / 10000)) k.

Lemma u16_u64 z : u16 (u64 z) = u16 z.
Proof. unfold u16, u64. zdiv. Qed.

Lemma mjd_date_exact mjd : 15079 <= mjd <= 65535 -> mjd_date mjd = Val (int_date mjd).
Proof.
  intros H. unfold mjd_date, int_date. rewrite first_year_exact, bind_val by assumption.
  set (y := (20 * mjd - 301564) / 7305). assert (Hy : 0 <= y <= 138) by (unfold y; zdiv).
  assert (Hn : 15079 <= mjd - 1461 * y / 4 <= 15444) by (unfold y; zdiv).
  rewrite (u16_small y) by lia. rewrite year_days_exact, bind_val by lia.
  rewrite first_month_exact, bind_val by (try assumption; zdiv).
  set (m := 1000 * (10 * (mjd - 1461 * y / 4) - 149561) / 306001).
  assert (Hm : 4 <= m <= 15) by (unfold m; zdiv).
  clearbody y m. rewrite (u16_small m) by lia.
  set (k := if (m =? 14) || (m =? 15) then 1 else 0).
  assert (Hk : 0 <= k <= 1 /\ 1 <= m - 1 - k * 12 <= 12).
  { unfold k. destruct (Z.eqb_spec m 14), (Z.eqb_spec m 15); simpl; lia. }
  clearbody k. cbv zeta.
  rewrite (u16_small (y + k)), (u16_small (m - 1 - k * 12)), (u16_small (y + k + 1900)) by lia.
  rewrite year_days_exact, bind_val by lia. rewrite month_days_exact, bind_val by lia.
  rewrite u16_u64. reflexivity.
Qed.

(** ** Against the calendar *)

(** By how much the day of the program differs from the day of the calendar.
    The formula of the standard subtracts [(int) (m' * 30.6001)] for the
    month number [m'] it computed first; the program subtracts it for the
    final month number and corrects by a constant, 31, which is not what the
    difference is in every month. *)
Definition day_error (c : Cal.civil) : Z :=
  match Cal.month c with
  | 1 | 2 => if Cal.is_leap (Cal.year c) then 1 else 2
  | 5 | 7 | 10 | 12 => -1
  | _ => 0
  end.

(** Between 1 March 1900 and 28 February 2100 every fourth year is a leap
    year, and the MJD has a simple form. *)
Lemma leap_1900_2038 y :
  1900 <= y <= 2038 -> Cal.is_leap y = (y mod 4 =? 0) && negb (y =? 1900).
Proof.
  intros Hy.
  assert (y = 1900 \/ y = 2000 \/ y mod 100 <> 0) as [->|[->|H]] by zdiv; [reflexivity..|].
  unfold Cal.is_leap. apply Z.eqb_neq in H. rewrite H.
  assert (y <> 1900) by (intros ->; discriminate). rewrite (proj2 (Z.eqb_neq y 1900)) by assumption.
  reflexivity.
Qed.

Lemma days_before_year_1900_2038 y :
  1900 < y <= 2039 -> Cal.days_before_year y = 365 * (y - 1) + (y - 1) / 4 - 15.
Proof. intros Hy. unfold Cal.days_before_year. zdiv. Qed.

Lemma mjd_of_recent c :
  Cal.valid c -> 15079 <= Cal.mjd_of c <= 65535 ->
  1900 <= Cal.year c <= 2038 /\ (Cal.year c = 1900 -> 3 <= Cal.month c).
Proof.
  destruct c as [y m d]. intros (Hy & Hm & Hd) Hr. simpl in *.
  unfold Cal.mjd_of in Hr. simpl in Hr.
  assert (Hb : 0 <= Cal.days_before_month y m <= 335 /\ 1 <= d <= 31).
  { clear Hr. Cal.months m; simpl in *; destruct (Cal.is_leap y); lia. }
  split.
  - clear Hm Hd. unfold Cal.days_before_year in Hr. zdiv.
  - intros ->. destruct (Z.le_gt_cases 3 m); [assumption|exfalso].
    change (Cal.days_before_year 1900) with 693595 in Hr.
    assert (m = 1 \/ m = 2) as [->| ->] by lia; simpl in Hr, Hd;
      change (Cal.is_leap 1900) with false in *; lia.
Qed.

(** The number of a date with the leap day counted by [b]. *)
Definition month_start (b : Z) (m : Z) : Z :=
  match m with
  | 1 => 0 | 2 => 31 | 3 => 59 + b | 4 => 90 + b | 5 => 120 + b | 6 => 151 + b
  | 7 => 181 + b | 8 => 212 + b | 9 => 243 + b | 10 => 273 + b | 11 => 304 + b
  | _ => 334 + b
  end.

Lemma mjd_of_form c :
  Cal.valid c -> 15079 <= Cal.mjd_of c <= 65535 ->
  Cal.mjd_of c =
    365 * Cal.year c + (Cal.year c - 1) / 4 - 678956 +
    month_start (if Cal.year c mod 4 =? 0 then 1 else 0) (Cal.month c) + Cal.mday c.
Proof.
  intros Hc Hr. destruct (mjd_of_recent c Hc Hr) as (Hy & Hf).
  destruct c as [y m d], Hc as (_ & Hm & _). simpl in *.
  unfold Cal.mjd_of. simpl. clear Hr.
  destruct (Z.eq_dec y 1900) as [->|Hne].
  - specialize (Hf eq_refl).
    change (Cal.days_before_year 1900) with 693595. change ((1900 - 1) / 4) with 474.
    Cal.months m; try lia; simpl; lia.
  - rewrite days_before_year_1900_2038 by lia.
    Cal.months m; simpl; rewrite ?leap_1900_2038 by assumption;
      rewrite ?(proj2 (Z.eqb_neq y 1900)) by assumption;
      destruct (y mod 4 =? 0); simpl; lia.
Qed.

Lemma int_date_civil c :
  Cal.valid c -> 15079 <= Cal.mjd_of c <= 65535 ->
  int_date (Cal.mjd_of c) =
    let k := if Cal.month c <=? 2 then 1 else 0 in
    mkDate (Cal.year c - 1900) (Cal.year c) (Cal.month c) (Cal.mday c + day_error c) k.
Proof.
  intros Hc Hr. destruct (mjd_of_recent c Hc Hr) as (Hy & Hf).
  pose proof (mjd_of_form c Hc Hr) as E.
  destruct c as [y m d], Hc as (_ & Hm & Hd). simpl in *.
  set (n := Cal.mjd_of (Cal.mkCivil y m d)) in *. clearbody n. clear Hr.
  pose proof (leap_1900_2038 y Hy) as Hl.
  assert (Hlb : y <> 1900 -> Cal.is_leap y = (y mod 4 =? 0)).
  { intros Hne. rewrite Hl, (proj2 (Z.eqb_neq y 1900) Hne). apply andb_true_r. }
  clear Hl.
  set (k := if m <=? 2 then 1 else 0).
  assert (Ey : (20 * n - 301564) / 7305 = y - 1900 - k).
  { unfold k. Cal.months m; simpl in *; rewrite ?Hlb in Hd by lia;
      destruct (Z.eqb_spec (y mod 4) 0); zdiv. }
  assert (Em : 1000 * (10 * (n - 1461 * (y - 1900 - k) / 4) - 149561) / 306001 = m + 1 + 12 * k).
  { clear Ey. unfold k. Cal.months m; simpl in *; rewrite ?Hlb in Hd by lia;
      destruct (Z.eqb_spec (y mod 4) 0); zdiv. }
  assert (Ek : (if (m + 1 + 12 * k =? 14) || (m + 1 + 12 * k =? 15) then 1 else 0) = k).
  { unfold k. Cal.months m; reflexivity. }
  unfold int_date. rewrite Ey. cbv zeta. rewrite Em, Ek.
  replace (m + 1 + 12 * k - 1 - k * 12) with m by lia.
  f_equal; try lia.
  replace (y - 1900 - k + k) with (y - 1900) by lia.
  unfold day_error. clear Ey Em Ek k. simpl.
  Cal.months m; simpl in *; rewrite ?Hlb in Hd by lia; rewrite ?Hlb by lia;
    destruct (Z.eqb_spec (y mod 4) 0); rewrite u16_small; zdiv.
Qed.

Lemma day_error_range c : Cal.valid c -> -1 <= day_error c <= 2 /\ 0 <= Cal.mday c + day_error c <= 33.
Proof.
  destruct c as [y m d]. intros (_ & Hm & Hd). unfold day_error. simpl in *.
  Cal.months m; simpl in *; destruct (Cal.is_leap y); lia.
Qed.

(** ** Sections *)

Definition mjd_at (b : bytes) : Z := 256 * byte_at b 3 + byte_at b 4.

(** The table filled in from a section whose date is [d]. *)
Definition with_date (b : bytes) (t : TdtTable) (d : date) : TdtTable :=
  {| tableId := byte_at b 0;
     sectionSyntaxIndicator := sectionSyntaxIndicator t;
     sectionLength := (256 * byte_at b 1 + byte_at b 2) mod 4096;
     MJD := mjd_at b;
     tmpYear := d_tmpYear d;
     Year := d_Year d;
     tmpMonth := d_tmpMonth d;
     day := d_day d;
     K := d_K d |}.

Lemma mjd_at_range b : is_bytes b -> 0 <= mjd_at b <= 65535.
Proof.
  intros Hb. pose proof (byte_at_u8 b 3 Hb). pose proof (byte_at_u8 b 4 Hb).
  unfold mjd_at, is_u8 in *. lia.
Qed.

Lemma parseTdtTable_section b t d :
  is_bytes b -> 5 <= Z.of_nat (length b) -> mjd_date (mjd_at b) = Val d ->
  parseTdtTable (Some b) (Some t) = Val (TABLES_PARSE_OK, Some (with_date b t d)).
Proof.
  intros Hb Hlen Hd. unfold parseTdtTable, nullchecked, parseTdtTable_body. rd_all.
  rewrite !all16Bits_val, land_0FFF by auto with cint.
  fold (mjd_at b). rewrite Hd. reflexivity.
Qed.

(** The section a broadcaster sends for an MJD: the MJD in the first two bytes
    of the time field, three bytes of time of day after it. *)
Definition encode_section (mjd : Z) (time : bytes) : bytes :=
  [0x70; 0x70; 5; hi8 mjd; lo8 mjd] ++ time.

Lemma encode_section_mjd mjd time :
  is_u16 mjd -> mjd_at (encode_section mjd time) = mjd.
Proof.
  intros H. unfold mjd_at, encode_section, byte_at. simpl. unfold hi8, lo8, is_u16 in *. zdiv.
Qed.

(** From 1 March 1900 on a section gives the date of the integer formula. *)
Lemma parseTdtTable_mjd mjd time t :
  15079 <= mjd <= 65535 -> is_bytes time ->
  parseTdtTable (Some (encode_section mjd time)) (Some t) =
    Val (TABLES_PARSE_OK, Some (with_date (encode_section mjd time) t (int_date mjd))).
Proof.
  intros Hr Ht. apply parseTdtTable_section.
  - repeat apply Forall_cons_2; auto with cint; try (unfold is_u8; lia).
    apply hi8_u8. unfold is_u16. lia.
  - simpl. lia.
  - rewrite encode_section_mjd by (unfold is_u16; lia). apply mjd_date_exact, Hr.
Qed.

(** ** Properties *)

(** C18: On every section of at least five bytes parseTdtTable returns TABLES_PARSE_OK, no
    conversion from double to int being out of range; with an MJD from 15079 on the result
    is exactly that of the formula over the integers. *)
Theorem parseTdtTable_integer (b : bytes) (t : TdtTable) :
  is_bytes b -> 5 <= Z.of_nat (length b) ->
  exists d,
    parseTdtTable (Some b) (Some t) = Val (TABLES_PARSE_OK, Some (with_date b t d)) /\
    (15079 <= mjd_at b -> d = int_date (mjd_at b)).
Proof.
  intros Hb Hlen. destruct (mjd_date_total (mjd_at b) (mjd_at_range b Hb)) as [d Hd].
  exists d. split; [apply parseTdtTable_section; assumption|].
  intros H. pose proof (mjd_at_range b Hb).
  rewrite mjd_date_exact in Hd by lia. injection Hd. auto.
Qed.

(** C17: For the section of any calendar date from 1 March 1900 on, parseTdtTable gives the
    right year and month, and a day that is off by day_error: 2 in January and February (1
    in leap years), -1 in May, July, October and December. *)
Theorem parseTdtTable_calendar (c : Cal.civil) (time : bytes) (t : TdtTable) :
  Cal.valid c -> 15079 <= Cal.mjd_of c <= 65535 -> is_bytes time ->
  exists t',
    parseTdtTable (Some (encode_section (Cal.mjd_of c) time)) (Some t) =
      Val (TABLES_PARSE_OK, Some t') /\
    Year t' = Cal.year c /\ tmpMonth t' = Cal.month c /\
    day t' = Cal.mday c + day_error c.
Proof.
  intros Hc Hr Ht. eexists. split; [apply parseTdtTable_mjd; assumption|].
  rewrite int_date_civil by assumption. auto.
Qed.

(** ** Given sections *)

Definition no_time : TdtTable := mkTdtTable 0 0 0 0 0 0 0 0 0.

(** An MJD before the years the formula is made for. *)
(** 23 September 2009, the date of test.c. *)
Lemma parseTdtTable_integer_witness :
  exists d,
    parseTdtTable (Some (encode_section 55097 [0; 0; 0])) (Some no_time) =
      Val (TABLES_PARSE_OK, Some (with_date (encode_section 55097 [0; 0; 0]) no_time d)) /\
    d = mkDate 109 2009 9 23 0.
Proof.
  destruct (parseTdtTable_integer (encode_section 55097 [0; 0; 0]) no_time) as (d & H1 & H2);
    [is_bytes_tac | cbn; lia |].
  exists d. split; [exact H1|]. apply H2. vm_compute. discriminate.
Defined.

(** 1 May 2012 is read as day 0 of May. *)
Lemma parseTdtTable_calendar_witness :
  exists t',
    parseTdtTable (Some (encode_section 56048 [0; 0; 0])) (Some no_time) =
      Val (TABLES_PARSE_OK, Some t') /\
    Year t' = 2012 /\ tmpMonth t' = 5 /\ day t' = 0.
Proof.
  apply (parseTdtTable_calendar (Cal.mkCivil 2012 5 1) [0; 0; 0] no_time).
  - split; cbn; lia.
  - split; vm_compute; discriminate.
  - is_bytes_tac.
Defined.
End Tdt.
