(* ===== verification/TotParser.v ===== *)
(** * TotParser: the time offset table

    [LTODescriptorInfo], [LocalTimeOffsetDescriptor] and [TotTable] of
    tables.h, and parseTotTable of tables_parser.c. *)

From S2P Require Import Prelude Tables.

(** ** Data *)

Module Tot.
Record LTODescriptorInfo := mkInfo {
  countryCH1 : Z;
  countryCH2 : Z;
  countryCH3 : Z;
  countryRegionId : Z;
  localTimeOffsetPolarity : Z;
  localTimeOffsetHours : Z;
  localTimeOffsetMinutes : Z }.

Record LocalTimeOffsetDescriptor := mkDescriptor {
  descriptorTag : Z;
  descriptorLength : Z;
  ltoInfo : list LTODescriptorInfo;
  numberOfInfos : Z }.

Record TotTable := mkTotTable {
  tableId : Z;
  sectionSyntaxIndicator : Z;
  sectionLength : Z;
  MJD : Z;
  descriptorsLoopLength : Z;
  descriptors : list LocalTimeOffsetDescriptor;
  descriptorsCount : Z }.

Definition set_descriptors (ds : list LocalTimeOffsetDescriptor) (n : Z) (t : TotTable)
    : TotTable :=
  mkTotTable (tableId t) (sectionSyntaxIndicator t) (sectionLength t) (MJD t)
    (descriptorsLoopLength t) ds n.

(** ** Operations *)

(** The loop over the infos of one descriptor. The offsets do not depend on
    which descriptor it is. *)
Definition lto_state : Type := Z * list LTODescriptorInfo.

Definition lto_step (b : bytes) (n : Z) (s : lto_state)
    : res (ctl lto_state (list LTODescriptorInfo)) :=
  let '(i, infos) := s in
  if i <? n then
    ch1 ← rd b (12 + i * 13);
    ch2 ← rd b (13 + i * 13);
    ch3 ← rd b (14 + i * 13);
    region ← rd b (15 + i * 13);
    hours ← rd b (16 + i * 13);
    minutes ← rd b (17 + i * 13);
    infos ← wr infos i
      {| countryCH1 := ch1;
         countryCH2 := ch2;
         countryCH3 := ch3;
         localTimeOffsetPolarity := Z.land region 0x01;
         countryRegionId := Z.shiftr region 2;
         localTimeOffsetHours :=
           u8 (Z.land hours 0x0F + 10 * Z.shiftr (Z.land hours 0xF0) 4);
         localTimeOffsetMinutes :=
           u8 (Z.land minutes 0x0F + 10 * Z.shiftr (Z.land minutes 0xF0) 4) |};
    Val (Next (u8 (i + 1), infos))
  else Val (Stop infos).

(** [numberOfInfos] is at most 255 / 13 = 19. *)
Definition lto_fuel : nat := 21.

(** The locals of the outer loop: [descriptorLoopLength] and [*totTable]. *)
Definition tot_state : Type := Z * TotTable.

(** The descriptor at position [currentDesc], whose tag has been read. *)
Definition parseTotTable_descriptor (b : bytes) (currentTag currentDesc : Z) (t : TotTable)
    : res TotTable :=
  if currentTag =? 0x58 then
    d ← rd (descriptors t) currentDesc;
    len ← rd b (11 + 15 * currentDesc);
    let n := u8 (Z.quot len 13) in
    infos ← loop lto_fuel (lto_step b n) (0, ltoInfo d);
    ds ← wr (descriptors t) currentDesc (mkDescriptor currentTag len infos n);
    Val (set_descriptors ds (descriptorsCount t) t)
  else Val t.

Definition parseTotTable_step (b : bytes) (s : tot_state)
    : res (ctl tot_state (ParseErrorCode * TotTable)) :=
  let '(descriptorLoopLength, t) := s in
  if 4 <? descriptorLoopLength then
    let currentDesc := descriptorsCount t in
    currentTag ← rd b (10 + 15 * currentDesc);
    t ← parseTotTable_descriptor b currentTag currentDesc t;
    let t := set_descriptors (descriptors t) (u8 (descriptorsCount t + 1)) t in
    d ← rd (descriptors t) currentDesc;
    Val (Next (u16 (descriptorLoopLength - (descriptorLength d + 2)), t))
  else Val (Stop (TABLES_PARSE_OK, t)).

(** The descriptor array has 20 cells and each pass uses the next one. *)
Definition tot_fuel : nat := 22.

Definition parseTotTable_body (b : bytes) (totTable : TotTable)
    : res (ParseErrorCode * TotTable) :=
  b0 ← rd b 0;
  b1 ← rd b 1;
  b2 ← rd b 2;
  b3 ← rd b 3;
  b4 ← rd b 4;
  b8 ← rd b 8;
  b9 ← rd b 9;
  let dll := Z.land (all16Bits b8 b9) 0x0FFF in
  loop tot_fuel (parseTotTable_step b)
    (dll,
     {| tableId := b0;
        sectionSyntaxIndicator := sectionSyntaxIndicator totTable;
        sectionLength := Z.land (all16Bits b1 b2) 0x0FFF;
        MJD := all16Bits b3 b4;
        descriptorsLoopLength := dll;
        descriptors := descriptors totTable;
        descriptorsCount := descriptorsCount totTable |}).

(** The count is reset through the pointer before the pointers are checked. *)
Definition parseTotTable (totSectionBuffer : option bytes) (totTable : option TotTable)
    : res (ParseErrorCode * option TotTable) :=
  match totTable with
  | None => Ub NullDeref
  | Some t => nullchecked parseTotTable_body totSectionBuffer
                (Some (set_descriptors (descriptors t) 0 t))
  end.

(** ** What a section says *)

Definition bcd (x : Z) : Z := 10 * (x / 16) + x mod 16.

(** The [i]-th info of the first descriptor of the section. *)
Definition info_of (b : bytes) (i : nat) : LTODescriptorInfo :=
  let p := (12 + 13 * i)%nat in
  {| countryCH1 := byte_at b p;
     countryCH2 := byte_at b (p + 1);
     countryCH3 := byte_at b (p + 2);
     localTimeOffsetPolarity := byte_at b (p + 3) mod 2;
     countryRegionId := byte_at b (p + 3) / 4;
     localTimeOffsetHours := bcd (byte_at b (p + 4));
     localTimeOffsetMinutes := bcd (byte_at b (p + 5)) |}.

Definition loop_length (b : bytes) : Z := (256 * byte_at b 8 + byte_at b 9) mod 4096.

Definition header_table (b : bytes) (t : TotTable) : TotTable :=
  {| tableId := byte_at b 0;
     sectionSyntaxIndicator := sectionSyntaxIndicator t;
     sectionLength := (256 * byte_at b 1 + byte_at b 2) mod 4096;
     MJD := 256 * byte_at b 3 + byte_at b 4;
     descriptorsLoopLength := loop_length b;
     descriptors := descriptors t;
     descriptorsCount := 0 |}.

(** The shape of the arrays of a table: 20 descriptors of 20 infos. *)
Definition descriptor_wf (d : LocalTimeOffsetDescriptor) : Prop :=
  length (ltoInfo d) = 20%nat /\ is_u8 (descriptorLength d).
Definition table_wf (t : TotTable) : Prop :=
  length (descriptors t) = 20%nat /\ Forall descriptor_wf (descriptors t).

(** The infos of a descriptor of [len] bytes. *)
Definition infos (len : Z) : nat := Z.to_nat (len / 13).

(** The descriptor stored for the descriptor bytes at position [k]. *)
Definition lto_at (b : bytes) (k : nat) (old : LocalTimeOffsetDescriptor)
    : LocalTimeOffsetDescriptor :=
  let len := byte_at b (11 + 15 * k) in
  mkDescriptor 0x58 len (fill (info_of b) (infos len) (ltoInfo old)) (len / 13).

(** The descriptor at position [k], where [d] is in the array: one of another
    tag is not read, and the old one stays. [None]: a byte is missing, the tag,
    the length, or the last one of an info that is read. *)
Definition descriptor_at (b : bytes) (k : nat) (d : LocalTimeOffsetDescriptor)
    : option LocalTimeOffsetDescriptor :=
  match b !! (10 + 15 * k)%nat with
  | None => None
  | Some tag =>
      if tag =? 0x58 then
        if decide (12 + 15 * k <= length b /\
                   5 + 13 * infos (byte_at b (11 + 15 * k)) <= length b)%nat
        then Some (lto_at b k d) else None
      else Some d
  end.

(** The descriptors from position [k] on, over the descriptors [old] of the
    array, while more than four bytes are left of the loop: the new ones and the
    number of all. The length left wraps round at 16 bits. *)
Fixpoint walk (b : bytes) (left : Z) (k : nat) (old : list LocalTimeOffsetDescriptor)
    : option (list LocalTimeOffsetDescriptor * nat) :=
  if left <=? 4 then Some (old, k) else
  match old with
  | [] => None
  | d :: old =>
      match descriptor_at b k d with
      | None => None
      | Some d' =>
          match walk b ((left - (descriptorLength d' + 2)) mod 65536) (S k) old with
          | None => None
          | Some (ds, n) => Some (d' :: ds, n)
          end
      end
  end.

(** The result of a section: the descriptors it describes, or a memory access
    out of bounds. *)
Definition reference (b : bytes) (t : TotTable) : res (ParseErrorCode * option TotTable) :=
  if Z.of_nat (length b) <? 10 then Ub OutOfBounds else
  match walk b (loop_length b) 0 (descriptors t) with
  | None => Ub OutOfBounds
  | Some (ds, n) =>
      Val (TABLES_PARSE_OK, Some (set_descriptors ds (Z.of_nat n) (header_table b t)))
  end.

(** The counts of the infos fit the arrays. *)
Definition infos_fit (t : TotTable) : Prop :=
  Forall (fun d => 0 <= numberOfInfos d <= 20) (descriptors t).

(** ** Lemmas *)

Lemma bcd_code x : is_u8 x ->
  u8 (Z.land x 0x0F + 10 * Z.shiftr (Z.land x 0xF0) 4) = bcd x.
Proof.
  intros Hx. rewrite land_0F, high_nibble by assumption. unfold bcd, is_u8 in *.
  rewrite u8_small; zdiv.
Qed.

(** One info that is there in full. *)
Lemma lto_step_next b old m i :
  is_bytes b -> length old = 20%nat -> Z.of_nat i < m -> (i < 20)%nat ->
  17 + 13 * Z.of_nat i < Z.of_nat (length b) ->
  lto_step b m (Z.of_nat i, fill (info_of b) i old) =
    Val (Next (Z.of_nat (S i), fill (info_of b) (S i) old)).
Proof.
  intros Hb Hold Hi H20 Hlen. unfold lto_step. rewrite (proj2 (Z.ltb_lt _ _)) by lia. rd_all.
  rewrite wr_val by (rewrite length_fill; lia). rewrite bind_val, Nat2Z.id.
  rewrite !bcd_code, land_01, shiftr_div by (auto with cint; lia).
  rewrite <- fill_insert by lia. rewrite u8_small by lia.
  do 2 f_equal. f_equal; [lia|]. f_equal. unfold info_of. repeat f_equal; lia.
Qed.

(** An info whose last byte is missing. *)
Lemma lto_step_short b n i infos0 :
  0 <= i < n -> Z.of_nat (length b) <= 17 + 13 * i ->
  lto_step b n (i, infos0) = Ub OutOfBounds.
Proof.
  intros Hi Hb. unfold lto_step. rewrite (proj2 (Z.ltb_lt _ _)) by lia.
  do 5 match goal with |- context [rd b ?j] =>
    destruct (rd_cases b j) as [-> | (? & -> & _)]; [reflexivity | rewrite !bind_val] end.
  rewrite rd_oob by lia. reflexivity.
Qed.

Section Infos.
Context (b : bytes) (n : nat) (old : list LTODescriptorInfo).
Hypothesis Hb : is_bytes b.
Hypothesis Hn : (n <= 19)%nat.
Hypothesis Hold : length old = 20%nat.

(** The infos of a descriptor that are all there. *)
Lemma lto_loop i fuel :
  5 + 13 * Z.of_nat n <= Z.of_nat (length b) -> (i <= n)%nat ->
  loop (n - i + S fuel) (lto_step b (Z.of_nat n)) (Z.of_nat i, fill (info_of b) i old) =
    Val (fill (info_of b) n old).
Proof.
  intros Hlen Hi. remember (n - i)%nat as d eqn:Hd. revert i Hi Hd.
  induction d as [|d IH]; intros i Hi Hd.
  - apply loop_stop. unfold lto_step. rewrite (proj2 (Z.ltb_ge _ _)) by lia.
    replace i with n by lia. reflexivity.
  - simpl Nat.add. erewrite loop_next by (apply lto_step_next; assumption || lia).
    apply IH; lia.
Qed.

(** The infos of a descriptor that are not all there. *)
Lemma lto_loop_short i fuel :
  Z.of_nat (length b) < 5 + 13 * Z.of_nat n -> (i < n)%nat -> (n - i < fuel)%nat ->
  loop fuel (lto_step b (Z.of_nat n)) (Z.of_nat i, fill (info_of b) i old) = Ub OutOfBounds.
Proof.
  intros Hlen. revert i. induction fuel as [|fuel IH]; intros i Hi Hf; [lia|].
  destruct (Z.le_gt_cases (Z.of_nat (length b)) (17 + 13 * Z.of_nat i)) as [Hs|Hs].
  - apply loop_ub, lto_step_short; lia.
  - erewrite loop_next by (apply lto_step_next; assumption || lia). apply IH; lia.
Qed.
End Infos.

Lemma infos_room len : is_u8 len -> Z.of_nat (infos len) = len / 13.
Proof. unfold infos, is_u8. intros. zdiv. Qed.

Lemma infos_max len : is_u8 len -> (infos len <= 19)%nat.
Proof. unfold infos, is_u8. intros. zdiv. Qed.

(** A local time offset descriptor, whose length byte and infos are there or
    not. *)
Lemma descriptor_lto b t k d :
  is_bytes b -> length (descriptors t) = 20%nat -> descriptors t !! k = Some d ->
  length (ltoInfo d) = 20%nat ->
  parseTotTable_descriptor b 0x58 (Z.of_nat k) t =
    if decide (12 + 15 * k <= length b /\
               5 + 13 * infos (byte_at b (11 + 15 * k)) <= length b)%nat
    then Val (set_descriptors (<[k := lto_at b k d]> (descriptors t)) (descriptorsCount t) t)
    else Ub OutOfBounds.
Proof.
  intros Hb Hl Hd Hi. pose proof (lookup_lt_Some _ _ _ Hd) as Hk.
  unfold parseTotTable_descriptor. simpl (0x58 =? 0x58). cbv iota.
  rewrite (rd_nat (descriptors t) k d Hd), bind_val.
  destruct (decide _) as [D|D], (decide (12 + 15 * k <= length b)%nat) as [D1|D1]; try lia;
    [| |rewrite rd_oob by lia; reflexivity];
    (rewrite (rd_byte_at b (11 + 15 * Z.of_nat k)) by lia); rewrite bind_val;
    replace (Z.to_nat (11 + 15 * Z.of_nat k)) with (11 + 15 * k)%nat by lia;
    set (len := byte_at b (11 + 15 * k)) in *;
    assert (Hu : is_u8 len) by (apply byte_at_u8; assumption);
    pose proof (infos_room len Hu) as Hin; pose proof (infos_max len Hu) as Hin19; unfold is_u8 in Hu;
    cbv zeta; rewrite Z.quot_div_nonneg by lia; rewrite u8_small by zdiv; rewrite <- Hin.
  - replace lto_fuel with (infos len - 0 + S (20 - infos len))%nat by (unfold lto_fuel; lia).
    rewrite (lto_loop b (infos len) (ltoInfo d) Hb Hin19 Hi 0) by lia.
    rewrite bind_val, wr_val by lia. rewrite !bind_val, Nat2Z.id.
    unfold lto_at. fold len. rewrite Hin. reflexivity.
  - destruct (decide (0 < infos len)%nat); [|lia].
    rewrite (lto_loop_short b (infos len) (ltoInfo d) Hb Hin19 Hi 0)
      by (unfold lto_fuel; lia). reflexivity.
Qed.

(** One pass of the loop. *)
Lemma step_descriptor b t left k d :
  is_bytes b -> descriptorsCount t = Z.of_nat k -> length (descriptors t) = 20%nat ->
  descriptors t !! k = Some d -> length (ltoInfo d) = 20%nat -> 4 < left ->
  parseTotTable_step b (left, t) =
    match descriptor_at b k d with
    | Some d' =>
        Val (Next (u16 (left - (descriptorLength d' + 2)),
                   set_descriptors (<[k := d']> (descriptors t)) (Z.of_nat (S k)) t))
    | None => Ub OutOfBounds
    end.
Proof.
  intros Hb Hc Hl Hd Hi Hleft. pose proof (lookup_lt_Some _ _ _ Hd) as Hk.
  unfold parseTotTable_step, descriptor_at. rewrite (proj2 (Z.ltb_lt _ _)), Hc by assumption.
  assert (Hlast : forall d' ds, ds !! k = Some d' ->
    (d0 ← rd ds (Z.of_nat k);
     Val (Next (u16 (left - (descriptorLength d0 + 2)),
       set_descriptors ds (u8 (Z.of_nat k + 1)) t))) =
    Val (Next (S := tot_state) (R := ParseErrorCode * TotTable)
      (u16 (left - (descriptorLength d' + 2)), set_descriptors ds (Z.of_nat (S k)) t))).
  { intros d' ds E. rewrite (rd_nat ds k d' E), bind_val, u8_small by lia.
    do 4 f_equal. lia. }
  destruct (rd_cases b (10 + 15 * Z.of_nat k)) as [E|(tag & E & Htag & _)]; rewrite E.
  { destruct (b !! (10 + 15 * k)%nat) as [x|] eqn:Ex; [|reflexivity].
    rewrite (rd_some _ _ x) in E; [discriminate | lia |].
    replace (Z.to_nat _) with (10 + 15 * k)%nat by lia. exact Ex. }
  replace (Z.to_nat _) with (10 + 15 * k)%nat in Htag by lia. rewrite Htag, bind_val.
  destruct (Z.eqb_spec tag 0x58) as [->|Ht].
  - rewrite (descriptor_lto b t k d) by assumption.
    destruct (decide _); [|reflexivity]. rewrite bind_val. cbn [descriptors set_descriptors descriptorsCount].
    rewrite Hc. apply (Hlast (lto_at b k d)), list_lookup_insert_eq. lia.
  - unfold parseTotTable_descriptor. rewrite (proj2 (Z.eqb_neq _ _)) by exact Ht.
    rewrite bind_val, list_insert_id by exact Hd. cbn [descriptors set_descriptors descriptorsCount].
    rewrite Hc. apply (Hlast d), Hd.
Qed.

(** One pass over a local time offset descriptor that is there in full. *)
Lemma step_lto b t dll k d :
  is_bytes b -> descriptorsCount t = Z.of_nat k -> (k < 20)%nat ->
  length (descriptors t) = 20%nat -> descriptors t !! k = Some d -> length (ltoInfo d) = 20%nat ->
  4 < dll -> byte_at b (10 + 15 * k) = 0x58 ->
  Z.of_nat (12 + 15 * k) <= Z.of_nat (length b) ->
  12 + 13 * Z.of_nat (infos (byte_at b (11 + 15 * k))) <= Z.of_nat (length b) ->
  parseTotTable_step b (dll, t) =
    Val (Next (u16 (dll - (byte_at b (11 + 15 * k) + 2)),
               set_descriptors (<[k := lto_at b k d]> (descriptors t)) (Z.of_nat (S k)) t)).
Proof.
  intros Hb Hc Hk Hl Hd Hi Hdll Htag Hlen1 Hlen2.
  rewrite (step_descriptor b t dll k d) by assumption. unfold descriptor_at.
  destruct (lookup_lt_is_Some_2 b (10 + 15 * k) ltac:(lia)) as [x Hx]. rewrite Hx.
  rewrite (byte_at_lookup _ _ _ Hx) in Htag. subst x. cbn [Z.eqb Pos.eqb].
  rewrite decide_True by lia. reflexivity.
Qed.

Lemma tot_step_done b t dll :
  dll <= 4 -> parseTotTable_step b (dll, t) = Val (Stop (TABLES_PARSE_OK, t)).
Proof.
  intros H. unfold parseTotTable_step. rewrite (proj2 (Z.ltb_ge _ _)) by assumption.
  reflexivity.
Qed.

Lemma parseTotTable_loop b t :
  is_bytes b -> 10 <= Z.of_nat (length b) ->
  parseTotTable (Some b) (Some t) =
    ('(c, t') ← loop tot_fuel (parseTotTable_step b) (loop_length b, header_table b t);
     Val (c, Some t')).
Proof.
  intros Hb Hlen. unfold parseTotTable, nullchecked, parseTotTable_body. rd_all.
  rewrite !all16Bits_0FFF, all16Bits_val by auto with cint. reflexivity.
Qed.

(** The table after one local time offset descriptor. *)
Definition single_table (b : bytes) (d : LocalTimeOffsetDescriptor) (t : TotTable) : TotTable :=
  set_descriptors (<[0%nat := lto_at b 0 d]> (descriptors t)) 1 (header_table b t).

Lemma parseTotTable_single b t d :
  is_bytes b -> table_wf t -> descriptors t !! 0%nat = Some d ->
  byte_at b 10 = 0x58 -> 4 < loop_length b ->
  byte_at b 11 + 2 <= loop_length b <= byte_at b 11 + 6 ->
  12 + 13 * (byte_at b 11 / 13) <= Z.of_nat (length b) ->
  parseTotTable (Some b) (Some t) = Val (TABLES_PARSE_OK, Some (single_table b d t)).
Proof.
  intros Hb [Hl Hd20] Hd Htag H4 Hll Hlen.
  pose proof (byte_at_u8 b 11 Hb) as Hu. pose proof (infos_room _ Hu) as Hroom.
  assert (12 <= Z.of_nat (length b)) by (unfold is_u8 in Hu; zdiv).
  destruct (Forall_lookup_1 _ _ _ _ Hd20 Hd) as [Hi _].
  rewrite parseTotTable_loop by (assumption || lia). unfold tot_fuel.
  erewrite loop_next.
  2:{ apply (step_lto b (header_table b t) _ 0 d); try assumption; simpl; try reflexivity; lia. }
  rewrite loop_stop with (r := (TABLES_PARSE_OK, single_table b d t)); [reflexivity|].
  apply tot_step_done. simpl Nat.mul. simpl Nat.add. rewrite u16_small; unfold is_u8 in Hu; lia.
Qed.

(** ** Every section *)

(** A pass when the array is full. *)
Lemma step_full b t left :
  length (descriptors t) = 20%nat -> descriptorsCount t = 20 -> 4 < left ->
  parseTotTable_step b (left, t) = Ub OutOfBounds.
Proof.
  intros Hl Hc Hleft. unfold parseTotTable_step. rewrite (proj2 (Z.ltb_lt _ _)), Hc by assumption.
  destruct (rd_cases b (10 + 15 * 20)) as [->|(tag & -> & _)]; [reflexivity|]. rewrite bind_val.
  assert (E : rd (descriptors t) 20 = Ub OutOfBounds) by (apply rd_oob; rewrite Hl; lia).
  unfold parseTotTable_descriptor. destruct (tag =? 0x58); [rewrite E; reflexivity|].
  rewrite bind_val. cbn [descriptors set_descriptors]. rewrite E. reflexivity.
Qed.

(** The loop over the descriptors, of which [done] are already there. *)
Lemma loop_walk b fuel : is_bytes b -> forall left t done old,
  descriptors t = done ++ old -> (length done + length old = 20)%nat ->
  Forall (fun d => length (ltoInfo d) = 20%nat) old ->
  descriptorsCount t = Z.of_nat (length done) -> (length old < fuel)%nat ->
  loop fuel (parseTotTable_step b) (left, t) =
    match walk b left (length done) old with
    | Some (ds, n) => Val (TABLES_PARSE_OK, set_descriptors (done ++ ds) (Z.of_nat n) t)
    | None => Ub OutOfBounds
    end.
Proof.
  intros Hb. induction fuel as [|fuel IH]; intros left t done old Ht Hl Ho Hc Hf; [lia|].
  assert (Hlt : length (descriptors t) = 20%nat) by (rewrite Ht, length_app; exact Hl).
  destruct (Z.leb_spec left 4) as [Hleft|Hleft].
  - rewrite (loop_stop _ _ _ _ (tot_step_done b t left Hleft)).
    destruct old; cbn [walk]; rewrite (proj2 (Z.leb_le _ _)) by exact Hleft;
      rewrite <- Ht, <- Hc; destruct t; reflexivity.
  - destruct old as [|d old]; cbn [walk]; rewrite (proj2 (Z.leb_gt _ _)) by exact Hleft.
    + apply loop_ub, step_full; [exact Hlt | cbn [length] in Hl; lia | exact Hleft].
    + apply Forall_cons_1 in Ho as [Hd Ho]. cbn [length] in Hl, Hf.
      assert (Hk : descriptors t !! length done = Some d)
        by (rewrite Ht, lookup_app_r, Nat.sub_diag by lia; reflexivity).
      pose proof (step_descriptor b t left (length done) d Hb Hc Hlt Hk Hd Hleft) as E.
      destruct (descriptor_at b (length done) d) as [d'|]; [|apply loop_ub, E].
      rewrite (loop_next _ _ _ _ E), (IH _ _ (done ++ [d']) old).
      * rewrite length_app, Nat.add_1_r. unfold u16. cbn [length].
        destruct (walk _ _ _ _) as [[ds n]|]; [rewrite <- app_assoc|]; reflexivity.
      * cbn [descriptors set_descriptors]. rewrite Ht, insert_app_r_alt, Nat.sub_diag, <- app_assoc by lia.
        reflexivity.
      * rewrite length_app. cbn [length]. lia.
      * exact Ho.
      * rewrite length_app. cbn [length descriptorsCount set_descriptors]. lia.
      * lia.
Qed.

(** What every descriptor keeps, and the bounds of the count. *)
Lemma walk_keeps (P : LocalTimeOffsetDescriptor -> Prop) b old :
  (forall k d d', P d -> descriptor_at b k d = Some d' -> P d') -> Forall P old ->
  forall left k ds n, walk b left k old = Some (ds, n) ->
  Forall P ds /\ length ds = length old /\ (k <= n <= k + length old)%nat.
Proof.
  intros HP Ho. induction Ho as [|d old Hd Ho IH]; intros left k ds n E; cbn [walk] in E.
  - destruct (left <=? 4); [|discriminate]. injection E as <- <-. auto with lia.
  - destruct (left <=? 4); [injection E as <- <-; split; [constructor; assumption | auto with lia]|].
    destruct (descriptor_at b k d) as [d'|] eqn:Ed; [|discriminate].
    destruct (walk _ _ _ _) as [[ds' n']|] eqn:Ew; [|discriminate]. injection E as <- <-.
    apply IH in Ew as (H1 & H2 & H3). cbn [length].
    split; [constructor; [exact (HP k d d' Hd Ed) | exact H1] | lia].
Qed.

Lemma descriptor_at_cases b k d d' :
  descriptor_at b k d = Some d' -> d' = d \/ d' = lto_at b k d.
Proof.
  unfold descriptor_at. destruct (b !! _) as [tag|]; [|discriminate].
  destruct (tag =? 0x58); [destruct (decide _); [|discriminate]|]; intros [= <-]; auto.
Qed.

Lemma descriptor_at_wf b : is_bytes b -> forall k d d',
  descriptor_wf d -> descriptor_at b k d = Some d' -> descriptor_wf d'.
Proof.
  intros Hb k d d' Hd E. apply descriptor_at_cases in E as [-> | ->]; [exact Hd|].
  destruct Hd as [Hi _]. pose proof (byte_at_u8 b (11 + 15 * k) Hb) as Hu.
  pose proof (infos_max _ Hu). split; [|exact Hu]. cbn [lto_at ltoInfo].
  rewrite length_fill by lia. exact Hi.
Qed.

Lemma descriptor_at_fits b : is_bytes b -> forall k d d',
  0 <= numberOfInfos d <= 20 -> descriptor_at b k d = Some d' -> 0 <= numberOfInfos d' <= 20.
Proof.
  intros Hb k d d' Hd E. apply descriptor_at_cases in E as [-> | ->]; [exact Hd|].
  pose proof (byte_at_u8 b (11 + 15 * k) Hb) as Hu. unfold is_u8 in Hu. cbn [lto_at numberOfInfos].
  zdiv.
Qed.

(** The parser computes the reference on every section. *)
Lemma parseTotTable_walk b t :
  is_bytes b -> table_wf t -> parseTotTable (Some b) (Some t) = reference b t.
Proof.
  intros Hb [Hl Hw]. unfold reference. destruct (Z.ltb_spec (Z.of_nat (length b)) 10) as [Hs|Hs].
  - unfold parseTotTable, nullchecked, parseTotTable_body.
    do 6 match goal with |- context [rd b ?j] =>
      destruct (rd_cases b j) as [-> | (? & -> & _)]; [reflexivity | rewrite bind_val] end.
    rewrite rd_oob by lia. reflexivity.
  - rewrite parseTotTable_loop by assumption.
    rewrite (loop_walk b tot_fuel Hb _ _ [] (descriptors t)).
    + cbn [length app]. destruct (walk _ _ _ _) as [[ds n]|]; reflexivity.
    + reflexivity.
    + exact Hl.
    + eapply Forall_impl; [|exact Hw]. intros d [Hd _]. exact Hd.
    + reflexivity.
    + unfold tot_fuel. lia.
Qed.

(** What the result keeps. *)
Lemma reference_keeps (P : LocalTimeOffsetDescriptor -> Prop) b t c t' :
  (forall k d d', P d -> descriptor_at b k d = Some d' -> P d') -> Forall P (descriptors t) ->
  reference b t = Val (c, Some t') ->
  c = TABLES_PARSE_OK /\ Forall P (descriptors t') /\
  length (descriptors t') = length (descriptors t) /\
  0 <= descriptorsCount t' <= Z.of_nat (length (descriptors t)) /\
  t' = set_descriptors (descriptors t') (descriptorsCount t') (header_table b t).
Proof.
  intros HP Ht. unfold reference. destruct (_ <? 10); [discriminate|].
  destruct (walk _ _ _ _) as [[ds n]|] eqn:E; [|discriminate]. intros [= <- <-].
  destruct (walk_keeps P b _ HP Ht _ _ _ _ E) as (H1 & H2 & H3).
  cbn [descriptors descriptorsCount set_descriptors header_table] in *. auto with lia.
Qed.

Lemma reference_wf b t c t' :
  is_bytes b -> table_wf t -> reference b t = Val (c, Some t') ->
  c = TABLES_PARSE_OK /\ table_wf t' /\ 0 <= descriptorsCount t' <= 20.
Proof.
  intros Hb [Hl Hw] E.
  destruct (reference_keeps _ b t c t' (descriptor_at_wf b Hb) Hw E) as (H1 & H2 & H3 & H4 & _).
  rewrite Hl in H3, H4. split; [exact H1|]. split; [split; assumption | lia].
Qed.

Lemma reference_fits b t c t' :
  is_bytes b -> infos_fit t -> reference b t = Val (c, Some t') -> infos_fit t'.
Proof.
  intros Hb Hf E.
  exact (proj1 (proj2 (reference_keeps _ b t c t' (descriptor_at_fits b Hb) Hf E))).
Qed.

(** A result is a table, or an access out of bounds. *)
Lemma reference_cases b t :
  reference b t = Ub OutOfBounds \/
  exists t', reference b t = Val (TABLES_PARSE_OK, Some t').
Proof.
  unfold reference. destruct (_ <? 10); [auto|]. destruct (walk _ _ _ _) as [[ds n]|]; eauto.
Qed.

(** With more length left than 20 descriptors can take, the parser runs off
    the array. *)
Lemma walk_runs_off b old : is_bytes b -> Forall descriptor_wf old -> forall left k,
  4 + 257 * Z.of_nat (length old) < left < 65536 -> walk b left k old = None.
Proof.
  intros Hb Ho. induction Ho as [|d old Hd Ho IH]; intros left k Hl; cbn [walk length] in *;
    rewrite (proj2 (Z.leb_gt _ _)) by lia; [reflexivity|].
  destruct (descriptor_at b k d) as [d'|] eqn:Ed; [|reflexivity].
  destruct (descriptor_at_wf b Hb k d d' Hd Ed) as [_ Hu]. unfold is_u8 in Hu.
  rewrite Z.mod_small by lia. rewrite IH by lia. reflexivity.
Qed.

(** ** The standard's encoding *)

Definition to_bcd (x : Z) : Z := 16 * (x / 10) + x mod 10.

(** An info with the time and the offset of the next change, 7 bytes the
    program does not read. *)
Definition encode_info (e : LTODescriptorInfo * bytes) : bytes :=
  [countryCH1 e.1; countryCH2 e.1; countryCH3 e.1;
   4 * countryRegionId e.1 + 2 + localTimeOffsetPolarity e.1;
   to_bcd (localTimeOffsetHours e.1); to_bcd (localTimeOffsetMinutes e.1)] ++ e.2.

Definition info_wf (e : LTODescriptorInfo) : Prop :=
  is_u8 (countryCH1 e) /\ is_u8 (countryCH2 e) /\ is_u8 (countryCH3 e) /\
  0 <= countryRegionId e < 64 /\ 0 <= localTimeOffsetPolarity e < 2 /\
  0 <= localTimeOffsetHours e < 100 /\ 0 <= localTimeOffsetMinutes e < 100.

(** A section with one local time offset descriptor that holds [es]. *)
Definition encode_section (L mjd : Z) (time : Z * Z * Z)
    (es : list (LTODescriptorInfo * bytes)) (crc : bytes) : bytes :=
  [0x73; 0x70 + hi8 L; lo8 L; hi8 mjd; lo8 mjd; time.1.1; time.1.2; time.2;
   0xF0 + hi8 (13 * Z.of_nat (length es) + 2); lo8 (13 * Z.of_nat (length es) + 2);
   0x58; 13 * Z.of_nat (length es)] ++ concat (map encode_info es) ++ crc.

Definition infos_encodable (es : list (LTODescriptorInfo * bytes)) : Prop :=
  (1 <= length es <= 19)%nat /\
  Forall (fun e => info_wf e.1 /\ is_bytes e.2 /\ length e.2 = 7%nat) es.

(** A list of infos whose encodings all have 13 bytes. *)
Lemma lookup_concat_infos (es : list (LTODescriptorInfo * bytes)) k j e :
  Forall (fun e => info_wf e.1 /\ is_bytes e.2 /\ length e.2 = 7%nat) es ->
  (j < 13)%nat -> es !! k = Some e ->
  concat (map encode_info es) !! (13 * k + j)%nat = encode_info e !! j.
Proof.
  intros Hes Hj. revert k. induction Hes as [|a l (_ & _ & Ha) Hes IH]; intros k Hk; [discriminate|].
  assert (Hla : length (encode_info a) = 13%nat)
    by (unfold encode_info; rewrite length_app, Ha; reflexivity).
  destruct k as [|k]; cbn [map concat lookup list_lookup] in *.
  - injection Hk as ->. rewrite lookup_app_l by lia. rewrite Nat.mul_0_r. reflexivity.
  - rewrite lookup_app_r by lia. rewrite <- (IH k Hk). f_equal. lia.
Qed.

Lemma length_concat_infos (es : list (LTODescriptorInfo * bytes)) :
  Forall (fun e => info_wf e.1 /\ is_bytes e.2 /\ length e.2 = 7%nat) es ->
  length (concat (map encode_info es)) = (13 * length es)%nat.
Proof.
  induction 1 as [|a l (_ & _ & Ha) Hes IH]; cbn [map concat length]; [reflexivity|].
  rewrite length_app, IH. unfold encode_info. rewrite length_app, Ha. simpl. lia.
Qed.

Lemma encode_section_info L mjd time es crc k e :
  infos_encodable es -> es !! k = Some e ->
  info_of (encode_section L mjd time es crc) k = e.1.
Proof.
  intros [_ Hes] Hk. destruct (Forall_lookup_1 _ _ _ _ Hes Hk) as ((? & ? & ? & ? & ? & ? & ?) & _ & H7).
  assert (Hat : forall j v, (j < 13)%nat -> encode_info e !! j = Some v ->
            byte_at (encode_section L mjd time es crc) (12 + 13 * k + j) = v).
  { intros j v Hj Hv. apply byte_at_lookup. unfold encode_section.
    rewrite lookup_app_r by (simpl; lia). simpl length.
    replace (12 + 13 * k + j - 12)%nat with (13 * k + j)%nat by lia.
    rewrite <- Hv, <- (lookup_concat_infos es k j e Hes Hj Hk).
    apply lookup_app_l. rewrite length_concat_infos by assumption.
    apply lookup_lt_Some in Hk. lia. }
  pose proof (Hat 0%nat _ ltac:(lia) eq_refl) as A0. rewrite Nat.add_0_r in A0.
  unfold info_of. cbv zeta.
  rewrite A0, (Hat 1%nat _ ltac:(lia) eq_refl), (Hat 2%nat _ ltac:(lia) eq_refl),
    (Hat 3%nat _ ltac:(lia) eq_refl), (Hat 4%nat _ ltac:(lia) eq_refl),
    (Hat 5%nat _ ltac:(lia) eq_refl).
  destruct e as [[] d]; simpl in *. unfold bcd, to_bcd. f_equal; zdiv.
Qed.

Lemma tot_encode_section_bytes L mjd time es crc :
  0 <= L < 4096 -> is_u16 mjd -> is_u8 time.1.1 -> is_u8 time.1.2 -> is_u8 time.2 ->
  infos_encodable es -> is_bytes crc -> is_bytes (encode_section L mjd time es crc).
Proof.
  intros HL Hm T1 T2 T3 [Hn Hes] Hc. unfold encode_section, is_bytes. rewrite !Forall_app.
  split_and!; [| |exact Hc].
  - repeat apply Forall_cons_2; auto with cint; unfold hi8, is_u8; zdiv.
  - apply Forall_concat, Forall_fmap. eapply Forall_impl; [|exact Hes].
    intros e ((? & ? & ? & ? & ? & ? & ?) & ? & _). unfold encode_info, compose.
    apply Forall_app_2; [|assumption].
    repeat apply Forall_cons_2; auto; unfold to_bcd, is_u8; zdiv.
Qed.

(** ** Properties *)

(** C20: Parsing the encoding of a time offset table with one local time offset descriptor
    of up to 19 countries gives back the MJD and every country's entry, BCD digits decoded. *)
Theorem parseTotTable_encode (L mjd : Z) (time : Z * Z * Z)
    (es : list (LTODescriptorInfo * bytes)) (crc : bytes) (t : TotTable)
    (d : LocalTimeOffsetDescriptor) :
  0 <= L < 4096 -> is_u16 mjd -> is_u8 time.1.1 -> is_u8 time.1.2 -> is_u8 time.2 ->
  infos_encodable es -> is_bytes crc -> table_wf t -> descriptors t !! 0%nat = Some d ->
  exists t',
    parseTotTable (Some (encode_section L mjd time es crc)) (Some t) =
      Val (TABLES_PARSE_OK, Some t') /\
    sectionLength t' = L /\ MJD t' = mjd /\ descriptorsCount t' = 1 /\
    descriptors t' = <[0%nat :=
      mkDescriptor 0x58 (13 * Z.of_nat (length es))
        (map fst es ++ drop (length es) (ltoInfo d)) (Z.of_nat (length es))]> (descriptors t).
Proof.
  intros HL Hm T1 T2 T3 He Hc Ht Hd. set (b := encode_section L mjd time es crc).
  assert (Hb : is_bytes b) by (apply tot_encode_section_bytes; assumption).
  pose proof He as [Hn Hes].
  assert (E11 : byte_at b 11 = 13 * Z.of_nat (length es)) by reflexivity.
  assert (Ell : loop_length b = 13 * Z.of_nat (length es) + 2).
  { unfold loop_length. change (byte_at b 8) with (0xF0 + hi8 (13 * Z.of_nat (length es) + 2)).
    change (byte_at b 9) with (lo8 (13 * Z.of_nat (length es) + 2)). unfold hi8, lo8. zdiv. }
  eexists. split; [apply (parseTotTable_single b t d); try assumption; try reflexivity|].
  - lia.
  - lia.
  - rewrite E11. unfold b, encode_section. rewrite !length_app, length_concat_infos by assumption.
    simpl. zdiv.
  - simpl. split_and!; try reflexivity.
    + change (byte_at b 1) with (0x70 + hi8 L). change (byte_at b 2) with (lo8 L).
      unfold hi8, lo8. zdiv.
    + change (byte_at b 3) with (hi8 mjd). change (byte_at b 4) with (lo8 mjd).
      unfold hi8, lo8, is_u16 in *. zdiv.
    + unfold lto_at. simpl Nat.mul. simpl Nat.add. rewrite E11. unfold infos.
      replace (13 * Z.of_nat (length es) / 13) with (Z.of_nat (length es)) by zdiv.
      rewrite Nat2Z.id. f_equal. f_equal. rewrite <- (length_map fst es).
      apply fill_list. intros k x Hx. rewrite list_lookup_fmap in Hx.
      destruct (es !! k) as [e|] eqn:E; [|discriminate]. injection Hx as <-.
      apply encode_section_info; assumption.
Qed.

(** C21: For every section, complete or not, parseTotTable gives what the recursive
    reference walk says: the descriptors with tag 0x58 at steps of 15 bytes are stored with
    their countries, other tags keep the old cell, the length left wraps at 16 bits, and
    exactly when the section or the array ends first the access is out of bounds. The counts
    then fit the arrays. A null section is refused, a null table dereferenced. *)
Theorem parseTotTable_reference (b : bytes) (t : TotTable) :
  is_bytes b -> table_wf t ->
  parseTotTable (Some b) (Some t) = reference b t /\
  (forall c t', reference b t = Val (c, Some t') ->
     table_wf t' /\ 0 <= descriptorsCount t' <= 20 /\ (infos_fit t -> infos_fit t')) /\
  parseTotTable None (Some t) =
    Val (TABLES_PARSE_ERROR, Some (set_descriptors (descriptors t) 0 t)) /\
  parseTotTable (Some b) None = Ub NullDeref.
Proof.
  intros Hb Ht. split; [apply parseTotTable_walk; assumption|].
  split; [|split; reflexivity]. intros c t' E.
  destruct (reference_wf b t c t' Hb Ht E) as (_ & Hw & Hc).
  split; [exact Hw|]. split; [exact Hc|]. intros Hf. exact (reference_fits b t c t' Hb Hf E).
Qed.

(** A local time offset descriptor longer than the descriptor loop makes the 16-bit
    remaining length wrap round, and the parser runs out of bounds. *)
Theorem parseTotTable_overlong (b : bytes) (t : TotTable) :
  is_bytes b -> 12 <= Z.of_nat (length b) -> table_wf t ->
  byte_at b 10 = 0x58 -> 4 < loop_length b < byte_at b 11 + 2 ->
  parseTotTable (Some b) (Some t) = Ub OutOfBounds.
Proof.
  intros Hb H12 Ht Htag Hll. pose proof (byte_at_u8 b 11 Hb) as Hu. unfold is_u8 in Hu.
  rewrite parseTotTable_walk by assumption. unfold reference.
  rewrite (proj2 (Z.ltb_ge _ _)) by lia. destruct Ht as [Hl Hw].
  destruct (descriptors t) as [|d old]; [discriminate|]. injection Hl as Hl. cbn [walk].
  rewrite (proj2 (Z.leb_gt _ _)) by lia.
  destruct (descriptor_at b 0 d) as [d'|] eqn:Ed; [|reflexivity].
  assert (Hd : descriptorLength d' = byte_at b 11).
  { unfold descriptor_at in Ed. destruct (lookup_lt_is_Some_2 b 10 ltac:(lia)) as [x Hx].
    change (10 + 15 * 0)%nat with 10%nat in Ed. rewrite Hx in Ed.
    rewrite (byte_at_lookup _ _ _ Hx) in Htag. subst x. cbn [Z.eqb Pos.eqb] in Ed.
    destruct (decide _); [|discriminate]. injection Ed as <-. reflexivity. }
  rewrite Hd, walk_runs_off; [reflexivity | exact Hb | apply Forall_cons_1 in Hw as [_ Hw]; exact Hw |].
  rewrite Hl. zdiv.
Qed.

(** C22: With two local time offset descriptors of one country each, the second descriptor
    is stored with the country of the first: its entries are read at the offsets of the
    first descriptor. *)
Theorem parseTotTable_second_descriptor (b : bytes) (t : TotTable) :
  is_bytes b -> 40 <= Z.of_nat (length b) -> table_wf t ->
  byte_at b 10 = 0x58 -> byte_at b 11 = 13 -> byte_at b 25 = 0x58 -> byte_at b 26 = 13 ->
  loop_length b = 30 ->
  exists t' d0 d1,
    parseTotTable (Some b) (Some t) = Val (TABLES_PARSE_OK, Some t') /\
    descriptorsCount t' = 2 /\
    descriptors t' !! 0%nat = Some d0 /\ descriptors t' !! 1%nat = Some d1 /\
    ltoInfo d0 !! 0%nat = Some (info_of b 0) /\
    ltoInfo d1 !! 0%nat = Some (info_of b 0).
Proof.
  intros Hb Hlen [Hl Hw] T0 L0 T1 L1 Hll.
  destruct (lookup_lt_is_Some_2 (descriptors t) 0 ltac:(lia)) as [d0 Hd0].
  destruct (lookup_lt_is_Some_2 (descriptors t) 1 ltac:(lia)) as [d1 Hd1].
  destruct (Forall_lookup_1 _ _ _ _ Hw Hd0) as [Hi0 _].
  destruct (Forall_lookup_1 _ _ _ _ Hw Hd1) as [Hi1 _].
  rewrite parseTotTable_loop by (assumption || lia). unfold tot_fuel. rewrite Hll.
  erewrite loop_next.
  2:{ apply (step_lto b (header_table b t) _ 0 d0); simpl Nat.mul; simpl Nat.add;
        rewrite ?L0; change (infos 13) with 1%nat;
        first [assumption | reflexivity | lia]. }
  change (11 + 15 * 0)%nat with 11%nat. rewrite L0.
  erewrite loop_next.
  2:{ apply (step_lto b _ _ 1 d1); simpl Nat.mul; simpl Nat.add;
        rewrite ?L1; change (infos 13) with 1%nat; simpl descriptors;
        first [assumption | reflexivity | lia | rewrite length_insert; assumption
              | rewrite list_lookup_insert_ne by lia; assumption]. }
  change (11 + 15 * 1)%nat with 26%nat. rewrite L1.
  erewrite loop_stop; [|apply tot_step_done; vm_compute; discriminate].
  do 3 eexists. split; [reflexivity|]. simpl.
  split; [reflexivity|].
  rewrite list_lookup_insert_ne by lia.
  rewrite !list_lookup_insert_eq by (rewrite ?length_insert; lia).
  do 2 (split; [reflexivity|]). unfold lto_at. simpl Nat.mul. simpl Nat.add.
  rewrite L0, L1. split; reflexivity.
Qed.

(** ** Given sections *)

Definition no_descriptor : LocalTimeOffsetDescriptor :=
  mkDescriptor 0 0 (replicate 20 (mkInfo 0 0 0 0 0 0 0)) 0.
Definition empty_table : TotTable := mkTotTable 0 0 0 0 0 (replicate 20 no_descriptor) 0.

Lemma tot_empty_table_wf : table_wf empty_table.
Proof.
  split; [reflexivity|]. apply Forall_replicate. split; [reflexivity|]. unfold is_u8. cbn. lia.
Qed.

(** Serbia, one hour ahead. *)
Definition serbia : LTODescriptorInfo * bytes :=
  (mkInfo 83 82 66 0 0 1 0, [0xC0; 0x79; 1; 0; 0; 2; 0]).

Lemma parseTotTable_encode_witness :
  exists t',
    parseTotTable (Some (encode_section 28 55094 (18, 69, 0) [serbia] [1; 2; 3; 4]))
      (Some empty_table) = Val (TABLES_PARSE_OK, Some t') /\
    sectionLength t' = 28 /\ MJD t' = 55094 /\ descriptorsCount t' = 1 /\
    descriptors t' = <[0%nat :=
      mkDescriptor 0x58 13 (mkInfo 83 82 66 0 0 1 0 :: replicate 19 (mkInfo 0 0 0 0 0 0 0)) 1]>
        (replicate 20 no_descriptor).
Proof.
  apply (parseTotTable_encode 28 55094 (18, 69, 0) [serbia] [1; 2; 3; 4] empty_table no_descriptor);
    unfold is_u8, is_u16; cbn [fst snd]; try lia.
  - split; [cbn; lia|]. apply Forall_singleton.
    split; [unfold info_wf, is_u8; cbn; lia | split; [is_bytes_tac | reflexivity]].
  - is_bytes_tac.
  - apply tot_empty_table_wf.
  - reflexivity.
Defined.

Definition overlong_section : bytes :=
  [0x73; 0x70; 28; 0; 0; 0; 0; 0; 0xF0; 10; 0x58; 13] ++ replicate 13 0.

Lemma parseTotTable_overlong_witness :
  parseTotTable (Some overlong_section) (Some empty_table) = Ub OutOfBounds.
Proof.
  apply (parseTotTable_overlong overlong_section empty_table);
    [is_bytes_tac | cbn; lia | apply tot_empty_table_wf | reflexivity | vm_compute; split; reflexivity].
Defined.

Definition two_descriptors : bytes :=
  [0x73; 0x70; 43; 0; 0; 0; 0; 0; 0xF0; 30] ++
  [0x58; 13; 83; 82; 66; 2; 1; 0] ++ replicate 7 0 ++
  [0x58; 13; 72; 82; 86; 2; 2; 0] ++ replicate 7 0.

(** The reference on both sections: one is out of bounds, the other stores its
    two descriptors with the country of the first. *)
Definition two_walked : res (ParseErrorCode * option TotTable) :=
  Val (TABLES_PARSE_OK, Some (set_descriptors
    (mkDescriptor 0x58 13 (mkInfo 83 82 66 0 0 1 0 :: replicate 19 (mkInfo 0 0 0 0 0 0 0)) 1 ::
     mkDescriptor 0x58 13 (mkInfo 83 82 66 0 0 1 0 :: replicate 19 (mkInfo 0 0 0 0 0 0 0)) 1 ::
     replicate 18 no_descriptor) 2 (header_table two_descriptors empty_table))).

Lemma parseTotTable_reference_witness :
  parseTotTable (Some two_descriptors) (Some empty_table) = two_walked /\
  parseTotTable (Some overlong_section) (Some empty_table) = Ub OutOfBounds.
Proof.
  split.
  - transitivity (reference two_descriptors empty_table); [|vm_compute; reflexivity].
    apply (parseTotTable_reference two_descriptors empty_table);
      [is_bytes_tac | apply tot_empty_table_wf].
  - transitivity (reference overlong_section empty_table); [|vm_compute; reflexivity].
    apply (parseTotTable_reference overlong_section empty_table);
      [is_bytes_tac | apply tot_empty_table_wf].
Defined.

Lemma parseTotTable_second_descriptor_witness :
  exists t' d1,
    parseTotTable (Some two_descriptors) (Some empty_table) = Val (TABLES_PARSE_OK, Some t') /\
    descriptors t' !! 1%nat = Some d1 /\ ltoInfo d1 !! 0%nat = Some (mkInfo 83 82 66 0 0 1 0).
Proof.
  destruct (parseTotTable_second_descriptor two_descriptors empty_table)
    as (t' & d0 & d1 & H1 & _ & _ & H3 & _ & H5);
    try reflexivity; try apply tot_empty_table_wf; [is_bytes_tac |].
  exists t', d1. split; [exact H1|]. split; [exact H3 | exact H5].
Defined.
End Tot.
