(* ===== verification/Printing.v ===== *)
(** * Printing: the text of printPatTable, printPmtTable, printTdtTable, printTotTable

    A printing function gives its error code and the text it writes. The
    conversions of printf that the file uses are written out: [%d] and [%hu],
    [%x], and a precision, which pads with zeros. *)

From S2P Require Import Prelude Tables PatParser PmtParser Calendar TdtParser TotParser.
From Stdlib Require Import Ascii.

Module Print.

(** ** Text *)

Definition nl : string := String (ascii_of_nat 10) EmptyString.

Definition digit (d : Z) : ascii :=
  ascii_of_nat (Z.to_nat (if d <? 10 then 48 + d else 87 + d)).

(** The digits of [n] in [base], in front of [acc]. *)
Fixpoint digits (fuel : nat) (base n : Z) (acc : string) : string :=
  match fuel with
  | O => acc
  | S fuel =>
      let acc := String (digit (n mod base)) acc in
      if n <? base then acc else digits fuel base (n / base) acc
  end.

(** No base is less than two, so that a digit takes a bit at least. *)
Definition numeral (base n : Z) : string :=
  digits (S (Z.to_nat (Z.log2 n))) base n EmptyString.

(** [%d]. *)
Definition d (n : Z) : string :=
  if n <? 0 then String (ascii_of_nat 45) (numeral 10 (- n)) else numeral 10 n.
(** [%hu]. *)
Definition hu (n : Z) : string := numeral 10 (u16 n).

(** The precision of [%.2d] and [%.2x]; that of [%.1x] pads nothing. *)
Definition precision_2 (s : string) : string :=
  if (String.length s <? 2)%nat then String (digit 0) s else s.
Definition d2 (n : Z) : string := precision_2 (d n).
Definition x1 (n : Z) : string := numeral 16 n.
Definition x2 (n : Z) : string := precision_2 (x1 n).

(** A line of the tables: a label, a value. *)
Definition line (label value : string) : string := label +:+ value +:+ nl.

Definition banner (table : string) : string :=
  nl +:+ line "********************" (table +:+ " TABLE SECTION********************").

Definition not_ok (function : string) : string :=
  nl +:+ line function " : ERROR received parameter is not ok".

(** [for (i = 0; i < count; i++)] with the 8-bit [i], around a body that
    prints. A count is at most 255. *)
Definition for_step (count : Z) (body : Z -> res string) (s : Z * string)
    : res (ctl (Z * string) string) :=
  if s.1 <? count then
    text ← body s.1;
    Val (Next (u8 (s.1 + 1), s.2 +:+ text))
  else Val (Stop s.2).

Definition print_for (count : Z) (body : Z -> res string) : res string :=
  loop 257 (for_step count body) (0, EmptyString).

(** The check all four functions start with. *)
Definition print_checked {T} (function : string) (print : T -> res string) (t : option T)
    : res (ParseErrorCode * string) :=
  match t with
  | None => Val (TABLES_PARSE_ERROR, not_ok function)
  | Some t => text ← print t; Val (TABLES_PARSE_OK, text)
  end.

(** ** PAT *)

Definition pat_header_text (h : Pat.PatHeader) : string :=
  line "table_id                 |      " (d (Pat.tableId h)) +:+
  line "section_length           |      " (d (Pat.sectionLength h)) +:+
  line "transport_stream_id      |      " (d (Pat.transportStreamId h)) +:+
  line "section_number           |      " (d (Pat.sectionNumber h)) +:+
  line "last_section_number      |      " (d (Pat.lastSectionNumber h)).

Definition rule : string := line "-----------------------------------------" EmptyString.

Definition pat_service_text (i : Pat.PatServiceInfo) : string :=
  rule +:+
  line "program_number           |      " (d (Pat.programNumber i)) +:+
  line "pid                      |      " (d (Pat.pid i)).

Definition printPatTable_body (t : Pat.PatTable) : res string :=
  services ← print_for (Pat.serviceInfoCount t) (fun i =>
    info ← rd (Pat.patServiceInfoArray t) i; Val (pat_service_text info));
  Val (banner "PAT" +:+ pat_header_text (Pat.patHeader t) +:+ services +:+ banner "PAT").

Definition printPatTable := print_checked "printPatTable" printPatTable_body.

(** ** PMT *)

Definition pmt_header_text (h : Pmt.PmtTableHeader) : string :=
  line "table_id                 |      " (d (Pmt.tableId h)) +:+
  line "section_length           |      " (d (Pmt.sectionLength h)) +:+
  line "program_number           |      " (d (Pmt.programNumber h)) +:+
  line "section_number           |      " (d (Pmt.sectionNumber h)) +:+
  line "last_section_number      |      " (d (Pmt.lastSectionNumber h)) +:+
  line "program_info_legth       |      " (d (Pmt.programInfoLength h)).

Definition pmt_entry_text (e : Pmt.PmtElementaryInfo) : string :=
  rule +:+
  line "stream_type              |      " (d (Pmt.streamType e)) +:+
  line "elementary_pid           |      " (d (Pmt.elementaryPid e)).

Definition printPmtTable_body (t : Pmt.PmtTable) : res string :=
  entries ← print_for (Pmt.elementaryInfoCount t) (fun i =>
    info ← rd (Pmt.pmtElementaryInfoArray t) i; Val (pmt_entry_text info));
  Val (banner "PMT" +:+ pmt_header_text (Pmt.pmtHeader t) +:+ entries +:+ banner "PMT").

Definition printPmtTable := print_checked "printPmtTable" printPmtTable_body.

(** ** TDT *)

Definition month_name (m : Z) : option string :=
  match m with
  | 1 => Some "January" | 2 => Some "February" | 3 => Some "March" | 4 => Some "April"
  | 5 => Some "May" | 6 => Some "June" | 7 => Some "July" | 8 => Some "August"
  | 9 => Some "September" | 10 => Some "October" | 11 => Some "November"
  | 12 => Some "December" | _ => None
  end.

(** [switch (tdtTable->tmpMonth)] *)
Definition date_text (t : Tdt.TdtTable) : string :=
  match month_name (Tdt.tmpMonth t) with
  | Some name =>
      line "INFO: Time read from stream: "
        (name +:+ "/" +:+ hu (Tdt.day t) +:+ "/" +:+ hu (Tdt.Year t) +:+ " ")
  | None => EmptyString
  end.

Section Time.

(** What [%d] finds where a [uint64_t] was passed, which C leaves open. *)
Context (as_int : Z -> Z).

Definition printTdtTable_body (t : Tdt.TdtTable) : res string :=
  Val (banner "TDT" +:+
    line "table_id                 |      " (d (Tdt.tableId t)) +:+
    line "section_length           |      " (d (Tdt.sectionLength t)) +:+
    line "MJD code                 |      " (d (as_int (Tdt.MJD t))) +:+
    date_text t +:+ banner "TDT").

Definition printTdtTable := print_checked "printTdtTable" printTdtTable_body.
End Time.

(** ** TOT *)

Definition hashes : string := line "###########################################" EmptyString.

Definition info_text (j : Z) (e : Tot.LTODescriptorInfo) : string :=
  hashes +:+
  line (d (j + 1)) ". LTO info                              " +:+
  line "counrty code              |        "
    (x1 (Tot.countryCH1 e) +:+ x1 (Tot.countryCH2 e) +:+ x1 (Tot.countryCH3 e)) +:+
  line "counrty region id         |        " (d (Tot.countryRegionId e)) +:+
  line "localTimeOffsetPolarity   |        " (d (Tot.localTimeOffsetPolarity e)) +:+
  line "local time offset         |        "
    (d2 (Tot.localTimeOffsetHours e) +:+ ":" +:+ d2 (Tot.localTimeOffsetMinutes e)) +:+
  hashes.

Definition descriptor_text (i : Z) (dsc : Tot.LocalTimeOffsetDescriptor) (infos : string)
    : string :=
  nl +:+ line (d (i + 1)) ". descriptor:" +:+
  line "descriptor tag           |        " (x2 (Tot.descriptorTag dsc)) +:+
  line "descriptor length        |        " (d (Tot.descriptorLength dsc)) +:+ infos.

Definition print_descriptor (t : Tot.TotTable) (i : Z) : res string :=
  dsc ← rd (Tot.descriptors t) i;
  infos ← print_for (Tot.numberOfInfos dsc) (fun j =>
    e ← rd (Tot.ltoInfo dsc) j; Val (info_text j e));
  Val (descriptor_text i dsc infos).

Definition tot_header_text (t : Tot.TotTable) : string :=
  line "table_id                 |      " (x2 (Tot.tableId t)) +:+
  line "section_length           |      " (d (Tot.sectionLength t)) +:+
  line "MJD code                 |      " (d (Tot.MJD t)).

Definition printTotTable_body (t : Tot.TotTable) : res string :=
  descriptors ← print_for (Tot.descriptorsCount t) (print_descriptor t);
  Val (banner "TOT" +:+ tot_header_text t +:+ descriptors +:+ banner "TOT").

Definition printTotTable := print_checked "printTotTable" printTotTable_body.

(** ** The loops *)

(** The texts of the entries [l], the first one numbered [i]. *)
Fixpoint texts {A} (f : Z -> A -> string) (i : Z) (l : list A) : string :=
  match l with
  | [] => EmptyString
  | x :: l => f i x +:+ texts f (i + 1) l
  end.

Lemma append_assoc (s t u : string) : (s +:+ t) +:+ u = s +:+ (t +:+ u).
Proof. induction s as [|c s IH]; [reflexivity | exact (f_equal (String c) IH)]. Qed.

Lemma append_empty (s : string) : s +:+ EmptyString = s.
Proof. induction s as [|c s IH]; [reflexivity | exact (f_equal (String c) IH)]. Qed.

Lemma for_loop_list {A} (f : Z -> A -> string) (count : Z) (body : Z -> res string) (r : list A) :
  count < 256 -> forall n i out,
  0 <= i -> i + Z.of_nat (length r) = count -> (length r < n)%nat ->
  (forall k x, r !! k = Some x -> body (i + Z.of_nat k) = Val (f (i + Z.of_nat k) x)) ->
  loop n (for_step count body) (i, out) = Val (out +:+ texts f i r).
Proof.
  intros Hc. induction r as [|x r IH]; intros n i out Hi Hr Hn Hb; cbn [length] in *;
    (destruct n as [|n]; [lia|]).
  - rewrite (loop_stop _ _ _ out).
    + cbn. rewrite append_empty. reflexivity.
    + unfold for_step. cbn [fst snd]. rewrite (proj2 (Z.ltb_ge _ _)) by lia. reflexivity.
  - pose proof (Hb 0%nat x eq_refl) as E. rewrite Z.add_0_r in E.
    rewrite (loop_next _ _ _ (i + 1, out +:+ f i x)).
    + rewrite IH; [cbn [texts]; rewrite append_assoc; reflexivity | lia | lia | lia |].
      intros k y Hk. replace (i + 1 + Z.of_nat k) with (i + Z.of_nat (S k)) by lia.
      exact (Hb (S k) y Hk).
    + unfold for_step. cbn [fst snd]. rewrite (proj2 (Z.ltb_lt _ _)) by lia.
      rewrite E, bind_val, u8_small by lia. reflexivity.
Qed.

(** A loop over the first [count] cells of an array. *)
Lemma print_for_list {A} (f : Z -> A -> string) (l : list A) (count : Z) (body : Z -> res string) :
  0 <= count <= Z.of_nat (length l) -> count < 256 ->
  (forall k x, (k < Z.to_nat count)%nat -> l !! k = Some x ->
     body (Z.of_nat k) = Val (f (Z.of_nat k) x)) ->
  print_for count body = Val (texts f 0 (take (Z.to_nat count) l)).
Proof.
  intros Hc H256 Hb. unfold print_for.
  rewrite (for_loop_list f count body (take (Z.to_nat count) l));
    [reflexivity | lia | lia | rewrite length_take; lia | rewrite length_take; lia |].
  intros k x Hk. apply lookup_take_Some in Hk as [Hk Hlt]. cbn [Z.add]. exact (Hb k x Hlt Hk).
Qed.

(** Whatever the body does, the loop ends. *)
Lemma print_for_ends (count : Z) (body : Z -> res string) :
  0 <= count < 256 -> (forall i, yields (body i) (fun _ => True)) ->
  yields (print_for count body) (fun _ => True).
Proof.
  intros Hc Hb. apply (loop_yields _ (fun s => 0 <= s.1 <= count)
    (fun s => Z.to_nat (count - s.1))); [|cbn; lia | cbn; lia].
  intros [i out] Hi. unfold for_step. cbn [fst snd] in *.
  destruct (Z.ltb_spec i count); [|exact I]. rewrite yields_bind.
  eapply yields_mono; [apply Hb|]. intros t _. cbn -[u8]. rewrite u8_small by lia. lia.
Qed.

(** ** Reading a table back

    The numbers behind the bars, in decimal. *)
Definition digit_value (c : ascii) : option Z :=
  let v := Z.of_nat (nat_of_ascii c) - 48 in if (0 <=? v) && (v <=? 9) then Some v else None.

Fixpoint scan (s : string) (reading : option Z) : list Z :=
  match s with
  | EmptyString => []
  | String c s =>
      match reading with
      | None => scan s (if Ascii.eqb c "|"%char then Some 0 else None)
      | Some v =>
          if Ascii.eqb c " "%char then scan s (Some v)
          else match digit_value c with
               | Some x => scan s (Some (10 * v + x))
               | None => v :: scan s None
               end
      end
  end.

Definition shown (text : string) : list Z := scan text None.

Lemma digit_cases x : 0 <= x <= 9 ->
  Ascii.eqb (digit x) " "%char = false /\ digit_value (digit x) = Some x.
Proof.
  intros Hx. assert (x = 0 \/ x = 1 \/ x = 2 \/ x = 3 \/ x = 4 \/ x = 5 \/ x = 6 \/ x = 7 \/ x = 8
    \/ x = 9) as E by lia.
  destruct_or! E; subst; split; reflexivity.
Qed.

Lemma digits_append fuel base n acc r :
  digits fuel base n acc +:+ r = digits fuel base n (acc +:+ r).
Proof.
  revert n acc. induction fuel as [|fuel IH]; intros n acc; [reflexivity|].
  cbn [digits]. destruct (n <? base); [reflexivity | apply IH].
Qed.

Lemma scan_digits fuel n acc :
  0 <= n < 2 ^ Z.of_nat fuel -> (0 < fuel)%nat ->
  scan (digits fuel 10 n acc) (Some 0) = scan acc (Some n).
Proof.
  revert n acc. induction fuel as [|fuel IH]; intros n acc Hn Hf; [lia|]. clear Hf.
  rewrite Nat2Z.inj_succ, Z.pow_succ_r in Hn by lia. cbn [digits].
  destruct (digit_cases (n mod 10) ltac:(zdiv)) as [E1 E2].
  assert (Hs : forall v, scan (String (digit (n mod 10)) acc) (Some v) =
                 scan acc (Some (10 * v + n mod 10))).
  { intros v. cbn [scan]. rewrite E1, E2. reflexivity. }
  destruct (Z.ltb_spec n 10) as [H10|H10].
  - rewrite Hs. f_equal. f_equal. zdiv.
  - rewrite IH, Hs; [f_equal; f_equal; zdiv | | destruct fuel; [cbn in Hn; lia | lia]].
    split; [zdiv|]. apply Z.le_lt_trans with (n / 2); [zdiv | apply Z.div_lt_upper_bound; lia].
Qed.

Lemma scan_d n r : 0 <= n -> scan (d n +:+ (nl +:+ r)) (Some 0) = n :: scan r None.
Proof.
  intros Hn. unfold d. rewrite (proj2 (Z.ltb_ge _ _)) by assumption.
  unfold numeral. rewrite digits_append. cbn [String.app].
  rewrite scan_digits; [reflexivity | | lia].
  rewrite Nat2Z.inj_succ, Z2Nat.id by apply Z.log2_nonneg.
  destruct (Z.eq_dec n 0) as [->|]; [cbn; lia|].
  pose proof (Z.log2_spec n ltac:(lia)). lia.
Qed.

(** A line of a table. *)
Lemma scan_line label n r :
  (forall s, scan (label +:+ s) None = scan s (Some 0)) -> 0 <= n ->
  scan (line label (d n) +:+ r) None = n :: scan r None.
Proof.
  intros Hl Hn. unfold line. rewrite !append_assoc, Hl. apply scan_d, Hn.
Qed.

Lemma scan_texts {A} (f : A -> string) (g : A -> list Z) (l : list A) (i : Z) r :
  Forall (fun x => forall r, scan (f x +:+ r) None = g x ++ scan r None) l ->
  scan (texts (fun _ => f) i l +:+ r) None = concat (map g l) ++ scan r None.
Proof.
  intros Hl. revert i r. induction Hl as [|x l Hx _ IH]; intros i r; [reflexivity|].
  cbn [texts map concat]. rewrite append_assoc, Hx, IH, app_assoc. reflexivity.
Qed.

(** [scan_lines] reads the lines at the front of a text. *)
Ltac scan_lines :=
  repeat (rewrite ?append_assoc; rewrite scan_line by (first [intros; reflexivity | lia])).

(** ** What the functions print *)

Definition pat_text (t : Pat.PatTable) : string :=
  banner "PAT" +:+ pat_header_text (Pat.patHeader t) +:+
  texts (fun _ => pat_service_text) 0
    (take (Z.to_nat (Pat.serviceInfoCount t)) (Pat.patServiceInfoArray t)) +:+ banner "PAT".

Definition pmt_text (t : Pmt.PmtTable) : string :=
  banner "PMT" +:+ pmt_header_text (Pmt.pmtHeader t) +:+
  texts (fun _ => pmt_entry_text) 0
    (take (Z.to_nat (Pmt.elementaryInfoCount t)) (Pmt.pmtElementaryInfoArray t)) +:+ banner "PMT".

Lemma printPatTable_text t :
  Pat.table_wf t -> printPatTable (Some t) = Val (TABLES_PARSE_OK, pat_text t).
Proof.
  intros [_ Hl _ Hc]. unfold printPatTable, print_checked, printPatTable_body.
  rewrite (print_for_list (fun _ => pat_service_text) (Pat.patServiceInfoArray t));
    [reflexivity | lia | lia |].
  intros k i _ Hk. rewrite (rd_nat _ k i Hk), bind_val. reflexivity.
Qed.

Lemma printPmtTable_text t :
  Pmt.table_wf t -> printPmtTable (Some t) = Val (TABLES_PARSE_OK, pmt_text t).
Proof.
  intros [_ Hl _ Hc]. unfold printPmtTable, print_checked, printPmtTable_body.
  rewrite (print_for_list (fun _ => pmt_entry_text) (Pmt.pmtElementaryInfoArray t));
    [reflexivity | lia | lia |].
  intros k i _ Hk. rewrite (rd_nat _ k i Hk), bind_val. reflexivity.
Qed.

Definition pat_shown (t : Pat.PatTable) : list Z :=
  let h := Pat.patHeader t in
  [Pat.tableId h; Pat.sectionLength h; Pat.transportStreamId h; Pat.sectionNumber h;
   Pat.lastSectionNumber h] ++
  concat (map (fun i => [Pat.programNumber i; Pat.pid i])
    (take (Z.to_nat (Pat.serviceInfoCount t)) (Pat.patServiceInfoArray t))).

Definition pmt_shown (t : Pmt.PmtTable) : list Z :=
  let h := Pmt.pmtHeader t in
  [Pmt.tableId h; Pmt.sectionLength h; Pmt.programNumber h; Pmt.sectionNumber h;
   Pmt.lastSectionNumber h; Pmt.programInfoLength h] ++
  concat (map (fun e => [Pmt.streamType e; Pmt.elementaryPid e])
    (take (Z.to_nat (Pmt.elementaryInfoCount t)) (Pmt.pmtElementaryInfoArray t))).

Lemma pat_text_shown t : Pat.table_wf t -> shown (pat_text t) = pat_shown t.
Proof.
  intros [[H1 _ H3 H4 _ _ H7 H8] _ Hs _]. unfold is_u8, is_u16 in *.
  unfold shown, pat_text, pat_header_text, pat_shown. rewrite append_assoc.
  change (scan (banner "PAT" +:+ ?s) None) with (scan s None). scan_lines.
  rewrite (scan_texts pat_service_text (fun i => [Pat.programNumber i; Pat.pid i])).
  - change (scan (banner "PAT") None) with (@nil Z). rewrite app_nil_r. reflexivity.
  - apply Forall_take. eapply Forall_impl; [|exact Hs]. intros i [Hi1 Hi2] r.
    unfold is_u16 in Hi1. unfold pat_service_text. rewrite append_assoc.
    change (scan (rule +:+ ?s) None) with (scan s None). scan_lines. reflexivity.
Qed.

Lemma pmt_text_shown t : Pmt.table_wf t -> shown (pmt_text t) = pmt_shown t.
Proof.
  intros [[H1 _ H3 H4 _ _ H7 H8 _ H10] _ Hs _]. unfold is_u8, is_u16 in *.
  unfold shown, pmt_text, pmt_header_text, pmt_shown. rewrite append_assoc.
  change (scan (banner "PMT" +:+ ?s) None) with (scan s None). scan_lines.
  rewrite (scan_texts pmt_entry_text (fun e => [Pmt.streamType e; Pmt.elementaryPid e])).
  - change (scan (banner "PMT") None) with (@nil Z). rewrite app_nil_r. reflexivity.
  - apply Forall_take. eapply Forall_impl; [|exact Hs]. intros e (Hi1 & Hi2 & _) r.
    unfold is_u8 in Hi1. unfold pmt_entry_text. rewrite append_assoc.
    change (scan (rule +:+ ?s) None) with (scan s None). scan_lines. reflexivity.
Qed.

(** ** The time tables *)

Definition tdt_text (as_int : Z -> Z) (t : Tdt.TdtTable) : string :=
  banner "TDT" +:+
  line "table_id                 |      " (d (Tdt.tableId t)) +:+
  line "section_length           |      " (d (Tdt.sectionLength t)) +:+
  line "MJD code                 |      " (d (as_int (Tdt.MJD t))) +:+
  date_text t +:+ banner "TDT".

Definition infos_text (dsc : Tot.LocalTimeOffsetDescriptor) : string :=
  texts info_text 0 (take (Z.to_nat (Tot.numberOfInfos dsc)) (Tot.ltoInfo dsc)).

Definition tot_text (t : Tot.TotTable) : string :=
  banner "TOT" +:+ tot_header_text t +:+
  texts (fun i dsc => descriptor_text i dsc (infos_text dsc)) 0
    (take (Z.to_nat (Tot.descriptorsCount t)) (Tot.descriptors t)) +:+ banner "TOT".

Lemma printTotTable_text t :
  Tot.table_wf t -> Tot.infos_fit t -> 0 <= Tot.descriptorsCount t <= 20 ->
  printTotTable (Some t) = Val (TABLES_PARSE_OK, tot_text t).
Proof.
  intros [Hl Hw] Hf Hc. unfold printTotTable, print_checked, printTotTable_body.
  rewrite (print_for_list (fun i dsc => descriptor_text i dsc (infos_text dsc)) (Tot.descriptors t));
    [reflexivity | lia | lia |].
  intros k dsc _ Hk. unfold print_descriptor. rewrite (rd_nat _ k dsc Hk), bind_val.
  destruct (Forall_lookup_1 _ _ _ _ Hw Hk) as [Hi _].
  pose proof (Forall_lookup_1 _ _ _ _ Hf Hk) as Hn. cbv beta in Hn.
  rewrite (print_for_list info_text (Tot.ltoInfo dsc)); [reflexivity | lia | lia |].
  intros j e _ Hj. rewrite (rd_nat _ j e Hj), bind_val. reflexivity.
Qed.

Lemma month_name_valid m : 1 <= m <= 12 -> exists name, month_name m = Some name.
Proof. intros Hm. Cal.months m; eexists; reflexivity. Qed.

Lemma hu_d n : 0 <= n < 65536 -> hu n = d n.
Proof.
  intros Hn. unfold hu, d. rewrite u16_small, (proj2 (Z.ltb_ge _ _)) by lia. reflexivity.
Qed.

(** ** Properties *)

(** C23: For every table that the parsers keep, printPatTable and printPmtTable succeed
    within the arrays, and the numbers in their text are, in order, the header fields and
    the fields of every entry that counts. *)
Theorem printed_tables_read_back (t : Pat.PatTable) (u : Pmt.PmtTable) :
  Pat.table_wf t -> Pmt.table_wf u ->
  (exists text, printPatTable (Some t) = Val (TABLES_PARSE_OK, text) /\ shown text = pat_shown t) /\
  (exists text, printPmtTable (Some u) = Val (TABLES_PARSE_OK, text) /\ shown text = pmt_shown u).
Proof.
  intros Ht Hu. split.
  - exists (pat_text t). split; [apply printPatTable_text, Ht | apply pat_text_shown, Ht].
  - exists (pmt_text u). split; [apply printPmtTable_text, Hu | apply pmt_text_shown, Hu].
Qed.

(** C24: After parseTotTable gave a result, for any section of ten bytes or more,
    printTotTable stays within the arrays of descriptors and of countries and prints exactly
    the entries that count; the table stays printable for the next section. *)
Theorem received_tot_prints (b : bytes) (t t' : Tot.TotTable) (c : ParseErrorCode) :
  is_bytes b -> 10 <= Z.of_nat (length b) -> Tot.table_wf t -> Tot.infos_fit t ->
  Tot.parseTotTable (Some b) (Some t) = Val (c, Some t') ->
  Tot.table_wf t' /\ Tot.infos_fit t' /\
  printTotTable (Some t') = Val (TABLES_PARSE_OK, tot_text t').
Proof.
  intros Hb Hlen Hw Hf E. rewrite Tot.parseTotTable_walk in E by assumption.
  destruct (Tot.reference_wf b t c t' Hb Hw E) as (-> & Hw' & Hc').
  pose proof (Tot.reference_fits b t _ t' Hb Hf E) as Hf'.
  split; [exact Hw'|]. split; [exact Hf'|]. apply printTotTable_text; assumption.
Qed.

(** For the section of any calendar date from 1 March 1900 on, printTdtTable
    writes the name of the month, the day with the error of the parser, and the
    year. *)
Theorem received_tdt_prints (as_int : Z -> Z) (c : Cal.civil) (time : bytes) (t : Tdt.TdtTable) :
  is_bytes time -> Cal.valid c -> 15079 <= Cal.mjd_of c <= 65535 ->
  exists t' name,
    Tdt.parseTdtTable (Some (Tdt.encode_section (Cal.mjd_of c) time)) (Some t) =
      Val (TABLES_PARSE_OK, Some t') /\
    month_name (Cal.month c) = Some name /\
    date_text t' =
      line "INFO: Time read from stream: "
        (name +:+ "/" +:+ d (Cal.mday c + Tdt.day_error c) +:+ "/" +:+ d (Cal.year c) +:+ " ") /\
    printTdtTable as_int (Some t') = Val (TABLES_PARSE_OK, tdt_text as_int t').
Proof.
  intros Ht Hc Hr. destruct (month_name_valid (Cal.month c) (proj1 (proj2 Hc))) as [name Hn].
  eexists. exists name. split; [apply Tdt.parseTdtTable_mjd; assumption|].
  split; [exact Hn|]. split; [|reflexivity].
  destruct (Tdt.mjd_of_recent c Hc Hr) as [Hy _].
  pose proof (Tdt.day_error_range c Hc) as [_ Hd].
  rewrite Tdt.int_date_civil by assumption. cbv zeta.
  unfold date_text. cbn [Tdt.tmpMonth Tdt.with_date Tdt.d_tmpMonth]. rewrite Hn.
  cbn [Tdt.day Tdt.Year Tdt.with_date Tdt.d_day Tdt.d_Year].
  rewrite !hu_d by lia. reflexivity.
Qed.

(** ** Given tables *)

Definition two_services_table : Pat.PatTable :=
  (Pat.reference Pat.two_section Pat.empty_table).2.
Definition two_streams_table : Pmt.PmtTable :=
  (Pmt.reference Pmt.two_section Pmt.empty_table).2.

Lemma two_services_table_wf : Pat.table_wf two_services_table.
Proof. apply Pat.pat_reference_wf; [apply Pat.pat_two_complete | apply Pat.pat_empty_table_wf]. Qed.
Lemma two_streams_table_wf : Pmt.table_wf two_streams_table.
Proof. apply Pmt.pmt_reference_wf; [apply Pmt.pmt_two_complete | apply Pmt.pmt_empty_table_wf]. Qed.

Lemma printed_tables_read_back_witness :
  (exists text, printPatTable (Some two_services_table) = Val (TABLES_PARSE_OK, text) /\
     shown text = [0; 17; 5; 0; 0; 0; 16; 1001; 4097]) /\
  (exists text, printPmtTable (Some two_streams_table) = Val (TABLES_PARSE_OK, text) /\
     shown text = pmt_shown two_streams_table).
Proof.
  exact (printed_tables_read_back two_services_table two_streams_table
    two_services_table_wf two_streams_table_wf).
Defined.

Definition serbian_section : bytes :=
  Tot.encode_section 28 55094 (18, 69, 0) [Tot.serbia] [1; 2; 3; 4].
Definition serbian_table : Tot.TotTable :=
  match Tot.parseTotTable (Some serbian_section) (Some Tot.empty_table) with
  | Val (_, Some t) => t
  | _ => Tot.empty_table
  end.

Lemma serbian_table_parsed :
  Tot.parseTotTable (Some serbian_section) (Some Tot.empty_table) =
    Val (TABLES_PARSE_OK, Some serbian_table).
Proof. vm_compute. reflexivity. Qed.

Lemma empty_table_fits : Tot.infos_fit Tot.empty_table.
Proof. apply Forall_replicate. cbn. lia. Qed.

(** The country SRB is printed as 535242. *)
Definition serbian_text : string :=
  "counrty code              |        535242".

Lemma serbian_country : line "counrty code              |        "
  (x1 83 +:+ x1 82 +:+ x1 66) = serbian_text +:+ nl.
Proof. reflexivity. Qed.

Lemma received_tot_prints_witness :
  printTotTable (Some serbian_table) = Val (TABLES_PARSE_OK, tot_text serbian_table).
Proof.
  apply (received_tot_prints serbian_section Tot.empty_table serbian_table TABLES_PARSE_OK).
  - is_bytes_tac.
  - vm_compute. discriminate.
  - apply Tot.tot_empty_table_wf.
  - apply empty_table_fits.
  - exact serbian_table_parsed.
Defined.

(** 1 May 2012 is printed as May/0/2012. *)
Lemma received_tdt_prints_witness :
  exists t' name,
    Tdt.parseTdtTable (Some (Tdt.encode_section 56048 [0; 0; 0])) (Some Tdt.no_time) =
      Val (TABLES_PARSE_OK, Some t') /\
    Some "May" = Some name /\
    date_text t' =
      line "INFO: Time read from stream: " (name +:+ "/" +:+ "0" +:+ "/" +:+ "2012" +:+ " ") /\
    printTdtTable i32 (Some t') = Val (TABLES_PARSE_OK, tdt_text i32 t').
Proof.
  apply (received_tdt_prints i32 (Cal.mkCivil 2012 5 1) [0; 0; 0] Tdt.no_time).
  - is_bytes_tac.
  - split; cbn; lia.
  - split; vm_compute; discriminate.
Defined.
End Print.
