(* ===== verification/ConfigFile.v ===== *)
(** * ConfigFile: the configuration file

    [InitialInfo] of stream_controller.h, and loadConfigFile and
    removeWhiteSpaces of stream_controller.c, with what they use of the C
    library: fgets, strtok, strlen, strcmp and atoi over a character array
    whose bytes may be indeterminate. *)

From S2P Require Import Prelude.

(** ** Characters and strings in memory *)

(** An array of [char]: a byte that was never written is [None]. *)
Abbreviation chars := (list (option Z)).

Definition rdc (buf : chars) (i : Z) : res Z :=
  v ← rd buf i;
  match v with Some c => Val c | None => Ub Uninitialized end.

Definition wrc (buf : chars) (i c : Z) : res chars := wr buf i (Some c).

Fixpoint str_at (l : chars) : res bytes :=
  match l with
  | [] => Ub OutOfBounds
  | None :: _ => Ub Uninitialized
  | Some c :: l => if c =? 0 then Val [] else s ← str_at l; Val (c :: s)
  end.

(** The string that starts at position [p] of the array. *)
Definition c_string (buf : chars) (p : Z) : res bytes :=
  if p <? 0 then Ub OutOfBounds else str_at (drop (Z.to_nat p) buf).

Fixpoint bytes_of_string (s : string) : bytes :=
  match s with
  | EmptyString => []
  | String a s => Z.of_N (Ascii.N_of_ascii a) :: bytes_of_string s
  end.

Definition strlen (buf : chars) (p : Z) : res Z :=
  s ← c_string buf p; Val (Z.of_nat (length s)).

(** [strcmp(buf + p, word) == 0] *)
Definition strcmp_eq (buf : chars) (p : Z) (word : string) : res bool :=
  s ← c_string buf p; Val (bool_decide (s = bytes_of_string word)).

Definition isspace (c : Z) : bool := (c =? 32) || ((9 <=? c) && (c <=? 13)).
Definition isdigit (c : Z) : bool := (48 <=? c) && (c <=? 57).

Fixpoint skip_spaces (s : bytes) : bytes :=
  match s with c :: s' => if isspace c then skip_spaces s' else s | [] => [] end.

Fixpoint digits_value (acc : Z) (s : bytes) : Z :=
  match s with
  | c :: s => if isdigit c then digits_value (10 * acc + (c - 48)) s else acc
  | [] => acc
  end.

(** [atoi], undefined when the number is not an [int]. *)
Definition atoi_value (s : bytes) : Z :=
  match skip_spaces s with
  | c :: s' =>
      if c =? 45 then - digits_value 0 s'
      else if c =? 43 then digits_value 0 s'
      else digits_value 0 (c :: s')
  | [] => 0
  end.

Definition atoi (buf : chars) (p : Z) : res Z :=
  s ← c_string buf p;
  let v := atoi_value s in
  if (-2147483648 <=? v) && (v <? 2147483648) then Val v else Ub IntOverflow.

(** The first line of [content], with its newline, cut at [n] characters. *)
Fixpoint line_of (n : nat) (content : bytes) : bytes * bytes :=
  match n, content with
  | S n, c :: rest =>
      if c =? 10 then ([c], rest)
      else let '(l, r) := line_of n rest in (c :: l, r)
  | _, _ => ([], content)
  end.

(** [fgets(buf, size, file)] with [content] left to read: [None] at the end of
    the file, else the array and what is left. *)
Definition fgets (buf : chars) (size : nat) (content : bytes) : option (chars * bytes) :=
  match content with
  | [] => None
  | _ =>
      let '(l, rest) := line_of (size - 1) content in
      Some (map Some l ++ Some 0 :: drop (length l + 1) buf, rest)
  end.

Definition dash : Z := 45.

Fixpoint skip_dashes (s : bytes) : bytes :=
  match s with c :: s' => if c =? dash then skip_dashes s' else s | [] => [] end.
Fixpoint until_dash (s : bytes) : bytes :=
  match s with c :: s' => if c =? dash then [] else c :: until_dash s' | [] => [] end.

(** The search of [strtok(..., dash)] from position [p]: the array with the
    end of the token marked, the token ([None] for a null pointer) and the
    position the next call starts from. *)
Definition strtok (buf : chars) (p : Z) : res (chars * option Z * Z) :=
  s ← c_string buf p;
  let rest := skip_dashes s in
  let start := p + Z.of_nat (length s - length rest) in
  match rest with
  | [] => Val (buf, None, start)
  | _ =>
      let tok := until_dash rest in
      let stop := start + Z.of_nat (length tok) in
      if (length tok <? length rest)%nat then
        buf ← wrc buf stop 0;
        Val (buf, Some start, stop + 1)
      else Val (buf, Some start, stop)
  end.

(** ** removeWhiteSpaces *)

Definition skip_front (buf : chars) (word i : Z) : res (ctl Z Z) :=
  c ← rdc buf (word + i);
  if c =? 32 then Val (Next (i + 1)) else Val (Stop i).

Definition skip_back (buf : chars) (word k : Z) : res (ctl Z Z) :=
  c ← rdc buf (word + k);
  if (c =? 32) && negb (c =? 0) then Val (Next (k - 1)) else Val (Stop k).

Definition move_step (word i k : Z) (s : Z * chars) : res (ctl (Z * chars) chars) :=
  let '(j, buf) := s in
  if j <? k - i then
    c ← rdc buf (word + (j + i));
    buf ← wrc buf (word + j) c;
    Val (Next (j + 1, buf))
  else Val (Stop buf).

(** The loops go through the array, once each. *)
Definition removeWhiteSpaces (buf : chars) (word : option Z) : res chars :=
  match word with
  | None => Ub NullDeref
  | Some word =>
      stringLen ← strlen buf word;
      let fuel := (length buf + 2)%nat in
      i ← loop fuel (skip_front buf word) 0;
      k ← loop fuel (skip_back buf word) (stringLen - 1);
      buf ← loop fuel (move_step word i k) (0, buf);
      wrc buf (word + (k - i + 1)) 0
  end.

(** ** What the functions do *)

Definition blanks (n : nat) : bytes := replicate n 32.

(** The array holds the string [s] at position [p]. *)
Definition holds (buf : chars) (p : Z) (s : bytes) : Prop :=
  exists pre post, buf = pre ++ map Some s ++ Some 0 :: post /\
    p = Z.of_nat (length pre) /\ Forall (fun c => c <> 0) s.

Lemma str_at_app s post :
  Forall (fun c => c <> 0) s -> str_at (map Some s ++ Some 0 :: post) = Val s.
Proof.
  induction 1 as [|c s Hc Hs IH]; [reflexivity|]. simpl.
  rewrite (proj2 (Z.eqb_neq _ _)) by assumption. rewrite IH. reflexivity.
Qed.

Lemma c_string_holds buf p s : holds buf p s -> c_string buf p = Val s.
Proof.
  intros (pre & post & -> & -> & Hs). unfold c_string.
  destruct (Z.ltb_spec (Z.of_nat (length pre)) 0); [lia|].
  rewrite Nat2Z.id, drop_app_length. apply str_at_app. assumption.
Qed.

Lemma rdc_some buf i c : 0 <= i -> buf !! Z.to_nat i = Some (Some c) -> rdc buf i = Val c.
Proof. intros Hi H. unfold rdc. rewrite (rd_some buf i _ Hi H). reflexivity. Qed.

(** A cell of the string, the final null included. *)
Lemma holds_lookup buf p s j c :
  holds buf p s -> (s ++ [0]) !! j = Some c -> buf !! (Z.to_nat p + j)%nat = Some (Some c).
Proof.
  intros (pre & post & -> & -> & _) Hj. rewrite Nat2Z.id, lookup_app_r by lia.
  replace (length pre + j - length pre)%nat with j by lia.
  change (Some 0 :: post) with (map Some [0] ++ post). rewrite app_assoc, <- map_app.
  rewrite lookup_app_l by (rewrite length_map; eapply lookup_lt_Some; eassumption).
  rewrite list_lookup_fmap, Hj. reflexivity.
Qed.

Lemma holds_nonneg buf p s : holds buf p s -> 0 <= p.
Proof. intros (pre & post & _ & -> & _). lia. Qed.

Lemma holds_length buf p s :
  holds buf p s -> p + Z.of_nat (length s) < Z.of_nat (length buf).
Proof.
  intros (pre & post & -> & -> & _). rewrite !length_app, length_map. simpl. lia.
Qed.

Lemma rdc_holds buf p s j c :
  holds buf p s -> (s ++ [0]) !! j = Some c -> rdc buf (p + Z.of_nat j) = Val c.
Proof.
  intros H Hj. pose proof (holds_nonneg _ _ _ H). apply rdc_some; [lia|].
  replace (Z.to_nat (p + Z.of_nat j)) with (Z.to_nat p + j)%nat by lia.
  eapply holds_lookup; eassumption.
Qed.

Lemma wrc_val buf i c :
  0 <= i < Z.of_nat (length buf) -> wrc buf i c = Val (<[Z.to_nat i := Some c]> buf).
Proof. intros. apply wr_val. assumption. Qed.

(** A string seen from its cells. *)
Lemma holds_from_cells buf p s :
  0 <= p -> Forall (fun c => c <> 0) s ->
  (forall j c, (s ++ [0]) !! j = Some c -> buf !! (Z.to_nat p + j)%nat = Some (Some c)) ->
  holds buf p s.
Proof.
  intros Hp Hs H. set (n := length s).
  assert (E : take (n + 1) (drop (Z.to_nat p) buf) = map Some (s ++ [0])).
  { apply list_eq. intros j. rewrite list_lookup_fmap.
    destruct ((s ++ [0]) !! j) as [c|] eqn:Ej.
    - rewrite lookup_take_lt, lookup_drop by
        (apply lookup_lt_Some in Ej; rewrite length_app in Ej; simpl in Ej; lia).
      apply H. assumption.
    - apply lookup_ge_None in Ej. rewrite length_app in Ej. simpl in Ej.
      apply lookup_take_ge. lia. }
  exists (take (Z.to_nat p) buf), (drop (n + 1) (drop (Z.to_nat p) buf)).
  split; [|split; [|assumption]].
  - rewrite <- (take_drop (Z.to_nat p) buf) at 1. f_equal.
    rewrite <- (take_drop (n + 1) (drop (Z.to_nat p) buf)) at 1.
    rewrite E, map_app, <- app_assoc. reflexivity.
  - rewrite length_take.
    assert (H0 : exists c, (s ++ [0]) !! 0%nat = Some c)
      by (destruct s; simpl; eauto). destruct H0 as [c Hc].
    apply H, lookup_lt_Some in Hc. lia.
Qed.

(** *** removeWhiteSpaces

    The string is [i] blanks, a core that starts and ends with another
    character, and [m] blanks. The last character of the core is not moved:
    the cell it should go to keeps what it held. *)

Definition unmoved (i : nat) (core : bytes) : Z :=
  let n := (length core - 1)%nat in
  if (n <? i)%nat then 32 else nth (n - i) core 0.

Definition squeezed (i : nat) (core : bytes) : bytes :=
  take (length core - 1) core ++ [unmoved i core].
Arguments squeezed : simpl never.

Record core_wf (core : bytes) : Prop := {
  co_zero : Forall (fun c => c <> 0) core;
  co_first : exists c l, core = c :: l /\ c <> 32;
  co_last : exists l c, core = l ++ [c] /\ c <> 32 }.

Section Squeeze.
Context (buf : chars) (p : Z) (i m : nat) (core : bytes).
Hypothesis Hcore : core_wf core.
Let s := blanks i ++ core ++ blanks m.
Hypothesis Hs : holds buf p s.

Let n := (length core - 1)%nat.

Lemma core_length : length core = S n.
Proof.
  destruct (co_first _ Hcore) as (c & l & -> & _). unfold n. simpl. lia.
Qed.

Lemma length_s : length s = (i + S n + m)%nat.
Proof.
  unfold s, blanks. rewrite !length_app, !length_replicate, core_length. lia.
Qed.

Lemma lookup_core j c : core !! j = Some c -> (s ++ [0]) !! (i + j)%nat = Some c.
Proof.
  intros Hj. unfold s. rewrite <- !app_assoc, lookup_app_r; unfold blanks;
    rewrite length_replicate; [|lia].
  replace (i + j - i)%nat with j by lia.
  rewrite lookup_app_l; [assumption | eapply lookup_lt_Some; eassumption].
Qed.

Lemma lookup_blank_front j : (j < i)%nat -> (s ++ [0]) !! j = Some 32.
Proof.
  intros Hj. unfold s, blanks. rewrite <- app_assoc, lookup_app_l
    by (rewrite length_replicate; lia).
  apply lookup_replicate_2. assumption.
Qed.

Lemma lookup_blank_back j :
  (i + n < j)%nat -> (j < length s)%nat -> (s ++ [0]) !! j = Some 32.
Proof.
  intros Hj Hl. rewrite length_s in Hl. unfold s, blanks.
  rewrite <- !app_assoc, lookup_app_r by (rewrite length_replicate; lia).
  rewrite length_replicate, lookup_app_r by (rewrite core_length; lia).
  rewrite core_length, lookup_app_l by (rewrite length_replicate; lia).
  apply lookup_replicate_2. lia.
Qed.

Lemma lookup_first : exists c, (s ++ [0]) !! i = Some c /\ c <> 32.
Proof.
  destruct (co_first _ Hcore) as (c & l & E & Hc). exists c. split; [|assumption].
  rewrite <- (Nat.add_0_r i). apply lookup_core. rewrite E. reflexivity.
Qed.

Lemma lookup_last : exists c, (s ++ [0]) !! (i + n)%nat = Some c /\ c <> 32.
Proof.
  destruct (co_last _ Hcore) as (l & c & E & Hc). exists c. split; [|assumption].
  apply lookup_core. unfold n. rewrite E, length_app. simpl.
  rewrite lookup_app_r by lia. replace (length l + 1 - 1 - length l)%nat with 0%nat by lia.
  reflexivity.
Qed.

Lemma skip_front_loop fuel j :
  (j <= i)%nat ->
  loop (i - j + S fuel) (skip_front buf p) (Z.of_nat j) = Val (Z.of_nat i).
Proof.
  intros Hj. remember (i - j)%nat as d eqn:Hd. revert j Hj Hd.
  induction d as [|d IH]; intros j Hj Hd; simpl Nat.add.
  - replace j with i by lia. destruct lookup_first as (c & Hc & Hne).
    apply loop_stop. unfold skip_front. rewrite (rdc_holds _ _ _ _ _ Hs Hc), bind_val.
    rewrite (proj2 (Z.eqb_neq _ _)) by assumption. reflexivity.
  - rewrite loop_next with (s' := Z.of_nat (S j)); [apply IH; lia|].
    unfold skip_front. rewrite (rdc_holds _ _ _ _ _ Hs (lookup_blank_front j ltac:(lia))).
    rewrite bind_val. simpl. do 2 f_equal. lia.
Qed.

Lemma skip_back_loop fuel d :
  (d <= m)%nat ->
  loop (d + S fuel) (skip_back buf p) (Z.of_nat (i + n + d)) = Val (Z.of_nat (i + n)).
Proof.
  induction d as [|d IH]; intros Hd; simpl Nat.add.
  - rewrite Nat.add_0_r. destruct lookup_last as (c & Hc & Hne).
    apply loop_stop. unfold skip_back. rewrite (rdc_holds _ _ _ _ _ Hs Hc), bind_val.
    rewrite (proj2 (Z.eqb_neq _ _)) by assumption. reflexivity.
  - rewrite loop_next with (s' := Z.of_nat (i + n + d)); [apply IH; lia|].
    unfold skip_back.
    rewrite (rdc_holds _ _ _ _ _ Hs
               (lookup_blank_back (i + n + S d) ltac:(lia) ltac:(rewrite length_s; lia))).
    rewrite bind_val. simpl. do 2 f_equal. lia.
Qed.
(** The array after [j] characters have been moved. *)
Definition moved (j : nat) (b : chars) : Prop :=
  length b = length buf /\
  (forall x, (Z.to_nat p <= x < Z.to_nat p + j)%nat -> b !! x = buf !! (x + i)%nat) /\
  (forall x, (x < Z.to_nat p \/ Z.to_nat p + j <= x)%nat -> b !! x = buf !! x).

Lemma move_step_moved j b :
  (j < n)%nat -> moved j b ->
  exists b', move_step p (Z.of_nat i) (Z.of_nat (i + n)) (Z.of_nat j, b) =
    Val (Next (Z.of_nat (S j), b')) /\ moved (S j) b'.
Proof.
  intros Hj (Hl & Hin & Hout). pose proof (holds_nonneg _ _ _ Hs) as Hp.
  pose proof (holds_length _ _ _ Hs) as Hlen. rewrite length_s in Hlen.
  destruct (lookup_lt_is_Some_2 core (j) ltac:(rewrite core_length; lia)) as [c Hc].
  pose proof (holds_lookup _ _ _ _ _ Hs (lookup_core _ _ Hc)) as Hb.
  unfold move_step. rewrite (proj2 (Z.ltb_lt _ _)) by lia.
  rewrite (rdc_some b _ c); [|lia|].
  2:{ rewrite Hout by lia. rewrite <- Hb. f_equal. lia. }
  rewrite bind_val, wrc_val, bind_val by lia. eexists. split.
  { do 2 f_equal. f_equal. lia. }
  replace (Z.to_nat (p + Z.of_nat j)) with (Z.to_nat p + j)%nat by lia.
  split; [rewrite length_insert; assumption|]. split; intros x Hx.
  - destruct (Nat.eq_dec x (Z.to_nat p + j)) as [->|Hne].
    + rewrite list_lookup_insert_eq by lia. rewrite <- Hb. f_equal. lia.
    + rewrite list_lookup_insert_ne by lia. apply Hin. lia.
  - rewrite list_lookup_insert_ne by lia. apply Hout. lia.
Qed.

Lemma move_loop fuel d j b :
  (j + d)%nat = n -> moved j b ->
  exists b', loop (d + S fuel) (move_step p (Z.of_nat i) (Z.of_nat (i + n))) (Z.of_nat j, b) =
    Val b' /\ moved n b'.
Proof.
  revert j b. induction d as [|d IH]; intros j b Hj Hm; simpl Nat.add.
  - exists b. replace n with j by lia. split; [|assumption].
    apply loop_stop. unfold move_step. rewrite (proj2 (Z.ltb_ge _ _)) by lia. reflexivity.
  - destruct (move_step_moved j b ltac:(lia) Hm) as (b' & E & Hm').
    rewrite (loop_next _ _ _ _ E). apply IH; [lia | assumption].
Qed.

Lemma unmoved_cell : (s ++ [0]) !! n = Some (unmoved i core).
Proof.
  unfold unmoved. fold n. destruct (Nat.ltb_spec n i).
  - apply lookup_blank_front. assumption.
  - destruct (lookup_lt_is_Some_2 core (n - i) ltac:(rewrite core_length; lia)) as [c Hc].
    rewrite nth_lookup, Hc. simpl. rewrite <- (lookup_core _ _ Hc). f_equal. lia.
Qed.

Lemma squeezed_lookup_front j : (j < n)%nat -> squeezed i core !! j = core !! j.
Proof.
  intros Hj. unfold squeezed. fold n.
  rewrite lookup_app_l by (rewrite length_take, core_length; lia).
  apply lookup_take_lt. assumption.
Qed.

Lemma length_squeezed : length (squeezed i core) = S n.
Proof. unfold squeezed. fold n. rewrite length_app, length_take, core_length. simpl. lia. Qed.

Lemma squeezed_lookup_last : squeezed i core !! n = Some (unmoved i core).
Proof.
  unfold squeezed. fold n. rewrite lookup_app_r by (rewrite length_take; lia).
  rewrite length_take, core_length. replace (n - n `min` S n)%nat with 0%nat by lia.
  reflexivity.
Qed.

Lemma squeezed_nonzero : Forall (fun c => c <> 0) (squeezed i core).
Proof.
  pose proof (co_zero _ Hcore) as Hz. apply Forall_app_2; [apply Forall_take; assumption|].
  apply Forall_singleton. unfold unmoved. fold n. destruct (Nat.ltb_spec n i); [lia|].
  destruct (lookup_lt_is_Some_2 core (n - i) ltac:(rewrite core_length; lia)) as [c Hc].
  rewrite nth_lookup, Hc. exact (Forall_lookup_1 _ _ _ _ Hz Hc).
Qed.

Lemma removeWhiteSpaces_holds :
  exists b', removeWhiteSpaces buf (Some p) = Val b' /\
    holds b' p (squeezed i core) /\ length b' = length buf /\
    (forall x, (x < Z.to_nat p \/ Z.to_nat p + length s <= x)%nat -> b' !! x = buf !! x).
Proof.
  pose proof (holds_nonneg _ _ _ Hs) as Hp. pose proof (holds_length _ _ _ Hs) as Hlen.
  unfold removeWhiteSpaces, strlen. rewrite (c_string_holds _ _ _ Hs), !bind_val.
  fold s. rewrite length_s in Hlen |- *. cbv zeta.
  pose proof (skip_front_loop (length buf + 1 - i) 0 ltac:(lia)) as F.
  replace (i - 0 + S (length buf + 1 - i))%nat with (length buf + 2)%nat in F by lia.
  change (Z.of_nat 0) with 0 in F. rewrite F, bind_val. clear F.
  pose proof (skip_back_loop (length buf + 1 - m) m ltac:(lia)) as F.
  replace (m + S (length buf + 1 - m))%nat with (length buf + 2)%nat in F by lia.
  replace (Z.of_nat (i + S n + m) - 1) with (Z.of_nat (i + n + m)) by lia.
  rewrite F, bind_val. clear F.
  replace (length buf + 2)%nat with (n + S (length buf + 1 - n))%nat by lia.
  change (0, buf) with (Z.of_nat 0, buf).
  destruct (move_loop (length buf + 1 - n) n 0 buf eq_refl) as (b & -> & Hl & Hin & Hout).
  { split; [reflexivity|]. split; intros; [lia | reflexivity]. }
  rewrite bind_val, wrc_val by lia. eexists. split; [reflexivity|].
  replace (Z.to_nat (p + (Z.of_nat (i + n) - Z.of_nat i + 1)))
    with (Z.to_nat p + S n)%nat by lia.
  split; [|split; [rewrite length_insert; assumption|]].
  - apply holds_from_cells; [assumption | apply squeezed_nonzero |]. intros j c Hj.
    assert (Hj' : (j <= S n)%nat).
    { apply lookup_lt_Some in Hj. rewrite length_app, length_squeezed in Hj. simpl in Hj. lia. }
    destruct (Nat.eq_dec j (S n)) as [->|Hne].
    { rewrite lookup_app_r, length_squeezed, Nat.sub_diag in Hj
        by (rewrite length_squeezed; lia).
      injection Hj as <-. apply list_lookup_insert_eq. lia. }
    rewrite lookup_app_l in Hj by (rewrite length_squeezed; lia).
    rewrite list_lookup_insert_ne by lia.
    destruct (Nat.eq_dec j n) as [->|Hne'].
    + rewrite squeezed_lookup_last in Hj. injection Hj as <-. rewrite Hout by lia.
      apply (holds_lookup _ _ _ _ _ Hs unmoved_cell).
    + rewrite squeezed_lookup_front in Hj by lia. rewrite Hin by lia.
      rewrite <- (holds_lookup _ _ _ _ _ Hs (lookup_core _ _ Hj)). f_equal. lia.
  - intros x Hx. destruct (Nat.eq_dec x (Z.to_nat p + S n)) as [->|Hne].
    + assert (i = 0 /\ m = 0)%nat as [Ei Em] by lia.
      rewrite list_lookup_insert_eq by lia. symmetry.
      apply (holds_lookup _ _ _ _ _ Hs). fold s.
      rewrite lookup_app_r by (rewrite length_s; lia). rewrite length_s.
      replace (S n - (i + S n + m))%nat with 0%nat by lia. reflexivity.
    + rewrite list_lookup_insert_ne by lia. apply Hout. lia.
Qed.
End Squeeze.

(** *** fgets and strtok *)

Lemma line_of_newline l rest n :
  Forall (fun c => c <> 10) l -> (length l < n)%nat ->
  line_of n (l ++ 10 :: rest) = (l ++ [10], rest).
Proof.
  intros Hl. revert n.
  induction Hl as [|c l Hc Hl IH]; intros [|n] Hn; simpl in *; try lia; [reflexivity|].
  rewrite (proj2 (Z.eqb_neq _ _)) by assumption. rewrite IH by lia. reflexivity.
Qed.

Lemma fgets_line buf size l rest :
  Forall (fun c => c <> 10 /\ c <> 0) l -> (length l + 2 <= size)%nat -> length buf = size ->
  exists buf', fgets buf size (l ++ 10 :: rest) = Some (buf', rest) /\
    holds buf' 0 (l ++ [10]) /\ length buf' = size.
Proof.
  intros Hl Hn Hb. unfold fgets.
  rewrite line_of_newline by first [lia | eapply Forall_impl; [|exact Hl]; simpl; tauto].
  assert (E : exists c l', l ++ 10 :: rest = c :: l') by (destruct l; simpl; eauto).
  destruct E as (c & l' & ->). eexists. split; [reflexivity|]. split.
  - exists [], (drop (length (l ++ [10]) + 1) buf). split; [reflexivity|]. split; [reflexivity|].
    apply Forall_app_2; [|apply Forall_singleton; lia].
    eapply Forall_impl; [|exact Hl]. simpl. tauto.
  - rewrite length_app, length_map. cbn [length].
    rewrite length_drop, length_app. simpl. lia.
Qed.

Lemma holds_frame buf b' p s :
  holds buf p s ->
  (forall x, (Z.to_nat p <= x)%nat -> b' !! x = buf !! x) -> holds b' p s.
Proof.
  intros H Hx. pose proof H as (pre & post & _ & Ep & Hs).
  apply holds_from_cells; [lia | assumption |].
  intros j c Hj. rewrite Hx by lia. eapply holds_lookup; eassumption.
Qed.

Lemma skip_dashes_none s c l : s = c :: l -> c <> dash -> skip_dashes s = s.
Proof. intros -> Hc. simpl. rewrite (proj2 (Z.eqb_neq _ _)) by assumption. reflexivity. Qed.

Lemma until_dash_app x y : Forall (fun c => c <> dash) x -> until_dash (x ++ dash :: y) = x.
Proof.
  induction 1 as [|c x Hc Hx IH]; simpl; [reflexivity|].
  rewrite (proj2 (Z.eqb_neq _ _)) by assumption. rewrite IH. reflexivity.
Qed.

Lemma until_dash_all x : Forall (fun c => c <> dash) x -> until_dash x = x.
Proof.
  induction 1 as [|c x Hc Hx IH]; simpl; [reflexivity|].
  rewrite (proj2 (Z.eqb_neq _ _)) by assumption. rewrite IH. reflexivity.
Qed.

(** A word and the rest of the line behind a dash. *)
Lemma strtok_dash buf p x y :
  holds buf p (x ++ dash :: y) -> x <> [] -> Forall (fun c => c <> dash) x ->
  exists buf', strtok buf p = Val (buf', Some p, p + Z.of_nat (length x) + 1) /\
    holds buf' p x /\ holds buf' (p + Z.of_nat (length x) + 1) y /\ length buf' = length buf.
Proof.
  intros H Hne Hx. unfold strtok. rewrite (c_string_holds _ _ _ H), bind_val.
  destruct x as [|c x]; [congruence|]. pose proof (Forall_inv Hx) as Hc. simpl in Hc.
  rewrite (skip_dashes_none _ c (x ++ dash :: y)) by (reflexivity || assumption).
  rewrite until_dash_app by assumption. cbv zeta. cbn [app]. cbv iota.
  change (c :: x ++ dash :: y) with ((c :: x) ++ dash :: y). set (w := c :: x) in *.
  rewrite Nat.sub_diag. simpl (Z.of_nat 0). rewrite Z.add_0_r.
  assert (Hlt : (length w < length (w ++ dash :: y))%nat) by (rewrite length_app; simpl; lia).
  rewrite (proj2 (Nat.ltb_lt _ _) Hlt).
  destruct H as (pre & post & -> & -> & Hz). apply Forall_app in Hz as [Hzx Hzy].
  rewrite wrc_val by (rewrite !length_app, length_map, length_app; simpl; lia).
  rewrite bind_val. eexists. split; [reflexivity|].
  replace (Z.to_nat (Z.of_nat (length pre) + Z.of_nat (length w)))
    with (length pre + length (map (@Some Z) w))%nat by (rewrite length_map; lia).
  rewrite map_app, <- app_assoc. cbn [map app].
  rewrite insert_app_r, <- (Nat.add_0_r (length (map _ w))), insert_app_r. cbn [insert list_insert].
  split; [|split].
  - exists pre, (map Some y ++ Some 0 :: post). auto.
  - exists (pre ++ map Some w ++ [Some 0]), post. split; [|split].
    + rewrite <- !app_assoc. reflexivity.
    + rewrite !length_app, length_map. simpl. lia.
    + exact (Forall_inv_tail Hzy).
  - rewrite !length_app. simpl. rewrite !length_app. reflexivity.
Qed.

(** The last word of the line. *)
Lemma strtok_last buf p x :
  holds buf p x -> x <> [] -> Forall (fun c => c <> dash) x ->
  strtok buf p = Val (buf, Some p, p + Z.of_nat (length x)).
Proof.
  intros H Hne Hx. unfold strtok. rewrite (c_string_holds _ _ _ H), bind_val.
  destruct x as [|c x]; [congruence|]. pose proof (Forall_inv Hx) as Hc. simpl in Hc.
  rewrite (skip_dashes_none _ c x) by (reflexivity || assumption). cbv zeta iota.
  rewrite until_dash_all by assumption. rewrite (proj2 (Nat.ltb_ge _ _)) by lia.
  rewrite Nat.sub_diag. simpl (Z.of_nat 0). rewrite Z.add_0_r. reflexivity.
Qed.

(** ** loadConfigFile *)

Inductive StreamControllerError := SC_NO_ERROR | SC_ERROR | SC_THREAD_ERROR.

#[export] Instance StreamControllerError_eq_dec : EqDecision StreamControllerError.
Proof. solve_decision. Defined.

Module Config.
Record InitialInfo := mkInitialInfo {
  tuneFrequency : Z;
  tuneBandwidth : Z;
  programNumber : Z;
  tuneModule : Z }.

Definition set_frequency (v : Z) (c : InitialInfo) : InitialInfo :=
  mkInitialInfo v (tuneBandwidth c) (programNumber c) (tuneModule c).
Definition set_bandwidth (v : Z) (c : InitialInfo) : InitialInfo :=
  mkInitialInfo (tuneFrequency c) v (programNumber c) (tuneModule c).
Definition set_program (v : Z) (c : InitialInfo) : InitialInfo :=
  mkInitialInfo (tuneFrequency c) (tuneBandwidth c) v (tuneModule c).
Definition set_module (v : Z) (c : InitialInfo) : InitialInfo :=
  mkInitialInfo (tuneFrequency c) (tuneBandwidth c) (programNumber c) v.

(** What a call of loadConfigFile leaves: its return value, the info, and
    whether the file it opened is still open. *)
Record outcome := mkOutcome {
  error : StreamControllerError;
  info : InitialInfo;
  still_open : bool }.

Definition LINE_LENGTH : nat := 100.

Section Load.
(** The enumerator of the tuner library for the standard of the program. *)
Context (DVB_T : Z).

(** The locals of the loop: [singleLine], what is left of the file, and
    [*configInfo]. *)
Definition load_state : Type := chars * bytes * InitialInfo.

(** [singleWord = strtok(NULL, dash); removeWhiteSpaces(singleWord);] *)
Definition next_word (buf : chars) (save : Z) : res (chars * Z) :=
  '(buf, word, _) ← strtok buf save;
  buf ← removeWhiteSpaces buf word;
  match word with Some w => Val (buf, w) | None => Ub NullDeref end.

(** The body of the loop, with the line read. *)
Definition load_line (buf : chars) (rest : bytes) (c : InitialInfo)
    : res (ctl load_state outcome) :=
  '(buf, word, save) ← strtok buf 0;
  buf ← removeWhiteSpaces buf word;
  singleWord ← match word with Some w => Val w | None => Ub NullDeref end;
  is_frequency ← strcmp_eq buf singleWord "frequency";
  is_bandwidth ← strcmp_eq buf singleWord "bandwidth";
  is_module ← strcmp_eq buf singleWord "module";
  is_program ← strcmp_eq buf singleWord "program_number";
  if is_frequency : bool then
    '(buf, value) ← next_word buf save;
    n ← atoi buf value;
    Val (Next (buf, rest, set_frequency (u32 n) c))
  else if is_bandwidth : bool then
    '(buf, value) ← next_word buf save;
    n ← atoi buf value;
    Val (Next (buf, rest, set_bandwidth (u32 n) c))
  else if is_module : bool then
    '(buf, value) ← next_word buf save;
    same ← strcmp_eq buf value "DVB_T";
    if negb same then Val (Next (buf, rest, set_module DVB_T c))
    else Val (Stop (mkOutcome SC_ERROR c true))
  else if is_program : bool then
    '(buf, value) ← next_word buf save;
    n ← atoi buf value;
    Val (Next (buf, rest, set_program (u32 n) c))
  else Val (Next (buf, rest, c)).

Definition load_step (s : load_state) : res (ctl load_state outcome) :=
  let '(singleLine, content, c) := s in
  match fgets singleLine LINE_LENGTH content with
  | None => Val (Stop (mkOutcome SC_NO_ERROR c false))
  | Some (singleLine, rest) => load_line singleLine rest c
  end.

(** [file] is what opening the file gives: nothing, or its content. Each
    pass reads at least one character of it. *)
Definition loadConfigFile (file : option bytes) (configInfo : InitialInfo) : res outcome :=
  match file with
  | None => Val (mkOutcome SC_ERROR configInfo false)
  | Some content =>
      loop (S (length content)) load_step
        (replicate LINE_LENGTH None, content, configInfo)
  end.
End Load.

(** ** Lines of the form [key - value] *)

(** [key], [a] blanks, a dash, [b] blanks, [value], which ends in the newline. *)
Definition key_line (key : bytes) (a b : nat) (value : bytes) : bytes :=
  key ++ blanks a ++ [dash] ++ blanks b ++ value.

(** A value: no null, no dash, no newline before its end, not blank in front. *)
Definition plain (s : bytes) : Prop := Forall (fun c => c <> 10 /\ c <> 0 /\ c <> dash) s.

Lemma core_wf_key key : key <> [] -> Forall (fun c => 33 <= c) key -> core_wf key.
Proof.
  intros Hne Hk. split.
  - eapply Forall_impl; [|exact Hk]. simpl. lia.
  - destruct key as [|c l]; [congruence|]. exists c, l. split; [reflexivity|].
    pose proof (Forall_inv Hk). simpl in *. lia.
  - destruct (exists_last Hne) as (l & c & ->). exists l, c. split; [reflexivity|].
    apply Forall_app in Hk as [_ Hk]. pose proof (Forall_inv Hk). simpl in *. lia.
Qed.

Lemma core_wf_value text :
  plain text -> (exists c l, text = c :: l /\ c <> 32) -> core_wf (text ++ [10]).
Proof.
  intros Ht (c & l & -> & Hc). split.
  - apply Forall_app_2; [|apply Forall_singleton; lia].
    eapply Forall_impl; [|exact Ht]. simpl. tauto.
  - exists c, (l ++ [10]). auto.
  - exists (c :: l), 10. split; [reflexivity | lia].
Qed.

Lemma squeezed_0 core : core_wf core -> squeezed 0 core = core.
Proof.
  intros Hc. destruct (co_last _ Hc) as (l & c & -> & _). unfold squeezed, unmoved.
  rewrite length_app. simpl. rewrite Nat.add_sub, Nat.sub_0_r, take_app_length.
  rewrite nth_middle. reflexivity.
Qed.

Lemma plain_no_dash s : plain s -> Forall (fun c => c <> dash) s.
Proof. intros H. eapply Forall_impl; [|exact H]. simpl. tauto. Qed.

Lemma blanks_no_dash n : Forall (fun c => c <> dash) (blanks n).
Proof. apply Forall_replicate. unfold dash. lia. Qed.

Lemma key_no_dash key : Forall (fun c => 33 <= c /\ c <> dash) key -> Forall (fun c => c <> dash) key.
Proof. intros H. eapply Forall_impl; [|exact H]. simpl. tauto. Qed.

Section Lines.
Context (DVB_T : Z) (buf : chars) (key : bytes) (a b : nat) (text : bytes).
Hypothesis Hkey : key <> [].
Hypothesis Hkeyc : Forall (fun c => 33 <= c /\ c <> dash) key.
Hypothesis Htext : plain text.
Hypothesis Hfirst : exists c l, text = c :: l /\ c <> 32.
Hypothesis Hbuf : holds buf 0 (key_line key a b (text ++ [10])).

Let save := Z.of_nat (length (key ++ blanks a)) + 1.

(** The first word of the line is the key. *)
Lemma first_word :
  exists buf1 buf2,
    strtok buf 0 = Val (buf1, Some 0, save) /\
    removeWhiteSpaces buf1 (Some 0) = Val buf2 /\
    holds buf2 0 key /\ holds buf2 save (blanks b ++ text ++ [10]) /\
    length buf2 = length buf.
Proof.
  assert (Hcore : core_wf key).
  { apply core_wf_key; [assumption|]. eapply Forall_impl; [|exact Hkeyc]. simpl. tauto. }
  destruct (strtok_dash buf 0 (key ++ blanks a) (blanks b ++ text ++ [10]))
    as (buf1 & E1 & H1 & H2 & L1).
  - unfold key_line in Hbuf. rewrite <- app_assoc. exact Hbuf.
  - destruct key; [congruence | discriminate].
  - apply Forall_app_2; [apply key_no_dash; assumption | apply blanks_no_dash].
  - destruct (removeWhiteSpaces_holds buf1 0 0 a key Hcore H1) as (buf2 & E2 & Hk & L2 & Hf).
    exists buf1, buf2. split; [exact E1|]. split; [exact E2|].
    rewrite squeezed_0 in Hk by assumption. split; [exact Hk|].
    split; [|congruence]. eapply holds_frame; [exact H2|].
    intros x Hx. apply Hf. right. unfold blanks in *. simpl app.
    unfold save in Hx. simpl in Hx. lia.
Qed.

(** The second word is the value, as removeWhiteSpaces leaves it. *)
Lemma second_word buf2 :
  holds buf2 save (blanks b ++ text ++ [10]) ->
  exists buf3, next_word buf2 save = Val (buf3, save) /\
    holds buf3 save (squeezed b (text ++ [10])) /\ length buf3 = length buf2.
Proof.
  intros H. unfold next_word. rewrite (strtok_last _ _ _ H); [| |].
  - pose proof (core_wf_value text Htext Hfirst) as Hcore.
    assert (H' : holds buf2 save (blanks b ++ (text ++ [10]) ++ blanks 0))
      by (change (blanks 0) with (@nil Z); rewrite app_nil_r; exact H).
    destruct (removeWhiteSpaces_holds buf2 save b 0 (text ++ [10]) Hcore H')
      as (buf3 & E & Hh & L & _).
    exists buf3. rewrite bind_val, E, bind_val. auto.
  - destruct (blanks b); [destruct text; discriminate | discriminate].
  - apply Forall_app_2; [apply blanks_no_dash|].
    apply Forall_app_2; [apply plain_no_dash; assumption | apply Forall_singleton; unfold dash; lia].
Qed.
End Lines.

(** ** Numbers *)

Inductive field := Frequency | Bandwidth | Program.

Definition key_of (f : field) : string :=
  match f with
  | Frequency => "frequency" | Bandwidth => "bandwidth" | Program => "program_number"
  end.

Definition set_of (f : field) : Z -> InitialInfo -> InitialInfo :=
  match f with
  | Frequency => set_frequency | Bandwidth => set_bandwidth | Program => set_program
  end.

Lemma key_of_ok f :
  bytes_of_string (key_of f) <> [] /\
  Forall (fun c => 33 <= c /\ c <> dash) (bytes_of_string (key_of f)).
Proof.
  split; [destruct f; discriminate|].
  destruct f; repeat apply Forall_cons_2; try apply Forall_nil_2; unfold dash; simpl; lia.
Qed.

Lemma atoi_holds buf p s :
  holds buf p s -> 0 <= atoi_value s < 2147483648 -> atoi buf p = Val (atoi_value s).
Proof.
  intros H Hv. unfold atoi. rewrite (c_string_holds _ _ _ H), bind_val. cbv zeta.
  rewrite (proj2 (Z.leb_le _ _)), (proj2 (Z.ltb_lt _ _)) by lia. reflexivity.
Qed.

Lemma strcmp_holds buf p s w :
  holds buf p s -> strcmp_eq buf p w = Val (bool_decide (s = bytes_of_string w)).
Proof. intros H. unfold strcmp_eq. rewrite (c_string_holds _ _ _ H). reflexivity. Qed.

(** The comparisons of two given words. *)
Ltac compare_words :=
  cbn [key_of set_of];
  repeat match goal with |- context [bool_decide ?P] =>
    let v := eval vm_compute in (bool_decide P) in change (bool_decide P) with v end;
  cbv iota.

(** A line with a number: the field is set to what atoi makes of the value. *)
Lemma load_line_number DVB_T buf rest c f a b text :
  plain text -> (exists x l, text = x :: l /\ x <> 32) ->
  holds buf 0 (key_line (bytes_of_string (key_of f)) a b (text ++ [10])) ->
  0 <= atoi_value (squeezed b (text ++ [10])) < 2147483648 ->
  exists buf', load_line DVB_T buf rest c =
    Val (Next (buf', rest, set_of f (atoi_value (squeezed b (text ++ [10]))) c)) /\
    length buf' = length buf.
Proof.
  intros Ht Hfirst Hh Hv. destruct (key_of_ok f) as [K1 K2].
  destruct (first_word buf _ a b text K1 K2 Hh) as (buf1 & buf2 & E1 & E2 & Hk & Hval & L2).
  destruct (second_word buf _ a b text Ht Hfirst Hh buf2 Hval) as (buf3 & E3 & H3 & L3).
  exists buf3. split; [|congruence].
  unfold load_line. rewrite E1, bind_val, E2, !bind_val, !(strcmp_holds _ _ _ _ Hk), !bind_val.
  pose proof (atoi_holds _ _ _ H3 Hv) as E4.
  set (save := Z.of_nat (length (bytes_of_string (key_of f) ++ blanks a)) + 1) in *.
  clearbody save.
  set (w := next_word _ _) in *. clearbody w.
  destruct f; compare_words; rewrite E3, bind_val, E4, bind_val, u32_small by lia; reflexivity.
Qed.

(** A line with the module: any text of a line that ends in a newline is
    other than the word the code compares with. *)
Lemma squeezed_newline_not_dvb b text :
  Forall (fun c => c <> 10) text -> squeezed b (text ++ [10]) <> bytes_of_string "DVB_T".
Proof.
  intros Ht E. unfold squeezed, unmoved in E.
  rewrite length_app in E. cbn [length] in E. rewrite Nat.add_sub, take_app_length in E.
  change (bytes_of_string "DVB_T") with ([68; 86; 66; 95] ++ [84]) in E.
  apply app_inj_tail in E as [-> E]. cbn [length app] in E.
  destruct (Nat.ltb_spec 4 b); [discriminate|].
  do 5 (destruct b as [|b]; [simpl in E; lia|]). lia.
Qed.

Lemma load_line_module DVB_T buf rest c a b text :
  plain text -> (exists x l, text = x :: l /\ x <> 32) ->
  holds buf 0 (key_line (bytes_of_string "module") a b (text ++ [10])) ->
  exists buf', load_line DVB_T buf rest c = Val (Next (buf', rest, set_module DVB_T c)) /\
    length buf' = length buf.
Proof.
  intros Ht Hfirst Hh.
  assert (K : Forall (fun c => 33 <= c /\ c <> dash) (bytes_of_string "module"))
    by (repeat apply Forall_cons_2; try apply Forall_nil_2; unfold dash; simpl; lia).
  assert (Hne : bytes_of_string "module" <> []) by discriminate.
  destruct (first_word buf _ a b text Hne K Hh)
    as (buf1 & buf2 & E1 & E2 & Hk & Hval & L2).
  destruct (second_word buf _ a b text Ht Hfirst Hh buf2 Hval) as (buf3 & E3 & H3 & L3).
  exists buf3. split; [|congruence].
  unfold load_line. rewrite E1, bind_val, E2, !bind_val, !(strcmp_holds _ _ _ _ Hk), !bind_val.
  pose proof (strcmp_holds _ _ _ "DVB_T" H3) as E4.
  rewrite bool_decide_eq_false_2 in E4
    by (apply squeezed_newline_not_dvb; eapply Forall_impl; [|exact Ht]; simpl; tauto).
  set (save := Z.of_nat (length (bytes_of_string "module" ++ blanks a)) + 1) in *.
  clearbody save.
  set (w := next_word _ _) in *. clearbody w.
  compare_words. rewrite E3, bind_val, E4. reflexivity.
Qed.

(** ** Files of such lines *)

Inductive entry :=
  | Number (f : field) (a b : nat) (text : bytes)
  | Module (a b : nat) (text : bytes).

Definition render (e : entry) : bytes :=
  match e with
  | Number f a b text => key_line (bytes_of_string (key_of f)) a b (text ++ [10])
  | Module a b text => key_line (bytes_of_string "module") a b (text ++ [10])
  end.

Definition effect (DVB_T : Z) (c : InitialInfo) (e : entry) : InitialInfo :=
  match e with
  | Number f _ b text => set_of f (atoi_value (squeezed b (text ++ [10]))) c
  | Module _ _ _ => set_module DVB_T c
  end.

Definition text_of (e : entry) : bytes :=
  match e with Number _ _ _ text | Module _ _ text => text end.

Record entry_ok (e : entry) : Prop := {
  eo_plain : plain (text_of e);
  eo_first : exists x l, text_of e = x :: l /\ x <> 32;
  eo_length : (length (render e) < LINE_LENGTH)%nat;
  eo_int : match e with
           | Number _ _ b text => 0 <= atoi_value (squeezed b (text ++ [10])) < 2147483648
           | Module _ _ _ => True
           end }.

(** The line without its newline. *)
Lemma render_newline e :
  entry_ok e ->
  exists l, render e = l ++ [10] /\ Forall (fun c => c <> 10 /\ c <> 0) l.
Proof.
  intros [Hp _ _ _]. unfold plain in Hp.
  assert (G : forall key a b text, Forall (fun c => c <> 10 /\ c <> 0) key ->
    Forall (fun c => c <> 10 /\ c <> 0 /\ c <> dash) text ->
    exists l, key_line key a b (text ++ [10]) = l ++ [10] /\ Forall (fun c => c <> 10 /\ c <> 0) l).
  { intros key a b text Hk Ht. exists (key_line key a b text). split.
    - unfold key_line. rewrite <- !app_assoc. reflexivity.
    - unfold key_line, blanks, dash. repeat apply Forall_app_2; try assumption;
        try (apply Forall_replicate; lia); [apply Forall_singleton; lia|].
      eapply Forall_impl; [|exact Ht]. simpl. tauto. }
  destruct e as [f a b text|a b text]; apply G; try exact Hp.
  - destruct (key_of_ok f) as [_ K]. eapply Forall_impl; [|exact K]. simpl. lia.
  - repeat apply Forall_cons_2; try apply Forall_nil_2; simpl; lia.
Qed.

Lemma load_step_entry DVB_T buf rest c e :
  entry_ok e -> length buf = LINE_LENGTH ->
  exists buf', load_step DVB_T (buf, render e ++ rest, c) =
      Val (Next (buf', rest, effect DVB_T c e)) /\ length buf' = LINE_LENGTH.
Proof.
  intros He Hb. destruct (render_newline e He) as (l & El & Hl).
  pose proof (eo_length e He) as Hn. rewrite El, length_app in Hn. cbn [length] in Hn.
  destruct (fgets_line buf LINE_LENGTH l rest Hl ltac:(lia) Hb) as (buf' & Ef & Hh & L).
  unfold load_step. rewrite El, <- app_assoc. cbn [app]. rewrite Ef. rewrite <- El in Hh.
  destruct He as [Hp Hf _ Hi]. rewrite <- L.
  destruct e; [eapply load_line_number | eapply load_line_module]; eassumption.
Qed.

Lemma loadConfigFile_lines DVB_T es c :
  Forall entry_ok es ->
  loadConfigFile DVB_T (Some (concat (map render es))) c =
    Val (mkOutcome SC_NO_ERROR (foldl (effect DVB_T) c es) false).
Proof.
  intros Hes. unfold loadConfigFile.
  apply (loop_fuel_mono _ (S (length es))).
  { apply le_n_S. clear c. induction Hes as [|e es He Hes IH]; simpl; [lia|].
    rewrite length_app. destruct (render_newline e He) as (l & -> & _).
    rewrite length_app. simpl. lia. }
  assert (L : length (replicate LINE_LENGTH (@None Z)) = LINE_LENGTH) by apply length_replicate.
  revert L c. generalize (replicate LINE_LENGTH (@None Z)).
  induction Hes as [|e es He Hes IH]; intros buf L c; [reflexivity|].
  cbn [map concat foldl length].
  destruct (load_step_entry DVB_T buf (concat (map render es)) c e He L) as (buf' & E & L').
  rewrite (loop_next _ _ _ _ E). apply IH. assumption.
Qed.

(** ** Decimal numbers *)

(** The digits of [n], the last one last. *)
Fixpoint decimal_aux (fuel : nat) (n : Z) (acc : bytes) : bytes :=
  match fuel with
  | O => acc
  | S fuel =>
      let acc := (48 + n mod 10) :: acc in
      if n <? 10 then acc else decimal_aux fuel (n / 10) acc
  end.

(** Ten digits are enough for an [int]. *)
Definition decimal (n : Z) : bytes := decimal_aux 10 n [].
Arguments decimal : simpl never.

Definition is_digit_byte (c : Z) : Prop := 48 <= c <= 57.

Lemma digits_value_app acc s s' :
  Forall is_digit_byte s -> digits_value acc (s ++ s') = digits_value (digits_value acc s) s'.
Proof.
  intros H. revert acc. induction H as [|c s Hc Hs IH]; intros acc; [reflexivity|].
  cbn [app digits_value]. unfold is_digit_byte in Hc.
  assert (isdigit c = true) as -> by (unfold isdigit; lia). apply IH.
Qed.

Lemma decimal_aux_spec fuel n acc :
  0 <= n < 10 ^ Z.of_nat (S fuel) ->
  exists s, decimal_aux (S fuel) n acc = s ++ acc /\ Forall is_digit_byte s /\
    digits_value 0 s = n /\ (exists s', s = s' ++ [48 + n mod 10]) /\
    (length s <= S fuel)%nat.
Proof.
  revert n acc. induction fuel as [|fuel IH]; intros n acc Hn.
  - exists [48 + n mod 10]. change (10 ^ Z.of_nat 1) with 10 in Hn.
    cbn [decimal_aux]. rewrite Z.mod_small, (proj2 (Z.ltb_lt _ _)) by lia.
    repeat split; [apply Forall_singleton; unfold is_digit_byte; lia| |exists []; reflexivity|simpl; lia].
    cbn [digits_value]. assert (isdigit (48 + n) = true) as -> by (unfold isdigit; lia). lia.
  - pose proof (Z.mod_pos_bound n 10 ltac:(lia)) as Hm.
    pose proof (Z.div_mod n 10 ltac:(lia)) as Hd.
    remember (S fuel) as k eqn:Hk. cbn [decimal_aux]. cbv zeta.
    assert (D : isdigit (48 + n mod 10) = true) by (unfold isdigit; lia).
    destruct (Z.ltb_spec n 10).
    + exists [48 + n mod 10]. repeat split;
        [apply Forall_singleton; unfold is_digit_byte; lia | | exists []; reflexivity | simpl; lia].
      cbn [digits_value]. rewrite D, Z.mod_small by lia. lia.
    + destruct (IH (n / 10) ((48 + n mod 10) :: acc)) as (s & -> & Hs & Hv & _ & Hl).
      { rewrite Nat2Z.inj_succ, Z.pow_succ_r in Hn by lia. nia. }
      exists (s ++ [48 + n mod 10]). rewrite <- app_assoc. split; [reflexivity|].
      split; [apply Forall_app_2; [assumption | apply Forall_singleton; unfold is_digit_byte; lia]|].
      split; [|split; [exists s; reflexivity | rewrite length_app; simpl; lia]].
      rewrite digits_value_app, Hv by assumption. cbn [digits_value]. rewrite D. lia.
Qed.

Lemma decimal_spec n :
  0 <= n < 2147483648 ->
  Forall is_digit_byte (decimal n) /\ digits_value 0 (decimal n) = n /\
  (exists s', decimal n = s' ++ [48 + n mod 10]) /\ (length (decimal n) <= 10)%nat.
Proof.
  intros Hn. destruct (decimal_aux_spec 9 n []) as (s & E & H); [lia|].
  unfold decimal. rewrite E, app_nil_r. exact H.
Qed.

(** A number of at most [k] digits. *)
Lemma decimal_aux_length k fuel n acc :
  0 <= n < 10 ^ Z.of_nat (S k) ->
  (length (decimal_aux fuel n acc) <= S k + length acc)%nat.
Proof.
  revert fuel n acc. induction k as [|k IH]; intros fuel n acc Hn;
    (destruct fuel as [|fuel]; cbn [decimal_aux]; [lia|]); cbv zeta.
  - rewrite (proj2 (Z.ltb_lt _ _)) by (change (10 ^ Z.of_nat 1) with 10 in Hn; lia). simpl. lia.
  - destruct (Z.ltb_spec n 10); [simpl; lia|].
    etransitivity; [apply IH | simpl; lia].
    rewrite (Nat2Z.inj_succ (S k)), Z.pow_succ_r in Hn by lia. zdiv.
Qed.

Lemma decimal_nonempty n : (1 <= length (decimal n))%nat.
Proof.
  assert (G : forall fuel m acc, (length acc <= length (decimal_aux fuel m acc))%nat).
  { induction fuel as [|fuel IH]; intros m acc; cbn [decimal_aux]; [lia|]. cbv zeta.
    destruct (m <? 10); [simpl; lia|]. etransitivity; [|apply IH]. simpl. lia. }
  unfold decimal. generalize 9%nat. intros k. cbn [decimal_aux]. cbv zeta.
  destruct (n <? 10); [simpl; lia|]. etransitivity; [|apply G]. simpl. lia.
Qed.

Lemma decimal_length k n : 0 <= n < 10 ^ Z.of_nat (S k) -> (length (decimal n) <= S k)%nat.
Proof.
  intros Hn. pose proof (decimal_aux_length k 10 n [] Hn) as L. simpl length in L.
  rewrite Nat.add_0_r in L. exact L.
Qed.

(** The file config.ini of the repository. *)
Definition text_line (s : string) : bytes := bytes_of_string s ++ [10].
Definition config_ini : bytes :=
  text_line "frequency       - 754000000   " ++
  text_line "bandwidth       - 8   " ++
  text_line "module          - DVB_T   " ++
  text_line "program_number  - 2   ".

Definition no_info : InitialInfo := mkInitialInfo 0 0 0 0.

Lemma atoi_value_digits s r :
  Forall is_digit_byte s -> s <> [] -> atoi_value (s ++ r) = digits_value (digits_value 0 s) r.
Proof.
  intros Hs Hne. rewrite <- digits_value_app by assumption.
  destruct s as [|c s]; [congruence|]. pose proof (Forall_inv Hs) as Hc. unfold is_digit_byte in Hc.
  unfold atoi_value. cbn [app skip_spaces].
  assert (isspace c = false) as -> by (unfold isspace; lia).
  rewrite (proj2 (Z.eqb_neq c 45)), (proj2 (Z.eqb_neq c 43)) by lia. reflexivity.
Qed.

Lemma squeezed_snoc b text : squeezed b (text ++ [10]) = text ++ [unmoved b (text ++ [10])].
Proof.
  unfold squeezed. rewrite length_app. cbn [length].
  rewrite Nat.add_sub, take_app_length. reflexivity.
Qed.

Lemma decimal_ne n : 0 <= n < 2147483648 -> decimal n <> [].
Proof. intros Hn. destruct (decimal_spec n Hn) as (_ & _ & (s & ->) & _). destruct s; discriminate. Qed.

(** How the columns of a line are laid out. *)
Record layout := mkLayout { lead : nat; gap : nat; trail : nat }.

Definition layout_ok (l : layout) : Prop := (lead l + gap l + trail l <= 60)%nat.

Definition number_entry (f : field) (l : layout) (n : Z) : entry :=
  Number f (lead l) (gap l) (decimal n ++ blanks (trail l)).
Definition module_entry (l : layout) (name : bytes) : entry :=
  Module (lead l) (gap l) (name ++ blanks (trail l)).

Lemma length_key_line key a b text :
  length (key_line key a b (text ++ [10])) = (length key + a + b + length text + 2)%nat.
Proof.
  unfold key_line, blanks. rewrite !length_app, !length_replicate. simpl. lia.
Qed.

Lemma plain_blanks n : plain (blanks n).
Proof. apply Forall_replicate. unfold dash. lia. Qed.

Lemma number_entry_ok f l n :
  layout_ok l -> 0 <= n < 2147483648 ->
  0 <= atoi_value (squeezed (gap l) (text_of (number_entry f l n) ++ [10])) < 2147483648 ->
  entry_ok (number_entry f l n).
Proof.
  intros Hl Hn Hv. destruct (decimal_spec n Hn) as (Hd & _ & _ & Hlen). split.
  - apply Forall_app_2; [|apply plain_blanks].
    eapply Forall_impl; [|exact Hd]. unfold is_digit_byte, dash. simpl. lia.
  - simpl. destruct (decimal n) as [|c s] eqn:E; [destruct (decimal_ne n Hn E)|].
    exists c, (s ++ blanks (trail l)). split; [reflexivity|].
    pose proof (Forall_inv Hd) as Hc. unfold is_digit_byte in Hc. lia.
  - unfold number_entry, render, layout_ok, LINE_LENGTH in *.
    rewrite length_key_line, length_app. unfold blanks. rewrite length_replicate.
    destruct f; simpl length; lia.
  - exact Hv.
Qed.

(** A number followed by a blank is read as it is written. *)
Lemma padded_value b n t :
  0 <= n < 2147483648 -> (1 <= t)%nat ->
  atoi_value (squeezed b ((decimal n ++ blanks t) ++ [10])) = n.
Proof.
  intros Hn Ht. destruct (decimal_spec n Hn) as (Hd & Hv & _ & _).
  rewrite squeezed_snoc, <- app_assoc, atoi_value_digits by (assumption || apply decimal_ne; assumption).
  destruct t as [|t]; [lia|]. rewrite Hv. reflexivity.
Qed.

(** A number at the end of the line, after one blank, has its last digit read
    twice. *)
Lemma unpadded_value n :
  0 <= n < 2147483648 ->
  atoi_value (squeezed 1 (decimal n ++ [10])) = 10 * n + n mod 10.
Proof.
  intros Hn. destruct (decimal_spec n Hn) as (Hd & Hv & (s & Es) & _).
  rewrite squeezed_snoc, atoi_value_digits, Hv by (assumption || apply decimal_ne; assumption).
  assert (unmoved 1 (decimal n ++ [10]) = 48 + n mod 10) as ->.
  { unfold unmoved. rewrite length_app, Es, length_app. cbn [length].
    rewrite (proj2 (Nat.ltb_ge _ _)) by lia.
    replace (length s + 1 + 1 - 1 - 1)%nat with (length s) by lia.
    rewrite <- app_assoc. apply nth_middle. }
  pose proof (Z.mod_pos_bound n 10 ltac:(lia)). cbn [digits_value].
  assert (isdigit (48 + n mod 10) = true) as -> by (unfold isdigit; lia). lia.
Qed.

(** A configuration file in the form of config.ini. *)
Definition config_file (lf lb lm lp : layout) (name : bytes) (i : InitialInfo) : bytes :=
  concat (map render
    [number_entry Frequency lf (tuneFrequency i); number_entry Bandwidth lb (tuneBandwidth i);
     module_entry lm name; number_entry Program lp (programNumber i)]).

Definition int_range (n : Z) : Prop := 0 <= n < 2147483648.

Definition name_ok (name : bytes) : Prop :=
  plain name /\ (exists x l, name = x :: l /\ x <> 32) /\ (length name <= 20)%nat.

Lemma module_entry_ok l name : layout_ok l -> name_ok name -> entry_ok (module_entry l name).
Proof.
  intros Hl (Hp & (c & s & -> & Hc) & Hlen). split; [| |  |exact I].
  - apply Forall_app_2; [assumption | apply plain_blanks].
  - exists c, (s ++ blanks (trail l)). auto.
  - unfold module_entry, render, layout_ok, LINE_LENGTH in *.
    rewrite length_key_line, length_app. unfold blanks. rewrite length_replicate.
    simpl length in *. lia.
Qed.

Lemma single_line e : render e = concat (map render [e]).
Proof. symmetry. apply app_nil_r. Qed.

Lemma load_config_file DVB_T lf lb lm lp i c :
  Forall (fun l => layout_ok l /\ (1 <= trail l)%nat) [lf; lb; lp] -> layout_ok lm ->
  Forall int_range [tuneFrequency i; tuneBandwidth i; programNumber i] ->
  loadConfigFile DVB_T (Some (config_file lf lb lm lp (bytes_of_string "DVB_T") i)) c =
    Val (mkOutcome SC_NO_ERROR (set_module DVB_T i) false).
Proof.
  intros Hl Hm Hi. unfold int_range in Hi. rewrite !Forall_cons_iff in Hl; rewrite !Forall_cons_iff in Hi.
  unfold config_file. rewrite loadConfigFile_lines.
  - cbn [foldl effect number_entry module_entry set_of]. rewrite !padded_value by tauto.
    destruct c, i. reflexivity.
  - repeat apply Forall_cons_2; try apply Forall_nil_2;
      try (apply number_entry_ok; [tauto | tauto |]; cbn [text_of number_entry];
           rewrite padded_value by tauto; tauto).
    apply module_entry_ok; [assumption|]. split; [|split].
    + repeat apply Forall_cons_2; try apply Forall_nil_2; unfold dash; simpl; lia.
    + repeat eexists. discriminate.
    + simpl. lia.
Qed.

(** ** Properties *)

(** C26: removeWhiteSpaces drops the blanks round a word, except that after leading blanks
    the last character of the word is replaced by the character that stood in its new place;
    it touches nothing else. *)
Theorem removeWhiteSpaces_spec buf p i m core :
  core_wf core -> holds buf p (blanks i ++ core ++ blanks m) ->
  exists buf', removeWhiteSpaces buf (Some p) = Val buf' /\
    c_string buf' p = Val (squeezed i core) /\ (i = 0%nat -> squeezed i core = core) /\
    length buf' = length buf /\
    forall x, (x < Z.to_nat p \/ Z.to_nat p + (i + length core + m) <= x)%nat ->
      buf' !! x = buf !! x.
Proof.
  intros Hc Hs. destruct (removeWhiteSpaces_holds buf p i m core Hc Hs) as (b' & E & Hh & L & Hf).
  exists b'. split; [exact E|]. split; [exact (c_string_holds _ _ _ Hh)|].
  split; [intros ->; apply squeezed_0; exact Hc|]. split; [exact L|].
  intros x Hx. apply Hf. rewrite !length_app. unfold blanks. rewrite !length_replicate. lia.
Qed.

(** C25: Loading a file in the form of config.ini, with any indentation of at most 60 blanks
    and a blank after each number, gives back every number and the module; a file that does
    not open is an error that changes nothing. *)
Theorem loadConfigFile_roundtrip DVB_T lf lb lm lp i c :
  Forall (fun l => layout_ok l /\ (1 <= trail l)%nat) [lf; lb; lp] -> layout_ok lm ->
  Forall int_range [tuneFrequency i; tuneBandwidth i; programNumber i] ->
  loadConfigFile DVB_T (Some (config_file lf lb lm lp (bytes_of_string "DVB_T") i)) c =
    Val (mkOutcome SC_NO_ERROR (set_module DVB_T i) false) /\
  loadConfigFile DVB_T None c = Val (mkOutcome SC_ERROR c false).
Proof.
  intros Hl Hm Hi. split; [apply load_config_file; assumption | reflexivity].
Qed.

Definition ini_layout (lead : nat) : layout := mkLayout lead 1 3.

(** The repository's own file. *)
Lemma loadConfigFile_roundtrip_witness :
  config_ini = config_file (ini_layout 7) (ini_layout 7) (ini_layout 10) (ini_layout 2)
    (bytes_of_string "DVB_T") (mkInitialInfo 754000000 8 2 7) /\
  loadConfigFile 9 (Some config_ini) no_info =
    Val (mkOutcome SC_NO_ERROR (mkInitialInfo 754000000 8 2 9) false).
Proof.
  split; [reflexivity|].
  apply (fun A B D => proj1 (loadConfigFile_roundtrip 9 (ini_layout 7) (ini_layout 7) (ini_layout 10) (ini_layout 2)
    (mkInitialInfo 754000000 8 2 7) no_info A B D)).
  - repeat constructor; cbn; lia.
  - unfold layout_ok. cbn. lia.
  - unfold int_range. repeat constructor; cbn; lia.
Defined.

(** A number that ends its line after exactly one leading blank is read with its last
    digit twice: 8 becomes 88. *)
Theorem loadConfigFile_unpadded DVB_T f lead n c :
  (lead <= 50)%nat -> 0 <= n -> 10 * n + n mod 10 < 2147483648 ->
  loadConfigFile DVB_T (Some (render (number_entry f (mkLayout lead 1 0) n))) c =
    Val (mkOutcome SC_NO_ERROR (set_of f (10 * n + n mod 10) c) false).
Proof.
  intros Hl H0 Hn. pose proof (Z.mod_pos_bound n 10 ltac:(lia)) as Hm.
  rewrite single_line.
  assert (E : text_of (number_entry f (mkLayout lead 1 0) n) = decimal n)
    by (cbn; apply app_nil_r).
  rewrite loadConfigFile_lines.
  - cbn in E |- *. rewrite E, unpadded_value by lia. reflexivity.
  - apply Forall_singleton, number_entry_ok; [unfold layout_ok; simpl; lia | lia |].
    rewrite E. cbn [gap]. rewrite unpadded_value; lia.
Qed.

Lemma loadConfigFile_unpadded_witness :
  loadConfigFile 9 (Some (text_line "bandwidth - 8")) no_info =
    Val (mkOutcome SC_NO_ERROR (mkInitialInfo 0 88 0 0) false).
Proof.
  apply (loadConfigFile_unpadded 9 Bandwidth 1 8 no_info); [lia | lia | reflexivity].
Defined.

(** Any module name on a line that ends in a newline is accepted as DVB_T, while the
    name DVB_T itself, where the file ends right after it, is refused and leaves the file
    open: the comparison is the wrong way round. *)
Theorem loadConfigFile_module DVB_T c :
  (forall l name, layout_ok l -> name_ok name ->
    loadConfigFile DVB_T (Some (render (module_entry l name))) c =
      Val (mkOutcome SC_NO_ERROR (set_module DVB_T c) false)) /\
  loadConfigFile DVB_T (Some (bytes_of_string "module -DVB_T")) c =
    Val (mkOutcome SC_ERROR c true).
Proof.
  split; [|reflexivity]. intros l name Hl Hn. rewrite single_line, loadConfigFile_lines by (apply Forall_singleton, module_entry_ok; assumption).
  reflexivity.
Qed.

Lemma loadConfigFile_module_witness :
  loadConfigFile 9 (Some (text_line "module - DVB_C")) no_info =
    Val (mkOutcome SC_NO_ERROR (mkInitialInfo 0 0 0 9) false).
Proof.
  apply (proj1 (loadConfigFile_module 9 no_info) (mkLayout 1 1 0) (bytes_of_string "DVB_C")).
  - unfold layout_ok. cbn. lia.
  - split; [|split; [repeat eexists; discriminate | cbn; lia]].
    repeat apply Forall_cons_2; try apply Forall_nil_2; unfold dash; cbn; lia.
Defined.

Lemma removeWhiteSpaces_spec_witness :
  exists buf', removeWhiteSpaces (map Some [32; 56; 10; 0]) (Some 0) = Val buf' /\
    c_string buf' 0 = Val [56; 56].
Proof.
  assert (Hc : core_wf [56; 10]).
  { split; [repeat constructor; lia | exists 56, [10]; split; [reflexivity | lia] |].
    exists [56], 10. split; [reflexivity | lia]. }
  destruct (removeWhiteSpaces_spec (map Some [32; 56; 10; 0]) 0 1 0 [56; 10] Hc) as (b & H1 & H2 & _).
  - exists [], []. split; [reflexivity|]. split; [reflexivity|]. repeat constructor; lia.
  - exists b. split; [exact H1 | exact H2].
Defined.
End Config.
