(* ===== verification/Machine.v ===== *)
(** * Machine: what the controllers run on

    Pointers to heap objects, the calls the program makes to the tuner, player
    and demultiplexer library (tdp_api.h) and to the thread library, and the
    state monad of the controllers. The library is not part of the repository:
    its answers are a function of the calls made so far. *)

From S2P Require Import Prelude.

(** ** Pointers *)

(** A pointer to an object that only its owner frees. *)
Inductive ptr (A : Type) :=
  | Null
  | Live (a : A)
  | Freed.
Arguments Null {A}.
Arguments Live {A} a.
Arguments Freed {A}.

Definition deref {A} (p : ptr A) : res A :=
  match p with
  | Live a => Val a
  | Null => Ub NullDeref
  | Freed => Ub UseAfterFree
  end.

(** [free(p)]: nothing for a null pointer; the pointer keeps its value. *)
Definition free {A} (p : ptr A) : res (ptr A) :=
  match p with
  | Live _ => Val Freed
  | Null => Val Null
  | Freed => Ub UseAfterFree
  end.

(** A pointer as a parser receives it: a pointer to a freed object is not null,
    and the parser writes through it. *)
Definition as_argument {A} (p : ptr A) : res (option A) :=
  match p with
  | Live a => Val (Some a)
  | Null => Val None
  | Freed => Ub UseAfterFree
  end.

(** Code that uses no freed object. *)
Definition no_stale {A} (m : res A) : Prop :=
  match m with Ub k => k <> UseAfterFree | _ => True end.

Lemma no_stale_bind {A B} (m : res A) (f : A -> res B) :
  no_stale m -> (forall a, no_stale (f a)) -> no_stale (x ← m; f x).
Proof. destruct m; cbn; auto. Qed.

Lemma no_stale_rd {A} (l : list A) i : no_stale (rd l i).
Proof. destruct (rd_cases l i) as [-> | (x & -> & _)]; cbn; [discriminate | exact I]. Qed.

Lemma no_stale_wr {A} (l : list A) i x : no_stale (wr l i x).
Proof. unfold wr. destruct (_ && _); cbn; [exact I | discriminate]. Qed.

Lemma no_stale_loop {S R} (body : S -> res (ctl S R)) n s :
  (forall s, no_stale (body s)) -> no_stale (loop n body s).
Proof.
  intros Hb. revert s. induction n as [|n IH]; intros s; cbn [loop]; [exact I|].
  apply no_stale_bind; [apply Hb|]. intros [s'|r]; [apply IH | exact I].
Qed.

(** Takes pure code apart. *)
Ltac no_stale :=
  repeat match goal with
  | |- no_stale (Val _) => exact I
  | |- no_stale (Ub _) => discriminate
  | |- no_stale (rd _ _) => apply no_stale_rd
  | |- no_stale (wr _ _ _) => apply no_stale_wr
  | |- no_stale (mbind _ _) => apply no_stale_bind; [|intros ?]
  | |- no_stale (loop _ _ _) => apply no_stale_loop; intros ?
  | |- no_stale (if ?b then _ else _) => destruct b
  | |- no_stale (match ?x with _ => _ end) => destruct x
  end.

(** ** External calls *)

Inductive call :=
  | Malloc (size_of : string)
  | PthreadCreate
  | PthreadJoin
  | TunerInit
  | TunerRegisterStatusCallback
  | TunerLockToFrequency (frequency bandwidth module : Z)
  | TunerDeinit
  | PlayerInit
  | PlayerDeinit (player : Z)
  | PlayerSourceOpen (player : Z)
  | PlayerSourceClose (player source : Z)
  | PlayerStreamCreate (player source pid type : Z)
  | PlayerStreamRemove (player source stream : Z)
  | PlayerVolumeSet (player volume : Z)
  | ClearScreen (player layer : Z)
  | DemuxRegisterSectionFilterCallback
  | DemuxSetFilter (player pid table : Z)
  | DemuxFreeFilter (player filter : Z).

#[export] Instance call_eq_dec : EqDecision call.
Proof. solve_decision. Defined.

(** The return code of a call, zero when it succeeds, and what it stores
    through its output pointer, if it does; for malloc, whether there was
    memory. *)
Record answer := mkAnswer { code : Z; out : option Z }.

(** [as_int] is what [%d] shows where a [uint64_t] was passed, which the C
    language leaves open. *)
Class TdpApi := {
  tdp : list call -> call -> answer;
  as_int : Z -> Z;
  DVB_T : Z;
  STATUS_LOCKED : Z;
  VIDEO_TYPE_MPEG2 : Z;
  AUDIO_TYPE_MPEG_AUDIO : Z }.

(** A library in which every call succeeds and hands out the handle 1. *)
Definition obliging : TdpApi := {|
  tdp := fun _ _ => mkAnswer 0 (Some 1);
  as_int := i32;
  DVB_T := 0;
  STATUS_LOCKED := 1;
  VIDEO_TYPE_MPEG2 := 2;
  AUDIO_TYPE_MPEG_AUDIO := 3 |}.

(** [ETIMEDOUT] of errno.h. *)
Definition ETIMEDOUT : Z := 110.

(** ** The monad of the controllers

    A run ends with a value, or waits for something that does not come. *)
Inductive ran (W A : Type) :=
  | Ran (a : A) (w : W)
  | Waiting (w : W).
Arguments Ran {W A} a w.
Arguments Waiting {W A} w.

Definition M (W A : Type) : Type := W -> res (ran W A).

#[export] Instance M_ret W : MRet (M W) := fun A a w => Val (Ran a w).
#[export] Instance M_bind W : MBind (M W) := fun A B f m w =>
  match m w with
  | Val (Ran a w) => f a w
  | Val (Waiting w) => Val (Waiting w)
  | Ub k => Ub k
  | NoFuel => NoFuel
  end.

Section Monad.
Context {W : Type}.

Definition gets {A} (f : W -> A) : M W A := fun w => Val (Ran (f w) w).
Definition modify (f : W -> W) : M W unit := fun w => Val (Ran tt (f w)).
Definition lift {A} (m : res A) : M W A := fun w => a ← m; Val (Ran a w).
Definition blocked {A} : M W A := fun w => Val (Waiting w).

(** Partial correctness: where the run ends with a value, [Q] holds, and it uses
    no object after it was freed, nor frees one again. *)
Definition ends {A} (m : M W A) (w : W) (Q : A -> W -> Prop) : Prop :=
  match m w with
  | Val (Ran a w') => Q a w'
  | Ub k => k <> UseAfterFree
  | _ => True
  end.

Lemma ends_bind {A B} (m : M W A) (f : A -> M W B) w Q :
  ends m w (fun a w' => ends (f a) w' Q) -> ends (x ← m; f x) w Q.
Proof. unfold ends, mbind, M_bind. destruct (m w) as [[a w'|w']|k|]; auto. Qed.

Lemma ends_mono {A} (m : M W A) w (Q R : A -> W -> Prop) :
  ends m w Q -> (forall a w', Q a w' -> R a w') -> ends m w R.
Proof. unfold ends. destruct (m w) as [[a w'|w']|k|]; auto. Qed.

Lemma ends_lift {A} (m : res A) w (Q : A -> W -> Prop) :
  no_stale m -> (forall a, m = Val a -> Q a w) -> ends (lift m) w Q.
Proof. unfold ends, lift. destruct m; simpl; auto. Qed.

Lemma ends_ret {A} (a : A) w (Q : A -> W -> Prop) : Q a w -> ends (mret a) w Q.
Proof. auto. Qed.
Lemma ends_gets {A} (f : W -> A) w (Q : A -> W -> Prop) : Q (f w) w -> ends (gets f) w Q.
Proof. auto. Qed.
Lemma ends_modify f w (Q : unit -> W -> Prop) : Q tt (f w) -> ends (modify f) w Q.
Proof. auto. Qed.

Lemma ends_val {A} (m : M W A) w (Q : A -> W -> Prop) a w' :
  m w = Val (Ran a w') -> ends m w Q -> Q a w'.
Proof. unfold ends. intros ->. auto. Qed.

(** Up to memory errors: the fuel is enough, [Q] holds where the run ends with a
    value, and [I] where it waits. *)
Definition runs {A} (I : W -> Prop) (m : M W A) (w : W) (Q : A -> W -> Prop) : Prop :=
  yields (m w) (fun r => match r with Ran a w' => Q a w' | Waiting w' => I w' end).

Lemma runs_bind {A B} (I : W -> Prop) (m : M W A) (f : A -> M W B) w Q :
  runs I m w (fun a w' => runs I (f a) w' Q) -> runs I (x ← m; f x) w Q.
Proof. unfold runs, mbind, M_bind. destruct (m w) as [[a w'|w']|k|]; auto. Qed.

Lemma runs_mono {A} (I J : W -> Prop) (m : M W A) w (Q R : A -> W -> Prop) :
  runs I m w Q -> (forall w', I w' -> J w') -> (forall a w', Q a w' -> R a w') -> runs J m w R.
Proof. unfold runs. destruct (m w) as [[a w'|w']|k|]; cbn; auto. Qed.

Lemma runs_lift {A} (I : W -> Prop) (m : res A) w (Q : A -> W -> Prop) :
  yields m (fun a => Q a w) -> runs I (lift m) w Q.
Proof. unfold runs, lift. destruct m; auto. Qed.

(** A program keeps a property of the state. *)
Definition preserves {A} (I : W -> Prop) (m : M W A) : Prop :=
  forall w, I w -> runs I m w (fun _ w' => I w').

Lemma preserves_bind {A B} (I : W -> Prop) (m : M W A) (f : A -> M W B) :
  preserves I m -> (forall a, preserves I (f a)) -> preserves I (x ← m; f x).
Proof.
  intros Hm Hf w Hw. apply runs_bind. eapply runs_mono; [apply Hm, Hw | auto |].
  intros a w' Hw'. apply Hf, Hw'.
Qed.

Lemma preserves_ret {A} (I : W -> Prop) (a : A) : preserves I (mret a).
Proof. intros w Hw. exact Hw. Qed.
Lemma preserves_gets {A} (I : W -> Prop) (f : W -> A) : preserves I (gets f).
Proof. intros w Hw. exact Hw. Qed.
Lemma preserves_blocked {A} (I : W -> Prop) : preserves I (@blocked A).
Proof. intros w Hw. exact Hw. Qed.
Lemma preserves_modify (I : W -> Prop) f : (forall w, I w -> I (f w)) -> preserves I (modify f).
Proof. intros Hf w Hw. apply Hf, Hw. Qed.
Lemma preserves_lift {A} (I : W -> Prop) (m : res A) :
  yields m (fun _ => True) -> preserves I (lift m).
Proof. intros Hm w Hw. apply runs_lift. eapply yields_mono; [exact Hm | auto]. Qed.

(** A part of the state is read and used. *)
Lemma preserves_read {A B} (I : W -> Prop) (f : W -> A) (k : A -> M W B) (P : A -> Prop) :
  (forall w, I w -> P (f w)) -> (forall a, P a -> preserves I (k a)) ->
  preserves I (x ← gets f; k x).
Proof. intros Hf Hk w Hw. apply runs_bind. exact (Hk (f w) (Hf w Hw) w Hw). Qed.

(** So is a pure result. *)
Lemma preserves_compute {A B} (I : W -> Prop) (m : res A) (k : A -> M W B) (P : A -> Prop) :
  yields m P -> (forall a, P a -> preserves I (k a)) -> preserves I (x ← lift m; k x).
Proof.
  intros Hm Hk w Hw. apply runs_bind, runs_lift. eapply yields_mono; [exact Hm|].
  intros a Ha. exact (Hk a Ha w Hw).
Qed.

Lemma preserves_if {A} (I : W -> Prop) (b : bool) (m m' : M W A) :
  preserves I m -> preserves I m' -> preserves I (if b then m else m').
Proof. destruct b; auto. Qed.

Lemma bindM {A B} (m : M W A) (f : A -> M W B) w a w' :
  m w = Val (Ran a w') -> (x ← m; f x) w = f a w'.
Proof. intros H. unfold mbind, M_bind. rewrite H. reflexivity. Qed.

End Monad.

(** [preserve] takes a program apart, down to the changes of the state and the
    results it uses. *)
Create HintDb preserve.
#[export] Hint Resolve preserves_ret preserves_gets preserves_blocked : preserve.
Ltac preserve_step :=
  match goal with
  | |- preserves _ _ => solve [eauto with preserve]
  | |- preserves _ (mbind _ _) => apply preserves_bind; [|intros ?]
  | |- preserves _ (if _ then _ else _) => apply preserves_if
  | |- preserves _ (match ?x with _ => _ end) => destruct x
  end.
Ltac preserve := repeat preserve_step.
