(* ===== verification/World.v ===== *)
(** * World: the state of the stream controller

    [ChannelInfo] and [CurrentDate] of stream_controller.h, the static
    variables of stream_controller.c with their initial values, and the
    schedule a run is given: what the other threads do while the controller
    thread waits or goes through its loop. *)

From S2P Require Import Prelude Tables PatParser PmtParser TdtParser TotParser ConfigFile Machine.

(** ** Data *)

Record ChannelInfo := mkChannelInfo {
  ci_programNumber : Z;
  ci_audioPid : Z;
  ci_videoPid : Z }.

Record CurrentDate := mkCurrentDate {
  cd_Year : Z;
  cd_tmpMonth : Z;
  cd_day : Z }.

(** What a client of the controller asks for, in any thread. *)
Inductive request := ChannelUp | ChannelDown | VolumeUp | VolumeDown | VolumeMute.

(** One step of the schedule: the demultiplexer delivers a section, the tuner
    reports its status, a client makes a request, a wait of the controller
    thread returns by itself with a code, or the controller thread goes once
    through its loop. *)
Inductive event :=
  | Delivery (buffer : bytes)
  | LockStatus (status : Z)
  | Request (r : request)
  | Wake (code : Z)
  | Pass.

(** ** The static variables

    [client] is the state of the program that registered the callbacks, which
    are functions on it. A mutex is [true] while it is held; [statusSignal] and
    [demuxSignal] say whether the condition was signalled since the last wait
    began. [calls] is the history of the external calls, the last one first,
    and [pending] what is left of the schedule. *)
Record world (C : Type) := mkWorld {
  patTable : ptr Pat.PatTable;
  pmtTable : ptr Pmt.PmtTable;
  tdtTable : ptr Tdt.TdtTable;
  totTable : ptr Tot.TotTable;
  playerHandle : Z;
  sourceHandle : Z;
  streamHandleA : Z;
  streamHandleV : Z;
  filterHandle : Z;
  threadExit : bool;
  changeChannel : bool;
  programNumber : Z;
  currentChannel : ChannelInfo;
  isInitialized : bool;
  timeTablesRecieved : bool;
  dateRecievedCallback : option (CurrentDate -> C -> res C);
  volumeReportCallback : option (Z -> C -> res C);
  configFile : Config.InitialInfo;
  currentDate : CurrentDate;
  currentVolume : Z;
  statusMutex : bool;
  statusSignal : bool;
  demuxMutex : bool;
  demuxSignal : bool;
  calls : list call;
  pending : list event;
  client : C }.
Arguments mkWorld {C}.
Arguments patTable {C} w : rename.
Arguments pmtTable {C} w : rename.
Arguments tdtTable {C} w : rename.
Arguments totTable {C} w : rename.
Arguments playerHandle {C} w : rename.
Arguments sourceHandle {C} w : rename.
Arguments streamHandleA {C} w : rename.
Arguments streamHandleV {C} w : rename.
Arguments filterHandle {C} w : rename.
Arguments threadExit {C} w : rename.
Arguments changeChannel {C} w : rename.
Arguments programNumber {C} w : rename.
Arguments currentChannel {C} w : rename.
Arguments isInitialized {C} w : rename.
Arguments timeTablesRecieved {C} w : rename.
Arguments dateRecievedCallback {C} w : rename.
Arguments volumeReportCallback {C} w : rename.
Arguments configFile {C} w : rename.
Arguments currentDate {C} w : rename.
Arguments currentVolume {C} w : rename.
Arguments statusMutex {C} w : rename.
Arguments statusSignal {C} w : rename.
Arguments demuxMutex {C} w : rename.
Arguments demuxSignal {C} w : rename.
Arguments calls {C} w : rename.
Arguments pending {C} w : rename.
Arguments client {C} w : rename.

Definition set_patTable {C} (v : ptr Pat.PatTable) (w : world C) : world C :=
  mkWorld v (pmtTable w) (tdtTable w) (totTable w) (playerHandle w) (sourceHandle w)
  (streamHandleA w) (streamHandleV w) (filterHandle w) (threadExit w) (changeChannel w)
  (programNumber w) (currentChannel w) (isInitialized w) (timeTablesRecieved w)
  (dateRecievedCallback w) (volumeReportCallback w) (configFile w) (currentDate w)
  (currentVolume w) (statusMutex w) (statusSignal w) (demuxMutex w) (demuxSignal w) (calls w)
  (pending w) (client w).
Definition set_pmtTable {C} (v : ptr Pmt.PmtTable) (w : world C) : world C :=
  mkWorld (patTable w) v (tdtTable w) (totTable w) (playerHandle w) (sourceHandle w)
  (streamHandleA w) (streamHandleV w) (filterHandle w) (threadExit w) (changeChannel w)
  (programNumber w) (currentChannel w) (isInitialized w) (timeTablesRecieved w)
  (dateRecievedCallback w) (volumeReportCallback w) (configFile w) (currentDate w)
  (currentVolume w) (statusMutex w) (statusSignal w) (demuxMutex w) (demuxSignal w) (calls w)
  (pending w) (client w).
Definition set_tdtTable {C} (v : ptr Tdt.TdtTable) (w : world C) : world C :=
  mkWorld (patTable w) (pmtTable w) v (totTable w) (playerHandle w) (sourceHandle w)
  (streamHandleA w) (streamHandleV w) (filterHandle w) (threadExit w) (changeChannel w)
  (programNumber w) (currentChannel w) (isInitialized w) (timeTablesRecieved w)
  (dateRecievedCallback w) (volumeReportCallback w) (configFile w) (currentDate w)
  (currentVolume w) (statusMutex w) (statusSignal w) (demuxMutex w) (demuxSignal w) (calls w)
  (pending w) (client w).
Definition set_totTable {C} (v : ptr Tot.TotTable) (w : world C) : world C :=
  mkWorld (patTable w) (pmtTable w) (tdtTable w) v (playerHandle w) (sourceHandle w)
  (streamHandleA w) (streamHandleV w) (filterHandle w) (threadExit w) (changeChannel w)
  (programNumber w) (currentChannel w) (isInitialized w) (timeTablesRecieved w)
  (dateRecievedCallback w) (volumeReportCallback w) (configFile w) (currentDate w)
  (currentVolume w) (statusMutex w) (statusSignal w) (demuxMutex w) (demuxSignal w) (calls w)
  (pending w) (client w).
Definition set_playerHandle {C} (v : Z) (w : world C) : world C :=
  mkWorld (patTable w) (pmtTable w) (tdtTable w) (totTable w) v (sourceHandle w)
  (streamHandleA w) (streamHandleV w) (filterHandle w) (threadExit w) (changeChannel w)
  (programNumber w) (currentChannel w) (isInitialized w) (timeTablesRecieved w)
  (dateRecievedCallback w) (volumeReportCallback w) (configFile w) (currentDate w)
  (currentVolume w) (statusMutex w) (statusSignal w) (demuxMutex w) (demuxSignal w) (calls w)
  (pending w) (client w).
Definition set_sourceHandle {C} (v : Z) (w : world C) : world C :=
  mkWorld (patTable w) (pmtTable w) (tdtTable w) (totTable w) (playerHandle w) v
  (streamHandleA w) (streamHandleV w) (filterHandle w) (threadExit w) (changeChannel w)
  (programNumber w) (currentChannel w) (isInitialized w) (timeTablesRecieved w)
  (dateRecievedCallback w) (volumeReportCallback w) (configFile w) (currentDate w)
  (currentVolume w) (statusMutex w) (statusSignal w) (demuxMutex w) (demuxSignal w) (calls w)
  (pending w) (client w).
Definition set_streamHandleA {C} (v : Z) (w : world C) : world C :=
  mkWorld (patTable w) (pmtTable w) (tdtTable w) (totTable w) (playerHandle w) (sourceHandle w)
  v (streamHandleV w) (filterHandle w) (threadExit w) (changeChannel w) (programNumber w)
  (currentChannel w) (isInitialized w) (timeTablesRecieved w) (dateRecievedCallback w)
  (volumeReportCallback w) (configFile w) (currentDate w) (currentVolume w) (statusMutex w)
  (statusSignal w) (demuxMutex w) (demuxSignal w) (calls w) (pending w) (client w).
Definition set_streamHandleV {C} (v : Z) (w : world C) : world C :=
  mkWorld (patTable w) (pmtTable w) (tdtTable w) (totTable w) (playerHandle w) (sourceHandle w)
  (streamHandleA w) v (filterHandle w) (threadExit w) (changeChannel w) (programNumber w)
  (currentChannel w) (isInitialized w) (timeTablesRecieved w) (dateRecievedCallback w)
  (volumeReportCallback w) (configFile w) (currentDate w) (currentVolume w) (statusMutex w)
  (statusSignal w) (demuxMutex w) (demuxSignal w) (calls w) (pending w) (client w).
Definition set_filterHandle {C} (v : Z) (w : world C) : world C :=
  mkWorld (patTable w) (pmtTable w) (tdtTable w) (totTable w) (playerHandle w) (sourceHandle w)
  (streamHandleA w) (streamHandleV w) v (threadExit w) (changeChannel w) (programNumber w)
  (currentChannel w) (isInitialized w) (timeTablesRecieved w) (dateRecievedCallback w)
  (volumeReportCallback w) (configFile w) (currentDate w) (currentVolume w) (statusMutex w)
  (statusSignal w) (demuxMutex w) (demuxSignal w) (calls w) (pending w) (client w).
Definition set_threadExit {C} (v : bool) (w : world C) : world C :=
  mkWorld (patTable w) (pmtTable w) (tdtTable w) (totTable w) (playerHandle w) (sourceHandle w)
  (streamHandleA w) (streamHandleV w) (filterHandle w) v (changeChannel w) (programNumber w)
  (currentChannel w) (isInitialized w) (timeTablesRecieved w) (dateRecievedCallback w)
  (volumeReportCallback w) (configFile w) (currentDate w) (currentVolume w) (statusMutex w)
  (statusSignal w) (demuxMutex w) (demuxSignal w) (calls w) (pending w) (client w).
Definition set_changeChannel {C} (v : bool) (w : world C) : world C :=
  mkWorld (patTable w) (pmtTable w) (tdtTable w) (totTable w) (playerHandle w) (sourceHandle w)
  (streamHandleA w) (streamHandleV w) (filterHandle w) (threadExit w) v (programNumber w)
  (currentChannel w) (isInitialized w) (timeTablesRecieved w) (dateRecievedCallback w)
  (volumeReportCallback w) (configFile w) (currentDate w) (currentVolume w) (statusMutex w)
  (statusSignal w) (demuxMutex w) (demuxSignal w) (calls w) (pending w) (client w).
Definition set_programNumber {C} (v : Z) (w : world C) : world C :=
  mkWorld (patTable w) (pmtTable w) (tdtTable w) (totTable w) (playerHandle w) (sourceHandle w)
  (streamHandleA w) (streamHandleV w) (filterHandle w) (threadExit w) (changeChannel w) v
  (currentChannel w) (isInitialized w) (timeTablesRecieved w) (dateRecievedCallback w)
  (volumeReportCallback w) (configFile w) (currentDate w) (currentVolume w) (statusMutex w)
  (statusSignal w) (demuxMutex w) (demuxSignal w) (calls w) (pending w) (client w).
Definition set_currentChannel {C} (v : ChannelInfo) (w : world C) : world C :=
  mkWorld (patTable w) (pmtTable w) (tdtTable w) (totTable w) (playerHandle w) (sourceHandle w)
  (streamHandleA w) (streamHandleV w) (filterHandle w) (threadExit w) (changeChannel w)
  (programNumber w) v (isInitialized w) (timeTablesRecieved w) (dateRecievedCallback w)
  (volumeReportCallback w) (configFile w) (currentDate w) (currentVolume w) (statusMutex w)
  (statusSignal w) (demuxMutex w) (demuxSignal w) (calls w) (pending w) (client w).
Definition set_isInitialized {C} (v : bool) (w : world C) : world C :=
  mkWorld (patTable w) (pmtTable w) (tdtTable w) (totTable w) (playerHandle w) (sourceHandle w)
  (streamHandleA w) (streamHandleV w) (filterHandle w) (threadExit w) (changeChannel w)
  (programNumber w) (currentChannel w) v (timeTablesRecieved w) (dateRecievedCallback w)
  (volumeReportCallback w) (configFile w) (currentDate w) (currentVolume w) (statusMutex w)
  (statusSignal w) (demuxMutex w) (demuxSignal w) (calls w) (pending w) (client w).
Definition set_timeTablesRecieved {C} (v : bool) (w : world C) : world C :=
  mkWorld (patTable w) (pmtTable w) (tdtTable w) (totTable w) (playerHandle w) (sourceHandle w)
  (streamHandleA w) (streamHandleV w) (filterHandle w) (threadExit w) (changeChannel w)
  (programNumber w) (currentChannel w) (isInitialized w) v (dateRecievedCallback w)
  (volumeReportCallback w) (configFile w) (currentDate w) (currentVolume w) (statusMutex w)
  (statusSignal w) (demuxMutex w) (demuxSignal w) (calls w) (pending w) (client w).
Definition set_dateRecievedCallback {C} (v : option (CurrentDate -> C -> res C)) (w : world C) : world C :=
  mkWorld (patTable w) (pmtTable w) (tdtTable w) (totTable w) (playerHandle w) (sourceHandle w)
  (streamHandleA w) (streamHandleV w) (filterHandle w) (threadExit w) (changeChannel w)
  (programNumber w) (currentChannel w) (isInitialized w) (timeTablesRecieved w) v
  (volumeReportCallback w) (configFile w) (currentDate w) (currentVolume w) (statusMutex w)
  (statusSignal w) (demuxMutex w) (demuxSignal w) (calls w) (pending w) (client w).
Definition set_volumeReportCallback {C} (v : option (Z -> C -> res C)) (w : world C) : world C :=
  mkWorld (patTable w) (pmtTable w) (tdtTable w) (totTable w) (playerHandle w) (sourceHandle w)
  (streamHandleA w) (streamHandleV w) (filterHandle w) (threadExit w) (changeChannel w)
  (programNumber w) (currentChannel w) (isInitialized w) (timeTablesRecieved w)
  (dateRecievedCallback w) v (configFile w) (currentDate w) (currentVolume w) (statusMutex w)
  (statusSignal w) (demuxMutex w) (demuxSignal w) (calls w) (pending w) (client w).
Definition set_configFile {C} (v : Config.InitialInfo) (w : world C) : world C :=
  mkWorld (patTable w) (pmtTable w) (tdtTable w) (totTable w) (playerHandle w) (sourceHandle w)
  (streamHandleA w) (streamHandleV w) (filterHandle w) (threadExit w) (changeChannel w)
  (programNumber w) (currentChannel w) (isInitialized w) (timeTablesRecieved w)
  (dateRecievedCallback w) (volumeReportCallback w) v (currentDate w) (currentVolume w)
  (statusMutex w) (statusSignal w) (demuxMutex w) (demuxSignal w) (calls w) (pending w)
  (client w).
Definition set_currentDate {C} (v : CurrentDate) (w : world C) : world C :=
  mkWorld (patTable w) (pmtTable w) (tdtTable w) (totTable w) (playerHandle w) (sourceHandle w)
  (streamHandleA w) (streamHandleV w) (filterHandle w) (threadExit w) (changeChannel w)
  (programNumber w) (currentChannel w) (isInitialized w) (timeTablesRecieved w)
  (dateRecievedCallback w) (volumeReportCallback w) (configFile w) v (currentVolume w)
  (statusMutex w) (statusSignal w) (demuxMutex w) (demuxSignal w) (calls w) (pending w)
  (client w).
Definition set_currentVolume {C} (v : Z) (w : world C) : world C :=
  mkWorld (patTable w) (pmtTable w) (tdtTable w) (totTable w) (playerHandle w) (sourceHandle w)
  (streamHandleA w) (streamHandleV w) (filterHandle w) (threadExit w) (changeChannel w)
  (programNumber w) (currentChannel w) (isInitialized w) (timeTablesRecieved w)
  (dateRecievedCallback w) (volumeReportCallback w) (configFile w) (currentDate w) v
  (statusMutex w) (statusSignal w) (demuxMutex w) (demuxSignal w) (calls w) (pending w)
  (client w).
Definition set_statusMutex {C} (v : bool) (w : world C) : world C :=
  mkWorld (patTable w) (pmtTable w) (tdtTable w) (totTable w) (playerHandle w) (sourceHandle w)
  (streamHandleA w) (streamHandleV w) (filterHandle w) (threadExit w) (changeChannel w)
  (programNumber w) (currentChannel w) (isInitialized w) (timeTablesRecieved w)
  (dateRecievedCallback w) (volumeReportCallback w) (configFile w) (currentDate w)
  (currentVolume w) v (statusSignal w) (demuxMutex w) (demuxSignal w) (calls w) (pending w)
  (client w).
Definition set_statusSignal {C} (v : bool) (w : world C) : world C :=
  mkWorld (patTable w) (pmtTable w) (tdtTable w) (totTable w) (playerHandle w) (sourceHandle w)
  (streamHandleA w) (streamHandleV w) (filterHandle w) (threadExit w) (changeChannel w)
  (programNumber w) (currentChannel w) (isInitialized w) (timeTablesRecieved w)
  (dateRecievedCallback w) (volumeReportCallback w) (configFile w) (currentDate w)
  (currentVolume w) (statusMutex w) v (demuxMutex w) (demuxSignal w) (calls w) (pending w)
  (client w).
Definition set_demuxMutex {C} (v : bool) (w : world C) : world C :=
  mkWorld (patTable w) (pmtTable w) (tdtTable w) (totTable w) (playerHandle w) (sourceHandle w)
  (streamHandleA w) (streamHandleV w) (filterHandle w) (threadExit w) (changeChannel w)
  (programNumber w) (currentChannel w) (isInitialized w) (timeTablesRecieved w)
  (dateRecievedCallback w) (volumeReportCallback w) (configFile w) (currentDate w)
  (currentVolume w) (statusMutex w) (statusSignal w) v (demuxSignal w) (calls w) (pending w)
  (client w).
Definition set_demuxSignal {C} (v : bool) (w : world C) : world C :=
  mkWorld (patTable w) (pmtTable w) (tdtTable w) (totTable w) (playerHandle w) (sourceHandle w)
  (streamHandleA w) (streamHandleV w) (filterHandle w) (threadExit w) (changeChannel w)
  (programNumber w) (currentChannel w) (isInitialized w) (timeTablesRecieved w)
  (dateRecievedCallback w) (volumeReportCallback w) (configFile w) (currentDate w)
  (currentVolume w) (statusMutex w) (statusSignal w) (demuxMutex w) v (calls w) (pending w)
  (client w).
Definition set_calls {C} (v : list call) (w : world C) : world C :=
  mkWorld (patTable w) (pmtTable w) (tdtTable w) (totTable w) (playerHandle w) (sourceHandle w)
  (streamHandleA w) (streamHandleV w) (filterHandle w) (threadExit w) (changeChannel w)
  (programNumber w) (currentChannel w) (isInitialized w) (timeTablesRecieved w)
  (dateRecievedCallback w) (volumeReportCallback w) (configFile w) (currentDate w)
  (currentVolume w) (statusMutex w) (statusSignal w) (demuxMutex w) (demuxSignal w) v
  (pending w) (client w).
Definition set_pending {C} (v : list event) (w : world C) : world C :=
  mkWorld (patTable w) (pmtTable w) (tdtTable w) (totTable w) (playerHandle w) (sourceHandle w)
  (streamHandleA w) (streamHandleV w) (filterHandle w) (threadExit w) (changeChannel w)
  (programNumber w) (currentChannel w) (isInitialized w) (timeTablesRecieved w)
  (dateRecievedCallback w) (volumeReportCallback w) (configFile w) (currentDate w)
  (currentVolume w) (statusMutex w) (statusSignal w) (demuxMutex w) (demuxSignal w) (calls w) v
  (client w).
Definition set_client {C} (v : C) (w : world C) : world C :=
  mkWorld (patTable w) (pmtTable w) (tdtTable w) (totTable w) (playerHandle w) (sourceHandle w)
  (streamHandleA w) (streamHandleV w) (filterHandle w) (threadExit w) (changeChannel w)
  (programNumber w) (currentChannel w) (isInitialized w) (timeTablesRecieved w)
  (dateRecievedCallback w) (volumeReportCallback w) (configFile w) (currentDate w)
  (currentVolume w) (statusMutex w) (statusSignal w) (demuxMutex w) (demuxSignal w) (calls w)
  (pending w) v.

(** Before the first call: the initialisers of the file. *)
Definition start {C} (schedule : list event) (c : C) : world C :=
  {| patTable := Null; pmtTable := Null; tdtTable := Null; totTable := Null;
     playerHandle := 0; sourceHandle := 0; streamHandleA := 0; streamHandleV := 0;
     filterHandle := 0; threadExit := false; changeChannel := false; programNumber := 0;
     currentChannel := mkChannelInfo 0 0 0; isInitialized := false;
     timeTablesRecieved := false; dateRecievedCallback := None; volumeReportCallback := None;
     configFile := Config.no_info; currentDate := mkCurrentDate 0 0 0; currentVolume := 5;
     statusMutex := false; statusSignal := false; demuxMutex := false; demuxSignal := false;
     calls := []; pending := schedule; client := c |}.

Definition volumeConstant : Z := 160400000.
