(* ===== verification/StreamController.v ===== *)
(** * StreamController: the operations of stream_controller.c

    The handlers and the controller task as programs of the monad over the
    static variables. A wait for a condition goes through the schedule until
    the condition is signalled. *)

From S2P Require Import Prelude Tables PatParser PmtParser TdtParser TotParser.
From S2P Require Import Printing ConfigFile Machine World.

Module Sc.
Section Operations.
Context `{TdpApi} {C : Type}.

Abbreviation SC := (M (world C)).

(** ** External calls and memory *)

Definition external (c : call) : SC answer := fun w =>
  Val (Ran (tdp (calls w) c) (set_calls (c :: calls w) w)).

(** A call whose result is looked at: did it fail? *)
Definition fails (c : call) : SC bool :=
  a ← external c; mret (negb (code a =? 0)).

Definition ignored (c : call) : SC unit :=
  _ ← external c; mret tt.

(** A call that may store a handle, a [uint32_t]. *)
Definition fails_out (c : call) (set : Z -> world C -> world C) : SC bool :=
  a ← external c;
  _ ← match out a with Some v => modify (set (u32 v)) | None => mret tt end;
  mret (negb (code a =? 0)).

(** A table is allocated and cleared: did malloc return null? *)
Definition malloc_zeroed {T} (type_name : string) (zero : T)
    (set : ptr T -> world C -> world C) : SC bool :=
  a ← external (Malloc type_name);
  match out a with
  | None => _ ← modify (set Null); mret true
  | Some _ => _ ← modify (set (Live zero)); mret false
  end.

Definition free_global {T} (get : world C -> ptr T) (set : ptr T -> world C -> world C)
    : SC unit :=
  p ← gets get; p ← lift (free p); modify (set p).

(** [free(patTable); free(pmtTable); free(tdtTable); free(totTable);] *)
Definition free_tables : SC unit :=
  _ ← free_global patTable set_patTable;
  _ ← free_global pmtTable set_pmtTable;
  _ ← free_global tdtTable set_tdtTable;
  free_global totTable set_totTable.

Definition zero_pat : Pat.PatTable :=
  Pat.mkPatTable (Pat.mkPatHeader 0 0 0 0 0 0 0 0)
    (replicate 20 (Pat.mkPatServiceInfo 0 0)) 0.
Definition zero_pmt : Pmt.PmtTable :=
  Pmt.mkPmtTable (Pmt.mkPmtTableHeader 0 0 0 0 0 0 0 0 0 0)
    (replicate 20 (Pmt.mkPmtElementaryInfo 0 0 0)) 0.
Definition zero_tdt : Tdt.TdtTable := Tdt.mkTdtTable 0 0 0 0 0 0 0 0 0.
Definition zero_tot : Tot.TotTable :=
  Tot.mkTotTable 0 0 0 0 0
    (replicate 20 (Tot.mkDescriptor 0 0 (replicate 20 (Tot.mkInfo 0 0 0 0 0 0 0)) 0)) 0.

(** ** Start and end *)

Definition streamControllerInit : SC StreamControllerError :=
  failed ← fails PthreadCreate;
  mret (if failed : bool then SC_THREAD_ERROR else SC_NO_ERROR).

Definition streamControllerDeinit : SC StreamControllerError :=
  initialized ← gets isInitialized;
  if negb initialized then mret SC_ERROR else
  _ ← modify (set_threadExit true);
  failed ← fails PthreadJoin;
  if failed : bool then mret SC_THREAD_ERROR else
  player ← gets playerHandle;
  source ← gets sourceHandle;
  filter ← gets filterHandle;
  audio ← gets streamHandleA;
  video ← gets streamHandleV;
  _ ← ignored (DemuxFreeFilter player filter);
  _ ← ignored (PlayerStreamRemove player source audio);
  _ ← ignored (PlayerStreamRemove player source video);
  _ ← ignored (PlayerSourceClose player source);
  _ ← ignored (PlayerDeinit player);
  _ ← ignored TunerDeinit;
  _ ← free_tables;
  _ ← modify (set_isInitialized false);
  mret SC_NO_ERROR.

(** ** Requests *)

Definition service_count : SC Z :=
  p ← gets patTable; t ← lift (deref p); mret (Pat.serviceInfoCount t).

Definition channelUp : SC StreamControllerError :=
  p ← gets programNumber;
  n ← service_count;
  _ ← modify (set_programNumber (if n - 2 <=? p then 0 else i16 (p + 1)));
  _ ← modify (set_changeChannel true);
  mret SC_NO_ERROR.

Definition channelDown : SC StreamControllerError :=
  p ← gets programNumber;
  _ ← (if p <=? 0 then n ← service_count; modify (set_programNumber (i16 (n - 2)))
       else modify (set_programNumber (i16 (p - 1))));
  _ ← modify (set_changeChannel true);
  mret SC_NO_ERROR.

(** [channelInfo] points to a structure, [Some], or is null; the second result
    is the structure afterwards. *)
Definition getChannelInfo (channelInfo : option ChannelInfo)
    : SC (StreamControllerError * option ChannelInfo) :=
  match channelInfo with
  | None => mret (SC_ERROR, None)
  | Some _ => c ← gets currentChannel; mret (SC_NO_ERROR, Some c)
  end.

(** A registered function is called through its pointer. *)
Definition call_client {A} (callback : option (A -> C -> res C)) (a : A) : SC unit :=
  match callback with
  | None => lift (Ub NullDeref)
  | Some f => c ← gets client; c ← lift (f a c); modify (set_client c)
  end.

Definition report_volume : SC unit :=
  callback ← gets volumeReportCallback;
  v ← gets currentVolume;
  call_client callback (u8 v).

Definition set_player_volume (volume : Z) : SC unit :=
  player ← gets playerHandle;
  ignored (PlayerVolumeSet player volume).

Definition volumeUp : SC unit :=
  _ ← modify (fun w => set_currentVolume (u32 (currentVolume w + 1)) w);
  v ← gets currentVolume;
  _ ← (if 10 <? v then modify (set_currentVolume 10) else mret tt);
  v ← gets currentVolume;
  _ ← set_player_volume (u32 (v * volumeConstant));
  report_volume.

Definition volumeDown : SC unit :=
  v ← gets currentVolume;
  _ ← (if 0 <? v then modify (set_currentVolume (u32 (v - 1))) else mret tt);
  v ← gets currentVolume;
  _ ← set_player_volume (u32 (v * volumeConstant));
  report_volume.

Definition volumeMute : SC unit :=
  _ ← set_player_volume 0;
  modify (set_currentVolume 0).

Definition registerDateCallback (dateCallback : option (CurrentDate -> C -> res C))
    : SC StreamControllerError :=
  match dateCallback with
  | None => mret SC_ERROR
  | Some _ => _ ← modify (set_dateRecievedCallback dateCallback); mret SC_NO_ERROR
  end.

Definition registerVolumeCallback (volumeCallback : option (Z -> C -> res C))
    : SC StreamControllerError :=
  match volumeCallback with
  | None => mret SC_ERROR
  | Some _ => _ ← modify (set_volumeReportCallback volumeCallback); mret SC_NO_ERROR
  end.

Definition serve (r : request) : SC unit :=
  match r with
  | ChannelUp => _ ← channelUp; mret tt
  | ChannelDown => _ ← channelDown; mret tt
  | VolumeUp => volumeUp
  | VolumeDown => volumeDown
  | VolumeMute => volumeMute
  end.

(** ** Callbacks of the library *)

(** [pthread_mutex_lock; pthread_cond_signal; pthread_mutex_unlock]: the thread
    stops at a mutex that is held. *)
Definition signal_locked (held : world C -> bool) (set_signal : bool -> world C -> world C)
    : SC unit :=
  b ← gets held;
  if b : bool then blocked else modify (set_signal true).

(** One branch of sectionReceivedCallback: parse into the table and, when that
    succeeds, print it and signal. The text goes to the output of the program,
    which nothing reads; the accesses of the printing are made. *)
Definition receive {T} (parse : option bytes -> option T -> res (ParseErrorCode * option T))
    (print : option T -> res unit) (get : world C -> ptr T) (set : ptr T -> world C -> world C)
    (buffer : bytes) : SC unit :=
  p ← gets get;
  t ← lift (as_argument p);
  r ← lift (parse (Some buffer) t);
  _ ← match r.2 with Some t => modify (set (Live t)) | None => mret tt end;
  if is_ok r.1 then
    _ ← lift (print r.2);
    signal_locked demuxMutex set_demuxSignal
  else mret tt.

Definition no_print {T} (t : option T) : res unit := Val tt.
Definition print_tdt (t : option Tdt.TdtTable) : res unit :=
  _ ← Print.printTdtTable as_int t; Val tt.
Definition print_tot (t : option Tot.TotTable) : res unit :=
  _ ← Print.printTotTable t; Val tt.

Definition sectionReceivedCallback (buffer : bytes) : SC Z :=
  tableId ← lift (rd buffer 0);
  _ ← (if tableId =? 0x00 then receive Pat.parsePatTable no_print patTable set_patTable buffer
       else if tableId =? 0x02 then
         receive Pmt.parsePmtTable no_print pmtTable set_pmtTable buffer
       else if tableId =? 0x70 then
         receive Tdt.parseTdtTable print_tdt tdtTable set_tdtTable buffer
       else if tableId =? 0x73 then
         receive Tot.parseTotTable print_tot totTable set_totTable buffer
       else mret tt);
  mret 0.

Definition tunerStatusCallback (status : Z) : SC Z :=
  _ ← (if status =? STATUS_LOCKED then signal_locked statusMutex set_statusSignal
       else mret tt);
  mret 0.

(** ** Waiting *)

(** What another thread does at a step of the schedule. *)
Definition handle (e : event) : SC unit :=
  match e with
  | Delivery buffer => _ ← sectionReceivedCallback buffer; mret tt
  | LockStatus status => _ ← tunerStatusCallback status; mret tt
  | Request r => serve r
  | Wake _ | Pass => mret tt
  end.

(** The steps of the schedule up to the one that ends the wait: the signal, or
    a return by itself. The run waits for ever when there is no such step. *)
Fixpoint wait_events (signalled : world C -> bool) (schedule : list event) : SC Z :=
  match schedule with
  | [] => blocked
  | e :: schedule =>
      _ ← modify (set_pending schedule);
      match e with
      | Wake code => mret code
      | _ =>
          _ ← handle e;
          b ← gets signalled;
          if b : bool then mret 0 else wait_events signalled schedule
      end
  end.

(** [pthread_cond_wait], called with the mutex held: it is released while the
    thread waits and held again after. *)
Definition cond_wait (signalled : world C -> bool) (set_signal set_mutex : bool -> world C -> world C)
    : SC Z :=
  _ ← modify (set_signal false);
  _ ← modify (set_mutex false);
  r ← (fun w => wait_events signalled (pending w) w);
  _ ← modify (set_mutex true);
  mret r.

Definition lock (held : world C -> bool) (set_mutex : bool -> world C -> world C) : SC unit :=
  b ← gets held; if b : bool then blocked else modify (set_mutex true).

Definition wait_demux : SC Z :=
  _ ← lock demuxMutex set_demuxMutex;
  cond_wait demuxSignal set_demuxSignal set_demuxMutex.

(** The wait for a table, in startChannel and parseTimeTables. *)
Definition wait_table : SC unit :=
  r ← wait_demux;
  _ ← (if r =? ETIMEDOUT then _ ← streamControllerDeinit; mret tt else mret tt);
  modify (set_demuxMutex false).

(** ** Channels *)

Definition is_video (streamType : Z) : bool :=
  (streamType =? 0x1) || (streamType =? 0x2) || (streamType =? 0x1b).
Definition is_audio (streamType : Z) : bool :=
  (streamType =? 0x3) || (streamType =? 0x4).

(** The loop over the elementary streams: its locals [i], [audioPid] and
    [videoPid]. *)
Definition pid_state : Type := Z * Z * Z.

Definition pid_step (t : Pmt.PmtTable) (s : pid_state) : res (ctl pid_state (Z * Z)) :=
  let '(i, audioPid, videoPid) := s in
  if i <? Pmt.elementaryInfoCount t then
    e ← rd (Pmt.pmtElementaryInfoArray t) i;
    if is_video (Pmt.streamType e) && (videoPid =? -1) then
      Val (Next (u8 (i + 1), audioPid, i16 (Pmt.elementaryPid e)))
    else if is_audio (Pmt.streamType e) && (audioPid =? -1) then
      Val (Next (u8 (i + 1), i16 (Pmt.elementaryPid e), videoPid))
    else Val (Next (u8 (i + 1), audioPid, videoPid))
  else Val (Stop (audioPid, videoPid)).

(** The array has 20 cells. *)
Definition pid_fuel : nat := 22.

Definition select_pids (t : Pmt.PmtTable) : res (Z * Z) :=
  loop pid_fuel (pid_step t) (0, -1, -1).

(** [Demux_Free_Filter] and [Demux_Set_Filter] of the next table. *)
Definition next_filter (pid table : Z) : SC bool :=
  player ← gets playerHandle;
  fails_out (DemuxSetFilter player pid table) set_filterHandle.

Definition free_filter : SC unit :=
  player ← gets playerHandle;
  filter ← gets filterHandle;
  ignored (DemuxFreeFilter player filter).

Definition parseTimeTables : SC StreamControllerError :=
  _ ← free_filter;
  failed ← next_filter 0x0014 0x70;
  if failed : bool then mret SC_ERROR else
  _ ← wait_table;
  _ ← free_filter;
  failed ← next_filter 0x0014 0x73;
  if failed : bool then mret SC_ERROR else
  _ ← wait_table;
  tot ← gets totTable;
  tot ← lift (deref tot);
  d ← lift (rd (Tot.descriptors tot) 0);
  _ ← lift (rd (Tot.ltoInfo d) 0);
  tdt ← gets tdtTable;
  tdt ← lift (deref tdt);
  _ ← modify (set_currentDate
        (mkCurrentDate (Tdt.Year tdt) (u8 (Tdt.tmpMonth tdt)) (u8 (Tdt.day tdt))));
  callback ← gets dateRecievedCallback;
  date ← gets currentDate;
  _ ← call_client callback date;
  _ ← modify (set_timeTablesRecieved true);
  mret SC_NO_ERROR.

(** Removing a stream that was created before. *)
Definition remove_stream (get : world C -> Z) (set : Z -> world C -> world C) : SC unit :=
  player ← gets playerHandle;
  source ← gets sourceHandle;
  stream ← gets get;
  _ ← ignored (PlayerStreamRemove player source stream);
  modify (set 0).

Definition create_stream (pid type : Z) (set : Z -> world C -> world C) : SC unit :=
  player ← gets playerHandle;
  source ← gets sourceHandle;
  failed ← fails_out (PlayerStreamCreate player source pid type) set;
  if failed : bool then _ ← streamControllerDeinit; mret tt else mret tt.

Definition start_video (videoPid : Z) : SC unit :=
  stream ← gets streamHandleV;
  if negb (videoPid =? -1) then
    _ ← (if negb (stream =? 0) then remove_stream streamHandleV set_streamHandleV else mret tt);
    create_stream videoPid VIDEO_TYPE_MPEG2 set_streamHandleV
  else
    _ ← remove_stream streamHandleV set_streamHandleV;
    player ← gets playerHandle;
    ignored (ClearScreen player 1).

Definition start_audio (audioPid : Z) : SC unit :=
  stream ← gets streamHandleA;
  if negb (audioPid =? -1) then
    _ ← (if negb (stream =? 0) then remove_stream streamHandleA set_streamHandleA else mret tt);
    create_stream audioPid AUDIO_TYPE_MPEG_AUDIO set_streamHandleA
  else mret tt.

(** startChannel up to the wait: the filter for the table of the program. *)
Definition startChannel_request (channelNumber : Z) : SC bool :=
  _ ← free_filter;
  p ← gets patTable;
  t ← lift (deref p);
  info ← lift (rd (Pat.patServiceInfoArray t) (channelNumber + 1));
  next_filter (Pat.pid info) 0x02.

(** startChannel after the wait: the streams of the table. *)
Definition startChannel_streams (channelNumber : Z) : SC unit :=
  p ← gets pmtTable;
  t ← lift (deref p);
  pids ← lift (select_pids t);
  _ ← start_video pids.2;
  _ ← start_audio pids.1;
  modify (set_currentChannel (mkChannelInfo (i16 (channelNumber + 1)) pids.1 pids.2)).

Definition startChannel (channelNumber : Z) : SC unit :=
  failed ← startChannel_request channelNumber;
  if failed : bool then mret tt else
  _ ← wait_table;
  _ ← startChannel_streams channelNumber;
  received ← gets timeTablesRecieved;
  if negb received then _ ← parseTimeTables; mret tt else mret tt.

Definition changeChannelKey (channelNumber : Z) : SC unit :=
  if -1 <? channelNumber then
    n ← service_count;
    if channelNumber <? n then startChannel channelNumber else mret tt
  else mret tt.

(** ** The controller task *)

(** The end of a path that gives up. *)
Definition give_up_task (close_player close_tuner : bool) : SC (option StreamControllerError) :=
  _ ← free_tables;
  player ← gets playerHandle;
  _ ← (if close_player then ignored (PlayerDeinit player) else mret tt);
  _ ← (if close_tuner then ignored TunerDeinit else mret tt);
  mret (Some SC_ERROR).

(** streamControllerTask up to its loop: [None] when it gets there, else the
    value the thread ends with. *)
Definition task_tables : SC bool :=
  failed ← malloc_zeroed "PatTable" zero_pat set_patTable;
  if failed : bool then mret true else
  failed ← malloc_zeroed "PmtTable" zero_pmt set_pmtTable;
  if failed : bool then mret true else
  failed ← malloc_zeroed "TdtTable" zero_tdt set_tdtTable;
  if failed : bool then mret true else
  malloc_zeroed "TotTable" zero_tot set_totTable.

(** The wait for the tuner: [true] when the time is over, and then the mutex
    stays held. *)
Definition wait_tuner : SC bool :=
  _ ← lock statusMutex set_statusMutex;
  r ← cond_wait statusSignal set_statusSignal set_statusMutex;
  if r =? ETIMEDOUT then mret true else
  _ ← modify (set_statusMutex false);
  mret false.

Definition task_player : SC (option StreamControllerError) :=
  failed ← fails_out PlayerInit set_playerHandle;
  if failed : bool then give_up_task false true else
  player ← gets playerHandle;
  failed ← fails_out (PlayerSourceOpen player) set_sourceHandle;
  if failed : bool then give_up_task true true else
  _ ← next_filter 0x00 0x00;
  _ ← fails DemuxRegisterSectionFilterCallback;
  r ← wait_demux;
  if r =? ETIMEDOUT then give_up_task true true else
  _ ← modify (set_demuxMutex false);
  channel ← gets programNumber;
  _ ← startChannel channel;
  _ ← modify (set_isInitialized true);
  mret None.

Definition task_init : SC (option StreamControllerError) :=
  failed ← task_tables;
  if failed : bool then mret (Some SC_ERROR) else
  failed ← fails TunerInit;
  if failed : bool then give_up_task false false else
  _ ← fails TunerRegisterStatusCallback;
  c ← gets configFile;
  failed ← fails (TunerLockToFrequency (Config.tuneFrequency c) (Config.tuneBandwidth c)
                    (Config.tuneModule c));
  if failed : bool then give_up_task false true else
  timeout ← wait_tuner;
  if timeout : bool then give_up_task false true else
  task_player.

(** One pass of the loop of the task. *)
Definition task_pass : SC unit :=
  b ← gets changeChannel;
  if b : bool then
    _ ← modify (set_changeChannel false);
    channel ← gets programNumber;
    startChannel channel
  else mret tt.

(** The loop, with the steps of the other threads between its passes. *)
Fixpoint task_loop (fuel : nat) : SC unit :=
  match fuel with
  | O => lift NoFuel
  | S fuel =>
      stop ← gets threadExit;
      if stop : bool then mret tt else
      schedule ← gets pending;
      match schedule with
      | [] => blocked
      | e :: schedule =>
          _ ← modify (set_pending schedule);
          _ ← match e with Pass => task_pass | _ => handle e end;
          task_loop fuel
      end
  end.

Definition streamControllerTask (fuel : nat) : SC (option StreamControllerError) :=
  r ← task_init;
  match r with
  | Some e => mret (Some e)
  | None => _ ← task_loop fuel; mret None
  end.

(** ** The configuration *)

Definition loadInitialInfo (file : option bytes) : SC StreamControllerError :=
  c ← gets configFile;
  r ← lift (Config.loadConfigFile DVB_T file c);
  _ ← modify (set_configFile (Config.info r));
  if negb (bool_decide (Config.error r = SC_NO_ERROR)) then mret SC_ERROR else
  c ← gets configFile;
  _ ← modify (set_programNumber (i16 (Config.programNumber c)));
  mret SC_NO_ERROR.
End Operations.
End Sc.
