(* ===== verification/StreamProperties.v ===== *)
(** * StreamProperties: what the stream controller does

    Channel requests walk round the ring of the services; the streams of a
    channel are the first video and the first audio stream of its table;
    sections reach the table they belong to; the volume stays within its range;
    the task starts, and reads the time tables. *)

From S2P Require Import Prelude Tables PatParser PmtParser Double Calendar TdtParser TotParser.
From S2P Require Import Printing ConfigFile Machine World StreamController.

Module ScFacts.
Import Sc.

(** ** Running handlers *)

Ltac run_unfold :=
  cbv beta iota zeta delta [mbind M_bind mret M_ret gets modify lift external
    ignored fails fails_out res_bind res_ret].

Section Facts.
Context `{TdpApi} {C : Type}.
Implicit Types w : world C.

(** ** The ring of the channels *)

(** The programme table is there and lists [n] services. *)
Definition services w (n : Z) : Prop :=
  exists t, patTable w = Live t /\ Pat.serviceInfoCount t = n.

Definition select_channel (p : Z) w : world C := set_changeChannel true (set_programNumber p w).

Lemma channelUp_run w n :
  services w n -> -32768 <= programNumber w < 32767 -> 
  channelUp w = Val (Ran SC_NO_ERROR
    (select_channel (if n - 2 <=? programNumber w then 0 else programNumber w + 1) w)).
Proof.
  intros (t & Ht & <-) Hp. unfold channelUp, service_count. run_unfold. rewrite Ht. cbn [deref].
  rewrite (i16_small (_ + 1)) by lia. reflexivity.
Qed.

Lemma channelDown_run w n :
  services w n -> 0 <= n <= 255 -> -32768 <= programNumber w < 32768 ->
  channelDown w = Val (Ran SC_NO_ERROR
    (select_channel (if programNumber w <=? 0 then n - 2 else programNumber w - 1) w)).
Proof.
  intros (t & Ht & <-) Hn Hp. unfold channelDown, service_count. run_unfold.
  destruct (Z.leb_spec (programNumber w) 0); cbn [programNumber];
    rewrite ?Ht; cbn [deref]; rewrite i16_small by lia; reflexivity.
Qed.

(** How far a request moves on the ring. *)
Definition move (r : request) : option Z :=
  match r with ChannelUp => Some 1 | ChannelDown => Some (-1) | _ => None end.

Fixpoint net (rs : list request) : Z :=
  match rs with [] => 0 | r :: rs => default 0 (move r) + net rs end.

Fixpoint serve_all (rs : list request) : M (world C) unit :=
  match rs with [] => mret tt | r :: rs => _ ← serve r; serve_all rs end.

(** Programme [p] of [n - 1]: entry 0 of the table is the network table. *)
Definition on_ring w (n : Z) : Prop :=
  services w n /\ 2 <= n <= 255 /\ 0 <= programNumber w <= n - 2.

Lemma serve_move w n r d :
  on_ring w n -> move r = Some d ->
  serve r w = Val (Ran tt (select_channel ((programNumber w + d) mod (n - 1)) w)).
Proof.
  intros (Hs & Hn & Hp) Hd.
  destruct r; try discriminate; injection Hd as <-; unfold serve.
  - rewrite (bindM _ _ _ _ _ (channelUp_run w n Hs ltac:(lia))).
    unfold mret, M_ret. do 3 f_equal. destruct (Z.leb_spec (n - 2) (programNumber w)).
    + replace (programNumber w + 1) with (n - 1) by lia. rewrite Z.mod_same; lia.
    + rewrite Z.mod_small; lia.
  - rewrite (bindM _ _ _ _ _ (channelDown_run w n Hs ltac:(lia) ltac:(lia))).
    unfold mret, M_ret. do 3 f_equal. destruct (Z.leb_spec (programNumber w) 0).
    + replace (programNumber w + -1) with (n - 2 + (-1) * (n - 1)) by lia.
      rewrite Z.mod_add, Z.mod_small; lia.
    + rewrite Z.mod_small; lia.
Qed.

Lemma on_ring_select w n p :
  on_ring w n -> 0 <= p <= n - 2 -> on_ring (select_channel p w) n.
Proof. intros ((t & Ht & Hc) & Hn & _) Hp. split; [exists t; auto | auto]. Qed.

Lemma select_channel_twice p q w :
  select_channel p (select_channel q w) = select_channel p w.
Proof. reflexivity. Qed.

(** Any run of channel requests ends on the channel its net move gives. *)
Lemma serve_all_moves rs w n :
  on_ring w n -> Forall (fun r => move r <> None) rs -> rs <> [] ->
  serve_all rs w =
    Val (Ran tt (select_channel ((programNumber w + net rs) mod (n - 1)) w)).
Proof.
  intros Hw Hrs. revert w Hw. induction Hrs as [|r rs Hr Hrs IH]; intros w Hw Hne; [congruence|].
  destruct (move r) as [d|] eqn:Hd; [|congruence]. cbn [serve_all].
  rewrite (bindM _ _ _ _ _ (serve_move w n r d Hw Hd)).
  assert (Hn : 2 <= n <= 255) by apply Hw.
  assert (Hm : 0 <= (programNumber w + d) mod (n - 1) <= n - 2)
    by (pose proof (Z.mod_pos_bound (programNumber w + d) (n - 1) ltac:(lia)); lia).
  destruct rs as [|r' rs].
  - unfold serve_all, net, mret, M_ret. rewrite Hd. simpl default.
    rewrite Z.add_0_r. reflexivity.
  - rewrite IH by (try apply on_ring_select; (assumption || congruence)).
    rewrite select_channel_twice. do 3 f_equal. cbn [net]. rewrite Hd. simpl default.
    change (programNumber (select_channel ?p w)) with p.
    rewrite Zplus_mod_idemp_l. f_equal. lia.
Qed.

Lemma task_pass_changed w :
  changeChannel w = true -> task_pass w = startChannel (programNumber w) (set_changeChannel false w).
Proof. intros Hc. unfold task_pass. run_unfold. rewrite Hc. reflexivity. Qed.

(** A channel whose entry lies outside the array of services. *)
Lemma startChannel_outside w t ch :
  patTable w = Live t -> length (Pat.patServiceInfoArray t) = 20%nat -> ~ (-1 <= ch < 19) ->
  startChannel ch w = Ub OutOfBounds.
Proof.
  intros Ht Hl Hch. unfold startChannel, startChannel_request, free_filter. run_unfold.
  cbn [patTable set_calls]. rewrite Ht. cbn [deref].
  rewrite rd_oob by lia. reflexivity.
Qed.

(** ** The streams of a channel *)

Definition streams (t : Pmt.PmtTable) : list Pmt.PmtElementaryInfo :=
  take (Z.to_nat (Pmt.elementaryInfoCount t)) (Pmt.pmtElementaryInfoArray t).

(** The PID of the first stream of a kind, or -1. *)
Fixpoint first_pid (kind : Z -> bool) (es : list Pmt.PmtElementaryInfo) : Z :=
  match es with
  | [] => -1
  | e :: es => if kind (Pmt.streamType e) then Pmt.elementaryPid e else first_pid kind es
  end.

Lemma audio_not_video x : is_audio x = true -> is_video x = false.
Proof. unfold is_audio, is_video. lia. Qed.

(** The choice made so far, [-1] while there is none. *)
Definition pick (kind : Z -> bool) (chosen : Z) (es : list Pmt.PmtElementaryInfo) : Z :=
  if chosen =? -1 then first_pid kind es else chosen.

Lemma pid_step_entry t i a v e :
  (i < 20)%nat -> Pmt.table_wf t -> Z.of_nat i < Pmt.elementaryInfoCount t ->
  Pmt.pmtElementaryInfoArray t !! i = Some e ->
  pid_step t (Z.of_nat i, a, v) =
    Val (Next (Z.of_nat (S i), pick is_audio a [e], pick is_video v [e])).
Proof.
  intros Hi Ht Hc He. unfold pid_step. rewrite (proj2 (Z.ltb_lt _ _)) by assumption.
  rewrite (rd_nat _ _ _ He), bind_val.
  destruct (Forall_lookup_1 _ _ _ _ (Pmt.tw_entries t Ht) He) as (_ & Hp & _).
  rewrite (i16_small (Pmt.elementaryPid e)), u8_small by lia.
  replace (Z.of_nat i + 1) with (Z.of_nat (S i)) by lia.
  unfold pick. cbn [first_pid].
  destruct (is_video (Pmt.streamType e)) eqn:Ev, (is_audio (Pmt.streamType e)) eqn:Ea;
    try (apply audio_not_video in Ea; congruence);
    destruct (Z.eqb_spec a (-1)), (Z.eqb_spec v (-1)); subst; reflexivity.
Qed.

Lemma pick_cons kind c e es :
  0 <= Pmt.elementaryPid e -> pick kind (pick kind c [e]) es = pick kind c (e :: es).
Proof.
  intros Hp. unfold pick. cbn [first_pid]. destruct (Z.eqb_spec c (-1)).
  - destruct (kind _); [|reflexivity].
    rewrite (proj2 (Z.eqb_neq (Pmt.elementaryPid e) _)) by lia. reflexivity.
  - rewrite (proj2 (Z.eqb_neq c _)) by assumption. reflexivity.
Qed.

Lemma drop_streams t i e :
  Z.of_nat i < Pmt.elementaryInfoCount t -> Pmt.pmtElementaryInfoArray t !! i = Some e ->
  drop i (streams t) = e :: drop (S i) (streams t).
Proof.
  intros Hi He. apply drop_S. unfold streams. rewrite lookup_take_lt by lia. assumption.
Qed.

Lemma pid_loop t d i a v fuel :
  Pmt.table_wf t -> (i + d)%nat = Z.to_nat (Pmt.elementaryInfoCount t) ->
  loop (d + S fuel) (pid_step t) (Z.of_nat i, a, v) =
    Val (pick is_audio a (drop i (streams t)), pick is_video v (drop i (streams t))).
Proof.
  intros Ht. pose proof (Pmt.tw_count t Ht) as Hc. pose proof (Pmt.tw_length t Ht) as Hl.
  revert i a v. induction d as [|d IH]; intros i a v Hd; simpl Nat.add.
  - rewrite (loop_stop _ _ _ (a, v)).
    + rewrite drop_ge by (unfold streams; rewrite length_take; lia).
      unfold pick. cbn [first_pid]. do 2 f_equal; case_match; lia.
    + unfold pid_step. rewrite (proj2 (Z.ltb_ge _ _)) by lia. reflexivity.
  - destruct (lookup_lt_is_Some_2 (Pmt.pmtElementaryInfoArray t) i ltac:(lia)) as [e He].
    rewrite (loop_next _ _ _ _ (pid_step_entry t i a v e ltac:(lia) Ht ltac:(lia) He)).
    rewrite IH by lia. rewrite (drop_streams t i e) by (assumption || lia).
    destruct (Forall_lookup_1 _ _ _ _ (Pmt.tw_entries t Ht) He) as (_ & Hp & _).
    rewrite !pick_cons by lia. reflexivity.
Qed.

Lemma select_pids_first t :
  Pmt.table_wf t ->
  select_pids t = Val (first_pid is_audio (streams t), first_pid is_video (streams t)).
Proof.
  intros Ht. pose proof (Pmt.tw_count t Ht). unfold select_pids.
  set (d := Z.to_nat (Pmt.elementaryInfoCount t)).
  replace pid_fuel with (d + S (21 - d))%nat by (unfold pid_fuel; lia).
  change 0 with (Z.of_nat 0) at 1. rewrite pid_loop by (assumption || reflexivity). reflexivity.
Qed.

(** ** Sections *)

(** The tables are allocated and have the shape their parsers keep. *)
Record tables_ok w (pat : Pat.PatTable) (pmt : Pmt.PmtTable) (tdt : Tdt.TdtTable)
    (tot : Tot.TotTable) : Prop := {
  to_pat : patTable w = Live pat;
  to_pmt : pmtTable w = Live pmt;
  to_tdt : tdtTable w = Live tdt;
  to_tot : totTable w = Live tot;
  to_pat_wf : Pat.table_wf pat;
  to_pmt_wf : Pmt.table_wf pmt;
  to_tot_wf : Tot.table_wf tot }.

Definition signal_if (c : ParseErrorCode) w : world C :=
  if is_ok c then set_demuxSignal true w else w.

Lemma receive_run {T} parse print get set b (t t' : T) c w :
  get w = Live t -> demuxMutex w = false -> demuxMutex (set (Live t') w) = demuxMutex w ->
  parse (Some b) (Some t) = Val (c, Some t') ->
  (is_ok c = true -> print (Some t') = Val tt) ->
  receive parse print get set b w = Val (Ran tt (signal_if c (set (Live t') w))).
Proof.
  intros Hg Hm Hs Hp Hr. unfold receive, signal_locked. run_unfold. rewrite Hg. cbn [as_argument].
  rewrite Hp. cbn [fst snd]. unfold signal_if. destruct (is_ok c); [|reflexivity].
  rewrite Hr, Hs, Hm by reflexivity. reflexivity.
Qed.

Lemma section_pat w t b :
  Pat.complete b -> byte_at b 0 = 0 -> patTable w = Live t ->
  length (Pat.patServiceInfoArray t) = 20%nat -> demuxMutex w = false ->
  sectionReceivedCallback b w = Val (Ran 0
    (signal_if (Pat.reference b t).1 (set_patTable (Live (Pat.reference b t).2) w))).
Proof.
  intros Hb H0 Ht Hl Hm. pose proof Hb as (_ & H8 & _). unfold sectionReceivedCallback.
  erewrite bindM; [|unfold lift; rewrite rd_byte_at by lia; reflexivity].
  change (Z.to_nat 0) with 0%nat. rewrite H0. cbv iota. simpl (0 =? 0).
  erewrite bindM; [reflexivity|].
  eapply receive_run; [exact Ht | exact Hm | reflexivity
    | apply Pat.parsePatTable_total; assumption | reflexivity].
Qed.

Lemma section_pmt w t b :
  Pmt.complete b -> byte_at b 0 = 2 -> pmtTable w = Live t ->
  length (Pmt.pmtElementaryInfoArray t) = 20%nat -> demuxMutex w = false ->
  sectionReceivedCallback b w = Val (Ran 0
    (signal_if (Pmt.reference b t).1 (set_pmtTable (Live (Pmt.reference b t).2) w))).
Proof.
  intros Hb H0 Ht Hl Hm. pose proof Hb as (_ & H8 & _). unfold sectionReceivedCallback.
  erewrite bindM; [|unfold lift; rewrite rd_byte_at by lia; reflexivity].
  change (Z.to_nat 0) with 0%nat. rewrite H0. simpl (2 =? _). cbv iota.
  erewrite bindM; [reflexivity|].
  eapply receive_run; [exact Ht | exact Hm | reflexivity
    | apply Pmt.parsePmtTable_total; assumption | reflexivity].
Qed.

Lemma section_tdt w t b d :
  is_bytes b -> 5 <= Z.of_nat (length b) -> byte_at b 0 = 0x70 -> tdtTable w = Live t ->
  Tdt.mjd_date (Tdt.mjd_at b) = Val d -> demuxMutex w = false ->
  sectionReceivedCallback b w = Val (Ran 0
    (set_demuxSignal true (set_tdtTable (Live (Tdt.with_date b t d)) w))).
Proof.
  intros Hb H5 H0 Ht Hd Hm. unfold sectionReceivedCallback.
  erewrite bindM; [|unfold lift; rewrite rd_byte_at by lia; reflexivity].
  change (Z.to_nat 0) with 0%nat. rewrite H0. simpl (0x70 =? _). cbv iota.
  erewrite bindM; [reflexivity|].
  erewrite receive_run; [|exact Ht | exact Hm | reflexivity
                         | apply Tdt.parseTdtTable_section; eassumption | reflexivity].
  reflexivity.
Qed.

Lemma print_tot_run t :
  Tot.table_wf t -> Tot.infos_fit t -> 0 <= Tot.descriptorsCount t <= 20 ->
  print_tot (Some t) = Val tt.
Proof.
  intros Hw Hf Hc. unfold print_tot. rewrite Print.printTotTable_text by assumption. reflexivity.
Qed.

(** A time offset section: the table it gives is stored and printed, or the
    parser runs out of bounds. *)
Lemma section_tot w t b :
  is_bytes b -> byte_at b 0 = 0x73 -> totTable w = Live t -> Tot.table_wf t -> Tot.infos_fit t ->
  demuxMutex w = false ->
  sectionReceivedCallback b w =
    match Tot.reference b t with
    | Val (_, Some t') => Val (Ran 0 (set_demuxSignal true (set_totTable (Live t') w)))
    | _ => Ub OutOfBounds
    end.
Proof.
  intros Hb H0 Ht Hw Hf Hm.
  assert (Hne : 0 < Z.of_nat (length b)) by (destruct b; [discriminate | cbn [length]; lia]).
  unfold sectionReceivedCallback.
  erewrite bindM; [|unfold lift; rewrite rd_byte_at by lia; reflexivity].
  change (Z.to_nat 0) with 0%nat. rewrite H0. simpl (0x73 =? _). cbv iota.
  pose proof (Tot.parseTotTable_walk b t Hb Hw) as E.
  destruct (Tot.reference_cases b t) as [Er|(t' & Er)]; rewrite Er in E |- *.
  - unfold receive. run_unfold. rewrite Ht. cbn [as_argument]. rewrite E. reflexivity.
  - destruct (Tot.reference_wf b t _ t' Hb Hw Er) as (_ & Hw' & Hc').
    erewrite bindM;
      [|eapply receive_run; [exact Ht | exact Hm | reflexivity | exact E
        | intros _; exact (print_tot_run t' Hw' (Tot.reference_fits b t _ t' Hb Hf Er) Hc')]].
    reflexivity.
Qed.

Lemma section_other w b :
  0 < Z.of_nat (length b) -> Forall (fun id => byte_at b 0 <> id) [0; 2; 0x70; 0x73] ->
  sectionReceivedCallback b w = Val (Ran 0 w).
Proof.
  intros Hb Hid. rewrite !Forall_cons_iff in Hid. destruct Hid as (H0 & H2 & H70 & H73 & _).
  unfold sectionReceivedCallback.
  erewrite bindM; [|unfold lift; rewrite rd_byte_at by lia; reflexivity].
  change (Z.to_nat 0) with 0%nat.
  rewrite !(proj2 (Z.eqb_neq (byte_at b 0) _)) by assumption. reflexivity.
Qed.

(** A wait that ends with the next section of the schedule. *)
Lemma wait_table_section w b rest w1 :
  demuxMutex w = false -> pending w = Delivery b :: rest ->
  sectionReceivedCallback b (set_pending rest (set_demuxSignal false w)) = Val (Ran 0 w1) ->
  demuxSignal w1 = true ->
  wait_table w = Val (Ran tt (set_demuxMutex false w1)).
Proof.
  intros Hm Hp Hs Hsig. unfold wait_table, wait_demux, lock, cond_wait.
  assert (E : wait_events demuxSignal (Delivery b :: rest)
                (set_demuxMutex false (set_demuxSignal false (set_demuxMutex true w))) =
              Val (Ran 0 w1)).
  { cbn [wait_events]. erewrite bindM; [|reflexivity].
    erewrite bindM; [|unfold handle; erewrite bindM; [reflexivity|]].
    2:{ rewrite <- Hs. f_equal. destruct w; simpl in Hm |- *; subst; reflexivity. }
    run_unfold. rewrite Hsig. reflexivity. }
  run_unfold. rewrite Hm. cbn [pending set_demuxMutex set_demuxSignal]. rewrite Hp, E. reflexivity.
Qed.

(** ** Starting a channel *)

(** The library does everything it is asked. *)
Definition library_succeeds : Prop := forall h c, code (tdp h c) = 0.

Definition video_calls (w : world C) (v : Z) : list call :=
  let p := playerHandle w in
  let s := sourceHandle w in
  if v =? -1 then [ClearScreen p 1; PlayerStreamRemove p s (streamHandleV w)]
  else PlayerStreamCreate p s v VIDEO_TYPE_MPEG2 ::
       (if streamHandleV w =? 0 then [] else [PlayerStreamRemove p s (streamHandleV w)]).

Definition audio_calls (w : world C) (a : Z) : list call :=
  let p := playerHandle w in
  let s := sourceHandle w in
  if a =? -1 then []
  else PlayerStreamCreate p s a AUDIO_TYPE_MPEG_AUDIO ::
       (if streamHandleA w =? 0 then [] else [PlayerStreamRemove p s (streamHandleA w)]).

Lemma start_video_run w v :
  library_succeeds ->
  exists h, (v = -1 -> h = 0) /\ start_video v w =
    Val (Ran tt (set_streamHandleV h (set_calls (video_calls w v ++ calls w) w))).
Proof.
  intros Hok. unfold start_video, remove_stream, create_stream, video_calls. run_unfold.
  destruct (Z.eqb_spec v (-1)); cbn [negb]; [exists 0; split; reflexivity|].
  destruct (Z.eqb_spec (streamHandleV w) 0); cbn [negb]; rewrite Hok;
    match goal with |- context [out ?a] => destruct (out a) as [h|] end;
    eexists; (split; [intros; contradiction | reflexivity]).
Qed.

Lemma start_audio_run w a :
  library_succeeds ->
  exists h, (a = -1 -> h = streamHandleA w) /\ start_audio a w =
    Val (Ran tt (set_streamHandleA h (set_calls (audio_calls w a ++ calls w) w))).
Proof.
  intros Hok. unfold start_audio, remove_stream, create_stream, audio_calls. run_unfold.
  destruct (Z.eqb_spec a (-1)); cbn [negb].
  { exists (streamHandleA w). destruct w. split; reflexivity. }
  destruct (Z.eqb_spec (streamHandleA w) 0); cbn [negb]; rewrite Hok;
    match goal with |- context [out ?a] => destruct (out a) as [h|] end;
    eexists; (split; [intros; contradiction | reflexivity]).
Qed.

Lemma startChannel_streams_run w t ch :
  library_succeeds -> pmtTable w = Live t -> Pmt.table_wf t ->
  let v := first_pid is_video (streams t) in
  let a := first_pid is_audio (streams t) in
  exists hv ha, (v = -1 -> hv = 0) /\ (a = -1 -> ha = streamHandleA w) /\
    startChannel_streams ch w = Val (Ran tt
      (set_currentChannel (mkChannelInfo (i16 (ch + 1)) a v)
        (set_streamHandleA ha (set_streamHandleV hv
          (set_calls (audio_calls w a ++ video_calls w v ++ calls w) w))))).
Proof.
  intros Hok Ht Hwf v a. unfold startChannel_streams.
  erewrite bindM; [|reflexivity]. rewrite Ht.
  erewrite bindM; [|reflexivity].
  erewrite bindM; [|unfold lift; rewrite select_pids_first by assumption; reflexivity].
  cbn [fst snd]. fold v a.
  destruct (start_video_run w v Hok) as (hv & Hv & Ev). erewrite bindM; [|exact Ev].
  destruct (start_audio_run (set_streamHandleV hv (set_calls (video_calls w v ++ calls w) w)) a Hok)
    as (ha & Ha & Ea). erewrite bindM; [|exact Ea].
  exists hv, ha. auto.
Qed.

Lemma startChannel_request_run w t ch info :
  library_succeeds -> patTable w = Live t -> -1 <= ch ->
  Pat.patServiceInfoArray t !! Z.to_nat (ch + 1) = Some info ->
  exists f, startChannel_request ch w =
    Val (Ran false
      (set_filterHandle f
        (set_calls (DemuxSetFilter (playerHandle w) (Pat.pid info) 0x02 ::
                    DemuxFreeFilter (playerHandle w) (filterHandle w) :: calls w) w))).
Proof.
  intros Hok Ht Hch Hi. unfold startChannel_request, free_filter, next_filter. run_unfold.
  cbn [patTable set_calls]. rewrite Ht. cbn [deref].
  rewrite (rd_some _ _ info) by (assumption || lia). rewrite Hok.
  match goal with |- context [out ?a] => destruct (out a) as [f|] end;
    [exists (u32 f) | exists (filterHandle w)]; [reflexivity | destruct w; reflexivity].
Qed.

(** The channel [ch], its entry [info] of the programme table, the program map
    section [b] that comes next and the table [t'] it gives. *)
Record channel_starts w (ch : Z) (info : Pat.PatServiceInfo) (b : bytes) (rest : list event)
    (t' : Pmt.PmtTable) : Prop := {
  cs_pat : exists t, patTable w = Live t /\
             Pat.patServiceInfoArray t !! Z.to_nat (ch + 1) = Some info;
  cs_channel : 0 <= ch < 32767;
  cs_pmt : exists old, pmtTable w = Live old /\ Pmt.table_wf old /\
             Pmt.reference b old = (TABLES_PARSE_OK, t');
  cs_section : Pmt.complete b;
  cs_id : byte_at b 0 = 2;
  cs_pending : pending w = Delivery b :: rest;
  cs_mutex : demuxMutex w = false }.

(** The state when the streams are there and the time tables are next. *)
Definition tuned w (ch : Z) (info : Pat.PatServiceInfo) (rest : list event) (t' : Pmt.PmtTable)
    (f hv ha : Z) : world C :=
  let v := first_pid is_video (streams t') in
  let a := first_pid is_audio (streams t') in
  set_currentChannel (mkChannelInfo (ch + 1) a v)
    (set_streamHandleA ha (set_streamHandleV hv
      (set_calls (audio_calls w a ++ video_calls w v ++
                  [DemuxSetFilter (playerHandle w) (Pat.pid info) 0x02;
                   DemuxFreeFilter (playerHandle w) (filterHandle w)] ++ calls w)
        (set_pmtTable (Live t') (set_demuxSignal true (set_pending rest
          (set_filterHandle f w))))))).

Definition time_tables_if_needed : M (world C) unit :=
  received ← gets timeTablesRecieved;
  if negb received then _ ← parseTimeTables; mret tt else mret tt.

Lemma startChannel_run w ch info b rest t' :
  library_succeeds -> channel_starts w ch info b rest t' ->
  exists f hv ha,
    (first_pid is_video (streams t') = -1 -> hv = 0) /\
    (first_pid is_audio (streams t') = -1 -> ha = streamHandleA w) /\
    startChannel ch w = time_tables_if_needed (tuned w ch info rest t' f hv ha).
Proof.
  intros Hok [(t & Ht & Hi) Hch (old & Hold & Hwf & Href) Hb H0 Hp Hm].
  destruct (startChannel_request_run w t ch info Hok Ht ltac:(lia) Hi) as [f Ef].
  exists f. unfold startChannel. erewrite bindM; [|exact Ef]. cbv iota.
  set (w1 := set_filterHandle f (set_calls _ w)).
  set (w2 := set_pending rest (set_demuxSignal false w1)).
  pose proof (section_pmt w2 old b Hb H0 Hold (Pmt.tw_length _ Hwf) Hm) as Es.
  rewrite Href in Es. unfold signal_if in Es. cbn [fst snd is_ok] in Es.
  erewrite bindM; [|eapply (wait_table_section w1 b rest); [exact Hm | exact Hp | exact Es | reflexivity]].
  set (w3 := set_demuxMutex false _).
  assert (Hwf' : Pmt.table_wf t').
  { change t' with (snd (TABLES_PARSE_OK, t')). rewrite <- Href.
    apply Pmt.pmt_reference_wf; [apply Hb | assumption]. }
  destruct (startChannel_streams_run w3 t' ch Hok eq_refl Hwf') as (hv & ha & Hv & Ha & E).
  exists hv, ha. split; [exact Hv|]. split; [exact Ha|]. erewrite bindM; [|exact E].
  match goal with |- ?m ?u = _ => change (time_tables_if_needed u = time_tables_if_needed
    (tuned w ch info rest t' f hv ha)) end.
  apply f_equal. clear - Hm Hch. unfold tuned. rewrite i16_small by lia.
  destruct w; simpl in Hm; subst. reflexivity.
Qed.

(** ** The time tables *)

Lemma filter_run w pid table :
  library_succeeds ->
  exists f, (_ ← free_filter; next_filter pid table) w =
    Val (Ran false (set_filterHandle f
      (set_calls (DemuxSetFilter (playerHandle w) pid table ::
                  DemuxFreeFilter (playerHandle w) (filterHandle w) :: calls w) w))).
Proof.
  intros Hok. unfold free_filter, next_filter. run_unfold. rewrite Hok.
  match goal with |- context [out ?a] => destruct (out a) as [f|] end;
    [exists (u32 f); reflexivity | exists (filterHandle w); destruct w; reflexivity].
Qed.

(** The two sections that come when the time tables are asked for. *)
Record time_comes w (d : Tdt.date) (b1 b2 : bytes) (rest : list event) (tot' : Tot.TotTable)
    : Prop := {
  tc_tdt : exists t, tdtTable w = Live t;
  tc_tdt_section : is_bytes b1 /\ 5 <= Z.of_nat (length b1) /\ byte_at b1 0 = 0x70;
  tc_date : Tdt.mjd_date (Tdt.mjd_at b1) = Val d;
  tc_tot : exists t, totTable w = Live t /\ Tot.table_wf t /\ Tot.infos_fit t /\
             Tot.parseTotTable (Some b2) (Some t) = Val (TABLES_PARSE_OK, Some tot');
  tc_tot_section : is_bytes b2 /\ byte_at b2 0 = 0x73;
  tc_pending : pending w = Delivery b1 :: Delivery b2 :: rest;
  tc_mutex : demuxMutex w = false }.

Definition reported (d : Tdt.date) : CurrentDate :=
  mkCurrentDate (Tdt.d_Year d) (u8 (Tdt.d_tmpMonth d)) (u8 (Tdt.d_day d)).

Lemma first_info tot' :
  Tot.table_wf tot' ->
  exists d i, rd (Tot.descriptors tot') 0 = Val d /\ rd (Tot.ltoInfo d) 0 = Val i.
Proof.
  intros [Hl Hw]. destruct (lookup_lt_is_Some_2 (Tot.descriptors tot') 0 ltac:(lia)) as [d Hd].
  destruct (Forall_lookup_1 _ _ _ _ Hw Hd) as [Hi _].
  destruct (lookup_lt_is_Some_2 (Tot.ltoInfo d) 0 ltac:(lia)) as [i Hi0].
  exists d, i. split; apply rd_some; assumption || lia.
Qed.

(** The end of parseTimeTables. *)
Definition report_date : M (world C) StreamControllerError :=
  callback ← gets dateRecievedCallback;
  date ← gets currentDate;
  _ ← call_client callback date;
  _ ← modify (set_timeTablesRecieved true);
  mret SC_NO_ERROR.

Lemma bind_assoc {A B D} (m : M (world C) A) (k : A -> M (world C) B) (g : B -> M (world C) D) u :
  (x ← m; y ← k x; g y) u = (y ← (x ← m; k x); g y) u.
Proof. unfold mbind, M_bind. destruct (m u) as [[a u'|u']| |]; reflexivity. Qed.

(** The two tables are there and the date is to be reported. *)
Definition date_known w (d : Tdt.date) (rest : list event) (w' : world C) : Prop :=
  dateRecievedCallback w' = dateRecievedCallback w /\ client w' = client w /\
  currentDate w' = reported d /\
  pending w' = rest /\ demuxMutex w' = false /\ statusMutex w' = statusMutex w /\
  currentChannel w' = currentChannel w /\ patTable w' = patTable w /\
  pmtTable w' = pmtTable w /\ changeChannel w' = changeChannel w /\
  programNumber w' = programNumber w /\ isInitialized w' = isInitialized w /\
  (currentVolume w' = currentVolume w /\ volumeReportCallback w' = volumeReportCallback w) /\
  exists g1 g2,
  calls w' = [DemuxSetFilter (playerHandle w) 0x14 0x73; DemuxFreeFilter (playerHandle w) g1;
              DemuxSetFilter (playerHandle w) 0x14 0x70; DemuxFreeFilter (playerHandle w) g2]
             ++ calls w.

Lemma parseTimeTables_reaches w d b1 b2 rest tot' :
  library_succeeds -> time_comes w d b1 b2 rest tot' ->
  exists w', parseTimeTables w = report_date w' /\ date_known w d rest w'.
Proof.
  intros Hok [(t & Ht) (Hb1 & H5 & Hid1) Hd (tt0 & Htt & Hwf0 & Hfit & Htot) (Hb2 & Hid2) Hp Hm].
  rewrite Tot.parseTotTable_walk in Htot by assumption.
  destruct (Tot.reference_wf b2 tt0 _ tot' Hb2 Hwf0 Htot) as (_ & Hwf & _).
  destruct (filter_run w 0x14 0x70 Hok) as [f1 E1].
  unfold parseTimeTables.
  set (w1 := set_filterHandle f1 _) in E1.
  pose proof (section_tdt (set_pending (Delivery b2 :: rest) (set_demuxSignal false w1)) t b1 d
                Hb1 H5 Hid1 Ht Hd Hm) as S1.
  set (w2 := set_demuxSignal true _) in S1.
  destruct (filter_run (set_demuxMutex false w2) 0x14 0x73 Hok) as [f2 E2].
  set (w3 := set_filterHandle f2 _) in E2.
  pose proof (section_tot (set_pending rest (set_demuxSignal false w3)) tt0 b2
                Hb2 Hid2 Htt Hwf0 Hfit eq_refl) as S2. rewrite Htot in S2.
  set (w4 := set_demuxSignal true _) in S2.
  destruct (first_info tot' Hwf) as (d0 & i0 & R1 & R2).
  rewrite bind_assoc. erewrite bindM; [|exact E1]. cbv iota.
  erewrite bindM;
    [|exact (wait_table_section w1 b1 (Delivery b2 :: rest) w2 Hm Hp S1 eq_refl)].
  rewrite bind_assoc. erewrite bindM; [|exact E2]. cbv iota.
  erewrite bindM;
    [|exact (wait_table_section w3 b2 rest w4 eq_refl eq_refl S2 eq_refl)].
  eexists. split.
  { do 2 (erewrite bindM; [|reflexivity]).
    erewrite bindM; [|unfold lift; rewrite R1; reflexivity].
    erewrite bindM; [|unfold lift; rewrite R2; reflexivity].
    do 3 (erewrite bindM; [|reflexivity]). reflexivity. }
  unfold date_known. cbn. repeat split; eauto.
Qed.

Lemma parseTimeTables_run w d b1 b2 rest tot' f c' :
  library_succeeds -> time_comes w d b1 b2 rest tot' ->
  dateRecievedCallback w = Some f -> f (reported d) (client w) = Val c' ->
  exists w1, parseTimeTables w =
      Val (Ran SC_NO_ERROR (set_timeTablesRecieved true (set_client c' w1))) /\
    date_known w d rest w1.
Proof.
  intros Hok Htc Hf Hc.
  destruct (parseTimeTables_reaches w d b1 b2 rest tot' Hok Htc) as (w1 & E & K).
  exists w1. split; [|exact K]. rewrite E. destruct K as (K1 & K2 & K3 & _).
  unfold report_date, call_client. run_unfold. rewrite K1, Hf, K2, K3, Hc. reflexivity.
Qed.

(** ** The controller task *)

Definition library_has_memory : Prop := forall h s, out (tdp h (Malloc s)) <> None.

Lemma malloc_run {T} name (zero : T) set w :
  library_has_memory ->
  malloc_zeroed name zero set w =
    Val (Ran false (set (Live zero) (set_calls (Malloc name :: calls w) w))).
Proof.
  intros Hm. unfold malloc_zeroed. run_unfold. specialize (Hm (calls w) name).
  destruct (out _); [reflexivity | congruence].
Qed.

Definition allocated w : world C :=
  set_totTable (Live zero_tot) (set_tdtTable (Live zero_tdt) (set_pmtTable (Live zero_pmt)
    (set_patTable (Live zero_pat)
      (set_calls ([Malloc "TotTable"; Malloc "TdtTable"; Malloc "PmtTable"; Malloc "PatTable"]
                    ++ calls w) w)))).

Lemma task_tables_run w :
  library_has_memory -> task_tables w = Val (Ran false (allocated w)).
Proof.
  intros Hm. unfold task_tables.
  do 3 (erewrite bindM; [|apply malloc_run; exact Hm]; cbv beta iota).
  rewrite malloc_run by exact Hm. reflexivity.
Qed.

Lemma fails_run w c :
  library_succeeds -> fails c w = Val (Ran false (set_calls (c :: calls w) w)).
Proof. intros Hok. unfold fails. run_unfold. rewrite Hok. reflexivity. Qed.

(** A call that stores a handle, or leaves it as it was. *)
Lemma fails_out_run (get : world C -> Z) set w c :
  library_succeeds -> (forall u : world C, set (get u) u = u) ->
  exists v, fails_out c set w = Val (Ran false (set v (set_calls (c :: calls w) w))).
Proof.
  intros Hok Hget. unfold fails_out. run_unfold. rewrite Hok.
  destruct (out _) as [v|]; [exists (u32 v); reflexivity|].
  exists (get (set_calls (c :: calls w) w)). rewrite Hget. reflexivity.
Qed.

Lemma keep_playerHandle (u : world C) : set_playerHandle (playerHandle u) u = u.
Proof. destruct u. reflexivity. Qed.
Lemma keep_sourceHandle (u : world C) : set_sourceHandle (sourceHandle u) u = u.
Proof. destruct u. reflexivity. Qed.
Lemma keep_filterHandle (u : world C) : set_filterHandle (filterHandle u) u = u.
Proof. destruct u. reflexivity. Qed.

(** The tuner locks while the task waits for it. *)
Lemma wait_tuner_run w rest :
  statusMutex w = false -> pending w = LockStatus STATUS_LOCKED :: rest ->
  wait_tuner w = Val (Ran false (set_pending rest (set_statusSignal true w))).
Proof.
  intros Hm Hp. unfold wait_tuner, lock, cond_wait, handle, tunerStatusCallback, signal_locked.
  assert (E : wait_events statusSignal (LockStatus STATUS_LOCKED :: rest)
                (set_statusMutex false (set_statusSignal false (set_statusMutex true w))) =
              Val (Ran 0 (set_pending rest (set_statusSignal true (set_statusMutex false w))))).
  { cbn [wait_events]. unfold handle, tunerStatusCallback, signal_locked. rewrite Z.eqb_refl.
    reflexivity. }
  run_unfold. rewrite Hm. cbn [pending set_statusMutex set_statusSignal]. rewrite Hp, E.
  destruct w; simpl in Hm |- *; subst; reflexivity.
Qed.

(** What arrives while the task starts: the lock, then the four tables. *)
Record start_up w (ch : Z) (info : Pat.PatServiceInfo) (pat' : Pat.PatTable)
    (pmt' : Pmt.PmtTable) (d : Tdt.date) (tot' : Tot.TotTable) (rest : list event) : Prop := {
  su_sections : exists b0 b1 b2 b3,
    pending w = [LockStatus STATUS_LOCKED; Delivery b0; Delivery b1; Delivery b2; Delivery b3]
                  ++ rest /\
    (Pat.complete b0 /\ byte_at b0 0 = 0 /\
     Pat.reference b0 zero_pat = (TABLES_PARSE_OK, pat')) /\
    (Pmt.complete b1 /\ byte_at b1 0 = 2 /\
     Pmt.reference b1 zero_pmt = (TABLES_PARSE_OK, pmt')) /\
    (is_bytes b2 /\ 5 <= Z.of_nat (length b2) /\ byte_at b2 0 = 0x70 /\
     Tdt.mjd_date (Tdt.mjd_at b2) = Val d) /\
    is_bytes b3 /\ byte_at b3 0 = 0x73 /\
    Tot.parseTotTable (Some b3) (Some zero_tot) = Val (TABLES_PARSE_OK, Some tot');
  su_channel : programNumber w = ch /\ 0 <= ch < 32767;
  su_info : Pat.patServiceInfoArray pat' !! Z.to_nat (ch + 1) = Some info;
  su_mutexes : statusMutex w = false /\ demuxMutex w = false;
  su_times : timeTablesRecieved w = false }.

Lemma zero_pat_wf : Pat.table_wf zero_pat.
Proof.
  split; [split; cbn; unfold is_u8, is_u16; lia | reflexivity | | cbn; lia].
  apply Forall_replicate. split; cbn; unfold is_u16; lia.
Qed.

Lemma zero_pmt_wf : Pmt.table_wf zero_pmt.
Proof.
  split; [split; cbn; unfold is_u8, is_u16; lia | reflexivity | | cbn; lia].
  apply Forall_replicate. unfold Pmt.entry_wf, is_u8. cbn. lia.
Qed.

Lemma zero_tot_wf : Tot.table_wf zero_tot.
Proof.
  split; [reflexivity|]. apply Forall_replicate. split; [reflexivity | unfold is_u8; cbn; lia].
Qed.

Lemma zero_tot_fits : Tot.infos_fit zero_tot.
Proof. apply Forall_replicate. cbn. lia. Qed.

Lemma wait_demux_section w b rest w1 :
  demuxMutex w = false -> pending w = Delivery b :: rest ->
  sectionReceivedCallback b (set_pending rest (set_demuxSignal false w)) = Val (Ran 0 w1) ->
  demuxSignal w1 = true ->
  wait_demux w = Val (Ran 0 (set_demuxMutex true w1)).
Proof.
  intros Hm Hp Hs Hsig. unfold wait_demux, lock, cond_wait.
  assert (E : wait_events demuxSignal (Delivery b :: rest)
                (set_demuxMutex false (set_demuxSignal false (set_demuxMutex true w))) =
              Val (Ran 0 w1)).
  { cbn [wait_events]. erewrite bindM; [|reflexivity].
    erewrite bindM; [|unfold handle; erewrite bindM; [reflexivity|]].
    2:{ rewrite <- Hs. f_equal. destruct w; simpl in Hm |- *; subst; reflexivity. }
    run_unfold. rewrite Hsig. reflexivity. }
  run_unfold. rewrite Hm. cbn [pending set_demuxMutex set_demuxSignal]. rewrite Hp, E. reflexivity.
Qed.

(** The player and the source are open, the filter for the PAT is set. *)
Lemma task_player_run w b0 rest pat' :
  library_succeeds -> demuxMutex w = false -> pending w = Delivery b0 :: rest ->
  patTable w = Live zero_pat -> Pat.complete b0 -> byte_at b0 0 = 0 ->
  Pat.reference b0 zero_pat = (TABLES_PARSE_OK, pat') ->
  exists p s f l, task_player w =
    (_ ← startChannel (programNumber w); _ ← modify (set_isInitialized true); mret None)
      (set_demuxSignal true (set_patTable (Live pat') (set_pending rest
        (set_filterHandle f (set_sourceHandle s (set_playerHandle p (set_calls l w))))))).
Proof.
  intros Hok Hm Hp Hpat Hb H0 Href. unfold task_player, next_filter.
  destruct (fails_out_run playerHandle set_playerHandle w PlayerInit Hok keep_playerHandle)
    as [p E1].
  erewrite bindM; [|exact E1]. cbv beta iota. set (w1 := set_playerHandle p _).
  erewrite bindM; [|reflexivity].
  destruct (fails_out_run sourceHandle set_sourceHandle w1 (PlayerSourceOpen (playerHandle w1))
    Hok keep_sourceHandle) as [s E2].
  erewrite bindM; [|exact E2]. cbv beta iota. set (w2 := set_sourceHandle s _).
  destruct (fails_out_run filterHandle set_filterHandle w2 (DemuxSetFilter (playerHandle w2) 0 0)
    Hok keep_filterHandle) as [f E3].
  erewrite bindM; [|erewrite bindM; [exact E3 | reflexivity]]. cbv beta iota.
  set (w3 := set_filterHandle f _).
  erewrite bindM; [|apply fails_run; exact Hok]. set (w4 := set_calls _ w3).
  pose proof (section_pat (set_pending rest (set_demuxSignal false w4)) zero_pat b0 Hb H0 Hpat
                eq_refl Hm) as Es.
  rewrite Href in Es. unfold signal_if in Es. cbn [fst snd is_ok] in Es.
  erewrite bindM; [|exact (wait_demux_section w4 b0 rest _ Hm Hp Es eq_refl)].
  change (0 =? ETIMEDOUT) with false. cbv beta iota.
  erewrite bindM; [|reflexivity]. erewrite bindM; [|reflexivity].
  exists p, s, f, (calls w4).
  match goal with |- ?m ?u = ?m' ?u' => transitivity (m' u); [reflexivity | apply f_equal] end.
  subst w4 w3 w2 w1. clear - Hm. destruct w; simpl in Hm; subst. reflexivity.
Qed.

(** What is known when the task asks for the time tables. *)
Definition tables_next w (ch : Z) (pat' : Pat.PatTable) (pmt' : Pmt.PmtTable) (w' : world C)
    : Prop :=
  currentChannel w' = mkChannelInfo (ch + 1) (first_pid is_audio (streams pmt'))
                        (first_pid is_video (streams pmt')) /\
  patTable w' = Live pat' /\ pmtTable w' = Live pmt' /\
  dateRecievedCallback w' = dateRecievedCallback w /\ client w' = client w /\
  timeTablesRecieved w' = false /\ statusMutex w' = false /\
  programNumber w' = ch /\ changeChannel w' = changeChannel w /\
  currentVolume w' = currentVolume w /\ volumeReportCallback w' = volumeReportCallback w.

(** A start that goes through, up to the time tables: the first channel is on. *)
Lemma task_init_tunes w ch info pat' pmt' d tot' rest :
  library_succeeds -> library_has_memory -> start_up w ch info pat' pmt' d tot' rest ->
  exists b2 b3 w', tables_next w ch pat' pmt' w' /\ time_comes w' d b2 b3 rest tot' /\
    task_init w = (_ ← parseTimeTables; _ ← modify (set_isInitialized true); mret None) w'.
Proof.
  intros Hok Hmem [(b0 & b1 & b2 & b3 & Hp & (P0 & I0 & R0) & (P1 & I1 & R1) &
    (P2 & L2 & I2 & D2) & L3 & I3 & R3) (Hc & Hch) Hi (Hsm & Hdm) Htt].
  unfold task_init.
  erewrite bindM; [|apply task_tables_run; exact Hmem]. cbv beta iota.
  erewrite bindM; [|apply fails_run; exact Hok]. cbv beta iota.
  erewrite bindM; [|apply fails_run; exact Hok].
  erewrite bindM; [|reflexivity].
  erewrite bindM; [|apply fails_run; exact Hok]. cbv beta iota.
  match goal with |- context [(_ ← wait_tuner; _) ?u] => set (w1 := u) end.
  erewrite bindM; [|exact (wait_tuner_run w1 _ Hsm Hp)]. cbv beta iota.
  match goal with |- context [task_player ?u] => set (w2 := u) end.
  destruct (task_player_run w2 b0 (Delivery b1 :: Delivery b2 :: Delivery b3 :: rest) pat'
    Hok Hdm eq_refl eq_refl P0 I0 R0) as (p & s & fh & l & ->).
  match goal with |- context [(_ ← startChannel _; _) ?u] => set (w3 := u) end.
  change (programNumber w2) with (programNumber w). rewrite Hc.
  assert (Hcs : channel_starts w3 ch info b1 (Delivery b2 :: Delivery b3 :: rest) pmt').
  { split; [exists pat'; split; [reflexivity | exact Hi] | exact Hch | | exact P1 | exact I1
           | reflexivity | exact Hdm].
    exists zero_pmt. split; [reflexivity|]. split; [apply zero_pmt_wf | exact R1]. }
  destruct (startChannel_run w3 ch info b1 _ pmt' Hok Hcs) as (f1 & hv & ha & _ & _ & E1).
  set (w4 := tuned _ _ _ _ _ _ _ _) in E1.
  exists b2, b3, w4. split; [repeat split; auto|]. split.
  { split; [exists zero_tdt; reflexivity | auto | exact D2 | exists zero_tot; auto using zero_tot_wf, zero_tot_fits
      | auto | reflexivity | exact Hdm]. }
  unfold mbind at 1, M_bind at 1. rewrite E1. unfold time_tables_if_needed.
  erewrite bindM; [|reflexivity].
  change (timeTablesRecieved w4) with (timeTablesRecieved w). rewrite Htt. cbn [negb].
  unfold mbind, M_bind. destruct (parseTimeTables w4) as [[e u|u]|k|]; reflexivity.
Qed.

(** With a callback for the date the start is complete. *)
Lemma task_init_run w ch info pat' pmt' d tot' rest f c' :
  library_succeeds -> library_has_memory -> start_up w ch info pat' pmt' d tot' rest ->
  dateRecievedCallback w = Some f -> f (reported d) (client w) = Val c' ->
  exists w', task_init w = Val (Ran None w') /\
    isInitialized w' = true /\
    currentChannel w' = mkChannelInfo (ch + 1) (first_pid is_audio (streams pmt'))
                          (first_pid is_video (streams pmt')) /\
    patTable w' = Live pat' /\ pmtTable w' = Live pmt' /\
    client w' = c' /\ currentDate w' = reported d /\ timeTablesRecieved w' = true /\
    pending w' = rest /\ demuxMutex w' = false /\ statusMutex w' = false /\
    programNumber w' = ch /\ changeChannel w' = changeChannel w /\
    currentVolume w' = currentVolume w /\ volumeReportCallback w' = volumeReportCallback w.
Proof.
  intros Hok Hmem Hs Hf Hcl.
  destruct (task_init_tunes w ch info pat' pmt' d tot' rest Hok Hmem Hs)
    as (b2 & b3 & w4 & (T1 & T2 & T3 & T4 & T5 & _ & T7 & T8 & T9 & T10 & T11) & Htc & E).
  destruct (parseTimeTables_run w4 d b2 b3 rest tot' f c' Hok Htc)
    as (w5 & E2 & _ & _ & F3 & F4 & F5 & F6 & F7 & F8 & F9 & F10 & F11 & _ & [F13 F14] & _);
    [congruence | congruence |].
  eexists. split; [rewrite E; erewrite bindM; [|exact E2]; reflexivity|].
  cbn [isInitialized currentChannel patTable pmtTable client currentDate timeTablesRecieved
       pending demuxMutex statusMutex programNumber changeChannel currentVolume
       volumeReportCallback set_isInitialized set_timeTablesRecieved set_client].
  repeat split; congruence.
Qed.

(** Without one it ends at the call of a null pointer. *)
Lemma task_init_no_callback w ch info pat' pmt' d tot' rest :
  library_succeeds -> library_has_memory -> start_up w ch info pat' pmt' d tot' rest ->
  dateRecievedCallback w = None -> task_init w = Ub NullDeref.
Proof.
  intros Hok Hmem Hs Hf.
  destruct (task_init_tunes w ch info pat' pmt' d tot' rest Hok Hmem Hs)
    as (b2 & b3 & w4 & (_ & _ & _ & T4 & _) & Htc & E).
  destruct (parseTimeTables_reaches w4 d b2 b3 rest tot' Hok Htc) as (w5 & E2 & F1 & _).
  rewrite E. unfold mbind, M_bind. rewrite E2. unfold report_date. run_unfold.
  rewrite F1, T4, Hf. reflexivity.
Qed.

(** ** The configuration *)

Lemma loadInitialInfo_run file r w :
  Config.loadConfigFile DVB_T file (configFile w) = Val r -> Config.error r = SC_NO_ERROR ->
  loadInitialInfo file w =
    Val (Ran SC_NO_ERROR (set_programNumber (i16 (Config.programNumber (Config.info r)))
                            (set_configFile (Config.info r) w))).
Proof.
  intros El Er. unfold loadInitialInfo. erewrite bindM; [|reflexivity].
  erewrite bindM; [|unfold lift; rewrite El; reflexivity].
  erewrite bindM; [|reflexivity]. rewrite Er. reflexivity.
Qed.

(** ** The end *)

Definition after_deinit w : world C :=
  let p := playerHandle w in
  let s := sourceHandle w in
  set_isInitialized false (set_totTable Freed (set_tdtTable Freed (set_pmtTable Freed
    (set_patTable Freed (set_threadExit true
      (set_calls ([TunerDeinit; PlayerDeinit p; PlayerSourceClose p s;
                   PlayerStreamRemove p s (streamHandleV w);
                   PlayerStreamRemove p s (streamHandleA w);
                   DemuxFreeFilter p (filterHandle w); PthreadJoin] ++ calls w) w)))))).

Lemma deinit_run w pat pmt tdt tot :
  library_succeeds -> isInitialized w = true ->
  patTable w = Live pat -> pmtTable w = Live pmt -> tdtTable w = Live tdt ->
  totTable w = Live tot ->
  streamControllerDeinit w = Val (Ran SC_NO_ERROR (after_deinit w)).
Proof.
  intros Hok Hi H1 H2 H3 H4. unfold streamControllerDeinit, free_tables, free_global.
  run_unfold. rewrite Hi. cbn [negb]. rewrite Hok. cbn [Z.eqb negb].
  destruct w; simpl in *; subst. reflexivity.
Qed.

(** ** The volume *)

Definition vol_next (r : request) (v : Z) : Z :=
  match r with
  | VolumeUp => Z.min (v + 1) 10
  | VolumeDown => Z.max (v - 1) 0
  | VolumeMute => 0
  | _ => v
  end.

Definition is_volume (r : request) : Prop :=
  match r with VolumeUp | VolumeDown | VolumeMute => True | _ => False end.

(** The levels a run of requests goes through. *)
Fixpoint levels (rs : list request) (v : Z) : list Z :=
  match rs with [] => [] | r :: rs => vol_next r v :: levels rs (vol_next r v) end.

(** The client is told of every level but a mute. *)
Fixpoint notify (f : Z -> C -> res C) (rs : list request) (v : Z) (c : C) : res C :=
  match rs with
  | [] => Val c
  | r :: rs =>
      c ← match r with VolumeMute => Val c | _ => f (vol_next r v) c end;
      notify f rs (vol_next r v) c
  end.

Definition player_volume (player v : Z) : call := PlayerVolumeSet player (v * 160400000).

Definition at_volume (v : Z) (vs : list Z) (c : C) w : world C :=
  set_client c (set_currentVolume v (set_calls (rev (map (player_volume (playerHandle w)) vs) ++ calls w) w)).

Lemma vol_next_range r v : 0 <= v <= 10 -> 0 <= vol_next r v <= 10.
Proof. destruct r; simpl; lia. Qed.

Lemma serve_volume w f r c' :
  0 <= currentVolume w <= 10 -> volumeReportCallback w = Some f -> is_volume r ->
  match r with VolumeMute => Val (client w) | _ => f (vol_next r (currentVolume w)) (client w) end
    = Val c' ->
  serve r w = Val (Ran tt (at_volume (vol_next r (currentVolume w))
                             [vol_next r (currentVolume w)] c' w)).
Proof.
  intros Hv Hf Hr Hc.
  assert (G : forall v, 0 <= v <= 10 -> f v (client w) = Val c' ->
    (_ ← set_player_volume (u32 (v * volumeConstant)); report_volume) (set_currentVolume v w) =
      Val (Ran tt (at_volume v [v] c' w))).
  { intros v Hv' Hc'. unfold set_player_volume, report_volume, call_client. run_unfold.
    cbn [volumeReportCallback set_calls set_currentVolume]. rewrite Hf.
    cbn [currentVolume client set_calls set_currentVolume].
    rewrite (u8_small v), Hc' by lia. unfold volumeConstant. rewrite u32_small by lia. reflexivity. }
  destruct r; try contradiction; unfold serve, vol_next in *.
  - unfold volumeUp. erewrite bindM; [|reflexivity]. erewrite bindM; [|reflexivity].
    cbn [currentVolume set_currentVolume]. rewrite u32_small by lia.
    destruct (Z.ltb_spec 10 (currentVolume w + 1)).
    + replace (Z.min (currentVolume w + 1) 10) with 10 in * by lia.
      erewrite bindM; [|reflexivity]. erewrite bindM; [|reflexivity]. exact (G 10 ltac:(lia) Hc).
    + replace (Z.min (currentVolume w + 1) 10) with (currentVolume w + 1) in * by lia.
      erewrite bindM; [|reflexivity]. erewrite bindM; [|reflexivity].
      exact (G (currentVolume w + 1) ltac:(lia) Hc).
  - unfold volumeDown. erewrite bindM; [|reflexivity].
    destruct (Z.ltb_spec 0 (currentVolume w)).
    + replace (Z.max (currentVolume w - 1) 0) with (currentVolume w - 1) in * by lia.
      rewrite (u32_small (currentVolume w - 1)) by lia.
      erewrite bindM; [|reflexivity]. erewrite bindM; [|reflexivity].
      exact (G (currentVolume w - 1) ltac:(lia) Hc).
    + replace (Z.max (currentVolume w - 1) 0) with (currentVolume w) in * by lia.
      erewrite bindM; [|reflexivity]. erewrite bindM; [|reflexivity].
      replace w with (set_currentVolume (currentVolume w) w) at 2 by (destruct w; reflexivity).
      exact (G (currentVolume w) ltac:(lia) Hc).
  - injection Hc as <-. destruct w. reflexivity.
Qed.

Lemma at_volume_twice v vs c v' c0 w :
  at_volume v vs c (at_volume v' [v'] c0 w) = at_volume v (v' :: vs) c w.
Proof.
  unfold at_volume. cbn [map rev].
  rewrite <- (app_assoc (rev (map (player_volume (playerHandle w)) vs))). reflexivity.
Qed.

Lemma serve_all_volume rs w f c' :
  0 <= currentVolume w <= 10 -> volumeReportCallback w = Some f -> Forall is_volume rs ->
  notify f rs (currentVolume w) (client w) = Val c' ->
  serve_all rs w = Val (Ran tt (at_volume (fold_left (fun v r => vol_next r v) rs (currentVolume w))
                                 (levels rs (currentVolume w)) c' w)).
Proof.
  intros Hv Hf Hrs. revert w Hv Hf. induction Hrs as [|r rs Hr Hrs IH]; intros w Hv Hf Hc.
  - injection Hc as <-. destruct w. reflexivity.
  - cbn [serve_all notify] in *.
    destruct (match r with VolumeMute => Val (client w) | _ => _ end) as [c1|k|] eqn:E;
      try discriminate.
    rewrite bind_val in Hc. erewrite bindM; [|apply (serve_volume w f r c1); assumption].
    rewrite (IH (at_volume _ _ _ w) (vol_next_range r _ Hv) Hf Hc).
    rewrite at_volume_twice. reflexivity.
Qed.

(** ** The other operations *)

(** The channels changeChannelKey accepts. *)
Definition accepted (n ch : Z) : Prop := 0 <= ch < n.

(** The state after the configuration [i] was loaded. *)
Definition configured (i : Config.InitialInfo) w : world C :=
  set_programNumber (i16 (Config.programNumber i)) (set_configFile (Config.set_module DVB_T i) w).

(** The time to lock is over: the mutex is held. *)
Definition timed_out (rest : list event) w : world C :=
  set_statusMutex true (set_pending rest (set_statusSignal false w)).

(** ** Properties *)

(** C13: Any run of channel up and down requests ends on the channel its net number of steps
    gives on the ring of the services after the first, and one pass of the task then starts
    that channel once. *)
Theorem channel_requests rs w n :
  on_ring w n -> Forall (fun r => move r <> None) rs -> rs <> [] ->
  let q := (programNumber w + net rs) mod (n - 1) in
  0 <= q <= n - 2 /\
  serve_all rs w = Val (Ran tt (select_channel q w)) /\
  task_pass (select_channel q w) = startChannel q (set_changeChannel false (select_channel q w)).
Proof.
  intros Hw Hrs Hne q. assert (Hn : 2 <= n <= 255) by apply Hw.
  split; [pose proof (Z.mod_pos_bound (programNumber w + net rs) (n - 1) ltac:(lia)); lia|].
  split; [apply serve_all_moves; assumption | apply task_pass_changed; reflexivity].
Qed.

(** C12: With a library that succeeds, startChannel filters the PMT of the service at
    channel + 1, waits for it, removes and creates the streams of its first video and first
    audio PID; without a video PID the video stream is removed and the screen cleared,
    without an audio PID the old audio stream stays. These are exactly the calls made, in
    their order, when the time tables are there; otherwise parseTimeTables follows. *)
Theorem startChannel_tunes w ch info b rest t' :
  library_succeeds -> channel_starts w ch info b rest t' ->
  let v := first_pid is_video (streams t') in
  let a := first_pid is_audio (streams t') in
  exists w',
    startChannel ch w =
      (if timeTablesRecieved w then Val (Ran tt w') else (_ ← parseTimeTables; mret tt) w') /\
    currentChannel w' = mkChannelInfo (ch + 1) a v /\
    pmtTable w' = Live t' /\ pending w' = rest /\ demuxMutex w' = false /\
    timeTablesRecieved w' = timeTablesRecieved w /\
    (v = -1 -> streamHandleV w' = 0) /\ (a = -1 -> streamHandleA w' = streamHandleA w) /\
    calls w' = audio_calls w a ++ video_calls w v ++
               [DemuxSetFilter (playerHandle w) (Pat.pid info) 0x02;
                DemuxFreeFilter (playerHandle w) (filterHandle w)] ++ calls w.
Proof.
  intros Hok Hcs v a. destruct (startChannel_run w ch info b rest t' Hok Hcs)
    as (f & hv & ha & Hv & Ha & E).
  exists (tuned w ch info rest t' f hv ha).
  split; [|repeat split; try exact (cs_mutex _ _ _ _ _ _ Hcs); assumption].
  rewrite E. unfold time_tables_if_needed. erewrite bindM; [|reflexivity].
  change (timeTablesRecieved (tuned w ch info rest t' f hv ha)) with (timeTablesRecieved w).
  destruct (timeTablesRecieved w); reflexivity.
Qed.

(** C11: With a library that does what it is asked, and the lock, a PAT, a PMT, a TDT and a
    TOT arriving in turn, the task starts: tables filled, first video and audio PID of the
    program selected, the date given to the callback, every mutex released. *)
Theorem task_boots w ch info pat' pmt' d tot' rest f c' :
  library_succeeds -> library_has_memory -> start_up w ch info pat' pmt' d tot' rest ->
  dateRecievedCallback w = Some f -> f (reported d) (client w) = Val c' ->
  exists w', task_init w = Val (Ran None w') /\
    isInitialized w' = true /\
    currentChannel w' = mkChannelInfo (ch + 1) (first_pid is_audio (streams pmt'))
                          (first_pid is_video (streams pmt')) /\
    patTable w' = Live pat' /\ pmtTable w' = Live pmt' /\ client w' = c' /\ pending w' = rest /\
    demuxMutex w' = false /\ statusMutex w' = false.
Proof.
  intros Hok Hm Hs Hf Hc.
  destruct (task_init_run w ch info pat' pmt' d tot' rest f c' Hok Hm Hs Hf Hc)
    as (w' & H1 & H2 & H3 & H4 & H5 & H6 & _ & _ & H7 & H8 & H9 & _).
  exists w'. auto 10.
Qed.

(** C14: The section callback hands a complete PAT, PMT or TDT section or any TOT section to
    the table of its id: the result of the reference decoder on the table that was there is
    stored and nothing else changes; the waiting thread is signalled exactly when the
    section was parsed; a TOT section is out of bounds exactly when the reference is. Other
    ids change nothing. *)
Theorem sections_reach_tables w pat pmt tdt tot b :
  tables_ok w pat pmt tdt tot -> Tot.infos_fit tot -> demuxMutex w = false ->
  is_bytes b -> 0 < Z.of_nat (length b) ->
  (byte_at b 0 = 0 -> Pat.complete b) -> (byte_at b 0 = 2 -> Pmt.complete b) ->
  (byte_at b 0 = 0x70 -> 5 <= Z.of_nat (length b)) ->
  if byte_at b 0 =? 0 then
    sectionReceivedCallback b w = Val (Ran 0
      (signal_if (Pat.reference b pat).1 (set_patTable (Live (Pat.reference b pat).2) w)))
  else if byte_at b 0 =? 0x02 then
    sectionReceivedCallback b w = Val (Ran 0
      (signal_if (Pmt.reference b pmt).1 (set_pmtTable (Live (Pmt.reference b pmt).2) w)))
  else if byte_at b 0 =? 0x70 then
    exists d, Tdt.mjd_date (Tdt.mjd_at b) = Val d /\
      sectionReceivedCallback b w = Val (Ran 0
        (set_demuxSignal true (set_tdtTable (Live (Tdt.with_date b tdt d)) w)))
  else if byte_at b 0 =? 0x73 then
    sectionReceivedCallback b w =
      match Tot.reference b tot with
      | Val (_, Some tot') => Val (Ran 0 (set_demuxSignal true (set_totTable (Live tot') w)))
      | _ => Ub OutOfBounds
      end
  else sectionReceivedCallback b w = Val (Ran 0 w).
Proof.
  intros [Hpat Hpmt Htdt Htot Wpat Wpmt Wtot] Hfit Hm Hb Hlen Hb0 Hb2 Hb70.
  destruct (Z.eqb_spec (byte_at b 0) 0) as [E0|N0].
  { apply section_pat; auto. apply (Pat.tw_length _ Wpat). }
  destruct (Z.eqb_spec (byte_at b 0) 2) as [E2|N2].
  { apply section_pmt; auto. apply (Pmt.tw_length _ Wpmt). }
  destruct (Z.eqb_spec (byte_at b 0) 0x70) as [E70|N70].
  { destruct (Tdt.mjd_date_total _ (Tdt.mjd_at_range b Hb)) as [d Hd].
    exists d. split; [exact Hd|]. apply section_tdt; auto. }
  destruct (Z.eqb_spec (byte_at b 0) 0x73) as [E73|N73].
  { apply section_tot; assumption. }
  apply section_other; [exact Hlen|]. repeat constructor; assumption.
Qed.

(** C19: When the TDT of a calendar date and a TOT that parses arrive, with a TOT in memory
    that earlier sections left printable, parseTimeTables gives the callback the year, the
    month and the day with its error, stores them, and marks the time tables as received. *)
Theorem parseTimeTables_reports w c time b2 rest tot' f c' :
  library_succeeds -> Cal.valid c -> 15079 <= Cal.mjd_of c <= 65535 -> is_bytes time ->
  (exists t, tdtTable w = Live t) ->
  (exists t, totTable w = Live t /\ Tot.table_wf t /\ Tot.infos_fit t /\
     Tot.parseTotTable (Some b2) (Some t) = Val (TABLES_PARSE_OK, Some tot')) ->
  is_bytes b2 /\ byte_at b2 0 = 0x73 ->
  pending w = Delivery (Tdt.encode_section (Cal.mjd_of c) time) :: Delivery b2 :: rest ->
  demuxMutex w = false -> dateRecievedCallback w = Some f ->
  let date := mkCurrentDate (Cal.year c) (Cal.month c) (Cal.mday c + Tdt.day_error c) in
  f date (client w) = Val c' ->
  exists w', parseTimeTables w = Val (Ran SC_NO_ERROR w') /\
    client w' = c' /\ currentDate w' = date /\ timeTablesRecieved w' = true /\ pending w' = rest.
Proof.
  intros Hok Hc Hr Ht Htdt Htot Hid Hp Hm Hf date Hcl.
  assert (Hu : is_u16 (Cal.mjd_of c)) by (unfold is_u16; lia).
  assert (Erep : reported (Tdt.int_date (Cal.mjd_of c)) = date).
  { unfold reported. rewrite Tdt.int_date_civil by assumption.
    cbn [Tdt.d_Year Tdt.d_tmpMonth Tdt.d_day]. destruct (Tdt.day_error_range c Hc).
    destruct Hc as (_ & Hmon & Hday). unfold date. rewrite !u8_small by lia. reflexivity. }
  destruct (parseTimeTables_run w (Tdt.int_date (Cal.mjd_of c))
              (Tdt.encode_section (Cal.mjd_of c) time) b2 rest tot' f c' Hok)
    as (w' & H1 & _ & _ & H3 & H5 & _).
  - split; auto.
    + split; [|split; [simpl; lia | reflexivity]].
      repeat apply Forall_cons_2; auto with cint; try (unfold is_u8; lia).
    + rewrite Tdt.encode_section_mjd by exact Hu. apply Tdt.mjd_date_exact. exact Hr.
  - exact Hf.
  - rewrite Erep. exact Hcl.
  - eexists. split; [exact H1|].
    cbn [client currentDate timeTablesRecieved pending set_timeTablesRecieved set_client].
    rewrite <- Erep. auto.
Qed.

(** C16: Any run of volume requests keeps the level within 0 and 10, sets the player to the
    level times 160400000, which fits 32 bits, and tells the callback every new level except
    that of a mute. *)
Theorem volume_requests rs w f c' :
  0 <= currentVolume w <= 10 -> volumeReportCallback w = Some f -> Forall is_volume rs ->
  notify f rs (currentVolume w) (client w) = Val c' ->
  let v' := fold_left (fun v r => vol_next r v) rs (currentVolume w) in
  serve_all rs w = Val (Ran tt (at_volume v' (levels rs (currentVolume w)) c' w)) /\
  0 <= v' <= 10 /\
  Forall (fun v => 0 <= v <= 10 /\ v * volumeConstant < 2 ^ 32) (levels rs (currentVolume w)).
Proof.
  intros Hv Hf Hrs Hc v'. split; [apply (serve_all_volume rs w f c'); assumption|].
  clear Hrs Hc. unfold v'. generalize (currentVolume w), Hv. clear.
  induction rs as [|r rs IH]; intros v Hv; cbn [fold_left levels]; [split; [exact Hv | constructor]|].
  pose proof (vol_next_range r v Hv) as Hr. destruct (IH _ Hr) as [I1 I2].
  split; [exact I1|]. constructor; [|exact I2]. unfold volumeConstant. lia.
Qed.

(** C29: streamControllerDeinit frees the tables once and a second call reports SC_ERROR;
    the section callback stays registered, and a section of a known table that arrives
    afterwards is a use after free. *)
Theorem section_after_deinit w pat pmt tdt tot b :
  library_succeeds -> isInitialized w = true -> tables_ok w pat pmt tdt tot ->
  0 < Z.of_nat (length b) -> In (byte_at b 0) [0; 0x02; 0x70; 0x73] ->
  streamControllerDeinit w = Val (Ran SC_NO_ERROR (after_deinit w)) /\
  streamControllerDeinit (after_deinit w) = Val (Ran SC_ERROR (after_deinit w)) /\
  sectionReceivedCallback b (after_deinit w) = Ub UseAfterFree.
Proof.
  intros Hok Hi [H1 H2 H3 H4 _ _ _] Hb Hid.
  split; [eapply deinit_run; eassumption|]. split; [reflexivity|].
  unfold sectionReceivedCallback.
  erewrite bindM; [|unfold lift; rewrite rd_byte_at by lia; reflexivity].
  change (Z.to_nat 0) with 0%nat.
  destruct Hid as [<-|[<-|[<-|[<-|[]]]]]; reflexivity.
Qed.

(** C28: changeChannelKey starts exactly the channels from 0 to the number of services minus
    1 and ignores the others; since startChannel reads the entry after the channel, a full
    table makes the last one read out of bounds. *)
Theorem changeChannelKey_bounds w t n ch :
  patTable w = Live t -> Pat.serviceInfoCount t = n -> 0 <= n <= 20 ->
  length (Pat.patServiceInfoArray t) = 20%nat ->
  (~ accepted n ch -> changeChannelKey ch w = Val (Ran tt w)) /\
  (accepted n ch -> changeChannelKey ch w = startChannel ch w) /\
  (n = 20 -> changeChannelKey 19 w = Ub OutOfBounds).
Proof.
  intros Ht Hn Hr Hl. unfold accepted.
  assert (E : forall k, changeChannelKey k w =
    if (-1 <? k) && (k <? n) then startChannel k w else Val (Ran tt w)).
  { intros k. unfold changeChannelKey, service_count. destruct (-1 <? k) eqn:E1; [|reflexivity].
    run_unfold. rewrite Ht. cbn [deref andb]. rewrite Hn. destruct (k <? n); reflexivity. }
  split; [|split].
  - intros Hch. rewrite E. destruct (Z.ltb_spec (-1) ch), (Z.ltb_spec ch n); try reflexivity. lia.
  - intros Hch. rewrite E. destruct (Z.ltb_spec (-1) ch), (Z.ltb_spec ch n); try reflexivity; lia.
  - intros ->. rewrite E. cbn [Z.ltb Z.compare andb Pos.compare Pos.compare_cont CompOpp]. apply (startChannel_outside w t); [assumption..|lia].
Qed.

(** C27: For any file, loadInitialInfo stores the values that loadConfigFile gives, even
    when it reports an error; only without error does it return SC_NO_ERROR and take the
    program number, cut to 16 bits and not checked further, as the first channel. For a file
    in the form of config.ini, with DVB_T and a blank after each number, these are the
    values it says; a file that does not open is SC_ERROR and changes nothing. *)
Theorem loadInitialInfo_file w lf lb lm lp i :
  Forall (fun l => Config.layout_ok l /\ (1 <= Config.trail l)%nat) [lf; lb; lp] ->
  Config.layout_ok lm ->
  Forall Config.int_range [Config.tuneFrequency i; Config.tuneBandwidth i; Config.programNumber i] ->
  (forall file, loadInitialInfo file w =
     match Config.loadConfigFile DVB_T file (configFile w) with
     | Val r =>
         let w' := set_configFile (Config.info r) w in
         if bool_decide (Config.error r = SC_NO_ERROR)
         then Val (Ran SC_NO_ERROR
                (set_programNumber (i16 (Config.programNumber (Config.info r))) w'))
         else Val (Ran SC_ERROR w')
     | Ub k => Ub k
     | NoFuel => NoFuel
     end) /\
  loadInitialInfo
    (Some (Config.config_file lf lb lm lp (bytes_of_string "DVB_T") i)) w =
    Val (Ran SC_NO_ERROR (configured i w)) /\
  loadInitialInfo None w = Val (Ran SC_ERROR w).
Proof.
  intros Hl Hm Hi. split; [|split].
  - intros file. unfold loadInitialInfo. erewrite bindM; [|reflexivity].
    unfold lift, mbind at 1, M_bind at 1.
    destruct (Config.loadConfigFile _ _ _) as [r|k|]; [rewrite bind_val|reflexivity..].
    erewrite bindM; [|reflexivity]. destruct (bool_decide _); reflexivity.
  - unfold loadInitialInfo. erewrite bindM; [|reflexivity].
    erewrite bindM; [|unfold lift; rewrite Config.load_config_file by assumption; reflexivity].
    reflexivity.
  - destruct w. reflexivity.
Qed.

(** With a PAT that lists no service, channel down selects channel -2, and the next
    pass of the task reads before the array of services. *)
Theorem channelDown_without_services w t :
  patTable w = Live t -> Pat.serviceInfoCount t = 0 ->
  length (Pat.patServiceInfoArray t) = 20%nat -> -32768 <= programNumber w <= 0 ->
  channelDown w = Val (Ran SC_NO_ERROR (select_channel (-2) w)) /\
  task_pass (select_channel (-2) w) = Ub OutOfBounds.
Proof.
  intros Ht Hn Hl Hp. split.
  - rewrite (channelDown_run w 0); [|exists t; auto | lia | lia].
    rewrite (proj2 (Z.leb_le _ _)) by lia. reflexivity.
  - rewrite task_pass_changed by reflexivity.
    apply (startChannel_outside _ t); [exact Ht | exact Hl | cbn; lia].
Qed.

(** When the time to lock is over, the task leaves with the status mutex held, and a
    tuner that locks later blocks for ever in its callback. *)
Theorem tuner_timeout_keeps_mutex w rest :
  statusMutex w = false -> pending w = Wake ETIMEDOUT :: rest ->
  wait_tuner w = Val (Ran true (timed_out rest w)) /\
  tunerStatusCallback STATUS_LOCKED (timed_out rest w) = Val (Waiting (timed_out rest w)).
Proof.
  intros Hm Hp. split.
  - unfold wait_tuner, lock, cond_wait. run_unfold. rewrite Hm.
    cbn [pending set_statusMutex set_statusSignal]. rewrite Hp. cbn [wait_events].
    destruct w. reflexivity.
  - unfold tunerStatusCallback. rewrite Z.eqb_refl. reflexivity.
Qed.
End Facts.

(** ** Given runs

    The library that does everything it is asked, and a client that keeps what
    the callbacks tell it. *)

#[local] Existing Instance obliging.

Definition client_log : Type := list CurrentDate * list Z.
Definition keep_date (d : CurrentDate) (c : client_log) : res client_log := Val (d :: c.1, c.2).
Definition keep_volume (v : Z) (c : client_log) : res client_log := Val (c.1, v :: c.2).

(** The callbacks are registered, the tables are what the sections of the other
    files give. *)
Definition ready (schedule : list event) : world client_log :=
  set_dateRecievedCallback (Some keep_date) (set_volumeReportCallback (Some keep_volume)
    (start schedule ([], []))).

Definition pat_of_sections : Pat.PatTable :=
  Pat.mkPatTable Pat.two_header
    (Pat.two_services ++ replicate 18 (Pat.mkPatServiceInfo 0 0)) 2.

Definition tdt_section : bytes := Tdt.encode_section 56048 [0; 0; 0].
Definition tot_section : bytes :=
  Tot.encode_section 28 56048 (0, 0, 0) [Tot.serbia] [1; 2; 3; 4].
Definition tot_of_section : Tot.TotTable :=
  match Tot.parseTotTable (Some tot_section) (Some zero_tot) with
  | Val (_, Some t) => t
  | _ => zero_tot
  end.

Lemma tot_section_reference :
  Tot.reference tot_section zero_tot = Val (TABLES_PARSE_OK, Some tot_of_section).
Proof. vm_compute. reflexivity. Qed.

Lemma tot_of_section_parsed :
  Tot.parseTotTable (Some tot_section) (Some zero_tot) =
    Val (TABLES_PARSE_OK, Some tot_of_section).
Proof. vm_compute. reflexivity. Qed.

Definition running (schedule : list event) : world client_log :=
  set_totTable (Live zero_tot) (set_tdtTable (Live zero_tdt) (set_pmtTable (Live zero_pmt)
    (set_patTable (Live pat_of_sections) (set_isInitialized true (ready schedule))))).

Lemma pat_of_sections_wf : Pat.table_wf pat_of_sections.
Proof.
  assert (E : pat_of_sections = (Pat.reference Pat.two_section Pat.empty_table).2)
    by (vm_compute; reflexivity).
  rewrite E. apply Pat.pat_reference_wf; [apply Pat.pat_two_complete | apply Pat.pat_empty_table_wf].
Qed.

Lemma running_tables schedule :
  tables_ok (running schedule) pat_of_sections zero_pmt zero_tdt zero_tot.
Proof.
  split; try reflexivity; [apply pat_of_sections_wf | apply zero_pmt_wf | apply zero_tot_wf].
Qed.

Lemma obliging_succeeds : library_succeeds.
Proof. intros h c. reflexivity. Qed.

Lemma obliging_memory : library_has_memory.
Proof. intros h c. discriminate. Qed.

Definition five_services : world client_log :=
  set_patTable (Live (Pat.mkPatTable Pat.two_header (replicate 20 (Pat.mkPatServiceInfo 7 7)) 5))
    (running []).

Lemma channel_requests_witness :
  serve_all [ChannelDown; ChannelDown; ChannelUp; ChannelDown] five_services =
    Val (Ran tt (select_channel 2 five_services)).
Proof.
  refine (proj1 (proj2 (channel_requests [ChannelDown; ChannelDown; ChannelUp; ChannelDown]
    five_services 5 _ _ _))).
  - split; [eexists; split; reflexivity | cbn; lia].
  - repeat constructor; discriminate.
  - discriminate.
Defined.

Lemma two_streams_start :
  channel_starts (set_timeTablesRecieved true (running [Delivery Pmt.two_section])) 0
    (Pat.mkPatServiceInfo 1001 4097) Pmt.two_section [] Pmt.two_parsed.
Proof.
  split; try reflexivity; [eexists; split; reflexivity | lia | | apply Pmt.pmt_two_complete].
  exists zero_pmt. split; [reflexivity|]. split; [apply zero_pmt_wf | vm_compute; reflexivity].
Qed.

Lemma startChannel_tunes_witness :
  exists w', startChannel 0 (set_timeTablesRecieved true (running [Delivery Pmt.two_section])) =
      Val (Ran tt w') /\
    currentChannel w' = mkChannelInfo 1 660 513 /\
    calls w' = [PlayerStreamCreate 0 0 660 3; PlayerStreamCreate 0 0 513 2;
                DemuxSetFilter 0 4097 2; DemuxFreeFilter 0 0].
Proof.
  destruct (startChannel_tunes _ 0 _ _ [] Pmt.two_parsed obliging_succeeds two_streams_start)
    as (w' & H1 & H2 & _ & _ & _ & _ & _ & _ & H3).
  exists w'. split; [exact H1|]. split; [exact H2 | exact H3].
Defined.

Definition boot_schedule : list event :=
  [LockStatus 1; Delivery Pat.two_section; Delivery Pmt.two_section; Delivery tdt_section;
   Delivery tot_section].

Definition may_first : CurrentDate := mkCurrentDate 2012 5 0.

Lemma task_boots_witness :
  exists w', task_init (ready boot_schedule) = Val (Ran None w') /\
    isInitialized w' = true /\ currentChannel w' = mkChannelInfo 1 660 513 /\
    client w' = ([may_first], []).
Proof.
  destruct (task_boots (ready boot_schedule) 0 (Pat.mkPatServiceInfo 1001 4097) pat_of_sections
    Pmt.two_parsed (Tdt.int_date 56048) tot_of_section [] keep_date ([may_first], []))
    as (w' & H1 & H2 & H3 & _ & _ & H4 & _).
  - apply obliging_succeeds.
  - apply obliging_memory.
  - split; try reflexivity; [| split; [reflexivity | lia]
      | split; reflexivity].
    exists Pat.two_section, Pmt.two_section, tdt_section, tot_section.
    split; [reflexivity|]. split.
    { split; [apply Pat.pat_two_complete | split; vm_compute; reflexivity]. }
    split. { split; [apply Pmt.pmt_two_complete | split; vm_compute; reflexivity]. }
    split. { split; [is_bytes_tac|]. split; [vm_compute; discriminate|]. split; [reflexivity|].
             apply Tdt.mjd_date_exact. vm_compute. split; discriminate. }
    split; [is_bytes_tac|]. split; [reflexivity | apply tot_of_section_parsed].
  - reflexivity.
  - reflexivity.
  - exists w'. auto.
Defined.

Lemma sections_reach_tables_witness :
  sectionReceivedCallback Pat.two_section (running []) =
    Val (Ran 0 (set_demuxSignal true
      (set_patTable (Live pat_of_sections) (running [])))) /\
  sectionReceivedCallback tot_section (running []) =
    Val (Ran 0 (set_demuxSignal true
      (set_totTable (Live tot_of_section) (running [])))).
Proof.
  split.
  - pose proof (sections_reach_tables (running []) _ _ _ _ Pat.two_section (running_tables [])
      zero_tot_fits eq_refl (proj1 Pat.pat_two_complete) ltac:(vm_compute; reflexivity)
      (fun _ => Pat.pat_two_complete) (fun E : 0 = 2 => ltac:(discriminate))
      (fun E : 0 = 0x70 => ltac:(discriminate))) as H.
    change (byte_at Pat.two_section 0) with 0 in H. cbv iota in H. simpl (0 =? 0) in H.
    cbv iota in H. rewrite H. vm_compute. reflexivity.
  - pose proof (sections_reach_tables (running []) _ _ _ _ tot_section (running_tables [])
      zero_tot_fits eq_refl ltac:(is_bytes_tac) ltac:(vm_compute; reflexivity)
      (fun E : 0x73 = 0 => ltac:(discriminate)) (fun E : 0x73 = 2 => ltac:(discriminate))
      (fun E : 0x73 = 0x70 => ltac:(discriminate))) as H.
    change (byte_at tot_section 0) with 0x73 in H. cbn [Z.eqb Pos.eqb] in H.
    rewrite H, tot_section_reference. reflexivity.
Defined.

Lemma parseTimeTables_reports_witness :
  exists w', parseTimeTables (running [Delivery tdt_section; Delivery tot_section]) =
      Val (Ran SC_NO_ERROR w') /\
    client w' = ([may_first], []).
Proof.
  destruct (parseTimeTables_reports (running [Delivery tdt_section; Delivery tot_section])
    (Cal.mkCivil 2012 5 1) [0; 0; 0] tot_section [] tot_of_section keep_date ([may_first], []))
    as (w' & H1 & H2 & _); try reflexivity.
  - apply obliging_succeeds.
  - split; cbn; lia.
  - split; vm_compute; discriminate.
  - is_bytes_tac.
  - eexists; reflexivity.
  - eexists; split; [reflexivity|]. split; [apply zero_tot_wf|].
    split; [apply zero_tot_fits | apply tot_of_section_parsed].
  - split; [is_bytes_tac | reflexivity].
  - exists w'. auto.
Defined.

Lemma volume_requests_witness :
  serve_all [VolumeUp; VolumeMute; VolumeDown] (running []) =
    Val (Ran tt (at_volume 0 [6; 0; 0] ([], [0; 6]) (running []))).
Proof.
  refine (proj1 (volume_requests [VolumeUp; VolumeMute; VolumeDown] (running []) keep_volume
    ([], [0; 6]) _ _ _ _));
    [cbn; lia | reflexivity | repeat constructor | reflexivity].
Defined.

Lemma section_after_deinit_witness :
  sectionReceivedCallback Pat.two_section (after_deinit (running [])) = Ub UseAfterFree.
Proof.
  refine (proj2 (proj2 (section_after_deinit (running []) pat_of_sections zero_pmt zero_tdt
    zero_tot Pat.two_section obliging_succeeds eq_refl (running_tables []) _ _)));
    [vm_compute; reflexivity | left; reflexivity].
Defined.

Definition twenty_services : world client_log :=
  set_patTable (Live (Pat.mkPatTable Pat.two_header (replicate 20 (Pat.mkPatServiceInfo 7 7)) 20))
    (running []).

Lemma changeChannelKey_bounds_witness :
  changeChannelKey 20 twenty_services = Val (Ran tt twenty_services) /\
  changeChannelKey 19 twenty_services = Ub OutOfBounds.
Proof.
  split.
  - refine (proj1 (changeChannelKey_bounds twenty_services _ 20 20 eq_refl eq_refl _ eq_refl) _);
      [lia | unfold accepted; lia].
  - refine (proj2 (proj2 (changeChannelKey_bounds twenty_services _ 20 0 eq_refl eq_refl _ eq_refl))
      eq_refl); lia.
Defined.

Lemma loadInitialInfo_file_witness :
  loadInitialInfo (Some Config.config_ini) (ready []) =
    Val (Ran SC_NO_ERROR (set_programNumber 2
      (set_configFile (Config.mkInitialInfo 754000000 8 2 0) (ready [])))).
Proof.
  refine (proj1 (proj2 (loadInitialInfo_file (ready []) (Config.ini_layout 7) (Config.ini_layout 7)
    (Config.ini_layout 10) (Config.ini_layout 2) (Config.mkInitialInfo 754000000 8 2 7) _ _ _))).
  - repeat constructor; cbn; lia.
  - unfold Config.layout_ok. cbn. lia.
  - unfold Config.int_range. repeat constructor; cbn; lia.
Defined.

Definition no_services : world client_log :=
  set_patTable (Live zero_pat) (running []).

Lemma channelDown_without_services_witness :
  task_pass (select_channel (-2) no_services) = Ub OutOfBounds.
Proof.
  refine (proj2 (channelDown_without_services no_services zero_pat eq_refl eq_refl eq_refl _)).
  cbn. lia.
Defined.

Lemma tuner_timeout_keeps_mutex_witness :
  exists w', wait_tuner (ready [Wake ETIMEDOUT]) = Val (Ran true w') /\
    tunerStatusCallback STATUS_LOCKED w' = Val (Waiting w').
Proof.
  destruct (tuner_timeout_keeps_mutex (ready [Wake ETIMEDOUT]) [] eq_refl eq_refl)
    as [H1 H2].
  exists (timed_out [] (ready [Wake ETIMEDOUT])). split; [exact H1 | exact H2].
Defined.
End ScFacts.
