(* ===== verification/Typing.v ===== *)
(** * Typing: every variable keeps its C type, and every run has enough fuel

    Whatever is broadcast, complete or not, the parsers keep the fields of their
    tables and of the cells of their arrays within the widths of their types,
    and their loops end; so do the handlers, the functions of the header and the
    task of the stream controller with its static variables, handles and
    configuration among them.
    The only undefined behaviour is that of a memory access, which the other
    files say where to find: nothing overflows, nothing is read before it is
    set, and no thread waits for a condition without its mutex. *)

From S2P Require Import Prelude Tables PatParser PmtParser TdtParser TotParser ConfigFile Machine.
From S2P Require Import Printing World StreamController StreamProperties.
Import Sc ScFacts.

Module Ty.

(** ** The parsers *)

Lemma byte_lookup b n x : is_bytes b -> b !! n = Some x -> is_u8 x.
Proof. intros Hb. apply Forall_lookup_1, Hb. Qed.

Lemma yields_byte {A} b i (f : Z -> res A) Q :
  is_bytes b -> (forall x, is_u8 x -> yields (f x) Q) -> yields (x ← rd b i; f x) Q.
Proof.
  intros Hb Hf. rewrite yields_bind. apply yields_rd. intros x Hx _.
  exact (Hf x (byte_lookup b _ x Hb Hx)).
Qed.

(** A parser that keeps the property [P] of its table, for every section. *)
Definition keeps {T} (P : T -> Prop)
    (parse : option bytes -> option T -> res (ParseErrorCode * option T)) : Prop :=
  forall b t, is_bytes b -> (forall t0, t = Some t0 -> P t0) ->
    yields (parse (Some b) t) (fun r => forall t', r.2 = Some t' -> P t').

Lemma nullchecked_keeps {T} (P : T -> Prop) f :
  (forall b t, is_bytes b -> P t -> yields (f b t) (fun r => P r.2)) ->
  keeps P (nullchecked f).
Proof.
  intros Hf b [t|] Hb Ht; cbn; [|congruence].
  specialize (Hf b t Hb (Ht t eq_refl)). destruct (f b t) as [[c t']|k|]; simpl in *; auto.
  intros t'' [= <-]. exact Hf.
Qed.

Ltac bytes := repeat (apply yields_byte; [assumption|]; intros ? ?).

Lemma is_bytes_drop n b : is_bytes b -> is_bytes (drop n b).
Proof. apply Forall_drop. Qed.

Lemma pat_header_typed b h :
  is_bytes b -> Pat.header_wf h ->
  yields (Pat.parsePatHeader_body b h) (fun r => Pat.header_wf r.2).
Proof.
  intros Hb Hh. unfold Pat.parsePatHeader_body. apply yields_byte; [exact Hb|]. intros b0 H0.
  destruct (negb _); [apply Pat.pat_set_tableId_wf; assumption|]. bytes. fields.
  unfold is_u8 in *. split; cbn; unfold is_u8, is_u16; zdiv.
Qed.

Lemma pat_service_typed b i :
  is_bytes b ->
  yields (Pat.parsePatServiceInfo_body b i) (fun r => r.1 = TABLES_PARSE_OK /\ Pat.service_wf r.2).
Proof.
  intros Hb. unfold Pat.parsePatServiceInfo_body. bytes. fields. unfold is_u8 in *.
  split; [reflexivity|]. split; cbn; unfold is_u16; zdiv.
Qed.

Lemma pat_keeps : keeps Pat.table_wf Pat.parsePatTable.
Proof.
  apply nullchecked_keeps. intros b t Hb [Hh Hl Hs Hc]. unfold Pat.parsePatTable_body.
  unfold Pat.parsePatHeader. rewrite call_nullchecked, yields_bind.
  eapply yields_mono; [apply pat_header_typed; eassumption|]. intros [c h] Hh'.
  destruct (negb (is_ok c)); [split; assumption|].
  apply (loop_yields _ (fun s : Pat.pat_state => Pat.table_wf s.2)
           (fun s => Z.to_nat (20 - Pat.serviceInfoCount s.2))); [|split; cbn; auto; lia | cbn; unfold Pat.pat_fuel; lia].
  clear - Hb. intros [[p l] t] [Hh Hl Hs Hc]. unfold Pat.parsePatTable_step. cbn [snd] in *.
  destruct (_ <? _); [|split; assumption]. unfold TABLES_MAX_NUMBER_OF_PIDS_IN_PAT.
  destruct (Z.ltb_spec (20 - 1) (Pat.serviceInfoCount t)); [split; assumption|].
  rewrite yields_bind. apply yields_rd. intros i _ _.
  unfold Pat.parsePatServiceInfo. rewrite call_nullchecked, yields_bind.
  eapply yields_mono; [apply pat_service_typed, is_bytes_drop, Hb|].
  intros [c' i'] [Hok Hi]. cbn [fst snd] in Hok, Hi. subst c'. rewrite yields_bind. apply yields_wr. intros _. cbn [is_ok].
  cbn -[u8]. rewrite u8_small by lia. split; [|lia].
  split; cbn; [exact Hh | rewrite length_insert; exact Hl | apply Forall_insert; assumption | lia].
Qed.

Lemma pmt_header_typed b h :
  is_bytes b -> Pmt.header_wf h ->
  yields (Pmt.parsePmtHeader_body b h) (fun r => Pmt.header_wf r.2).
Proof.
  intros Hb Hh. unfold Pmt.parsePmtHeader_body. apply yields_byte; [exact Hb|]. intros b0 H0.
  destruct (negb _); [apply Pmt.pmt_set_tableId_wf; assumption|]. bytes. fields.
  unfold is_u8 in *. split; cbn; unfold is_u8, is_u16; zdiv.
Qed.

Lemma pmt_entry_typed b i :
  is_bytes b ->
  yields (Pmt.parsePmtElementaryInfo_body b i)
    (fun r => r.1 = TABLES_PARSE_OK /\ Pmt.entry_wf r.2).
Proof.
  intros Hb. unfold Pmt.parsePmtElementaryInfo_body. bytes. fields. unfold is_u8 in *.
  split; [reflexivity|]. split_and!; cbn; unfold is_u8; zdiv.
Qed.

Lemma pmt_keeps : keeps Pmt.table_wf Pmt.parsePmtTable.
Proof.
  apply nullchecked_keeps. intros b t Hb [Hh Hl Hs Hc]. unfold Pmt.parsePmtTable_body.
  unfold Pmt.parsePmtHeader. rewrite call_nullchecked, yields_bind.
  eapply yields_mono; [apply pmt_header_typed; eassumption|]. intros [c h] Hh'.
  destruct (negb (is_ok c)); [split; assumption|].
  apply (loop_yields _ (fun s : Pmt.pmt_state => Pmt.table_wf s.2)
           (fun s => Z.to_nat (20 - Pmt.elementaryInfoCount s.2)));
    [|split; cbn; auto; lia | cbn; unfold Pmt.pmt_fuel; lia].
  clear - Hb. intros [[p l] t] [Hh Hl Hs Hc]. unfold Pmt.parsePmtTable_step. cbn [snd] in *.
  destruct (_ <? _); [|split; assumption]. unfold TABLES_MAX_NUMBER_OF_ELEMENTARY_PID.
  destruct (Z.ltb_spec (20 - 1) (Pmt.elementaryInfoCount t)); [split; assumption|].
  rewrite yields_bind. apply yields_rd. intros i _ _.
  unfold Pmt.parsePmtElementaryInfo. rewrite call_nullchecked, yields_bind.
  eapply yields_mono; [apply pmt_entry_typed, is_bytes_drop, Hb|].
  intros [c' i'] [Hok Hi]. cbn [fst snd] in Hok, Hi. subst c'. rewrite yields_bind. apply yields_wr. intros _. cbn [is_ok].
  cbn -[u8]. rewrite u8_small by lia. split; [|lia].
  split; cbn; [exact Hh | rewrite length_insert; exact Hl | apply Forall_insert; assumption | lia].
Qed.

(** The fields of a date: [day] is the difference cut to 16 bits. *)
Record tdt_typed (t : Tdt.TdtTable) : Prop := {
  tt_id : is_u8 (Tdt.tableId t);
  tt_syntax : is_u8 (Tdt.sectionSyntaxIndicator t);
  tt_length : 0 <= Tdt.sectionLength t < 4096;
  tt_mjd : is_u16 (Tdt.MJD t);
  tt_tmp_year : is_u16 (Tdt.tmpYear t);
  tt_year : is_u16 (Tdt.Year t);
  tt_month : is_u16 (Tdt.tmpMonth t);
  tt_day : is_u16 (Tdt.day t);
  tt_k : 0 <= Tdt.K t < 2 }.

Lemma mjd_date_typed mjd d :
  Tdt.mjd_date mjd = Val d ->
  is_u16 (Tdt.d_tmpYear d) /\ is_u16 (Tdt.d_Year d) /\ is_u16 (Tdt.d_tmpMonth d) /\
  is_u16 (Tdt.d_day d) /\ 0 <= Tdt.d_K d < 2.
Proof.
  unfold Tdt.mjd_date. intros E.
  repeat match type of E with
  | (x ← ?m; _) = _ => destruct m; [rewrite bind_val in E | discriminate E..]
  end.
  injection E as <-. cbn -[Z.le Z.lt]. split_and!; auto using u16_range; destruct (_ || _); lia.
Qed.

Lemma tdt_keeps : keeps tdt_typed Tdt.parseTdtTable.
Proof.
  apply nullchecked_keeps. intros b t Hb Ht. unfold Tdt.parseTdtTable_body. bytes.
  rewrite yields_bind.
  destruct (Tdt.mjd_date_total (all16Bits x2 x3)) as [d Hd];
    [pose proof (all16Bits_range x2 x3); unfold is_u16 in *; lia|].
  destruct (mjd_date_typed _ _ Hd) as (Y0 & Y1 & Y2 & Y3 & Y4). rewrite Hd. fields.
  destruct Ht.
  split; cbn; auto using all16Bits_range. zdiv.
Qed.

(** The fields of a time offset table, with all cells of its arrays. *)
Record info_typed (e : Tot.LTODescriptorInfo) : Prop := {
  it_ch1 : is_u8 (Tot.countryCH1 e);
  it_ch2 : is_u8 (Tot.countryCH2 e);
  it_ch3 : is_u8 (Tot.countryCH3 e);
  it_region : 0 <= Tot.countryRegionId e < 64;
  it_polarity : 0 <= Tot.localTimeOffsetPolarity e < 2;
  it_hours : is_u8 (Tot.localTimeOffsetHours e);
  it_minutes : is_u8 (Tot.localTimeOffsetMinutes e) }.

Record descriptor_typed (d : Tot.LocalTimeOffsetDescriptor) : Prop := {
  dt_tag : is_u8 (Tot.descriptorTag d);
  dt_length : is_u8 (Tot.descriptorLength d);
  dt_cells : length (Tot.ltoInfo d) = 20%nat;
  dt_infos : Forall info_typed (Tot.ltoInfo d);
  dt_count : 0 <= Tot.numberOfInfos d <= 20 }.

Record tot_typed (t : Tot.TotTable) : Prop := {
  ot_id : is_u8 (Tot.tableId t);
  ot_syntax : is_u8 (Tot.sectionSyntaxIndicator t);
  ot_length : 0 <= Tot.sectionLength t < 4096;
  ot_mjd : is_u16 (Tot.MJD t);
  ot_loop : 0 <= Tot.descriptorsLoopLength t < 4096;
  ot_cells : length (Tot.descriptors t) = 20%nat;
  ot_descriptors : Forall descriptor_typed (Tot.descriptors t);
  ot_count : 0 <= Tot.descriptorsCount t <= 20 }.

Lemma tot_typed_wf t : tot_typed t -> Tot.table_wf t /\ Tot.infos_fit t.
Proof.
  intros []. split; [split; [assumption|]|]; (eapply Forall_impl; [|eassumption]);
    intros d []; [split|]; assumption.
Qed.

Lemma info_of_typed b i : is_bytes b -> info_typed (Tot.info_of b i).
Proof.
  intros Hb. set (p := (12 + 13 * i)%nat).
  pose proof (byte_at_u8 b (p + 3) Hb) as H3. pose proof (byte_at_u8 b (p + 4) Hb) as H4.
  pose proof (byte_at_u8 b (p + 5) Hb) as H5. unfold is_u8 in H3, H4, H5.
  split; unfold Tot.info_of; fold p;
    cbn [Tot.countryCH1 Tot.countryCH2 Tot.countryCH3 Tot.countryRegionId
         Tot.localTimeOffsetPolarity Tot.localTimeOffsetHours Tot.localTimeOffsetMinutes];
    auto with cint; unfold Tot.bcd, is_u8; zdiv.
Qed.

Lemma descriptor_at_typed b : is_bytes b -> forall k d d',
  descriptor_typed d -> Tot.descriptor_at b k d = Some d' -> descriptor_typed d'.
Proof.
  intros Hb k d d' Hd E. apply Tot.descriptor_at_cases in E as [-> | ->]; [exact Hd|].
  pose proof (byte_at_u8 b (11 + 15 * k) Hb) as Hu. pose proof (Tot.infos_max _ Hu) as Hm.
  destruct Hd as [_ _ Hl Hi _]. unfold is_u8 in Hu. unfold Tot.lto_at.
  split; cbn [Tot.descriptorTag Tot.descriptorLength Tot.ltoInfo Tot.numberOfInfos];
    unfold is_u8; [lia | exact Hu | rewrite length_fill; lia | | zdiv].
  apply fill_Forall; [|exact Hi]. intros i _. apply info_of_typed, Hb.
Qed.

Lemma reference_typed b t c t' :
  is_bytes b -> tot_typed t -> Tot.reference b t = Val (c, Some t') -> tot_typed t'.
Proof.
  intros Hb [_ Hs _ _ _ Hl Hd _] E.
  destruct (Tot.reference_keeps _ b t c t' (descriptor_at_typed b Hb) Hd E)
    as (_ & Hd' & Hl' & Hc & ->).
  pose proof (byte_at_u8 b 1 Hb). pose proof (byte_at_u8 b 2 Hb). pose proof (byte_at_u8 b 3 Hb).
  pose proof (byte_at_u8 b 4 Hb). unfold is_u8 in *.
  split; cbn [Tot.set_descriptors Tot.header_table Tot.tableId Tot.sectionSyntaxIndicator
    Tot.sectionLength Tot.MJD Tot.descriptorsLoopLength Tot.descriptors Tot.descriptorsCount];
    unfold Tot.loop_length, is_u8, is_u16; try assumption; try zdiv.
  apply (byte_at_u8 b 0 Hb).
Qed.

Lemma tot_keeps : keeps tot_typed Tot.parseTotTable.
Proof.
  intros b [t|] Hb Ht; [|reflexivity]. specialize (Ht t eq_refl).
  destruct (tot_typed_wf t Ht) as [Hw _]. rewrite Tot.parseTotTable_walk by assumption.
  destruct (Tot.reference_cases b t) as [E|(t' & E)]; rewrite E; [reflexivity|].
  intros t'' [= <-]. exact (reference_typed b t _ t' Hb Ht E).
Qed.

(** ** The stream controller *)

Lemma zero_tdt_typed : tdt_typed zero_tdt.
Proof. split; cbn; unfold is_u8, is_u16; lia. Qed.

Lemma zero_tot_typed : tot_typed zero_tot.
Proof.
  assert (Hi : Forall info_typed (replicate 20 (Tot.mkInfo 0 0 0 0 0 0 0)))
    by (apply Forall_replicate; split; cbn; unfold is_u8; lia).
  assert (Hd : Forall descriptor_typed (Tot.descriptors zero_tot))
    by (apply Forall_replicate; split; cbn -[replicate]; unfold is_u8; auto; lia).
  split; [..|exact Hd|]; cbn; unfold is_u8, is_u16; auto; lia.
Qed.

Definition is_i16 (z : Z) : Prop := -32768 <= z < 32768.
Definition is_u32 (z : Z) : Prop := 0 <= z < 4294967296.

Lemma i16_range z : is_i16 (i16 z).
Proof. unfold is_i16, i16. pose proof (Z.mod_pos_bound (z + 32768) 65536). lia. Qed.
Lemma u32_range z : is_u32 (u32 z).
Proof. apply Z.mod_pos_bound. lia. Qed.

(** The fields of the configuration; the module is zero, as at the start of the
    program, or the enumerator that the program knows. *)
Record config_typed `{TdpApi} (c : Config.InitialInfo) : Prop := {
  ct_frequency : is_u32 (Config.tuneFrequency c);
  ct_bandwidth : is_u32 (Config.tuneBandwidth c);
  ct_program : is_u32 (Config.programNumber c);
  ct_module : Config.tuneModule c = 0 \/ Config.tuneModule c = DVB_T }.

Definition event_typed (e : event) : Prop :=
  match e with Delivery b => is_bytes b | _ => True end.

(** The pointers lead to tables with fields in their widths, the other variables
    are in theirs, sections consist of bytes, the functions of the client end,
    and at most [n] events are left. *)
Record typed `{TdpApi} {C} (n : nat) (w : world C) : Prop := {
  ty_pat : forall t, patTable w = Live t -> Pat.table_wf t;
  ty_pmt : forall t, pmtTable w = Live t -> Pmt.table_wf t;
  ty_tdt : forall t, tdtTable w = Live t -> tdt_typed t;
  ty_tot : forall t, totTable w = Live t -> tot_typed t;
  ty_handles : Forall is_u32 [playerHandle w; sourceHandle w; streamHandleA w;
                              streamHandleV w; filterHandle w];
  ty_config : config_typed (configFile w);
  ty_program : is_i16 (programNumber w);
  ty_channel : is_i16 (ci_programNumber (currentChannel w)) /\
    is_i16 (ci_audioPid (currentChannel w)) /\ is_i16 (ci_videoPid (currentChannel w));
  ty_date : is_u16 (cd_Year (currentDate w)) /\ is_u8 (cd_tmpMonth (currentDate w)) /\
    is_u8 (cd_day (currentDate w));
  ty_volume : is_u32 (currentVolume w);
  ty_date_callback : forall f, dateRecievedCallback w = Some f ->
    forall d c, yields (f d c) (fun _ => True);
  ty_volume_callback : forall f, volumeReportCallback w = Some f ->
    forall v c, yields (f v c) (fun _ => True);
  ty_pending : Forall event_typed (pending w);
  ty_left : (length (pending w) <= n)%nat }.

Section Controller.
Context `{TdpApi} {C : Type} (n : nat).
Abbreviation I := (@typed _ C n).

Lemma typed_pat v w : (forall t, v = Live t -> Pat.table_wf t) -> I w -> I (set_patTable v w).
Proof. intros Hv []. split; auto. Qed.
Lemma typed_pmt v w : (forall t, v = Live t -> Pmt.table_wf t) -> I w -> I (set_pmtTable v w).
Proof. intros Hv []. split; auto. Qed.
Lemma typed_tdt v w : (forall t, v = Live t -> tdt_typed t) -> I w -> I (set_tdtTable v w).
Proof. intros Hv []. split; auto. Qed.
Lemma typed_tot v w : (forall t, v = Live t -> tot_typed t) -> I w -> I (set_totTable v w).
Proof. intros Hv []. split; auto. Qed.
Lemma typed_program v w : is_i16 v -> I w -> I (set_programNumber v w).
Proof. intros Hv []. split; auto. Qed.
Lemma typed_volume v w : is_u32 v -> I w -> I (set_currentVolume v w).
Proof. intros Hv []. split; auto. Qed.
Lemma typed_pending v w :
  Forall event_typed v -> (length v <= n)%nat -> I w -> I (set_pending v w).
Proof. intros Hv Hn []. split; auto. Qed.

Lemma external_typed c : preserves I (external c).
Proof. intros w []. split; auto. Qed.
Hint Resolve external_typed : preserve.

Lemma ignored_typed c : preserves I (ignored c).
Proof. unfold ignored. preserve. Qed.
Lemma fails_typed c : preserves I (fails c).
Proof. unfold fails. preserve. Qed.
Hint Resolve ignored_typed fails_typed : preserve.

(** The handles. *)
Ltac typed_handle :=
  intros Hv; apply preserves_modify; intros w []; split; auto;
  rewrite !Forall_cons_iff in *; cbn; tauto.

Lemma set_player_typed v : is_u32 v -> preserves I (modify (set_playerHandle v)).
Proof. typed_handle. Qed.
Lemma set_source_typed v : is_u32 v -> preserves I (modify (set_sourceHandle v)).
Proof. typed_handle. Qed.
Lemma set_audio_typed v : is_u32 v -> preserves I (modify (set_streamHandleA v)).
Proof. typed_handle. Qed.
Lemma set_video_typed v : is_u32 v -> preserves I (modify (set_streamHandleV v)).
Proof. typed_handle. Qed.
Lemma set_filter_typed v : is_u32 v -> preserves I (modify (set_filterHandle v)).
Proof. typed_handle. Qed.

Lemma is_u32_0 : is_u32 0.
Proof. unfold is_u32. lia. Qed.
Hint Resolve set_player_typed set_source_typed set_audio_typed set_video_typed set_filter_typed
  u32_range is_u32_0 : preserve.

(** The variables that only hold flags, mutexes or signals. *)
Lemma typed_frame f :
  (forall w, patTable (f w) = patTable w /\ pmtTable (f w) = pmtTable w /\
     tdtTable (f w) = tdtTable w /\ totTable (f w) = totTable w /\
     programNumber (f w) = programNumber w /\ currentChannel (f w) = currentChannel w /\
     currentDate (f w) = currentDate w /\ currentVolume (f w) = currentVolume w /\
     dateRecievedCallback (f w) = dateRecievedCallback w /\
     volumeReportCallback (f w) = volumeReportCallback w /\ pending (f w) = pending w /\
     [playerHandle (f w); sourceHandle (f w); streamHandleA (f w); streamHandleV (f w);
      filterHandle (f w)] = [playerHandle w; sourceHandle w; streamHandleA w; streamHandleV w;
      filterHandle w] /\ configFile (f w) = configFile w) ->
  preserves I (modify f).
Proof.
  intros Hf. apply preserves_modify. intros w [].
  destruct (Hf w) as (E1 & E2 & E3 & E4 & E5 & E6 & E7 & E8 & E9 & E10 & E11 & E12 & E13).
  split; rewrite ?E1, ?E2, ?E3, ?E4, ?E5, ?E6, ?E7, ?E8, ?E9, ?E10, ?E11, ?E12, ?E13; auto.
Qed.
Hint Extern 3 (preserves _ (modify _)) =>
  apply typed_frame; intros ?; repeat split; reflexivity : preserve.

Lemma fails_out_typed c set :
  (forall v, is_u32 v -> preserves I (modify (set v))) -> preserves I (fails_out c set).
Proof. intros Hs. unfold fails_out. preserve. Qed.

Lemma malloc_typed {T} name (zero : T) set :
  (forall p, p = Null \/ p = Live zero -> preserves I (modify (set p))) ->
  preserves I (malloc_zeroed name zero set).
Proof. intros Hs. unfold malloc_zeroed. preserve. Qed.

Lemma free_typed {T} get (set : ptr T -> world C -> world C) :
  (forall p, (forall t, p <> Live t) -> preserves I (modify (set p))) ->
  preserves I (free_global get set).
Proof.
  intros Hs. unfold free_global. apply preserves_bind; [apply preserves_gets|]. intros p.
  apply (preserves_compute _ _ _ (fun p => forall t, p <> Live t)); [|exact Hs].
  destruct p; cbn; auto; congruence.
Qed.

Lemma free_tables_typed : preserves I free_tables.
Proof.
  unfold free_tables.
  preserve; apply free_typed; intros p Hp; apply preserves_modify; intros w;
    [apply typed_pat | apply typed_pmt | apply typed_tdt | apply typed_tot];
    intros t ->; destruct (Hp t eq_refl).
Qed.
Hint Resolve free_tables_typed : preserve.

Lemma deinit_typed : preserves I streamControllerDeinit.
Proof. unfold streamControllerDeinit. preserve. Qed.
Hint Resolve deinit_typed : preserve.

(** ** Requests *)

Lemma deref_typed {T} (p : ptr T) : preserves I (lift (deref p)).
Proof. apply preserves_lift. destruct p; (exact Logic.I || reflexivity). Qed.
Hint Resolve deref_typed : preserve.

Lemma set_program_typed (v : Z) : is_i16 v -> preserves I (modify (set_programNumber v)).
Proof. intros Hv. apply preserves_modify. intros w. apply typed_program, Hv. Qed.

Lemma channelUp_typed : preserves I channelUp.
Proof.
  unfold channelUp, service_count. preserve. apply set_program_typed.
  destruct (_ <=? _); [unfold is_i16; lia | apply i16_range].
Qed.

Lemma channelDown_typed : preserves I channelDown.
Proof.
  unfold channelDown, service_count. preserve; apply set_program_typed, i16_range.
Qed.

Lemma client_typed {A} (callback : option (A -> C -> res C)) a :
  (forall f, callback = Some f -> forall a c, yields (f a c) (fun _ => True)) ->
  preserves I (call_client callback a).
Proof.
  intros Hf. unfold call_client. destruct callback as [f|]; [|apply preserves_lift; reflexivity].
  apply preserves_bind; [apply preserves_gets|]. intros c.
  apply preserves_bind; [apply preserves_lift, (Hf f eq_refl)|]. intros c'.
  apply typed_frame. intros ?; repeat split; reflexivity.
Qed.

Lemma report_typed : preserves I report_volume.
Proof.
  unfold report_volume. apply (preserves_read _ _ _ (fun callback : option (Z -> C -> res C) =>
    forall f, callback = Some f -> forall a c, yields (f a c) (fun _ => True))).
  - intros w Hw. apply (ty_volume_callback _ _ Hw).
  - intros f Hf. apply preserves_bind; [apply preserves_gets|]. intros v. apply client_typed, Hf.
Qed.
Hint Resolve channelUp_typed channelDown_typed report_typed : preserve.

Lemma set_player_volume_typed v : preserves I (set_player_volume v).
Proof. unfold set_player_volume. preserve. Qed.
Hint Resolve set_player_volume_typed : preserve.

Lemma set_volume_typed (v : Z) : is_u32 v -> preserves I (modify (set_currentVolume v)).
Proof. intros Hv. apply preserves_modify. intros w. apply typed_volume, Hv. Qed.

Lemma volumeUp_typed : preserves I volumeUp.
Proof.
  unfold volumeUp. preserve.
  - apply preserves_modify. intros w. apply typed_volume, u32_range.
  - apply set_volume_typed. unfold is_u32. lia.
Qed.

Lemma volumeDown_typed : preserves I volumeDown.
Proof. unfold volumeDown. preserve. apply set_volume_typed, u32_range. Qed.

Lemma volumeMute_typed : preserves I volumeMute.
Proof. unfold volumeMute. preserve. apply set_volume_typed. unfold is_u32. lia. Qed.
Hint Resolve volumeUp_typed volumeDown_typed volumeMute_typed : preserve.

Lemma serve_typed r : preserves I (serve r).
Proof. destruct r; unfold serve; preserve. Qed.
Hint Resolve serve_typed : preserve.

(** ** Sections and waits *)

Lemma receive_typed {T} (P : T -> Prop) parse print get set b :
  keeps P parse -> (forall t, (forall t0, t = Some t0 -> P t0) -> yields (print t) (fun _ => True)) ->
  is_bytes b -> (forall w, I w -> forall t, get w = Live t -> P t) ->
  (forall t, P t -> preserves I (modify (set (Live t)))) ->
  preserves I (receive parse print get set b).
Proof.
  intros Hk Hprint Hb Hget Hset. unfold receive.
  apply (preserves_read _ _ _ (fun p => forall t, p = Live t -> P t)); [exact Hget|].
  intros p Hp.
  apply (preserves_compute _ _ _ (fun t => forall t0, t = Some t0 -> P t0)).
  { destruct p; cbn; auto; [discriminate|]. intros t0 [= <-]. auto. }
  intros t Ht. apply (preserves_compute _ _ _ (fun r => forall t', r.2 = Some t' -> P t'));
    [apply Hk; assumption|].
  intros [c t'] Hr. cbn [fst snd] in *. apply preserves_bind.
  - destruct t' as [t'|]; [apply Hset, Hr; reflexivity | apply preserves_ret].
  - intros _. apply preserves_if; [|apply preserves_ret].
    apply preserves_bind; [apply preserves_lift, Hprint, Hr|].
    intros _. unfold signal_locked. preserve.
Qed.

Lemma print_tot_typed t :
  (forall t0, t = Some t0 -> tot_typed t0) -> yields (print_tot t) (fun _ => True).
Proof.
  intros Ht. destruct t as [t|]; [|exact Logic.I]. specialize (Ht t eq_refl).
  destruct (tot_typed_wf t Ht). rewrite print_tot_run; [exact Logic.I | assumption..|].
  apply (ot_count _ Ht).
Qed.

Lemma section_typed b : is_bytes b -> preserves I (sectionReceivedCallback b).
Proof.
  intros Hb. unfold sectionReceivedCallback. apply preserves_bind.
  { apply preserves_lift. apply yields_rd. auto. }
  intros id. apply preserves_bind; [|intros _; apply preserves_ret].
  repeat apply preserves_if; [| | | | apply preserves_ret].
  - apply (receive_typed Pat.table_wf); auto using pat_keeps; [intros; exact Logic.I | apply ty_pat|].
    intros t Ht. apply preserves_modify. intros w. apply typed_pat. intros t' [= <-]. exact Ht.
  - apply (receive_typed Pmt.table_wf); auto using pmt_keeps; [intros; exact Logic.I | apply ty_pmt|].
    intros t Ht. apply preserves_modify. intros w. apply typed_pmt. intros t' [= <-]. exact Ht.
  - apply (receive_typed tdt_typed); auto using tdt_keeps;
      [intros [t|] _; exact Logic.I | apply ty_tdt|].
    intros t Ht. apply preserves_modify. intros w. apply typed_tdt. intros t' [= <-]. exact Ht.
  - apply (receive_typed tot_typed); auto using tot_keeps, print_tot_typed; [apply ty_tot|].
    intros t Ht. apply preserves_modify. intros w. apply typed_tot. intros t' [= <-]. exact Ht.
Qed.

Lemma handle_typed e : event_typed e -> preserves I (handle e).
Proof.
  intros He. destruct e as [b|st|r|c|]; unfold handle; cbn in He.
  - apply preserves_bind; [apply section_typed, He | intros _; apply preserves_ret].
  - unfold tunerStatusCallback, signal_locked. preserve.
  - preserve.
  - preserve.
  - preserve.
Qed.

Lemma set_pending_typed l :
  Forall event_typed l -> (length l <= n)%nat -> preserves I (modify (set_pending l)).
Proof. intros Hl Hn. apply preserves_modify. intros w. apply typed_pending; assumption. Qed.

Lemma wait_events_typed signalled l :
  Forall event_typed l -> (length l <= n)%nat -> preserves I (wait_events signalled l).
Proof.
  intros Hl. induction Hl as [|e l He Hl IH]; intros Hn; cbn [wait_events]; [preserve|].
  cbn [length] in Hn. apply preserves_bind; [apply set_pending_typed; [exact Hl | lia]|]. intros _.
  assert (R : preserves I (_ ← handle e; b ← gets signalled;
                           if b : bool then mret 0 else wait_events signalled l)).
  { apply preserves_bind; [apply handle_typed, He|]. intros _.
    apply preserves_bind; [apply preserves_gets|]. intros b.
    apply preserves_if; [apply preserves_ret | apply IH; lia]. }
  destruct e; try exact R. apply preserves_ret.
Qed.

Lemma wait_pending_typed signalled :
  preserves I (fun w => wait_events signalled (pending w) w).
Proof.
  intros w Hw. apply wait_events_typed; [apply (ty_pending _ _ Hw) | apply (ty_left _ _ Hw) | exact Hw].
Qed.
Hint Resolve wait_pending_typed : preserve.

Lemma wait_demux_typed : preserves I wait_demux.
Proof. unfold wait_demux, lock, cond_wait. preserve. Qed.
Lemma wait_tuner_typed : preserves I wait_tuner.
Proof. unfold wait_tuner, lock, cond_wait. preserve. Qed.
Hint Resolve wait_demux_typed wait_tuner_typed : preserve.
Lemma wait_table_typed : preserves I wait_table.
Proof. unfold wait_table. preserve. Qed.
Hint Resolve wait_table_typed : preserve.

(** ** Channels and the task *)

Lemma select_pids_typed t :
  Pmt.table_wf t -> yields (select_pids t) (fun p => is_i16 p.1 /\ is_i16 p.2).
Proof.
  intros Ht. pose proof (Pmt.tw_count _ Ht) as Hc.
  apply (loop_yields _ (fun s : pid_state => 0 <= s.1.1 <= 20 /\ is_i16 s.1.2 /\ is_i16 s.2)
           (fun s => Z.to_nat (20 - s.1.1)));
    [|unfold is_i16; cbn; lia | unfold pid_fuel; cbn; lia].
  intros [[i a] v] (Hi & Ha & Hv). unfold pid_step. cbn [fst snd] in *.
  destruct (Z.ltb_spec i (Pmt.elementaryInfoCount t)); [|split; assumption].
  rewrite yields_bind. apply yields_rd. intros e _ _.
  destruct (_ && _); [|destruct (_ && _)]; cbn -[u8 i16]; rewrite ?(u8_small (i + 1)) by lia;
    split_and!; auto using i16_range; lia.
Qed.

Lemma next_filter_typed pid table : preserves I (next_filter pid table).
Proof. unfold next_filter, fails_out. preserve. Qed.
Lemma free_filter_typed : preserves I free_filter.
Proof. unfold free_filter. preserve. Qed.
Hint Resolve next_filter_typed free_filter_typed : preserve.

Lemma rd_typed {A} (l : list A) i : preserves I (lift (rd l i)).
Proof. apply preserves_lift, yields_rd. auto. Qed.
Hint Resolve rd_typed : preserve.

Lemma set_date_typed t :
  tdt_typed t -> preserves I (modify (set_currentDate
    (mkCurrentDate (Tdt.Year t) (u8 (Tdt.tmpMonth t)) (u8 (Tdt.day t))))).
Proof.
  intros Ht. apply preserves_modify. intros w []. split; auto. cbn.
  split; [apply (tt_year _ Ht) | auto using u8_range].
Qed.

Lemma report_date_typed : preserves I report_date.
Proof.
  unfold report_date. apply (preserves_read _ _ _ (fun callback : option (CurrentDate -> C -> res C) =>
    forall f, callback = Some f -> forall a c, yields (f a c) (fun _ => True))).
  - intros w Hw. apply (ty_date_callback _ _ Hw).
  - intros f Hf. apply preserves_bind; [apply preserves_gets|]. intros d.
    apply preserves_bind; [apply client_typed, Hf|]. intros _. preserve.
Qed.

(** A table is used through its pointer. *)
Lemma live_typed {T A} (P : T -> Prop) (get : world C -> ptr T) (k : T -> M (world C) A) :
  (forall w, I w -> forall t, get w = Live t -> P t) -> (forall t, P t -> preserves I (k t)) ->
  preserves I (p ← gets get; t ← lift (deref p); k t).
Proof.
  intros Hget Hk. apply (preserves_read _ _ _ (fun p => forall t, p = Live t -> P t)); [exact Hget|].
  intros p Hp. apply (preserves_compute _ _ _ P); [|exact Hk]. destruct p; cbn; auto.
Qed.

Lemma parseTimeTables_typed : preserves I parseTimeTables.
Proof.
  unfold parseTimeTables. do 8 (preserve_step; [solve [preserve]|]).
  do 4 (preserve_step; [solve [preserve]|]).
  apply (live_typed tdt_typed); [apply ty_tdt|]. intros t Ht.
  apply preserves_bind; [apply set_date_typed, Ht | intros _; apply report_date_typed].
Qed.
Hint Resolve parseTimeTables_typed : preserve.

Lemma create_stream_typed pid type set :
  (forall v, is_u32 v -> preserves I (modify (set v))) -> preserves I (create_stream pid type set).
Proof.
  intros Hs. unfold create_stream. preserve. apply fails_out_typed, Hs.
Qed.

Lemma remove_stream_typed get set :
  (forall v, is_u32 v -> preserves I (modify (set v))) -> preserves I (remove_stream get set).
Proof. intros Hs. unfold remove_stream. preserve. Qed.

Lemma start_video_typed pid : preserves I (start_video pid).
Proof.
  unfold start_video. preserve; (apply remove_stream_typed || apply create_stream_typed); auto using set_audio_typed, set_video_typed.
Qed.

Lemma start_audio_typed pid : preserves I (start_audio pid).
Proof.
  unfold start_audio. preserve; (apply remove_stream_typed || apply create_stream_typed); auto using set_audio_typed, set_video_typed.
Qed.
Hint Resolve start_video_typed start_audio_typed : preserve.

Lemma startChannel_request_typed ch : preserves I (startChannel_request ch).
Proof. unfold startChannel_request. preserve. Qed.

Lemma startChannel_streams_typed ch : preserves I (startChannel_streams ch).
Proof.
  unfold startChannel_streams. apply (live_typed Pmt.table_wf); [apply ty_pmt|]. intros t Ht.
  apply (preserves_compute _ _ _ (fun p => is_i16 p.1 /\ is_i16 p.2));
    [apply select_pids_typed, Ht|]. intros p [Ha Hv].
  do 2 (preserve_step; [solve [preserve]|]).
  apply preserves_modify. intros w []. split; auto. cbn. auto using i16_range.
Qed.
Hint Resolve startChannel_request_typed startChannel_streams_typed : preserve.

Lemma startChannel_typed ch : preserves I (startChannel ch).
Proof. unfold startChannel. preserve. Qed.
Hint Resolve startChannel_typed : preserve.

Lemma changeChannelKey_typed ch : preserves I (changeChannelKey ch).
Proof. unfold changeChannelKey, service_count. preserve. Qed.

Lemma task_tables_typed : preserves I task_tables.
Proof.
  unfold task_tables.
  preserve; apply malloc_typed; intros p Hp; apply preserves_modify; intros w;
    [apply typed_pat | apply typed_pmt | apply typed_tdt | apply typed_tot];
    intros t ->; destruct Hp as [[=]|[= ->]];
    auto using zero_pat_wf, zero_pmt_wf, zero_tdt_typed, zero_tot_typed.
Qed.

Lemma give_up_typed a b : preserves I (give_up_task a b).
Proof. unfold give_up_task. preserve. Qed.
Hint Resolve task_tables_typed give_up_typed : preserve.

Lemma task_player_typed : preserves I task_player.
Proof. unfold task_player, fails_out. preserve. Qed.
Hint Resolve task_player_typed : preserve.

Lemma task_init_typed : preserves I task_init.
Proof. unfold task_init. preserve. Qed.

Lemma task_pass_typed : preserves I task_pass.
Proof. unfold task_pass. preserve. Qed.
End Controller.

(** ** The loop of the task *)

Section Task.
Context `{TdpApi} {C : Type}.

(** A step of the schedule leaves a schedule that is not longer. *)
Lemma step_typed (n : nat) e :
  event_typed e ->
  preserves (@typed _ C n) (match e with Pass => task_pass | _ => handle e end).
Proof. intros He. destruct e; try (apply handle_typed; assumption). apply task_pass_typed. Qed.

Lemma typed_le (n m : nat) (w : world C) : (n <= m)%nat -> typed n w -> typed m w.
Proof. intros Hn []. split; auto. lia. Qed.

Lemma start_typed schedule (c : C) :
  Forall event_typed schedule -> typed (length schedule) (start schedule c).
Proof.
  intros Hs. split; cbn; try discriminate; unfold is_i16, is_u16, is_u8; auto;
    try (repeat constructor; cbn; unfold is_u32; auto; lia); unfold is_u32; lia.
Qed.

Lemma runs_gets {A B} I (f : world C -> A) (k : A -> M (world C) B) w Q :
  runs I (k (f w)) w Q -> runs I (x ← gets f; k x) w Q.
Proof. intros Hk. apply runs_bind. exact Hk. Qed.

Lemma runs_step {A B} I (f : world C -> world C) (m : M (world C) A) (k : A -> M (world C) B) w Q :
  runs I m (f w) (fun a w' => runs I (k a) w' Q) -> runs I (_ ← modify f; a ← m; k a) w Q.
Proof. intros Hk. apply runs_bind, runs_bind. exact Hk. Qed.

(** The loop ends only when it is told to. *)
Lemma task_loop_typed fuel : forall (n : nat) (w : world C),
  (n < fuel)%nat -> typed n w ->
  runs (typed n) (task_loop fuel) w (fun _ w' => typed n w' /\ threadExit w' = true).
Proof.
  induction fuel as [|fuel IH]; intros n w Hn Hw; [lia|].
  cbn [task_loop]. apply runs_gets. destruct (threadExit w) eqn:X; [exact (conj Hw X)|].
  apply runs_gets. destruct (pending w) as [|e rest] eqn:E; [exact Hw|].
  pose proof (ty_pending _ _ Hw) as Hp. pose proof (ty_left _ _ Hw) as Hl.
  rewrite E in Hp, Hl. apply Forall_cons_1 in Hp as [He Hrest]. cbn [length] in Hl.
  destruct n as [|n]; [lia|]. assert (Hup : forall u : world C, typed n u -> typed (S n) u)
    by (intros u; apply typed_le; lia).
  apply runs_step.
  eapply (runs_mono (typed n)); [apply (step_typed n e He) | exact Hup |].
  - destruct Hw. split; auto. cbn. lia.
  - cbn beta. intros _ w' Hw'. eapply (runs_mono (typed n));
      [apply (IH n); [lia | exact Hw'] | exact Hup |].
    cbn beta. intros _ w'' [H1 H2]. exact (conj (Hup _ H1) H2).
Qed.

(** The functions that other threads call: the callbacks of the library and the
    requests of a client, among them that for a channel number and the end. *)
Inductive operation :=
  | Event (e : event)
  | ChannelKey (n : Z)
  | Deinit.

Definition operation_typed (o : operation) : Prop :=
  match o with Event e => event_typed e | _ => True end.

Definition operate (o : operation) : M (world C) unit :=
  match o with
  | Event e => handle e
  | ChannelKey n => changeChannelKey n
  | Deinit => _ ← streamControllerDeinit; mret tt
  end.

Fixpoint operate_all (os : list operation) : M (world C) unit :=
  match os with
  | [] => mret tt
  | o :: os => _ ← operate o; operate_all os
  end.

Lemma operate_typed n o : operation_typed o -> preserves (@typed _ C n) (operate o).
Proof.
  intros Ho. destruct o as [e|k|]; cbn [operate].
  - apply handle_typed, Ho.
  - apply changeChannelKey_typed.
  - apply preserves_bind; [apply deinit_typed | intros _; apply preserves_ret].
Qed.

Lemma operate_all_typed n os :
  Forall operation_typed os -> preserves (@typed _ C n) (operate_all os).
Proof.
  induction 1 as [|o os Ho _ IH]; cbn [operate_all]; [apply preserves_ret|].
  apply preserves_bind; [apply operate_typed, Ho | intros _; exact IH].
Qed.

(** The configuration, from any file. *)
Lemma load_step_typed s c :
  config_typed s.2 -> Config.load_step DVB_T s = Val c ->
  match c with Next s' => config_typed s'.2 | Stop r => config_typed (Config.info r) end.
Proof.
  destruct s as [[buf content] i]. cbn [snd]. intros Hi E. unfold Config.load_step in E.
  destruct (fgets _ _ _) as [[buf' rest]|]; [|injection E as <-; exact Hi].
  unfold Config.load_line in E.
  repeat match type of E with
  | mbind _ ?m = _ => destruct m as [?| |]; [rewrite bind_val in E | discriminate..]
  | (let '_ := ?p in _) = _ => destruct p
  | (if ?b then _ else _) = _ => destruct b
  end; injection E as <-; first [exact Hi | destruct Hi; split; cbn; auto using u32_range].
Qed.

Lemma loadConfigFile_typed file c r :
  config_typed c -> Config.loadConfigFile DVB_T file c = Val r -> config_typed (Config.info r).
Proof.
  intros Hc. unfold Config.loadConfigFile. destruct file as [content|]; [|intros [= <-]; exact Hc].
  apply (loop_result _ (fun s : Config.load_state => config_typed s.2)
           (fun r => config_typed (Config.info r))); [|exact Hc].
  intros s c' Hs E. exact (load_step_typed s c' Hs E).
Qed.

Lemma loadInitialInfo_typed n file (w : world C) e w' :
  typed n w -> loadInitialInfo file w = Val (Ran e w') -> typed n w'.
Proof.
  intros Hw. unfold loadInitialInfo. erewrite bindM; [|reflexivity].
  unfold lift, mbind at 1, M_bind at 1.
  destruct (Config.loadConfigFile _ _ _) as [r|k|] eqn:El; [rewrite bind_val | discriminate..].
  pose proof (loadConfigFile_typed _ _ _ (ty_config _ _ Hw) El) as Hc.
  erewrite bindM; [|reflexivity]. destruct Hw.
  destruct (negb _); intros [= _ <-]; split; auto. apply i16_range.
Qed.

(** C9: Whatever is broadcast, reported, requested and dialled, in any order and with any
    library, the functions that other threads call end within their fuel and run into no
    undefined behaviour but a bad memory access; they and loadInitialInfo, for any file,
    keep every table field, every array cell, handle and variable within its C type. *)
Theorem events_keep_types (n : nat) (w : world C) (os : list operation) :
  typed n w -> Forall operation_typed os ->
  match operate_all os w with
  | Val (Ran _ w') | Val (Waiting w') => typed n w'
  | Ub k => memory_error k = true
  | NoFuel => False
  end /\
  (forall file e w', loadInitialInfo file w = Val (Ran e w') -> typed n w').
Proof.
  intros Hw Ho. split; [exact (operate_all_typed n os Ho w Hw)|].
  intros file e w'. apply loadInitialInfo_typed, Hw.
Qed.

(** C10: Every run of the controller task, with any library and any sections, is over after
    its schedule: no loop runs for ever, every variable keeps its type, only a memory access
    can be undefined, and when the task leaves its loop the exit flag is set. *)
Theorem streamControllerTask_ends (fuel : nat) (w : world C) :
  typed (length (pending w)) w -> (length (pending w) < fuel)%nat ->
  match streamControllerTask fuel w with
  | Val (Ran r w') => typed (length (pending w)) w' /\ (r = None -> threadExit w' = true)
  | Val (Waiting w') => typed (length (pending w)) w'
  | Ub k => memory_error k = true
  | NoFuel => False
  end.
Proof.
  intros Hw Hf. change (runs (typed (length (pending w))) (streamControllerTask fuel) w (fun r w' =>
    typed (length (pending w)) w' /\ (r = None -> threadExit w' = true))).
  unfold streamControllerTask. apply runs_bind.
  eapply runs_mono; [apply task_init_typed, Hw | auto |].
  intros [e|] w' Hw'; [split; [exact Hw' | discriminate]|].
  apply runs_bind. eapply runs_mono; [apply (task_loop_typed fuel _ w' Hf Hw') | auto |].
  intros _ w'' [H1 H2]. exact (conj H1 (fun _ => H2)).
Qed.
End Task.

(** ** Given runs *)

Lemma running_typed `{TdpApi} schedule :
  Forall event_typed schedule -> typed (length schedule) (running schedule).
Proof.
  intros Hs. destruct (start_typed schedule (@nil CurrentDate, @nil Z) Hs).
  split; auto; cbn; try (intros t [= <-]); try (intros; exact Logic.I).
  - apply pat_of_sections_wf.
  - apply zero_pmt_wf.
  - apply zero_tdt_typed.
  - apply zero_tot_typed.
Qed.

Lemma ready_typed `{TdpApi} schedule :
  Forall event_typed schedule -> typed (length schedule) (ready schedule).
Proof.
  intros Hs. destruct (start_typed schedule (@nil CurrentDate, @nil Z) Hs).
  split; auto; intros f [= <-]; intros; exact Logic.I.
Qed.

Section Obliging.
#[local] Existing Instance obliging.

(** A PMT section, a TOT section, the tuner, the volume, a channel that is not
    there, and the end. *)
Definition given_operations : list operation :=
  [Event (Delivery Pmt.two_section); Event (Delivery tot_section); Event (LockStatus 1);
   Event (Request VolumeUp); ChannelKey 7; Deinit].

Definition after_operations : world client_log :=
  match operate_all given_operations (running []) with Val (Ran _ w) => w | _ => running [] end.

Lemma given_operations_run :
  operate_all given_operations (running []) = Val (Ran tt after_operations).
Proof. vm_compute. reflexivity. Qed.

Lemma given_operations_typed : Forall operation_typed given_operations.
Proof.
  unfold given_operations. repeat apply Forall_cons_2; try exact Logic.I; try apply Forall_nil_2;
    cbn [operation_typed event_typed]; is_bytes_tac.
Qed.

Lemma events_keep_types_witness :
  operate_all given_operations (running []) = Val (Ran tt after_operations) /\
  typed 0 after_operations.
Proof.
  split; [exact given_operations_run|].
  pose proof (proj1 (events_keep_types 0 (running []) given_operations
    (running_typed [] (Forall_nil_2 _)) given_operations_typed)) as M.
  rewrite given_operations_run in M. exact M.
Defined.
End Obliging.

(** A library that creates no streams: at the first change of the channel the
    task ends itself. *)
Definition streamless : TdpApi := {|
  tdp := fun _ c => match c with PlayerStreamCreate _ _ _ _ => mkAnswer 1 None
                    | _ => mkAnswer 0 (Some 1) end;
  as_int := i32;
  DVB_T := 0;
  STATUS_LOCKED := 1;
  VIDEO_TYPE_MPEG2 := 2;
  AUDIO_TYPE_MPEG_AUDIO := 3 |}.

Section Streamless.
#[local] Existing Instance streamless.

Definition short_life : list event :=
  boot_schedule ++ [Request ChannelUp; Pass; Delivery Pmt.two_section].

Definition after_life : world client_log :=
  match streamControllerTask 20 (ready short_life) with Val (Ran _ w) => w | _ => ready [] end.

Lemma short_life_run :
  streamControllerTask 20 (ready short_life) = Val (Ran None after_life).
Proof. vm_compute. reflexivity. Qed.

Lemma short_life_typed : Forall event_typed short_life.
Proof.
  unfold short_life, boot_schedule. cbn [app].
  repeat apply Forall_cons_2; try exact Logic.I; try apply Forall_nil_2;
    cbn [event_typed]; is_bytes_tac.
Qed.

Lemma streamControllerTask_ends_witness :
  streamControllerTask 20 (ready short_life) = Val (Ran None after_life) /\
  threadExit after_life = true.
Proof.
  split; [exact short_life_run|].
  pose proof (streamControllerTask_ends 20 (ready short_life)
    (ready_typed short_life short_life_typed) ltac:(vm_compute; lia)) as M.
  rewrite short_life_run in M. exact (proj2 M eq_refl).
Defined.
End Streamless.
End Ty.
