(* ===== verification/GiveUp.v ===== *)
(** * GiveUp: starts of the controller that fail

    The task allocates the four tables, and each of its calls can fail. While it
    waits, other threads run. On the way to its loop no table is used or freed
    after it was freed, and a path that gives up frees all four; but when there
    is no memory for a table, those before it are kept. *)

From S2P Require Import Prelude Tables PatParser PmtParser TdtParser TotParser.
From S2P Require Import Printing ConfigFile Machine World StreamController StreamProperties Typing.

Module Fail.
Import Sc ScFacts.

(** ** Pure code *)

Lemma nullchecked_no_stale {T} (f : bytes -> T -> res (ParseErrorCode * T)) b t :
  (forall b t, no_stale (f b t)) -> no_stale (nullchecked f b t).
Proof. intros Hf. unfold nullchecked. no_stale. apply Hf. Qed.

Lemma call_no_stale {T} (f : bytes -> T -> res (ParseErrorCode * T)) b t :
  (forall b t, no_stale (f b t)) -> no_stale (Tables.call (nullchecked f) b t).
Proof. intros Hf. rewrite call_nullchecked. apply Hf. Qed.

Lemma pat_no_stale b t : no_stale (Pat.parsePatTable b t).
Proof.
  apply nullchecked_no_stale. intros b0 t0. unfold Pat.parsePatTable_body.
  apply no_stale_bind; [apply call_no_stale; intros; unfold Pat.parsePatHeader_body; no_stale|].
  intros [c h]. no_stale. unfold Pat.parsePatTable_step. no_stale.
  apply call_no_stale. intros. unfold Pat.parsePatServiceInfo_body. no_stale.
Qed.

Lemma pmt_no_stale b t : no_stale (Pmt.parsePmtTable b t).
Proof.
  apply nullchecked_no_stale. intros b0 t0. unfold Pmt.parsePmtTable_body.
  apply no_stale_bind; [apply call_no_stale; intros; unfold Pmt.parsePmtHeader_body; no_stale|].
  intros [c h]. no_stale. unfold Pmt.parsePmtTable_step. no_stale.
  apply call_no_stale. intros. unfold Pmt.parsePmtElementaryInfo_body. no_stale.
Qed.

Lemma tdt_no_stale b t : no_stale (Tdt.parseTdtTable b t).
Proof.
  apply nullchecked_no_stale. intros b0 t0. unfold Tdt.parseTdtTable_body. no_stale.
  match goal with |- no_stale (Tdt.mjd_date ?m) =>
    pose proof (all16Bits_range a2 a3) as Hm;
    destruct (Tdt.mjd_date_total m) as [d ->]; [unfold is_u16 in Hm; lia | exact I] end.
Qed.

Lemma tot_no_stale b t : no_stale (Tot.parseTotTable b t).
Proof.
  unfold Tot.parseTotTable. destruct t as [t|]; [|discriminate].
  apply nullchecked_no_stale. intros b0 t0. unfold Tot.parseTotTable_body. no_stale.
  unfold Tot.parseTotTable_step, Tot.parseTotTable_descriptor. no_stale.
  unfold Tot.lto_step. no_stale.
Qed.

Lemma print_for_no_stale count body :
  (forall i, no_stale (body i)) -> no_stale (Print.print_for count body).
Proof. intros Hb. unfold Print.print_for. no_stale. unfold Print.for_step. no_stale. apply Hb. Qed.

Lemma print_tot_no_stale t : no_stale (print_tot t).
Proof.
  unfold print_tot, Print.printTotTable, Print.print_checked, Print.printTotTable_body.
  no_stale. apply print_for_no_stale. intros i. unfold Print.print_descriptor. no_stale.
  apply print_for_no_stale. intros j. no_stale.
Qed.

Section Facts.
Context `{TdpApi} {C : Type}.
Implicit Types w : world C.

(** ** The tables stay allocated *)

(** The functions of the client do not use what was freed. *)
Definition client_sane w : Prop :=
  (forall f, dateRecievedCallback w = Some f -> forall d c, no_stale (f d c)) /\
  (forall f, volumeReportCallback w = Some f -> forall v c, no_stale (f v c)).

Record live w : Prop := {
  li_pat : exists t, patTable w = Live t;
  li_pmt : exists t, pmtTable w = Live t;
  li_tdt : exists t, tdtTable w = Live t;
  li_tot : exists t, totTable w = Live t;
  li_init : isInitialized w = false;
  li_client : client_sane w }.

(** The tables are freed and the controller is not initialized. *)
Definition freed w : Prop :=
  patTable w = Freed /\ pmtTable w = Freed /\ tdtTable w = Freed /\ totTable w = Freed /\
  isInitialized w = false.

(** A program under which the tables stay allocated. *)
Definition safe {A} (m : M (world C) A) : Prop :=
  forall w, live w -> ends m w (fun _ w' => live w').

Create HintDb live.

Lemma safe_bind {A B} (m : M (world C) A) (f : A -> M (world C) B) :
  safe m -> (forall a, safe (f a)) -> safe (x ← m; f x).
Proof.
  intros Hm Hf w Hw. apply ends_bind. eapply ends_mono; [apply Hm, Hw|].
  intros a w' Hw'. apply Hf, Hw'.
Qed.

Lemma safe_ret {A} (a : A) : safe (mret a).
Proof. intros w Hw. exact Hw. Qed.
Lemma safe_gets {A} (f : world C -> A) : safe (gets f).
Proof. intros w Hw. exact Hw. Qed.
Lemma safe_blocked {A} : safe (@blocked (world C) A).
Proof. intros w Hw. exact I. Qed.
Lemma safe_lift {A} (m : res A) : no_stale m -> safe (lift m).
Proof. intros Hm w Hw. apply ends_lift; auto. Qed.
Lemma safe_modify f : (forall w, live w -> live (f w)) -> safe (modify f).
Proof. intros Hf w Hw. apply Hf, Hw. Qed.

Lemma safe_if {A} (b : bool) (m m' : M (world C) A) : safe m -> safe m' -> safe (if b then m else m').
Proof. destruct b; auto. Qed.

(** A variable is read and used. *)
Lemma safe_read {A B} (f : world C -> A) (k : A -> M (world C) B) (P : A -> Prop) :
  (forall w, live w -> P (f w)) -> (forall a, P a -> safe (k a)) -> safe (x ← gets f; k x).
Proof. intros Hf Hk w Hw. apply ends_bind. exact (Hk (f w) (Hf w Hw) w Hw). Qed.

Hint Resolve safe_ret safe_gets safe_blocked : live.
Hint Extern 2 (safe (modify _)) =>
  apply safe_modify; intros ? []; split; solve [eauto] : live.
Hint Extern 2 (safe (lift _)) => apply safe_lift; solve [no_stale] : live.

Ltac safe_step :=
  match goal with
  | |- safe _ => solve [eauto with live]
  | |- safe (mbind _ _) => apply safe_bind; [|intros ?]
  | |- safe (if ?b then _ else _) => destruct b
  | |- safe (match ?x with _ => _ end) => destruct x
  end.
Ltac safe := repeat safe_step.

(** A pointer to a table that is allocated. *)
Lemma safe_deref {T A} (get : world C -> ptr T) (k : T -> M (world C) A) :
  (forall w, live w -> exists t, get w = Live t) -> (forall t, safe (k t)) ->
  safe (p ← gets get; t ← lift (deref p); k t).
Proof.
  intros Hg Hk. apply (safe_read _ _ (fun p => exists t, p = Live t)); [exact Hg|].
  intros p [t ->]. apply safe_bind; [apply safe_lift; exact I | exact Hk].
Qed.

Lemma receive_safe {T} parse print (get : world C -> ptr T) set b :
  (forall w, live w -> exists t, get w = Live t) ->
  (forall t w, live w -> live (set (Live t) w)) ->
  (forall b t, no_stale (parse b t)) -> (forall t, no_stale (print t)) ->
  safe (receive parse print get set b).
Proof.
  intros Hg Hs Hp Hr. unfold receive.
  apply (safe_read _ _ (fun p => exists t, p = Live t)); [exact Hg|]. intros p [t ->].
  apply safe_bind; [apply safe_lift; exact I|]. intros o.
  apply safe_bind; [apply safe_lift, Hp|]. intros [c t'].
  apply safe_bind.
  { destruct t'; [apply safe_modify; intros w; apply Hs | apply safe_ret]. }
  intros _. unfold signal_locked. safe. apply safe_lift, Hr.
Qed.

Lemma print_tdt_no_stale t : no_stale (print_tdt t).
Proof. destruct t; exact I. Qed.

Lemma section_safe b : safe (sectionReceivedCallback b).
Proof.
  unfold sectionReceivedCallback. apply safe_bind; [apply safe_lift; no_stale|]. intros id.
  apply safe_bind; [|intros _; apply safe_ret].
  destruct (_ =? _); [|destruct (_ =? _); [|destruct (_ =? _); [|destruct (_ =? _); [|safe]]]];
    apply receive_safe; auto using pat_no_stale, pmt_no_stale, tdt_no_stale, tot_no_stale,
      print_tdt_no_stale, print_tot_no_stale; try (intros; exact I); try (intros w []; assumption);
      intros t w []; split; eauto.
Qed.

(** ** What other threads do *)

Lemma external_safe c : safe (external c).
Proof. intros w []. split; eauto. Qed.
Hint Resolve external_safe : live.

Lemma ignored_safe c : safe (ignored c).
Proof. unfold ignored. safe. Qed.
Lemma fails_safe c : safe (fails c).
Proof. unfold fails. safe. Qed.
Lemma fails_out_safe c set :
  (forall v, safe (modify (set v))) -> safe (fails_out c set).
Proof. intros Hs. unfold fails_out. safe. Qed.
Hint Resolve ignored_safe fails_safe : live.

Lemma call_client_safe {A} (f : option (A -> C -> res C)) a :
  (forall g, f = Some g -> forall a c, no_stale (g a c)) -> safe (call_client f a).
Proof.
  intros Hf. unfold call_client. destruct f as [g|]; [|apply safe_lift; discriminate].
  apply safe_bind; [apply safe_gets|]. intros c.
  apply safe_bind; [apply safe_lift, (Hf g eq_refl) | intros c'; safe].
Qed.

Lemma report_volume_safe : safe report_volume.
Proof.
  unfold report_volume. apply (safe_read _ _ (fun f : option (Z -> C -> res C) =>
    forall g, f = Some g -> forall a c, no_stale (g a c))).
  - intros w Hw. apply (li_client _ Hw).
  - intros f Hf. apply safe_bind; [apply safe_gets|]. intros v. apply call_client_safe, Hf.
Qed.
Hint Resolve report_volume_safe : live.

Lemma service_count_safe : safe service_count.
Proof. unfold service_count. apply safe_deref; [apply li_pat | intros t; safe]. Qed.
Hint Resolve service_count_safe : live.

Lemma serve_safe r : safe (serve r).
Proof.
  destruct r; unfold serve, channelUp, channelDown, volumeUp, volumeDown, volumeMute,
    set_player_volume; safe.
Qed.
Hint Resolve serve_safe section_safe : live.

Lemma handle_safe e : safe (handle e).
Proof. unfold handle, tunerStatusCallback, signal_locked. safe. Qed.
Hint Resolve handle_safe : live.

Lemma wait_events_safe signalled l : safe (wait_events signalled l).
Proof. induction l as [|e l IH]; cbn [wait_events]; safe. Qed.

Lemma wait_pending_safe signalled : safe (fun w => wait_events signalled (pending w) w).
Proof. intros w Hw. apply wait_events_safe, Hw. Qed.
Hint Resolve wait_pending_safe : live.

Lemma wait_demux_safe : safe wait_demux.
Proof. unfold wait_demux, lock, cond_wait. safe. Qed.
Lemma wait_tuner_safe : safe wait_tuner.
Proof. unfold wait_tuner, lock, cond_wait. safe. Qed.
Hint Resolve wait_demux_safe wait_tuner_safe : live.

(** ** The start of a channel *)

(** The controller is not initialized, and its end does nothing. *)
Lemma deinit_safe : safe streamControllerDeinit.
Proof.
  unfold streamControllerDeinit. apply (safe_read _ _ (fun b => b = false)); [apply li_init|].
  intros b ->. apply safe_ret.
Qed.
Hint Resolve deinit_safe : live.

Lemma wait_table_safe : safe wait_table.
Proof. unfold wait_table. safe. Qed.
Lemma next_filter_safe pid table : safe (next_filter pid table).
Proof. unfold next_filter, fails_out. safe. Qed.
Lemma free_filter_safe : safe free_filter.
Proof. unfold free_filter. safe. Qed.
Hint Resolve wait_table_safe next_filter_safe free_filter_safe : live.

Lemma report_date_safe : safe report_date.
Proof.
  unfold report_date. apply (safe_read _ _ (fun f : option (CurrentDate -> C -> res C) =>
    forall g, f = Some g -> forall a c, no_stale (g a c))).
  - intros w Hw. apply (li_client _ Hw).
  - intros f Hf. apply safe_bind; [apply safe_gets|]. intros v.
    apply safe_bind; [apply call_client_safe, Hf | intros _; safe].
Qed.

Lemma parseTimeTables_safe : safe parseTimeTables.
Proof.
  unfold parseTimeTables.
  do 2 (apply safe_bind; [solve [safe]|]; intros ?). apply safe_if; [safe|].
  do 3 (apply safe_bind; [solve [safe]|]; intros ?). apply safe_if; [safe|].
  apply safe_bind; [solve [safe]|]; intros _.
  apply safe_deref; [apply li_tot|]. intros t.
  do 2 (apply safe_bind; [solve [safe]|]; intros ?).
  apply safe_deref; [apply li_tdt|]. intros t'.
  apply safe_bind; [solve [safe]|]; intros _. apply report_date_safe.
Qed.
Hint Resolve parseTimeTables_safe : live.

Lemma create_stream_safe pid type set :
  (forall v, safe (modify (set v))) -> safe (create_stream pid type set).
Proof. intros Hs. unfold create_stream, fails_out. safe. Qed.
Lemma remove_stream_safe get set :
  (forall v, safe (modify (set v))) -> safe (remove_stream get set).
Proof. intros Hs. unfold remove_stream. safe. Qed.

Lemma start_video_safe pid : safe (start_video pid).
Proof.
  unfold start_video. safe; (apply remove_stream_safe || apply create_stream_safe); intros ?; safe.
Qed.
Lemma start_audio_safe pid : safe (start_audio pid).
Proof.
  unfold start_audio. safe; (apply remove_stream_safe || apply create_stream_safe); intros ?; safe.
Qed.
Hint Resolve start_video_safe start_audio_safe : live.

Lemma startChannel_safe ch : safe (startChannel ch).
Proof.
  unfold startChannel. apply safe_bind.
  { unfold startChannel_request. apply safe_bind; [solve [safe]|]. intros _.
    apply safe_deref; [apply li_pat|]. intros t. safe. }
  intros failed. apply safe_if; [safe|].
  apply safe_bind; [solve [safe]|]. intros _. apply safe_bind; [|intros _; safe].
  unfold startChannel_streams. apply safe_deref; [apply li_pmt|]. intros t.
  apply safe_bind; [|intros p; safe]. apply safe_lift. unfold select_pids. no_stale.
  unfold pid_step. no_stale.
Qed.
Hint Resolve startChannel_safe : live.

(** ** The start of the task *)

(** Giving up frees the four tables. *)
Lemma give_up_freed p t w :
  live w -> ends (give_up_task p t) w (fun r w' => r = Some SC_ERROR /\ freed w').
Proof.
  intros [(t1 & E1) (t2 & E2) (t3 & E3) (t4 & E4) Ei _].
  unfold give_up_task, free_tables, free_global, ignored. destruct w; simpl in *; subst.
  destruct p, t; cbn; repeat split; reflexivity.
Qed.

Definition allocated_tables w : Prop :=
  (exists t, patTable w = Live t) /\ (exists t, pmtTable w = Live t) /\
  (exists t, tdtTable w = Live t) /\ (exists t, totTable w = Live t).

Lemma deinit_refused w :
  isInitialized w = false -> streamControllerDeinit w = Val (Ran SC_ERROR w).
Proof. intros Hi. unfold streamControllerDeinit. run_unfold. rewrite Hi. reflexivity. Qed.

(** How the way to the loop ends: the thread ends with SC_ERROR and the tables
    freed, or the controller is initialized with the tables there. *)
Definition start_ends (r : option StreamControllerError) w : Prop :=
  match r with
  | Some e => e = SC_ERROR /\ freed w
  | None =>
      isInitialized w = true /\ allocated_tables w
  end.

Lemma give_up_ends p t w : live w -> ends (give_up_task p t) w start_ends.
Proof.
  intros Hw. eapply ends_mono; [apply give_up_freed; exact Hw|].
  intros r w' [-> Hf]. split; [reflexivity | exact Hf].
Qed.

(** The rest of a path after a part that leaves the tables. *)
Lemma ends_safe {A B} (m : M (world C) A) (f : A -> M (world C) B) w Q :
  live w -> safe m -> (forall a w', live w' -> ends (f a) w' Q) -> ends (x ← m; f x) w Q.
Proof.
  intros Hw Hm Hf. apply ends_bind. eapply ends_mono; [apply Hm, Hw|].
  intros a w' Hw'. apply Hf, Hw'.
Qed.

Ltac start_step :=
  lazymatch goal with
  | |- ends (if ?b then _ else _) _ _ =>
      destruct b; [solve [apply give_up_ends; assumption
                         | apply ends_ret, give_up_ends; assumption] |]
  | |- ends (mbind _ _) _ _ => apply ends_safe; [assumption | solve [safe] | intros ? ? ?]
  end.

Lemma task_player_ends w : live w -> ends task_player w start_ends.
Proof.
  intros Hw. unfold task_player.
  assert (Ho : forall c set, (forall v, safe (modify (set v))) -> safe (fails_out c set))
    by (intros; apply fails_out_safe; assumption).
  apply ends_safe; [assumption | apply Ho; intros; safe | intros ? ? ?]. start_step.
  start_step.
  apply ends_safe; [assumption | apply Ho; intros; safe | intros ? ? ?].
  repeat start_step.
  apply ends_bind, ends_modify, ends_ret. cbn.
  match goal with Hl : live _ |- _ => destruct Hl end. unfold allocated_tables. auto.
Qed.

(** The tables for which there is memory, of [names] in turn. *)
Fixpoint obtained (h : list call) (names : list string) : nat :=
  match names with
  | [] => 0
  | name :: names =>
      match out (tdp h (Malloc name)) with
      | None => 0
      | Some _ => S (obtained (Malloc name :: h) names)
      end
  end.

Definition table_names : list string := ["PatTable"; "PmtTable"; "TdtTable"; "TotTable"].

(** After [k] tables there is no memory: they stay allocated, the next pointer
    is null, and the rest is what it was. *)
Definition partly (k : nat) w : world C :=
  let w := set_calls (rev (map Malloc (take (S k) table_names)) ++ calls w) w in
  match k with
  | 0 => set_patTable Null w
  | 1 => set_pmtTable Null (set_patTable (Live zero_pat) w)
  | 2 => set_tdtTable Null (set_pmtTable (Live zero_pmt) (set_patTable (Live zero_pat) w))
  | _ => set_totTable Null (set_tdtTable (Live zero_tdt) (set_pmtTable (Live zero_pmt)
           (set_patTable (Live zero_pat) w)))
  end%nat.

Lemma task_tables_cases w :
  let k := obtained (calls w) table_names in
  (k <= 4)%nat /\
  task_tables w = Val (Ran (negb (k =? 4)%nat) (if (k =? 4)%nat then allocated w else partly k w)).
Proof.
  unfold task_tables, malloc_zeroed, table_names, partly. cbn [obtained]. run_unfold.
  destruct (out (tdp (calls w) _)); [|split; [lia | reflexivity]]. cbn [calls set_patTable set_calls].
  destruct (out (tdp (_ :: calls w) _)); [|split; [lia | reflexivity]].
  cbn [calls set_pmtTable set_patTable set_calls].
  destruct (out (tdp (_ :: _ :: calls w) _)); [|split; [lia | reflexivity]].
  cbn [calls set_tdtTable set_pmtTable set_patTable set_calls].
  destruct (out (tdp (_ :: _ :: _ :: calls w) _)); split; try lia; reflexivity.
Qed.

Lemma task_init_ends w :
  client_sane w -> isInitialized w = false -> obtained (calls w) table_names = 4%nat ->
  ends task_init w start_ends.
Proof.
  intros Hcl Hi Hk. unfold task_init. apply ends_bind. unfold ends at 1.
  destruct (task_tables_cases w) as [_ ->]. rewrite Hk. cbn [Nat.eqb negb].
  assert (Hw : live (allocated w)) by (split; cbn; eauto).
  generalize (allocated w) Hw. clear w Hcl Hi Hk Hw. intros w Hw.
  repeat start_step. apply task_player_ends. assumption.
Qed.

(** ** Properties *)

(** C15: Whatever the library answers and whatever happens meanwhile, with callbacks that
    use no freed memory: if the task ends before its loop then its value is SC_ERROR and a
    deinit after it is refused. When the memory for a table is missing, the tables before it
    stay allocated. On every other way to the loop no freed table is used or freed again,
    the fuel is enough, and the only undefined behaviour is an access out of bounds or
    through a null pointer; a way that gives up frees all four tables, one that reaches the
    loop has them. *)
Theorem task_gives_up n w fuel :
  Ty.typed n w -> client_sane w -> isInitialized w = false ->
  let k := obtained (calls w) table_names in
  ((k < 4)%nat -> streamControllerTask fuel w = Val (Ran (Some SC_ERROR) (partly k w)) /\
     streamControllerDeinit (partly k w) = Val (Ran SC_ERROR (partly k w))) /\
  ((4 <= k)%nat ->
   match task_init w with
   | Val (Ran (Some e) w') =>
       e = SC_ERROR /\ freed w' /\ streamControllerDeinit w' = Val (Ran SC_ERROR w') /\
       streamControllerTask fuel w = Val (Ran (Some e) w')
   | Val (Ran None w') =>
       isInitialized w' = true /\ allocated_tables w' /\
       streamControllerTask fuel w = (_ ← task_loop fuel; mret None) w'
   | Val (Waiting _) => True
   | Ub j => j = OutOfBounds \/ j = NullDeref
   | NoFuel => False
   end).
Proof.
  intros Hty Hcl Hi k. destruct (task_tables_cases w) as [Hk E]. fold k in Hk, E. split.
  - intros Hlt. rewrite (proj2 (Nat.eqb_neq k 4)) in E by lia.
    assert (Et : task_init w = Val (Ran (Some SC_ERROR) (partly k w)))
      by (unfold task_init; rewrite (bindM _ _ _ _ _ E); reflexivity).
    split; [unfold streamControllerTask; rewrite (bindM _ _ _ _ _ Et); reflexivity|].
    apply deinit_refused. unfold partly. do 3 (destruct k as [|k]; [exact Hi|]); exact Hi.
  - intros Hge. pose proof (task_init_ends w Hcl Hi ltac:(fold k; lia)) as He.
    pose proof (Ty.task_init_typed n w Hty) as Ht.
    unfold ends, runs, yields in *. unfold streamControllerTask, mbind, M_bind.
    destruct (task_init w) as [[[e|] w'|w']|j|]; try exact Ht; [| |exact Logic.I|].
    + destruct He as [-> Hf]. repeat split; try apply Hf. apply deinit_refused, Hf.
    + destruct He as [H1 H2]. auto.
    + destruct j; try discriminate Ht; auto. congruence.
Qed.
End Facts.

(** ** Given runs *)

(** No memory for the third table. *)
Definition no_memory : TdpApi := {|
  tdp := fun _ c => match c with Malloc "TdtTable" => mkAnswer 0 None
                    | _ => mkAnswer 0 (Some 1) end;
  as_int := i32;
  DVB_T := 0;
  STATUS_LOCKED := 1;
  VIDEO_TYPE_MPEG2 := 2;
  AUDIO_TYPE_MPEG_AUDIO := 3 |}.

(** The time to lock is over. *)
Definition gave_up : world client_log :=
  match @streamControllerTask obliging _ 9 (ready [Wake ETIMEDOUT]) with
  | Val (Ran _ w) => w
  | _ => ready []
  end.

Lemma ready_sane schedule : client_sane (ready schedule).
Proof. split; intros f [= <-]; intros; exact I. Qed.

Lemma gave_up_run :
  @task_init obliging _ (ready [Wake ETIMEDOUT]) = Val (Ran (Some SC_ERROR) gave_up).
Proof. vm_compute. reflexivity. Qed.

Lemma wake_typed : Forall Ty.event_typed [Wake ETIMEDOUT].
Proof. repeat constructor. Qed.

Lemma task_gives_up_witness :
  freed gave_up /\
  exists w', @streamControllerTask no_memory _ 9 (ready []) = Val (Ran (Some SC_ERROR) w') /\
    patTable w' = Live zero_pat /\ pmtTable w' = Live zero_pmt /\ tdtTable w' = Null.
Proof.
  split.
  - pose proof (proj2 (@task_gives_up obliging _ 1 (ready [Wake ETIMEDOUT]) 9
      (@Ty.ready_typed obliging [Wake ETIMEDOUT] wake_typed)
      (ready_sane [Wake ETIMEDOUT]) eq_refl) (le_n 4)) as He.
    rewrite gave_up_run in He. exact (proj1 (proj2 He)).
  - exists (partly 2 (ready [])). split; [|repeat split; reflexivity].
    exact (proj1 (proj1 (@task_gives_up no_memory _ 0 (ready []) 9
      (@Ty.ready_typed no_memory [] (Forall_nil_2 _)) (ready_sane []) eq_refl)
      (le_S _ _ (le_n 3)))).
Defined.
End Fail.
