(* ===== verification/RemoteController.v ===== *)
(** * RemoteController: the input events of the remote

    [RemoteControllerError] and the key codes of remote_controller.h, and the
    functions of remote_controller.c. The task reads the input device; what the
    reads give and what other threads do between them is the schedule of a
    run. *)

From S2P Require Import Prelude Machine.

Module Rc.

(** ** Data *)

Inductive RemoteControllerError := RC_NO_ERROR | RC_ERROR | RC_THREAD_ERROR.

Definition KEYCODE_EXIT : Z := 102.
Definition KEYCODE_P_PLUS : Z := 62.
Definition KEYCODE_P_MINUS : Z := 61.
Definition KEYCODE_V_PLUS : Z := 63.
Definition KEYCODE_V_MINUS : Z := 64.
Definition KEYCODE_INFO : Z := 358.
Definition KEYCODE_1 : Z := 2.
Definition KEYCODE_2 : Z := 3.
Definition KEYCODE_3 : Z := 4.
Definition KEYCODE_4 : Z := 5.
Definition KEYCODE_5 : Z := 6.
Definition KEYCODE_6 : Z := 7.
Definition KEYCODE_7 : Z := 8.
Definition KEYCODE_8 : Z := 9.
Definition KEYCODE_9 : Z := 10.
Definition KEYCODE_0 : Z := 11.
Definition KEYCODE_MUTE : Z := 60.

Definition EV_VALUE_RELEASE : Z := 0.
Definition EV_VALUE_KEYPRESS : Z := 1.
Definition EV_VALUE_AUTOREPEAT : Z := 2.

(** [EV_KEY] of linux/input.h, and the fields of its [struct input_event] that
    reach the callback. *)
Definition EV_KEY : Z := 1.

Record input_event := mkInput { ev_type : Z; ev_code : Z; ev_value : Z }.

(** What a [read] of the device gives: the number of bytes, not positive when
    it fails, and the event it left in the buffer. *)
Record read_result := mkRead { read_ret : Z; read_buf : input_event }.

Section Remote.
Context {C : Type}.

(** A callback works on the state of its program. *)
Definition RemoteControllerCallback : Type := Z -> Z -> Z -> C -> res C.

(** The static variables of remote_controller.c and the program's state. *)
Record remote := mkRemote {
  callback : option RemoteControllerCallback;
  threadExit : bool;
  program : C }.

(** One step of the schedule: a read of the task returns, or another thread
    registers, unregisters or asks the task to stop. *)
Inductive step :=
  | Read (r : read_result)
  | Register (f : option RemoteControllerCallback)
  | Unregister
  | Stopping (join_fails : bool).

(** ** Operations *)

Definition remoteControllerInit (create_fails : bool) : RemoteControllerError :=
  if create_fails then RC_THREAD_ERROR else RC_NO_ERROR.

(** Up to the join of the task, and with the result of the join. *)
Definition remoteControllerDeinit (join_fails : bool) (s : remote)
    : RemoteControllerError * remote :=
  (if join_fails then RC_THREAD_ERROR else RC_NO_ERROR,
   mkRemote (callback s) true (program s)).

Definition registerRemoteControllerCallback (f : option RemoteControllerCallback) (s : remote)
    : RemoteControllerError * remote :=
  match f with
  | None => (RC_ERROR, s)
  | Some _ => (RC_NO_ERROR, mkRemote f (threadExit s) (program s))
  end.

Definition unregisterRemoteControllerCallback (s : remote) : RemoteControllerError * remote :=
  (RC_NO_ERROR, mkRemote None (threadExit s) (program s)).

Definition getKey (r : read_result) : RemoteControllerError :=
  if read_ret r <=? 0 then RC_ERROR else RC_NO_ERROR.

(** The filter of the events. *)
Definition is_key (e : input_event) : bool :=
  (ev_type e =? EV_KEY) &&
  ((ev_value e =? EV_VALUE_KEYPRESS) || (ev_value e =? EV_VALUE_AUTOREPEAT)).

(** One pass of the loop, with the read it makes. *)
Definition task_pass (r : read_result) (s : remote) : res (ctl remote RemoteControllerError) :=
  match getKey r with
  | RC_NO_ERROR =>
      if is_key (read_buf r) then
        match callback s with
        | None => Ub NullDeref
        | Some f =>
            c ← f (ev_code (read_buf r)) (ev_type (read_buf r)) (u32 (ev_value (read_buf r)))
                  (program s);
            Val (Next (mkRemote (callback s) (threadExit s) c))
        end
      else Val (Next s)
  | _ => Val (Stop RC_ERROR)
  end.

(** How the task ends: with the value of the thread, or in a [read] that does
    not return. *)
Inductive outcome :=
  | Ended (e : RemoteControllerError) (s : remote)
  | Reading (s : remote).

(** The loop of the task, which is in a read. The flag is looked at after each
    event: a stop that is asked for during a read is seen after the event that
    the read gives. *)
Fixpoint task_loop (schedule : list step) (s : remote) : res outcome :=
  match schedule with
  | [] => Val (Reading s)
  | Register f :: schedule => task_loop schedule (registerRemoteControllerCallback f s).2
  | Unregister :: schedule => task_loop schedule (unregisterRemoteControllerCallback s).2
  | Stopping join_fails :: schedule =>
      task_loop schedule (remoteControllerDeinit join_fails s).2
  | Read r :: schedule =>
      c ← task_pass r s;
      match c with
      | Next s =>
          if threadExit s then Val (Ended RC_NO_ERROR s) else task_loop schedule s
      | Stop e => Val (Ended e s)
      end
  end.

Definition inputEventTask (open_fails : bool) (schedule : list step) (s : remote) : res outcome :=
  if open_fails then Val (Ended RC_ERROR s)
  else if threadExit s then Val (Ended RC_NO_ERROR s)
  else task_loop schedule s.

(** ** Lemmas *)

Definition read_ok (r : read_result) : Prop := 0 < read_ret r.

(** The events a program is to hear of: presses and repetitions of keys, as
    linux/input.h numbers them. *)
Definition wanted (e : input_event) : Prop :=
  ev_type e = 1 /\ (ev_value e = 1 \/ ev_value e = 2).

#[export] Instance wanted_dec e : Decision (wanted e).
Proof. unfold wanted. apply _. Defined.

Lemma is_key_wanted e : is_key e = if decide (wanted e) then true else false.
Proof.
  transitivity (bool_decide (wanted e)); [|unfold bool_decide, decide; reflexivity].
  apply eq_true_iff_eq. rewrite bool_decide_eq_true. unfold is_key, wanted.
  rewrite andb_true_iff, orb_true_iff, !Z.eqb_eq. reflexivity.
Qed.

(** What a run of events does to the program: the callback is called for every
    event it is to hear of, in order. *)
Fixpoint deliver (f : RemoteControllerCallback) (rs : list read_result) (c : C) : res C :=
  match rs with
  | [] => Val c
  | r :: rs =>
      if decide (wanted (read_buf r)) then
        c ← f (ev_code (read_buf r)) (ev_type (read_buf r)) (u32 (ev_value (read_buf r))) c;
        deliver f rs c
      else deliver f rs c
  end.

Definition with_program (c : C) (s : remote) : remote := mkRemote (callback s) (threadExit s) c.

Lemma getKey_ok r : read_ok r -> getKey r = RC_NO_ERROR.
Proof. unfold read_ok, getKey. intros H. rewrite (proj2 (Z.leb_gt _ _)) by assumption. reflexivity. Qed.

Lemma task_loop_reads f rs rest s c :
  Forall read_ok rs -> callback s = Some f -> threadExit s = false ->
  deliver f rs (program s) = Val c ->
  task_loop (map Read rs ++ rest) s = task_loop rest (with_program c s).
Proof.
  intros Hrs. revert s. induction Hrs as [|r rs Hr Hrs IH]; intros s Hf Ht Hd.
  - injection Hd as <-. destruct s. reflexivity.
  - cbn [map app task_loop deliver] in *. unfold task_pass. rewrite getKey_ok by assumption.
    rewrite is_key_wanted. destruct (decide (wanted (read_buf r))).
    + rewrite Hf. destruct (f _ _ _ (program s)) as [c1|k|]; try discriminate.
      rewrite bind_val in Hd. rewrite !bind_val. cbn [threadExit].
      destruct s as [cb stop p]; cbn in *; subst.
      apply (IH (mkRemote (Some f) false c1)); (reflexivity || assumption).
    + rewrite bind_val, Ht. apply IH; assumption.
Qed.
End Remote.

(** ** Properties *)

(** C35: The task of the remote calls the callback for every press and repetition of a key,
    in order and for nothing else, goes on reading, and ends with RC_ERROR at the first read
    that fails. *)
Theorem inputEventTask_delivers {C} (f : RemoteControllerCallback) rs bad rest (s : @remote C) c :
  Forall read_ok rs -> read_ret bad <= 0 -> callback s = Some f -> threadExit s = false ->
  deliver f rs (program s) = Val c ->
  inputEventTask false (map Read rs) s = Val (Reading (with_program c s)) /\
  inputEventTask false (map Read rs ++ Read bad :: rest) s =
    Val (Ended RC_ERROR (with_program c s)).
Proof.
  intros Hrs Hbad Hf Ht Hd. unfold inputEventTask. rewrite Ht. split.
  - rewrite <- (app_nil_r (map Read rs)).
    rewrite (task_loop_reads f rs [] s c) by assumption. reflexivity.
  - rewrite (task_loop_reads f rs _ s c) by assumption. cbn [task_loop].
    unfold task_pass, getKey. rewrite (proj2 (Z.leb_le _ _)) by assumption. reflexivity.
Qed.

(** When the callback is unregistered and the task asked to stop, as main does, the
    task stays in its read; the next key calls the null callback, and any other event ends
    the task. *)
Theorem key_after_unregister {C} (s : @remote C) r rest :
  threadExit s = false -> read_ok r ->
  inputEventTask false [Unregister; Stopping false] s =
    Val (Reading (mkRemote None true (program s))) /\
  inputEventTask false (Unregister :: Stopping false :: Read r :: rest) s =
    if decide (wanted (read_buf r)) then Ub NullDeref
    else Val (Ended RC_NO_ERROR (mkRemote None true (program s))).
Proof.
  intros Ht Hr. unfold inputEventTask. rewrite Ht. split; [reflexivity|].
  cbn [task_loop unregisterRemoteControllerCallback remoteControllerDeinit snd callback program].
  unfold task_pass. rewrite getKey_ok by assumption. cbn [callback].
  rewrite is_key_wanted. destruct (decide _); reflexivity.
Qed.

(** ** Given events *)

Definition press (code : Z) : read_result := mkRead 16 (mkInput EV_KEY code EV_VALUE_KEYPRESS).
Definition release (code : Z) : read_result := mkRead 16 (mkInput EV_KEY code EV_VALUE_RELEASE).

(** A key that is pressed reaches the callback. *)
Lemma task_pass_key {C} code (s : @remote C) f :
  callback s = Some f ->
  task_pass (press code) s =
    c ← f code EV_KEY EV_VALUE_KEYPRESS (program s);
    Val (Next (mkRemote (callback s) (threadExit s) c)).
Proof. intros Hf. unfold task_pass. rewrite Hf. reflexivity. Qed.

Definition keep_codes : @RemoteControllerCallback (list Z) := fun code _ _ c => Val (code :: c).

Lemma inputEventTask_delivers_witness :
  inputEventTask false (map Read [press 62; release 62; press 358; release 358])
    (mkRemote (Some keep_codes) false []) =
    Val (Reading (mkRemote (Some keep_codes) false [358; 62])).
Proof.
  refine (proj1 (inputEventTask_delivers keep_codes
    [press 62; release 62; press 358; release 358] (mkRead 0 (mkInput 0 0 0)) []
    (mkRemote (Some keep_codes) false []) [358; 62] _ _ eq_refl eq_refl eq_refl)).
  - unfold read_ok. repeat constructor.
  - discriminate.
Defined.

Lemma key_after_unregister_witness :
  inputEventTask false [Unregister; Stopping false; Read (press 102)]
    (mkRemote (Some keep_codes) false []) = Ub NullDeref.
Proof.
  refine (proj2 (key_after_unregister (mkRemote (Some keep_codes) false []) (press 102) []
    eq_refl _)). unfold read_ok. cbn. lia.
Defined.
End Rc.
