(* ===== verification/Graphics.v ===== *)
(** * Graphics: the on-screen components of graphics_controller.c

    The flags and values to draw, the one-shot timers that take the components
    off the screen again, the start and the end of the module, and renderThread
    as the sequence of DirectFB calls it makes. DirectFB is not part of the repository: the result
    of a call is a function of the calls made so far. *)

From S2P Require Import Prelude ConfigFile Machine.

Module Gc.

(** ** Data *)

Inductive GraphicsControllerError := GC_NO_ERROR | GC_ERROR | GC_THREAD_ERROR.

Record DrawComponents := mkComponents {
  showProgramNumber : bool;
  showVolume : bool;
  showInfo : bool;
  showChannelDial : bool;
  programNumber : Z;
  volume : Z }.

(** The static variables; a timer is [true] while it is armed. *)
Record graphics := mkGraphics {
  componentsToDraw : DrawComponents;
  programNumberTimer : bool;
  volumeTimer : bool;
  infoTimer : bool;
  YearToDraw : Z;
  tmpMonthToDraw : Z;
  dayToDraw : Z;
  audioPidToDraw : Z;
  videoPidToDraw : Z;
  screenWidth : Z;
  screenHeight : Z;
  provider : ptr unit;
  stopDrawing : bool }.

Definition set_components (c : DrawComponents) (g : graphics) : graphics :=
  mkGraphics c (programNumberTimer g) (volumeTimer g) (infoTimer g) (YearToDraw g)
    (tmpMonthToDraw g) (dayToDraw g) (audioPidToDraw g) (videoPidToDraw g) (screenWidth g)
    (screenHeight g) (provider g) (stopDrawing g).
Definition set_timers (p v i : bool) (g : graphics) : graphics :=
  mkGraphics (componentsToDraw g) p v i (YearToDraw g)
    (tmpMonthToDraw g) (dayToDraw g) (audioPidToDraw g) (videoPidToDraw g) (screenWidth g)
    (screenHeight g) (provider g) (stopDrawing g).
Definition set_provider (p : ptr unit) (g : graphics) : graphics :=
  mkGraphics (componentsToDraw g) (programNumberTimer g) (volumeTimer g) (infoTimer g)
    (YearToDraw g) (tmpMonthToDraw g) (dayToDraw g) (audioPidToDraw g) (videoPidToDraw g)
    (screenWidth g) (screenHeight g) p (stopDrawing g).
Definition show (p v i : bool) (c : DrawComponents) : DrawComponents :=
  mkComponents p v i (showChannelDial c) (programNumber c) (volume c).

(** The state graphicsControllerInit sets up, with the size of the screen;
    before it the size is 0 and 0. *)
Definition initial (width height : Z) : graphics :=
  mkGraphics (mkComponents false false false false 0 0) false false false 1000 0 0 0 0
    width height Null false.

Definition set_size (width height : Z) (g : graphics) : graphics :=
  mkGraphics (componentsToDraw g) (programNumberTimer g) (volumeTimer g) (infoTimer g)
    (YearToDraw g) (tmpMonthToDraw g) (dayToDraw g) (audioPidToDraw g) (videoPidToDraw g)
    width height (provider g) (stopDrawing g).
Definition stop_drawing (g : graphics) : graphics :=
  mkGraphics (componentsToDraw g) (programNumberTimer g) (volumeTimer g) (infoTimer g)
    (YearToDraw g) (tmpMonthToDraw g) (dayToDraw g) (audioPidToDraw g) (videoPidToDraw g)
    (screenWidth g) (screenHeight g) (provider g) true.

(** ** Requests and timers *)

Definition drawProgramNumber (g : graphics) : graphics :=
  let g := set_timers true (volumeTimer g) (infoTimer g) g in
  let c := componentsToDraw g in
  set_components (show true (showVolume c) (showInfo c) c) g.

Definition drawVolumeBar (volumeValue : Z) (g : graphics) : graphics :=
  let c := componentsToDraw g in
  let g := set_components (mkComponents (showProgramNumber c) (showVolume c) (showInfo c)
             (showChannelDial c) (programNumber c) volumeValue) g in
  let g := set_timers (programNumberTimer g) true (infoTimer g) g in
  let c := componentsToDraw g in
  set_components (show (showProgramNumber c) true (showInfo c) c) g.

Definition drawInfoRect (tmpMonth day Year audioPid videoPid : Z) (g : graphics) : graphics :=
  let g := set_timers (programNumberTimer g) (volumeTimer g) true g in
  let c := componentsToDraw g in
  mkGraphics (show (showProgramNumber c) (showVolume c) true c) (programNumberTimer g)
    (volumeTimer g) (infoTimer g) Year tmpMonth day audioPid videoPid (screenWidth g)
    (screenHeight g) (provider g) (stopDrawing g).

Definition removeProgramNumber (g : graphics) : graphics :=
  let c := componentsToDraw g in
  set_components (show false (showVolume c) (showInfo c) c) g.
Definition removeVolumeBar (g : graphics) : graphics :=
  let c := componentsToDraw g in
  set_components (show (showProgramNumber c) false (showInfo c) c) g.
Definition removeInfo (g : graphics) : graphics :=
  let c := componentsToDraw g in
  set_components (show (showProgramNumber c) (showVolume c) false c) g.

(** What happens to the state, one step at a time: a request, or a timer that
    runs out, which only an armed timer does, once. *)
Inductive gc_event :=
  | ShowProgramNumber
  | ShowVolume (v : Z)
  | ShowInfo (month day year audioPid videoPid : Z)
  | ProgramTimer
  | VolumeTimer
  | InfoTimer.

Definition gc_step (e : gc_event) (g : graphics) : graphics :=
  match e with
  | ShowProgramNumber => drawProgramNumber g
  | ShowVolume v => drawVolumeBar v g
  | ShowInfo m d y a v => drawInfoRect m d y a v g
  | ProgramTimer =>
      if programNumberTimer g
      then removeProgramNumber (set_timers false (volumeTimer g) (infoTimer g) g) else g
  | VolumeTimer =>
      if volumeTimer g
      then removeVolumeBar (set_timers (programNumberTimer g) false (infoTimer g) g) else g
  | InfoTimer =>
      if infoTimer g
      then removeInfo (set_timers (programNumberTimer g) (volumeTimer g) false g) else g
  end.

(** ** Drawing *)

Inductive draw :=
  | SetColor (r g b a : Z)
  | FillRectangle (x y w h : Z)
  | CreateImageProvider (file : bytes)
  | GetSurfaceDescription
  | CreateSurface
  | RenderTo
  | ReleaseProvider
  | GetSize
  | Blit (x y : Z)
  | DrawString (text : bytes) (x y : Z)
  | Flip
  | DirectFBInit
  | TimerCreate (seconds : Z)
  | TimerDelete
  | DirectFBCreate
  | SetCooperativeLevel
  | CreatePrimary
  | GetScreenSize
  | CreateFont (height : Z)
  | SetFont
  | StartThread
  | JoinThread
  | ReleasePrimary
  | ReleaseInterface.

Class DirectFb := {
  dfb : list draw -> draw -> Z;
  logo_size : list draw -> Z * Z;
  screen_size : list draw -> Z * Z }.

(** The locals of renderThread and the calls made in this pass, the last one
    first. *)
Record frame := mkFrame {
  fr_graphics : graphics;
  fr_temp : option bytes;
  fr_log : list draw }.

Definition decimal_text (z : Z) : bytes :=
  if z <? 0 then 45 :: Config.decimal (- z) else Config.decimal z.

(** A conversion [%.kd] of a number that is not negative. *)
Definition padded_text (k : nat) (z : Z) : bytes :=
  let d := Config.decimal z in replicate (k - length d) 48 ++ d.

Definition month_name (m : Z) : option bytes :=
  match m with
  | 1 => Some (bytes_of_string "January/")
  | 2 => Some (bytes_of_string "February/")
  | 3 => Some (bytes_of_string "March/")
  | 4 => Some (bytes_of_string "April/")
  | 5 => Some (bytes_of_string "May/")
  | 6 => Some (bytes_of_string "June/")
  | 7 => Some (bytes_of_string "July/")
  | 8 => Some (bytes_of_string "August/")
  | 9 => Some (bytes_of_string "September/")
  | 10 => Some (bytes_of_string "October/")
  | 11 => Some (bytes_of_string "November/")
  | 12 => Some (bytes_of_string "December/")
  | _ => None
  end.

Definition date_text (name : bytes) (day year : Z) : bytes :=
  name ++ padded_text 2 day ++ [47] ++ padded_text 4 year.

Definition volume_file (v : Z) : bytes :=
  bytes_of_string "volume_" ++ decimal_text v ++ bytes_of_string ".png".

Section Render.
Context `{DirectFb} (tempString_size : Z).

Abbreviation F := (M frame).

Definition dfb_call (d : draw) : F Z := fun f =>
  Val (Ran (dfb (fr_log f) d) (mkFrame (fr_graphics f) (fr_temp f) (d :: fr_log f))).

Definition unchecked (d : draw) : F unit := _ ← dfb_call d; mret tt.

(** A call in DFBCHECK: when it fails the process ends, and the run with it. *)
Definition DFBCHECK (d : draw) : F unit :=
  r ← dfb_call d; if r =? 0 then mret tt else blocked.

Definition set_temp (t : bytes) : F unit :=
  modify (fun f => mkFrame (fr_graphics f) (Some t) (fr_log f)).

(** [sprintf(tempString, ...)] with the text that the format makes. *)
Definition sprintf (text : bytes) : F unit :=
  if Z.of_nat (length text) <? tempString_size then set_temp text else lift (Ub OutOfBounds).

Definition get : F graphics := gets fr_graphics.

Definition change_provider (p : ptr unit) : F unit :=
  modify (fun f => mkFrame (set_provider p (fr_graphics f)) (fr_temp f) (fr_log f)).

(** [tempString] passed to DrawString. *)
Definition draw_temp (x y : Z) : F unit :=
  t ← gets fr_temp;
  match t with
  | Some t => DFBCHECK (DrawString t x y)
  | None => lift (Ub Uninitialized)
  end.

Definition wipeScreen : F unit :=
  g ← get;
  _ ← DFBCHECK (SetColor 0x00 0x00 0x00 0x00);
  DFBCHECK (FillRectangle 0 0 (screenWidth g) (screenHeight g)).

(** The image of the volume: the provider of the file, or the one the variable
    still holds. *)
Definition render_volume : F unit :=
  g ← get;
  let v := volume (componentsToDraw g) in
  _ ← (if (0 <=? v) && (v <=? 10) then
         _ ← DFBCHECK (CreateImageProvider (volume_file v));
         change_provider (Live tt)
       else mret tt);
  g ← get;
  _ ← lift (deref (provider g));
  _ ← DFBCHECK GetSurfaceDescription;
  _ ← DFBCHECK CreateSurface;
  _ ← DFBCHECK RenderTo;
  _ ← unchecked ReleaseProvider;
  _ ← change_provider Freed;
  _ ← DFBCHECK GetSize;
  size ← gets (fun f => logo_size (fr_log f));
  DFBCHECK (Blit (screenWidth g - size.1 - 100) 350).

Definition render_date : F unit :=
  g ← get;
  if YearToDraw g =? 0 then sprintf (bytes_of_string "Date not available")
  else
    match month_name (tmpMonthToDraw g) with
    | Some name => sprintf (date_text name (dayToDraw g) (YearToDraw g))
    | None => mret tt
    end.

Definition render_info : F unit :=
  g ← get;
  let w := screenWidth g in
  let h := screenHeight g in
  _ ← unchecked (SetColor 0xe0 0x91 0xd7 0xEF);
  _ ← unchecked (FillRectangle (Z.quot (3 * w) 10) (Z.quot (3 * h) 4) (Z.quot (4 * w) 10)
                   (Z.quot h 5));
  _ ← DFBCHECK (SetColor 0x00 0x00 0x00 0xFF);
  _ ← sprintf (bytes_of_string "Video PID : " ++ decimal_text (videoPidToDraw g));
  _ ← draw_temp (Z.quot (3 * w) 9 - 50) (Z.quot (3 * h) 4 + 40);
  _ ← sprintf (bytes_of_string "Audio PID : " ++ decimal_text (audioPidToDraw g));
  _ ← draw_temp (Z.quot (3 * w) 9 - 50) (Z.quot (3 * h) 4 + 80);
  _ ← render_date;
  draw_temp (Z.quot (3 * w) 9 - 50) (h - 60).

(** One pass of the loop of renderThread. *)
Definition render_pass : F unit :=
  _ ← wipeScreen;
  g ← get;
  _ ← (if showVolume (componentsToDraw g) then render_volume else mret tt);
  g ← get;
  _ ← (if showInfo (componentsToDraw g) then render_info else mret tt);
  DFBCHECK Flip.

Definition change (f : graphics -> graphics) : F unit :=
  modify (fun fr => mkFrame (f (fr_graphics fr)) (fr_temp fr) (fr_log fr)).

(** One step while the render thread runs: a pass of its loop, or what the
    other threads do between two passes. *)
Inductive render_event :=
  | RenderPass
  | Meanwhile (e : gc_event)
  | StopRequest.

(** The loop of renderThread. At its end the thread signals the condition. *)
Fixpoint renderThread (schedule : list render_event) : F unit :=
  match schedule with
  | [] => blocked
  | RenderPass :: schedule =>
      g ← get;
      if stopDrawing g then mret tt else _ ← render_pass; renderThread schedule
  | Meanwhile e :: schedule => _ ← change (gc_step e); renderThread schedule
  | StopRequest :: schedule => _ ← change stop_drawing; renderThread schedule
  end.

(** [if (call) return GC_ERROR;] *)
Definition or_error (d : draw) (rest : F GraphicsControllerError) : F GraphicsControllerError :=
  r ← dfb_call d; if r =? 0 then rest else mret GC_ERROR.

(** The three timers: none is armed yet. *)
Definition setTimerParams : F unit :=
  _ ← unchecked (TimerCreate 4);
  _ ← unchecked (TimerCreate 3);
  unchecked (TimerCreate 3).

Definition graphicsControllerInit : F GraphicsControllerError :=
  or_error DirectFBInit (
  _ ← setTimerParams;
  _ ← change (set_components (mkComponents false false false false 0 0));
  or_error DirectFBCreate (
  or_error SetCooperativeLevel (
  or_error CreatePrimary (
  or_error GetScreenSize (
  size ← gets (fun f => screen_size (fr_log f));
  _ ← change (set_size size.1 size.2);
  _ ← DFBCHECK (CreateFont 50);
  _ ← DFBCHECK SetFont;
  r ← dfb_call StartThread;
  mret (if r =? 0 then GC_NO_ERROR else GC_THREAD_ERROR)))))).

(** [pthread_cond_wait(&graphicsCond, &graphicsMutex)] where the calling thread
    does not hold the mutex. *)
Definition wait_not_locked : F Z := lift (Ub NotLocked).

Definition graphicsControllerDeinit : F GraphicsControllerError :=
  _ ← change stop_drawing;
  _ ← wait_not_locked;
  r ← dfb_call JoinThread;
  if negb (r =? 0) then mret GC_THREAD_ERROR else
  _ ← unchecked TimerDelete;
  _ ← unchecked TimerDelete;
  _ ← unchecked TimerDelete;
  _ ← unchecked ReleasePrimary;
  _ ← unchecked ReleaseInterface;
  mret GC_NO_ERROR.
End Render.

(** The array of renderThread. *)
Definition tempString_size : Z := 10.

(** ** Lemmas *)

(** Every component on the screen has its timer armed, and the other way
    round. *)
Definition tidy (g : graphics) : Prop :=
  let c := componentsToDraw g in
  showProgramNumber c = programNumberTimer g /\ showVolume c = volumeTimer g /\
  showInfo c = infoTimer g.

Lemma gc_step_tidy e g : tidy g -> tidy (gc_step e g).
Proof.
  intros (Hp & Hv & Hi).
  destruct e; simpl; unfold tidy; simpl; try (repeat split; congruence);
    case_match; simpl; repeat split; congruence.
Qed.

Definition gc_run (es : list gc_event) (g : graphics) : graphics :=
  fold_left (fun g e => gc_step e g) es g.

Lemma gc_run_tidy es g : tidy g -> tidy (gc_run es g).
Proof. revert g. induction es as [|e es IH]; intros g Hg; simpl; auto using gc_step_tidy. Qed.

(** The last volume shown. *)
Fixpoint last_volume (es : list gc_event) (v : Z) : Z :=
  match es with
  | [] => v
  | ShowVolume v :: es => last_volume es v
  | _ :: es => last_volume es v
  end.

Lemma gc_step_volume e g :
  volume (componentsToDraw (gc_step e g)) =
    match e with ShowVolume v => v | _ => volume (componentsToDraw g) end.
Proof. destruct e; simpl; try reflexivity; case_match; reflexivity. Qed.

Lemma gc_run_volume es g :
  volume (componentsToDraw (gc_run es g)) = last_volume es (volume (componentsToDraw g)).
Proof.
  revert g. induction es as [|e es IH]; intros g; [reflexivity|].
  simpl. rewrite IH, gc_step_volume. destruct e; reflexivity.
Qed.

(** The image that the last frame put on the screen, if it put one: the calls
    are searched back to the wipe that began the frame. *)
Fixpoint last_image (log : list draw) : option bytes :=
  match log with
  | [] => None
  | CreateImageProvider file :: _ => Some file
  | SetColor 0 0 0 0 :: _ => None
  | _ :: log => last_image log
  end.

Section RenderFacts.
Context `{DirectFb} (size : Z).

Definition dfb_succeeds : Prop := forall l d, dfb l d = 0.
Hypothesis Hok : dfb_succeeds.

Definition drawn (ds : list draw) (f : frame) : frame :=
  mkFrame (fr_graphics f) (fr_temp f) (rev ds ++ fr_log f).

Lemma DFBCHECK_run d f : DFBCHECK d f = Val (Ran tt (drawn [d] f)).
Proof.
  unfold DFBCHECK, dfb_call, mbind, M_bind. rewrite Hok. reflexivity.
Qed.

Lemma unchecked_run d f : unchecked d f = Val (Ran tt (drawn [d] f)).
Proof. reflexivity. Qed.

Definition wiped (g : graphics) : list draw :=
  [SetColor 0 0 0 0; FillRectangle 0 0 (screenWidth g) (screenHeight g)].

Lemma wipeScreen_run f : wipeScreen f = Val (Ran tt (drawn (wiped (fr_graphics f)) f)).
Proof.
  unfold wipeScreen. erewrite bindM; [|reflexivity].
  erewrite bindM; [|apply DFBCHECK_run]. rewrite DFBCHECK_run. reflexivity.
Qed.

(** The calls that put the image of volume [v] on the screen. *)
Definition volume_calls (g : graphics) (log : list draw) : list draw :=
  let ds := [CreateImageProvider (volume_file (volume (componentsToDraw g)));
             GetSurfaceDescription; CreateSurface; RenderTo; ReleaseProvider; GetSize] in
  ds ++ [Blit (screenWidth g - (logo_size (rev ds ++ log)).1 - 100) 350].

Lemma render_volume_run f :
  0 <= volume (componentsToDraw (fr_graphics f)) <= 10 ->
  render_volume f = Val (Ran tt
    (mkFrame (set_provider Freed (fr_graphics f)) (fr_temp f)
       (rev (volume_calls (fr_graphics f) (fr_log f)) ++ fr_log f))).
Proof.
  intros Hv. unfold render_volume. erewrite bindM; [|reflexivity]. cbv zeta.
  rewrite (proj2 (Z.leb_le _ _)), (proj2 (Z.leb_le _ _)) by lia. cbn [andb].
  erewrite bindM; [|erewrite bindM; [|apply DFBCHECK_run]; reflexivity].
  erewrite bindM; [|reflexivity]. erewrite bindM; [|reflexivity].
  do 3 (erewrite bindM; [|apply DFBCHECK_run]).
  erewrite bindM; [|apply unchecked_run]. erewrite bindM; [|reflexivity].
  erewrite bindM; [|apply DFBCHECK_run]. erewrite bindM; [|reflexivity].
  rewrite DFBCHECK_run. reflexivity.
Qed.

Lemma sprintf_fits t f :
  Z.of_nat (length t) < size ->
  sprintf size t f = Val (Ran tt (mkFrame (fr_graphics f) (Some t) (fr_log f))).
Proof.
  intros Ht. unfold sprintf. rewrite (proj2 (Z.ltb_lt _ _)) by assumption. reflexivity.
Qed.

Lemma draw_temp_run t x y f :
  fr_temp f = Some t -> draw_temp x y f = Val (Ran tt (drawn [DrawString t x y] f)).
Proof.
  intros Ht. unfold draw_temp. erewrite bindM; [|reflexivity]. rewrite Ht. apply DFBCHECK_run.
Qed.

(** The three texts of the info rectangle. *)
Definition video_text (g : graphics) : bytes :=
  bytes_of_string "Video PID : " ++ decimal_text (videoPidToDraw g).
Definition audio_text (g : graphics) : bytes :=
  bytes_of_string "Audio PID : " ++ decimal_text (audioPidToDraw g).
Definition shown_date (g : graphics) : bytes :=
  if YearToDraw g =? 0 then bytes_of_string "Date not available"
  else match month_name (tmpMonthToDraw g) with
       | Some name => date_text name (dayToDraw g) (YearToDraw g)
       | None => audio_text g
       end.

Definition info_calls (g : graphics) : list draw :=
  let w := screenWidth g in
  let h := screenHeight g in
  [SetColor 0xe0 0x91 0xd7 0xEF;
   FillRectangle (Z.quot (3 * w) 10) (Z.quot (3 * h) 4) (Z.quot (4 * w) 10) (Z.quot h 5);
   SetColor 0x00 0x00 0x00 0xFF;
   DrawString (video_text g) (Z.quot (3 * w) 9 - 50) (Z.quot (3 * h) 4 + 40);
   DrawString (audio_text g) (Z.quot (3 * w) 9 - 50) (Z.quot (3 * h) 4 + 80);
   DrawString (shown_date g) (Z.quot (3 * w) 9 - 50) (h - 60)].

(** The values have the widths of their variables. *)
Record values_ok (g : graphics) : Prop := {
  vo_video : -32768 <= videoPidToDraw g < 32768;
  vo_audio : -32768 <= audioPidToDraw g < 32768;
  vo_day : is_u8 (dayToDraw g);
  vo_year : is_u16 (YearToDraw g) }.

Lemma pid_text_length z : -32768 <= z < 32768 -> (length (decimal_text z) <= 6)%nat.
Proof.
  intros Hz. unfold decimal_text.
  destruct (Z.ltb_spec z 0); [cbn [length]|];
    match goal with |- context [Config.decimal ?n] =>
      pose proof (Config.decimal_length 4 n) as L;
      change (10 ^ Z.of_nat 5) with 100000 in L end; lia.
Qed.

Lemma padded_length k d z :
  0 <= z < 10 ^ Z.of_nat (S d) -> (length (padded_text k z) <= Nat.max k (S d))%nat.
Proof.
  intros Hz. unfold padded_text. rewrite length_app, length_replicate.
  pose proof (Config.decimal_length d z Hz). lia.
Qed.

Lemma month_name_length m name : month_name m = Some name -> (length name <= 10)%nat.
Proof.
  intros Hm. unfold month_name in Hm.
  repeat match type of Hm with
  | match ?x with _ => _ end = _ => destruct x; try discriminate
  end; injection Hm as <-; cbn; lia.
Qed.

Lemma texts_length g :
  values_ok g -> (length (video_text g) <= 18)%nat /\ (length (audio_text g) <= 18)%nat /\
    (length (shown_date g) <= 19)%nat.
Proof.
  intros [Hv Ha Hd Hy]. unfold is_u8, is_u16 in *.
  pose proof (pid_text_length _ Hv). pose proof (pid_text_length _ Ha).
  assert (La : (length (audio_text g) <= 18)%nat)
    by (unfold audio_text; rewrite length_app; cbn [length bytes_of_string]; lia).
  split; [unfold video_text; rewrite length_app; cbn [length bytes_of_string]; lia|].
  split; [exact La|]. unfold shown_date. destruct (YearToDraw g =? 0); [cbn; lia|].
  destruct (month_name (tmpMonthToDraw g)) as [name|] eqn:E; [|lia].
  apply month_name_length in E. unfold date_text. rewrite !length_app.
  pose proof (padded_length 2 2 (dayToDraw g)) as L2.
  pose proof (padded_length 4 4 (YearToDraw g)) as L4.
  change (10 ^ Z.of_nat 3) with 1000 in L2. change (10 ^ Z.of_nat 5) with 100000 in L4.
  cbn [length]. lia.
Qed.

Lemma render_date_run f :
  20 <= size -> values_ok (fr_graphics f) -> fr_temp f = Some (audio_text (fr_graphics f)) ->
  render_date size f = Val (Ran tt
    (mkFrame (fr_graphics f) (Some (shown_date (fr_graphics f))) (fr_log f))).
Proof.
  intros Hs Hok' Ht. destruct (texts_length _ Hok') as (_ & _ & Hd).
  unfold render_date, shown_date in *. erewrite bindM; [|reflexivity].
  destruct (YearToDraw _ =? 0); [apply sprintf_fits; lia|].
  destruct (month_name _); [apply sprintf_fits; lia|].
  destruct f as [g t l]. cbn in *. subst. reflexivity.
Qed.

Lemma render_info_run f :
  20 <= size -> values_ok (fr_graphics f) ->
  exists t, render_info size f = Val (Ran tt
    (mkFrame (fr_graphics f) t (rev (info_calls (fr_graphics f)) ++ fr_log f))).
Proof.
  intros Hs Hv. destruct (texts_length _ Hv) as (L1 & L2 & _).
  unfold render_info. erewrite bindM; [|reflexivity]. cbv zeta.
  do 2 (erewrite bindM; [|apply unchecked_run]).
  erewrite bindM; [|apply DFBCHECK_run].
  erewrite bindM; [|apply sprintf_fits; fold (video_text (fr_graphics f)); lia].
  erewrite bindM; [|apply draw_temp_run; reflexivity].
  erewrite bindM; [|apply sprintf_fits; fold (audio_text (fr_graphics f)); lia].
  erewrite bindM; [|apply draw_temp_run; reflexivity].
  erewrite bindM; [|apply render_date_run; [exact Hs | exact Hv | reflexivity]].
  erewrite draw_temp_run by reflexivity. eexists. reflexivity.
Qed.

(** The text that does not fit. *)
Lemma render_info_overflow f : size <= 13 -> render_info size f = Ub OutOfBounds.
Proof.
  intros Hs. unfold render_info. erewrite bindM; [|reflexivity]. cbv zeta.
  do 2 (erewrite bindM; [|apply unchecked_run]).
  erewrite bindM; [|apply DFBCHECK_run].
  assert (L : 13 <= Z.of_nat (length (video_text (fr_graphics f)))).
  { unfold video_text, decimal_text. rewrite length_app. cbn [length bytes_of_string].
    destruct (_ <? 0); cbn [length];
      [pose proof (Config.decimal_nonempty (- videoPidToDraw (fr_graphics f))); lia|].
    pose proof (Config.decimal_nonempty (videoPidToDraw (fr_graphics f))). lia. }
  assert (E : forall u : frame, sprintf size (video_text (fr_graphics f)) u = Ub OutOfBounds).
  { intros u. unfold sprintf. rewrite (proj2 (Z.ltb_ge _ _)) by lia. reflexivity. }
  match goal with |- mbind _ (sprintf size _) ?u = _ => specialize (E u) end.
  unfold mbind at 1, M_bind at 1. unfold video_text in E. cbn [fr_graphics drawn] in *.
  rewrite E. reflexivity.
Qed.
End RenderFacts.

(** The volume that is shown, if it is, has an image. *)
Definition has_image (g : graphics) : Prop :=
  showVolume (componentsToDraw g) = true -> 0 <= volume (componentsToDraw g) <= 10.

(** The frame after the volume has been drawn, and its calls. *)
Definition with_volume (g : graphics) : graphics :=
  if showVolume (componentsToDraw g) then set_provider Freed g else g.

Definition frame_calls `{DirectFb} (f : frame) : list draw :=
  let before := rev (wiped (fr_graphics f)) ++ fr_log f in
  if showVolume (componentsToDraw (fr_graphics f))
  then rev (volume_calls (fr_graphics f) before) ++ before else before.

(** The part of a pass before the rectangle. *)
Lemma render_volume_if `{DirectFb} f :
  dfb_succeeds -> has_image (fr_graphics f) ->
  (_ ← wipeScreen;
   g ← get;
   if showVolume (componentsToDraw g) then render_volume else mret tt) f =
    Val (Ran tt (mkFrame (with_volume (fr_graphics f)) (fr_temp f) (frame_calls f))).
Proof.
  intros Hok Hv. erewrite bindM; [|apply wipeScreen_run; exact Hok].
  erewrite bindM; [|reflexivity]. cbn [fr_graphics drawn].
  unfold with_volume, frame_calls. destruct (showVolume _) eqn:E; [|reflexivity].
  rewrite render_volume_run by (try exact Hok; exact (Hv E)). reflexivity.
Qed.

Lemma render_pass_split `{DirectFb} size f :
  dfb_succeeds -> has_image (fr_graphics f) ->
  render_pass size f =
    (_ ← (if showInfo (componentsToDraw (fr_graphics f)) then render_info size else mret tt);
     DFBCHECK Flip) (mkFrame (with_volume (fr_graphics f)) (fr_temp f) (frame_calls f)).
Proof.
  intros Hok Hv. pose proof (render_volume_if f Hok Hv) as E. unfold render_pass.
  erewrite bindM in E; [|apply wipeScreen_run; exact Hok].
  erewrite bindM; [|apply wipeScreen_run; exact Hok].
  erewrite bindM in E; [|reflexivity]. erewrite bindM; [|reflexivity].
  erewrite bindM; [|exact E]. erewrite bindM; [|reflexivity]. cbn [fr_graphics].
  unfold with_volume. destruct (showVolume _); reflexivity.
Qed.

(** A pass without the rectangle draws a frame. *)
Lemma render_pass_frame `{DirectFb} size f :
  dfb_succeeds -> has_image (fr_graphics f) ->
  showInfo (componentsToDraw (fr_graphics f)) = false ->
  render_pass size f =
    Val (Ran tt (mkFrame (with_volume (fr_graphics f)) (fr_temp f) (Flip :: frame_calls f))).
Proof.
  intros Hok Hv Hi. rewrite render_pass_split, Hi by assumption.
  erewrite bindM; [|reflexivity]. apply DFBCHECK_run, Hok.
Qed.

Lemma render_pass_overflow `{DirectFb} f :
  dfb_succeeds -> has_image (fr_graphics f) ->
  showInfo (componentsToDraw (fr_graphics f)) = true ->
  render_pass tempString_size f = Ub OutOfBounds.
Proof.
  intros Hok Hv Hi. rewrite render_pass_split, Hi by assumption.
  unfold mbind, M_bind. rewrite render_info_overflow; [reflexivity | exact Hok |].
  unfold tempString_size. lia.
Qed.

Lemma frame_image `{DirectFb} f :
  last_image (Flip :: frame_calls f) =
    if showVolume (componentsToDraw (fr_graphics f))
    then Some (volume_file (volume (componentsToDraw (fr_graphics f)))) else None.
Proof. unfold frame_calls. destruct (showVolume _); reflexivity. Qed.

(** ** The life of the module: lemmas *)

(** Requests whose passes stay within the arrays: no info rectangle, and volumes
    that have an image. *)
Definition drawable (e : render_event) : Prop :=
  match e with
  | Meanwhile (ShowVolume v) => 0 <= v <= 10
  | Meanwhile (ShowInfo _ _ _ _ _) => False
  | _ => True
  end.

(** The number of frames a schedule draws, and whether the thread then ends. *)
Fixpoint frames (stopped : bool) (es : list render_event) : nat * bool :=
  match es with
  | [] => (0%nat, false)
  | RenderPass :: es =>
      if stopped then (0%nat, true) else (S (frames stopped es).1, (frames stopped es).2)
  | Meanwhile _ :: es => frames stopped es
  | StopRequest :: es => frames true es
  end.

Definition is_flip (d : draw) : bool := match d with Flip => true | _ => false end.
Definition flips (l : list draw) : nat := length (List.filter is_flip l).

Lemma flips_app l l' : flips (l ++ l') = (flips l + flips l')%nat.
Proof. unfold flips. rewrite List.filter_app, length_app. reflexivity. Qed.

(** What holds between two passes. *)
Definition plain (g : graphics) : Prop :=
  showInfo (componentsToDraw g) = false /\ 0 <= volume (componentsToDraw g) <= 10.

Lemma gc_step_plain e g : drawable (Meanwhile e) -> plain g -> plain (gc_step e g).
Proof.
  unfold plain. intros He [Hi Hv]. rewrite gc_step_volume.
  destruct e; simpl in *; try contradiction; try (case_match; simpl); auto.
Qed.

Lemma gc_step_stop e g : stopDrawing (gc_step e g) = stopDrawing g.
Proof. destruct e; simpl; try reflexivity; case_match; reflexivity. Qed.

Section Life.
Context `{DirectFb} (size : Z).

(** The calls with which graphicsControllerInit begins, and gives up. *)
Definition setup : list draw :=
  [DirectFBInit; DirectFBCreate; SetCooperativeLevel; CreatePrimary; GetScreenSize].

Definition init_calls : list draw :=
  [DirectFBInit; TimerCreate 4; TimerCreate 3; TimerCreate 3; DirectFBCreate;
   SetCooperativeLevel; CreatePrimary; GetScreenSize; CreateFont 50; SetFont; StartThread].

Lemma or_error_ok d rest f :
  dfb (fr_log f) d = 0 -> or_error d rest f = rest (drawn [d] f).
Proof.
  intros E. unfold or_error. erewrite bindM; [|reflexivity]. rewrite E. reflexivity.
Qed.

Lemma or_error_fails d rest f :
  dfb (fr_log f) d <> 0 -> or_error d rest f = Val (Ran GC_ERROR (drawn [d] f)).
Proof.
  intros E. unfold or_error. erewrite bindM; [|reflexivity].
  rewrite (proj2 (Z.eqb_neq _ _) E). reflexivity.
Qed.

Lemma or_error_gives_up d c rest f :
  (forall l, dfb l d <> 0) ->
  (c <> d -> forall f, exists f', rest f = Val (Ran GC_ERROR f')) ->
  exists f', or_error c rest f = Val (Ran GC_ERROR f').
Proof.
  intros Hd Hrest. destruct (decide (dfb (fr_log f) c = 0)) as [E|E].
  - rewrite or_error_ok by exact E. apply Hrest. intros ->. exact (Hd _ E).
  - rewrite or_error_fails by exact E. eauto.
Qed.

Lemma init_fails d f :
  In d setup -> (forall l, dfb l d <> 0) ->
  exists f', graphicsControllerInit f = Val (Ran GC_ERROR f').
Proof.
  intros Hin Hd. unfold graphicsControllerInit.
  apply (or_error_gives_up d); [exact Hd|]. intros N1 f1.
  erewrite bindM; [|reflexivity]. erewrite bindM; [|reflexivity].
  apply (or_error_gives_up d); [exact Hd|]. intros N2 f2.
  apply (or_error_gives_up d); [exact Hd|]. intros N3 f3.
  apply (or_error_gives_up d); [exact Hd|]. intros N4 f4.
  apply (or_error_gives_up d); [exact Hd|]. intros N5 f5.
  destruct Hin as [<-|[<-|[<-|[<-|[<-|[]]]]]]; contradiction.
Qed.

Hypothesis Hok : dfb_succeeds.

Lemma init_run g t :
  exists w h, graphicsControllerInit (mkFrame g t []) = Val (Ran GC_NO_ERROR
    (mkFrame (set_size w h (set_components (mkComponents false false false false 0 0) g)) t
       (rev init_calls))) /\
    (w, h) = screen_size [GetScreenSize; CreatePrimary; SetCooperativeLevel; DirectFBCreate;
                          TimerCreate 3; TimerCreate 3; TimerCreate 4; DirectFBInit].
Proof.
  eexists _, _. split; [|symmetry; apply surjective_pairing]. unfold graphicsControllerInit.
  rewrite or_error_ok by apply Hok. erewrite bindM; [|reflexivity].
  erewrite bindM; [|reflexivity].
  do 4 rewrite or_error_ok by apply Hok. erewrite bindM; [|reflexivity].
  erewrite bindM; [|reflexivity]. do 2 (erewrite bindM; [|apply DFBCHECK_run; exact Hok]).
  unfold mbind, M_bind, dfb_call. rewrite Hok. reflexivity.
Qed.

Lemma render_pass_plain f :
  plain (fr_graphics f) -> exists f', render_pass size f = Val (Ran tt f') /\
    plain (fr_graphics f') /\ stopDrawing (fr_graphics f') = stopDrawing (fr_graphics f) /\
    flips (fr_log f') = S (flips (fr_log f)).
Proof.
  intros [Hi Hv]. rewrite render_pass_frame by (auto; intros _; exact Hv).
  eexists. split; [reflexivity|]. unfold with_volume, plain, frame_calls. cbn [fr_graphics fr_log].
  destruct (showVolume _); (split; [split; assumption|]); (split; [reflexivity|]);
    cbn [flips List.filter]; unfold flips at 1; cbn [List.filter is_flip length];
    fold (flips (rev (wiped (fr_graphics f)) ++ fr_log f)); reflexivity.
Qed.

Lemma renderThread_plain es f :
  Forall drawable es -> plain (fr_graphics f) ->
  let s := stopDrawing (fr_graphics f) in
  exists f', renderThread size es f = Val (if (frames s es).2 then Ran tt f' else Waiting f') /\
    flips (fr_log f') = (flips (fr_log f) + (frames s es).1)%nat.
Proof.
  intros Hes. revert f. induction Hes as [|e es He Hes IH]; intros f Hf s.
  - exists f. split; [reflexivity | cbn; lia].
  - destruct e as [|e|]; cbn [renderThread frames].
    + erewrite bindM; [|reflexivity]. unfold s. destruct (stopDrawing (fr_graphics f)) eqn:Es.
      * exists f. split; [reflexivity | cbn; lia].
      * destruct (render_pass_plain f Hf) as (f1 & E & H1 & H2 & H3).
        erewrite bindM; [|exact E]. destruct (IH f1 H1) as (f2 & E2 & H4).
        rewrite H2, Es in *. exists f2. split; [exact E2|]. cbn [fst]. lia.
    + erewrite bindM; [|reflexivity].
      destruct (IH (mkFrame (gc_step e (fr_graphics f)) (fr_temp f) (fr_log f))) as (f2 & E2 & H4).
      * apply gc_step_plain; assumption.
      * cbn [fr_graphics fr_log] in *. rewrite gc_step_stop in *. exists f2. auto.
    + erewrite bindM; [|reflexivity].
      destruct (IH (mkFrame (stop_drawing (fr_graphics f)) (fr_temp f) (fr_log f)) Hf)
        as (f2 & E2 & H4).
      exists f2. auto.
Qed.
End Life.

(** ** Properties *)

(** C36: In every run of requests and timers a component is shown exactly while its timer is
    armed, so that the timer takes it off, and the volume is the last one that was
    requested. *)
Theorem components_leave (es : list gc_event) (w h : Z) :
  let g := gc_run es (initial w h) in
  tidy g /\ volume (componentsToDraw g) = last_volume es 0 /\
  showProgramNumber (componentsToDraw (gc_step ProgramTimer g)) = false /\
  showVolume (componentsToDraw (gc_step VolumeTimer g)) = false /\
  showInfo (componentsToDraw (gc_step InfoTimer g)) = false.
Proof.
  assert (Ht : tidy (gc_run es (initial w h))) by (apply gc_run_tidy; repeat split; reflexivity).
  cbv zeta. split; [exact Ht|]. split; [apply gc_run_volume|].
  destruct Ht as (Hp & Hv & Hi). simpl.
  split; [|split]; case_match eqn:E; simpl; try reflexivity; congruence.
Qed.

(** A pass of renderThread wipes the screen, blits the image of the volume when it is
    shown and in 0 to 10, and flips; for another volume it goes on with the image provider
    it released before. *)
Theorem render_pass_volume `{DirectFb} size f :
  dfb_succeeds ->
  let g := fr_graphics f in
  let before := rev (wiped g) ++ fr_log f in
  showInfo (componentsToDraw g) = false ->
  (showVolume (componentsToDraw g) = true -> 0 <= volume (componentsToDraw g) <= 10 ->
   exists f', render_pass size f = Val (Ran tt f') /\
     fr_log f' = Flip :: rev (volume_calls g before) ++ before) /\
  (showVolume (componentsToDraw g) = false ->
   exists f', render_pass size f = Val (Ran tt f') /\ fr_log f' = Flip :: before) /\
  (showVolume (componentsToDraw g) = true -> ~ (0 <= volume (componentsToDraw g) <= 10) ->
   provider g = Freed -> render_pass size f = Ub UseAfterFree).
Proof.
  intros Hok g before Hi. unfold render_pass.
  split; [|split]; intros Hs.
  - intros Hv. erewrite bindM; [|apply wipeScreen_run; exact Hok].
    erewrite bindM; [|reflexivity]. cbn [fr_graphics drawn]. fold g. rewrite Hs.
    erewrite bindM; [|apply render_volume_run; [exact Hok | exact Hv]].
    erewrite bindM; [|reflexivity]. cbn [fr_graphics drawn set_provider componentsToDraw].
    fold g. rewrite Hi. erewrite bindM; [|reflexivity].
    rewrite DFBCHECK_run by exact Hok. eexists. split; reflexivity.
  - erewrite bindM; [|apply wipeScreen_run; exact Hok].
    erewrite bindM; [|reflexivity]. cbn [fr_graphics drawn]. fold g. rewrite Hs.
    erewrite bindM; [|reflexivity]. erewrite bindM; [|reflexivity].
    cbn [fr_graphics drawn]. fold g. rewrite Hi. erewrite bindM; [|reflexivity].
    rewrite DFBCHECK_run by exact Hok. eexists. split; reflexivity.
  - intros Hv Hp. erewrite bindM; [|apply wipeScreen_run; exact Hok].
    erewrite bindM; [|reflexivity]. cbn [fr_graphics drawn]. fold g. rewrite Hs.
    unfold render_volume at 1. unfold mbind, M_bind, get, gets. cbn [fr_graphics drawn]. fold g.
    assert (E : (0 <=? volume (componentsToDraw g)) && (volume (componentsToDraw g) <=? 10) = false)
      by lia.
    rewrite E. unfold mret, M_ret. cbn [fr_graphics drawn]. fold g. rewrite Hp. reflexivity.
Qed.

(** C37: With the array of ten characters a pass that shows the info rectangle writes out of
    bounds; with twenty it would draw the two PIDs and the date at their places. *)
Theorem render_pass_info `{DirectFb} f :
  dfb_succeeds ->
  let g := fr_graphics f in
  showVolume (componentsToDraw g) = false -> showInfo (componentsToDraw g) = true ->
  render_pass tempString_size f = Ub OutOfBounds /\
  (values_ok g -> forall size, 20 <= size ->
   exists f', render_pass size f = Val (Ran tt f') /\
     fr_log f' = Flip :: rev (info_calls g) ++ rev (wiped g) ++ fr_log f).
Proof.
  intros Hok g Hs Hi. split; [apply render_pass_overflow; [exact Hok | intros E; fold g in E; congruence | exact Hi]|].
  unfold render_pass.
  intros Hv size Hz. erewrite bindM; [|apply wipeScreen_run; exact Hok].
  erewrite bindM; [|reflexivity]. cbn [fr_graphics drawn]. fold g. rewrite Hs.
  erewrite bindM; [|reflexivity]. erewrite bindM; [|reflexivity].
  cbn [fr_graphics drawn]. fold g. rewrite Hi.
  destruct (render_info_run size Hok (drawn (wiped g) f) Hz Hv) as [t E].
  erewrite bindM; [|exact E]. rewrite DFBCHECK_run by exact Hok.
  eexists. split; reflexivity.
Qed.

(** C38: With a DirectFB that succeeds, graphicsControllerInit sets up the screen and
    renderThread draws one frame per pass until it sees the stop request, for every schedule
    without the info rectangle and with volumes from 0 to 10; the deinit waits without its
    mutex. A set-up call that fails gives GC_ERROR. *)
Theorem renderThread_runs `{DirectFb} (size : Z) (schedule : list render_event) :
  Forall drawable schedule ->
  let loaded := mkFrame (initial 0 0) None [] in
  (dfb_succeeds -> exists w h f f',
     graphicsControllerInit loaded = Val (Ran GC_NO_ERROR f) /\
     fr_graphics f = initial w h /\ fr_log f = rev init_calls /\
     renderThread size schedule f =
       Val (if (frames false schedule).2 then Ran tt f' else Waiting f') /\
     flips (fr_log f') = (frames false schedule).1 /\
     graphicsControllerDeinit f' = Ub NotLocked) /\
  (forall d, In d setup -> (forall l, dfb l d <> 0) ->
   exists f, graphicsControllerInit loaded = Val (Ran GC_ERROR f)).
Proof.
  intros Hs loaded. split.
  - intros Hok. destruct (init_run Hok (initial 0 0) None) as (w & h & E & _).
    destruct (renderThread_plain size Hok schedule (mkFrame (initial w h) None (rev init_calls)) Hs)
      as (f' & E' & F); [split; [reflexivity | cbn; lia]|].
    exists w, h. do 2 eexists. split; [exact E|]. split; [reflexivity|]. split; [reflexivity|].
    split; [exact E'|]. split; [exact F | reflexivity].
  - intros d Hd Hf. apply (init_fails d); assumption.
Qed.

(** ** Given frames *)

Definition willing : DirectFb := {| dfb := fun _ _ => 0; logo_size := fun _ => (200, 50);
  screen_size := fun _ => (1920, 1080) |}.
#[local] Existing Instance willing.

Lemma willing_succeeds : dfb_succeeds.
Proof. intros l d. reflexivity. Qed.

Definition frame_of (es : list gc_event) : frame := mkFrame (gc_run es (initial 1920 1080)) None [].

Lemma render_pass_volume_witness :
  exists f', render_pass 10 (frame_of [ShowVolume 7]) = Val (Ran tt f') /\
    fr_log f' = [Flip; Blit 1620 350; GetSize; ReleaseProvider; RenderTo; CreateSurface;
                 GetSurfaceDescription; CreateImageProvider (bytes_of_string "volume_7.png");
                 FillRectangle 0 0 1920 1080; SetColor 0 0 0 0].
Proof.
  apply (proj1 (render_pass_volume 10 (frame_of [ShowVolume 7]) willing_succeeds eq_refl) eq_refl).
  cbn. lia.
Defined.

Lemma render_pass_info_witness :
  render_pass tempString_size (frame_of [ShowInfo 5 1 2012 660 513]) = Ub OutOfBounds /\
  exists f', render_pass 20 (frame_of [ShowInfo 5 1 2012 660 513]) = Val (Ran tt f') /\
    In (DrawString (bytes_of_string "May/01/2012") 590 1020) (fr_log f').
Proof.
  destruct (render_pass_info (frame_of [ShowInfo 5 1 2012 660 513]) willing_succeeds eq_refl eq_refl)
    as [H1 H2].
  split; [exact H1|]. destruct (H2 ltac:(split; cbn; unfold is_u8, is_u16; lia) 20 ltac:(lia))
    as (f' & E & L).
  exists f'. split; [exact E|]. rewrite L. vm_compute. auto.
Defined.

(** The volume is shown in the first frame and taken off before the second; the
    thread ends when it sees the request. *)
Lemma renderThread_runs_witness :
  exists f f',
    renderThread 10 [Meanwhile (ShowVolume 3); RenderPass; Meanwhile VolumeTimer; RenderPass;
                     StopRequest; RenderPass; RenderPass] f = Val (Ran tt f') /\
    flips (fr_log f') = 2%nat.
Proof.
  destruct (proj1 (renderThread_runs 10 [Meanwhile (ShowVolume 3); RenderPass;
    Meanwhile VolumeTimer; RenderPass; StopRequest; RenderPass; RenderPass]
    ltac:(repeat constructor; cbn; lia)) willing_succeeds)
    as (w & h & f & f' & _ & _ & _ & E & F & _).
  exists f, f'. split; [exact E | exact F].
Defined.
End Gc.
