(* ===== verification/TvApp.v ===== *)
(** * TvApp: the application of tv_app.c

    The static variables of tv_app.c, its callbacks, and the dialling of a
    channel number. The application is the client of the stream controller: its
    functions run over the state of the controller, whose [client] is the
    application. The drawing requests go to the state of Graphics. *)

From S2P Require Import Prelude Tables PatParser PmtParser ConfigFile Machine World.
From S2P Require Import StreamController StreamProperties RemoteController Graphics.

Module Tv.

(** ** Data *)

(** [keyTimer] is [true] while the timer of the dialled number is armed;
    [deinitSignal] says that the program was told to end. *)
Record tv := mkTv {
  keysPressed : Z;
  keys : list Z;
  keyTimer : bool;
  currentDateMain : CurrentDate;
  currentVolume : Z;
  channelInfo : ChannelInfo;
  deinitSignal : bool;
  screen : Gc.graphics }.

Definition set_dial (pressed : Z) (ks : list Z) (timer : bool) (t : tv) : tv :=
  mkTv pressed ks timer (currentDateMain t) (currentVolume t) (channelInfo t) (deinitSignal t)
    (screen t).
Definition set_date (d : CurrentDate) (t : tv) : tv :=
  mkTv (keysPressed t) (keys t) (keyTimer t) d (currentVolume t) (channelInfo t)
    (deinitSignal t) (screen t).
Definition set_volume (v : Z) (t : tv) : tv :=
  mkTv (keysPressed t) (keys t) (keyTimer t) (currentDateMain t) v (channelInfo t)
    (deinitSignal t) (screen t).
Definition set_info (i : ChannelInfo) (t : tv) : tv :=
  mkTv (keysPressed t) (keys t) (keyTimer t) (currentDateMain t) (currentVolume t) i
    (deinitSignal t) (screen t).
Definition set_deinit (b : bool) (t : tv) : tv :=
  mkTv (keysPressed t) (keys t) (keyTimer t) (currentDateMain t) (currentVolume t)
    (channelInfo t) b (screen t).
Definition set_screen (g : Gc.graphics) (t : tv) : tv :=
  mkTv (keysPressed t) (keys t) (keyTimer t) (currentDateMain t) (currentVolume t)
    (channelInfo t) (deinitSignal t) g.

Definition initial (width height : Z) : tv :=
  mkTv 0 [0; 0; 0] false (mkCurrentDate 0 0 0) 5 (mkChannelInfo 0 0 0) false
    (Gc.initial width height).

(** ** Callbacks of the stream controller *)

Definition registerCurrentDate (d : CurrentDate) (t : tv) : res tv :=
  Val (set_date (mkCurrentDate (cd_Year d) (cd_tmpMonth d) (cd_day d)) t).

Definition registerCurrentVolume (volumeValue : Z) (t : tv) : res tv :=
  Val (set_volume volumeValue t).

Section App.
Context `{TdpApi}.

Abbreviation App := (M (world tv)).

Definition update (f : tv -> tv) : App unit := modify (fun w => set_client (f (client w)) w).
Definition draw (f : Gc.graphics -> Gc.graphics) : App unit :=
  update (fun t => set_screen (f (screen t)) t).

(** ** Dialling *)

(** The array has three cells; the fourth key should start a new number, but
    the statement [keysPressed == 1;] compares and changes nothing. *)
Definition press_key (key : Z) (t : tv) : tv :=
  let t := set_dial (keysPressed t) (keys t) true t in
  if keysPressed t =? 0 then set_dial 1 (<[0%nat := key]> (keys t)) true t
  else if keysPressed t =? 1 then set_dial 2 (<[1%nat := key]> (keys t)) true t
  else if keysPressed t =? 2 then set_dial 3 (<[2%nat := key]> (keys t)) true t
  else if keysPressed t =? 3 then set_dial 3 [key; 0; 0] true t
  else t.

Definition inputChannelNumber (key : Z) : App unit := update (press_key key).

(** The local [channel] of changeChannel. *)
Definition dialled (t : tv) : res Z :=
  if keysPressed t =? 1 then rd (keys t) 0
  else if keysPressed t =? 2 then
    a ← rd (keys t) 0; b ← rd (keys t) 1; Val (10 * a + b)
  else if keysPressed t =? 3 then
    a ← rd (keys t) 0; b ← rd (keys t) 1; c ← rd (keys t) 2; Val (100 * a + 10 * b + c)
  else Ub Uninitialized.

Definition changeChannel : App unit :=
  t ← gets client;
  channel ← lift (dialled t);
  _ ← Sc.changeChannelKey channel;
  update (fun t => set_dial 0 [0; 0; 0] (keyTimer t) t).

(** The timer of the number runs out: it is armed once. *)
Definition keyTimer_expires : App unit :=
  t ← gets client;
  if keyTimer t then
    _ ← update (fun t => set_dial (keysPressed t) (keys t) false t);
    changeChannel
  else mret tt.

(** ** The remote *)

Definition digit_of (code : Z) : option Z :=
  if code =? Rc.KEYCODE_1 then Some 1 else if code =? Rc.KEYCODE_2 then Some 2
  else if code =? Rc.KEYCODE_3 then Some 3 else if code =? Rc.KEYCODE_4 then Some 4
  else if code =? Rc.KEYCODE_5 then Some 5 else if code =? Rc.KEYCODE_6 then Some 6
  else if code =? Rc.KEYCODE_7 then Some 7 else if code =? Rc.KEYCODE_8 then Some 8
  else if code =? Rc.KEYCODE_9 then Some 9 else if code =? Rc.KEYCODE_0 then Some 0
  else None.

Definition show_info : App unit :=
  t ← gets client;
  r ← Sc.getChannelInfo (Some (channelInfo t));
  _ ← match r.2 with Some i => update (set_info i) | None => mret tt end;
  t ← gets client;
  draw (Gc.drawInfoRect (cd_tmpMonth (currentDateMain t)) (cd_day (currentDateMain t))
          (cd_Year (currentDateMain t)) (ci_audioPid (channelInfo t))
          (ci_videoPid (channelInfo t))).

Definition show_volume : App unit :=
  t ← gets client; draw (Gc.drawVolumeBar (currentVolume t)).

Definition remoteControllerCallback (code type value : Z) : App unit :=
  if code =? Rc.KEYCODE_INFO then show_info
  else if code =? Rc.KEYCODE_P_PLUS then
    _ ← Sc.channelUp; draw Gc.drawProgramNumber
  else if code =? Rc.KEYCODE_P_MINUS then _ ← Sc.channelDown; mret tt
  else if code =? Rc.KEYCODE_V_PLUS then _ ← Sc.volumeUp; show_volume
  else if code =? Rc.KEYCODE_V_MINUS then _ ← Sc.volumeDown; show_volume
  else if code =? Rc.KEYCODE_MUTE then
    _ ← Sc.volumeMute; _ ← update (set_volume 0); show_volume
  else if code =? Rc.KEYCODE_EXIT then update (set_deinit true)
  else
    match digit_of code with
    | Some key => inputChannelNumber key
    | None => mret tt
    end.

(** The callback as the remote controller's task calls it. None of its handlers
    waits, so that the case of a wait is never taken. *)
Definition rc_callback : @Rc.RemoteControllerCallback (world tv) := fun code type value w =>
  match remoteControllerCallback code type value w with
  | Val (Ran _ w) => Val w
  | Val (Waiting w) => NoFuel
  | Ub k => Ub k
  | NoFuel => NoFuel
  end.

(** The program between its initialisation and its end: both callbacks of the
    stream controller are registered. *)
Definition main_registered (w : world tv) : world tv :=
  set_volumeReportCallback (Some registerCurrentVolume)
    (set_dateRecievedCallback (Some registerCurrentDate) w).

(** ** Dialling: lemmas *)

Definition is_digit (d : Z) : Prop := 0 <= d <= 9.

(** The code of the key of a digit. *)
Definition code_of (d : Z) : Z := if d =? 0 then Rc.KEYCODE_0 else d + 1.

Definition press_keys (ds : list Z) (t : tv) : tv := fold_left (fun t d => press_key d t) ds t.

(** The number that the digits dial: up to three digits as they are; from the
    fourth on, the last digit counts as the hundreds of a new number. *)
Definition number (ds : list Z) : Z :=
  match ds with
  | [a] => a
  | [a; b] => 10 * a + b
  | [a; b; c] => 100 * a + 10 * b + c
  | _ => 100 * List.last ds 0
  end.

Definition nothing_dialled (t : tv) : Prop := keysPressed t = 0 /\ keys t = [0; 0; 0].

Lemma remote_digit d ty v w :
  is_digit d ->
  remoteControllerCallback (code_of d) ty v w =
    Val (Ran tt (set_client (press_key d (client w)) w)).
Proof.
  intros Hd. unfold is_digit in Hd.
  assert (d = 0 \/ d = 1 \/ d = 2 \/ d = 3 \/ d = 4 \/ d = 5 \/ d = 6 \/ d = 7 \/ d = 8 \/ d = 9)
    as Hc by lia.
  destruct Hc as [->|[->|[->|[->|[->|[->|[->|[->|[->| ->]]]]]]]]]; reflexivity.
Qed.

(** From the fourth key on. *)
Lemma press_fourth ds t d :
  keysPressed t = 3 -> ds <> [] -> List.last ds 0 = d ->
  keysPressed (press_keys ds t) = 3 /\ keys (press_keys ds t) = [d; 0; 0] /\
  keyTimer (press_keys ds t) = true.
Proof.
  intros Ht Hne <-. revert t Ht. induction ds as [|a ds IH]; intros t Ht; [congruence|].
  assert (E : press_key a t = set_dial 3 [a; 0; 0] true (set_dial (keysPressed t) (keys t) true t)).
  { unfold press_key. cbn [keysPressed keys set_dial]. rewrite Ht. reflexivity. }
  unfold press_keys. cbn [fold_left]. fold (press_keys ds (press_key a t)).
  destruct ds as [|b ds].
  - cbn [press_keys fold_left]. rewrite E. auto.
  - apply (IH ltac:(discriminate)). rewrite E. reflexivity.
Qed.

Lemma dialled_number ds t :
  nothing_dialled t -> ds <> [] ->
  keyTimer (press_keys ds t) = true /\ dialled (press_keys ds t) = Val (number ds).
Proof.
  intros [Hp Hk] Hne. destruct t as [p k tm dt v ci de g]. cbn in Hp, Hk. subst.
  destruct ds as [|a [|b [|c [|d ds]]]]; [congruence | split; reflexivity..|].
  unfold press_keys. cbn [fold_left]. fold (press_keys (d :: ds)).
  match goal with |- context [fold_left _ ds (press_key d ?u)] =>
    change (fold_left (fun t d => press_key d t) ds (press_key d u)) with (press_keys (d :: ds) u);
    destruct (press_fourth (d :: ds) u (List.last (d :: ds) 0) eq_refl ltac:(discriminate) eq_refl)
      as (E1 & E2 & E3) end.
  split; [exact E3|]. unfold dialled. rewrite E1, E2.
  change (number (a :: b :: c :: d :: ds)) with (100 * List.last (d :: ds) 0).
  generalize (List.last (d :: ds) 0). intros z.
  transitivity (Val (100 * z + 10 * 0 + 0)); [reflexivity | f_equal; lia].
Qed.

Lemma last_digit ds : Forall is_digit ds -> is_digit (List.last ds 0).
Proof.
  induction 1 as [|a ds Ha Hds IH]; [unfold is_digit; cbn; lia|]. destruct ds; assumption.
Qed.

Lemma number_range ds : Forall is_digit ds -> 0 <= number ds <= 999.
Proof.
  intros Hd. pose proof (last_digit ds Hd) as Hl. unfold number.
  destruct ds as [|a [|b [|c [|d ds]]]]; [unfold is_digit in Hl; lia | ..];
    rewrite ?Forall_cons_iff in Hd; unfold is_digit in *; lia.
Qed.

Fixpoint press_all (codes : list Z) (w : world tv) : res (ran (world tv) unit) :=
  match codes with
  | [] => Val (Ran tt w)
  | c :: codes =>
      (_ ← remoteControllerCallback c 1 1; press_all codes) w
  end.

Lemma press_all_digits ds w :
  Forall is_digit ds ->
  press_all (map code_of ds) w = Val (Ran tt (set_client (press_keys ds (client w)) w)).
Proof.
  intros Hd. revert w. induction Hd as [|d ds Hd Hds IH]; intros w.
  - destruct w. reflexivity.
  - cbn [map press_all]. erewrite bindM; [|apply remote_digit; exact Hd]. rewrite IH. reflexivity.
Qed.

(** What can happen to the dialled number: a digit, or the end of the timer. *)
Inductive dial_event := Press (d : Z) | Expires.

Definition dial_step (e : dial_event) (t : tv) : res tv :=
  match e with
  | Press d => Val (press_key d t)
  | Expires =>
      if keyTimer t then
        _ ← dialled (set_dial (keysPressed t) (keys t) false t);
        Val (set_dial 0 [0; 0; 0] false t)
      else Val t
  end.

Fixpoint dial_run (es : list dial_event) (t : tv) : res tv :=
  match es with [] => Val t | e :: es => t ← dial_step e t; dial_run es t end.

Definition dial_ok (t : tv) : Prop :=
  0 <= keysPressed t <= 3 /\ length (keys t) = 3%nat /\
  (keyTimer t = true -> 1 <= keysPressed t).

Lemma press_key_ok d t : dial_ok t -> dial_ok (press_key d t).
Proof.
  intros (Hp & Hl & _). unfold press_key. cbn [keysPressed keys set_dial].
  assert (keysPressed t = 0 \/ keysPressed t = 1 \/ keysPressed t = 2 \/ keysPressed t = 3) as Hc
    by lia.
  destruct Hc as [E|[E|[E|E]]]; rewrite E; unfold dial_ok; cbn [Z.eqb Pos.eqb keysPressed keys keyTimer set_dial];
    rewrite ?length_insert; (split; [lia|]); split; [assumption | lia | assumption | lia
      | assumption | lia | reflexivity | lia].
Qed.

Lemma dialled_ok t : dial_ok t -> 1 <= keysPressed t -> returns (dialled t) (fun _ => True).
Proof.
  intros (Hp & Hl & _) H1. destruct (keys t) as [|a [|b [|c [|]]]] eqn:E; try discriminate.
  unfold dialled. rewrite E.
  assert (keysPressed t = 1 \/ keysPressed t = 2 \/ keysPressed t = 3) as [K|[K|K]] by lia;
    rewrite K; exact I.
Qed.

Lemma dial_run_ok es t : dial_ok t -> returns (dial_run es t) dial_ok.
Proof.
  revert t. induction es as [|e es IH]; intros t Ht; [exact Ht|].
  cbn [dial_run]. rewrite returns_bind. destruct e as [d|]; cbn [dial_step].
  - apply IH, press_key_ok, Ht.
  - destruct (keyTimer t) eqn:Et; [|apply IH, Ht].
    pose proof Ht as (Hp & Hl & Hk). rewrite returns_bind.
    eapply returns_mono; [apply dialled_ok|].
    + split; [exact Hp | split; [exact Hl | discriminate]].
    + exact (Hk Et).
    + intros n _. apply IH. split; [cbn; lia | split; [reflexivity | discriminate]].
Qed.

(** The state while a number is dialled. *)
Definition disarm (t : tv) : tv := set_dial (keysPressed t) (keys t) false t.
Definition reset_dial : App unit := update (fun t => set_dial 0 [0; 0; 0] (keyTimer t) t).

Lemma press_keys_rest ds t :
  exists p ks, press_keys ds t = set_dial p ks (keyTimer (press_keys ds t)) t.
Proof.
  revert t. induction ds as [|d ds IH]; intros t.
  - exists (keysPressed t), (keys t). destruct t. reflexivity.
  - assert (exists p ks, press_key d t = set_dial p ks true t) as (p & ks & E).
    { unfold press_key. cbn [keysPressed set_dial]. repeat case_match; do 2 eexists; reflexivity. }
    unfold press_keys. cbn [fold_left]. fold (press_keys ds (press_key d t)).
    destruct (IH (press_key d t)) as (p' & ks' & E'). exists p', ks'.
    revert E'. generalize (keyTimer (press_keys ds (press_key d t))). intros b E'.
    rewrite E', E. reflexivity.
Qed.

Lemma keyTimer_expires_armed w n :
  keyTimer (client w) = true -> dialled (client w) = Val n ->
  keyTimer_expires w =
    (_ ← Sc.changeChannelKey n; reset_dial) (set_client (disarm (client w)) w).
Proof.
  intros Ht Hd. unfold keyTimer_expires. erewrite bindM; [|reflexivity]. rewrite Ht.
  erewrite bindM; [|reflexivity]. unfold changeChannel. erewrite bindM; [|reflexivity].
  erewrite bindM; [reflexivity|].
  unfold lift. change (dialled _) with (dialled (client w)). rewrite Hd. reflexivity.
Qed.

(** ** Keys of the remote: lemmas *)

Definition key_of (r : request) : Z :=
  match r with
  | ChannelUp => Rc.KEYCODE_P_PLUS
  | ChannelDown => Rc.KEYCODE_P_MINUS
  | VolumeUp => Rc.KEYCODE_V_PLUS
  | VolumeDown => Rc.KEYCODE_V_MINUS
  | VolumeMute => Rc.KEYCODE_MUTE
  end.

Definition reads_of (rs : list request) : list Rc.read_result :=
  map (fun r => Rc.press (key_of r)) rs.

Lemma reads_of_ok rs : Forall Rc.read_ok (reads_of rs).
Proof. apply Forall_map, Forall_true. intros r. unfold Rc.read_ok. cbn. lia. Qed.

(** A run of keys whose handlers take [w] to [after r w]. *)
Lemma deliver_fold (I : world tv -> Prop) (P : request -> Prop) after rs w :
  (forall r w, I w -> P r ->
     remoteControllerCallback (key_of r) Rc.EV_KEY Rc.EV_VALUE_KEYPRESS w =
       Val (Ran tt (after r w)) /\ I (after r w)) ->
  Forall P rs -> I w ->
  Rc.deliver rc_callback (reads_of rs) w = Val (fold_left (fun w r => after r w) rs w).
Proof.
  intros Hstep Hrs. revert w. induction Hrs as [|r rs Hr Hrs IH]; intros w Hw; [reflexivity|].
  destruct (Hstep r w Hw Hr) as [E Hw'].
  change (Rc.deliver rc_callback (reads_of (r :: rs)) w) with
    (c ← rc_callback (key_of r) Rc.EV_KEY (u32 Rc.EV_VALUE_KEYPRESS) w;
     Rc.deliver rc_callback (reads_of rs) c).
  rewrite u32_small by (unfold Rc.EV_VALUE_KEYPRESS; lia).
  assert (E' : rc_callback (key_of r) Rc.EV_KEY Rc.EV_VALUE_KEYPRESS w = Val (after r w))
    by (unfold rc_callback; rewrite E; reflexivity).
  rewrite E'. apply IH. exact Hw'.
Qed.

(** A state of the remote controller whose callback is the application. *)
Definition listening (w : world tv) : Rc.remote := Rc.mkRemote (Some rc_callback) false w.

Lemma task_keys rs w w' :
  Rc.deliver rc_callback (reads_of rs) w = Val w' ->
  Rc.inputEventTask false (map Rc.Read (reads_of rs)) (listening w) =
    Val (Rc.Reading (listening w')).
Proof.
  intros Hd. unfold Rc.inputEventTask. cbn [Rc.threadExit listening].
  rewrite <- (app_nil_r (map Rc.Read _)).
  rewrite (Rc.task_loop_reads rc_callback (reads_of rs) [] (listening w) w');
    [reflexivity | apply reads_of_ok | reflexivity..| exact Hd].
Qed.

(** The volume the program keeps is the controller's. *)
Definition volume_in_step (w : world tv) : Prop :=
  0 <= World.currentVolume w <= 10 /\ currentVolume (client w) = World.currentVolume w /\
  volumeReportCallback w = Some registerCurrentVolume.

(** A volume key: the request, and the new level in the program and on the screen. *)
Definition after_volume (r : request) (w : world tv) : world tv :=
  let v := ScFacts.vol_next r (World.currentVolume w) in
  ScFacts.at_volume v [v]
    (set_screen (Gc.drawVolumeBar v (screen (client w))) (set_volume v (client w))) w.

Lemma remote_volume r ty v w :
  volume_in_step w -> ScFacts.is_volume r ->
  remoteControllerCallback (key_of r) ty v w = Val (Ran tt (after_volume r w)) /\
  volume_in_step (after_volume r w).
Proof.
  intros (Hv & Hc & Hf) Hr. split.
  - set (l := ScFacts.vol_next r (World.currentVolume w)).
    assert (Hs : Sc.serve r w = Val (Ran tt (ScFacts.at_volume l [l]
      (match r with VolumeMute => client w | _ => set_volume l (client w) end) w))).
    { apply (ScFacts.serve_volume w registerCurrentVolume); [assumption..|].
      destruct r; try contradiction; reflexivity. }
    destruct r; try contradiction; unfold remoteControllerCallback, key_of;
      cbn [Z.eqb Pos.eqb Rc.KEYCODE_INFO Rc.KEYCODE_P_PLUS Rc.KEYCODE_P_MINUS Rc.KEYCODE_V_PLUS
           Rc.KEYCODE_V_MINUS Rc.KEYCODE_MUTE]; cbn [Sc.serve] in Hs;
      (erewrite bindM; [|exact Hs]); reflexivity.
  - split; [apply ScFacts.vol_next_range; exact Hv | split; [reflexivity | exact Hf]].
Qed.

Lemma after_volumes rs w :
  volume_in_step w ->
  let w' := fold_left (fun w r => after_volume r w) rs w in
  let v' := fold_left (fun v r => ScFacts.vol_next r v) rs (World.currentVolume w) in
  World.currentVolume w' = v' /\ currentVolume (client w') = v' /\ 0 <= v' <= 10 /\
  calls w' = rev (map (ScFacts.player_volume (playerHandle w))
                    (ScFacts.levels rs (World.currentVolume w))) ++ calls w /\
  (rs <> [] ->
   let c := Gc.componentsToDraw (screen (client w')) in
   Gc.showVolume c = true /\ Gc.volume c = v').
Proof.
  revert w. induction rs as [|r rs IH]; intros w (Hv & Hc & Hf); cbn [fold_left].
  - split; [reflexivity|]. split; [exact Hc|]. split; [exact Hv|]. split; [reflexivity|].
    intros []. reflexivity.
  - specialize (IH (after_volume r w)). cbv zeta in IH.
    change (World.currentVolume (after_volume r w))
      with (ScFacts.vol_next r (World.currentVolume w)) in IH.
    destruct IH as (H1 & H2 & H3 & H4 & H5);
      [split; [apply ScFacts.vol_next_range; exact Hv | split; [reflexivity | exact Hf]]|].
    split; [exact H1|]. split; [exact H2|]. split; [exact H3|]. split.
    + rewrite H4. cbn [ScFacts.levels map rev]. rewrite <- app_assoc. reflexivity.
    + intros _. destruct rs as [|r' rs]; [split; reflexivity|]. apply H5. discriminate.
Qed.

(** A channel key: the request, and the number on the screen after P+. *)
Definition after_move (n : Z) (r : request) (w : world tv) : world tv :=
  let w' := ScFacts.select_channel
    ((World.programNumber w + default 0 (ScFacts.move r)) mod (n - 1)) w in
  match r with
  | ChannelUp => set_client (set_screen (Gc.drawProgramNumber (screen (client w))) (client w)) w'
  | _ => w'
  end.

Lemma remote_move n r ty v w :
  ScFacts.on_ring w n -> ScFacts.move r <> None ->
  remoteControllerCallback (key_of r) ty v w = Val (Ran tt (after_move n r w)) /\
  ScFacts.on_ring (after_move n r w) n.
Proof.
  intros Hw Hr. destruct (ScFacts.move r) as [d|] eqn:Hd; [|congruence].
  pose proof (ScFacts.serve_move w n r d Hw Hd) as Hs.
  assert (Hn : 2 <= n <= 255) by apply Hw.
  assert (Ho : ScFacts.on_ring (ScFacts.select_channel
                 ((World.programNumber w + d) mod (n - 1)) w) n).
  { apply ScFacts.on_ring_select; [exact Hw|].
    pose proof (Z.mod_pos_bound (World.programNumber w + d) (n - 1) ltac:(lia)). lia. }
  unfold after_move. rewrite Hd. cbn [default].
  destruct r; try discriminate; injection Hd as <-; (split; [|exact Ho]);
    unfold remoteControllerCallback, key_of;
    cbn [Z.eqb Pos.eqb Rc.KEYCODE_INFO Rc.KEYCODE_P_PLUS Rc.KEYCODE_P_MINUS].
  - unfold Sc.serve in Hs. 
    destruct (Sc.channelUp w) as [[e w1|w1]|k|] eqn:E; unfold mbind, M_bind in *; rewrite E in *;
      try discriminate. injection Hs as ->. reflexivity.
  - exact Hs.
Qed.

Definition is_up (r : request) : bool := match r with ChannelUp => true | _ => false end.

Lemma after_moves n rs w :
  ScFacts.on_ring w n -> Forall (fun r => ScFacts.move r <> None) rs ->
  let w' := fold_left (fun w r => after_move n r w) rs w in
  ScFacts.on_ring w' n /\
  World.programNumber w' = (World.programNumber w + ScFacts.net rs) mod (n - 1) /\
  (rs <> [] -> World.changeChannel w' = true) /\
  Gc.showProgramNumber (Gc.componentsToDraw (screen (client w'))) =
    existsb is_up rs || Gc.showProgramNumber (Gc.componentsToDraw (screen (client w))).
Proof.
  intros Hw Hrs. revert w Hw. induction Hrs as [|r rs Hr Hrs IH]; intros w Hw; cbn [fold_left].
  - split; [exact Hw|]. destruct Hw as (_ & Hn & Hp). cbn [ScFacts.net].
    split; [rewrite Z.add_0_r, Z.mod_small; lia|]. split; [congruence | reflexivity].
  - destruct (remote_move n r 0 0 w Hw Hr) as [_ Hw'].
    assert (Hn : 2 <= n <= 255) by apply Hw.
    assert (E : World.programNumber (after_move n r w) =
                  (World.programNumber w + default 0 (ScFacts.move r)) mod (n - 1))
      by (destruct r; reflexivity).
    destruct (IH _ Hw') as (H1 & H2 & H3 & H4). split; [exact H1|]. split; [|split].
    + rewrite H2, E, Zplus_mod_idemp_l. cbn [ScFacts.net]. f_equal. lia.
    + intros _. destruct rs; [destruct r; reflexivity | apply H3; discriminate].
    + rewrite H4. destruct r; cbn; try reflexivity. destruct (existsb is_up rs); reflexivity.
Qed.

(** ** Properties *)

(** C31: Any run of volume and mute keys, read by the task of the remote, leaves the
    controller, the program and the volume bar with the same level, between 0 and 10, and
    the player was set to every level of the run. *)
Theorem volume_keys rs w :
  volume_in_step w -> Forall ScFacts.is_volume rs ->
  let v' := fold_left (fun v r => ScFacts.vol_next r v) rs (World.currentVolume w) in
  exists w',
    Rc.inputEventTask false (map Rc.Read (reads_of rs)) (listening w) =
      Val (Rc.Reading (listening w')) /\
    0 <= v' <= 10 /\ World.currentVolume w' = v' /\ currentVolume (client w') = v' /\
    calls w' = rev (map (ScFacts.player_volume (playerHandle w))
                      (ScFacts.levels rs (World.currentVolume w))) ++ calls w /\
    (rs <> [] ->
     let c := Gc.componentsToDraw (screen (client w')) in
     Gc.showVolume c = true /\ Gc.volume c = v').
Proof.
  intros Hw Hrs v'. destruct (after_volumes rs w Hw) as (H1 & H2 & H3 & H4 & H5).
  eexists. split.
  - apply task_keys, (deliver_fold volume_in_step ScFacts.is_volume after_volume); try assumption.
    intros r u. apply remote_volume.
  - auto 6.
Qed.

(** C32: Any run of P+ and P- keys, read by the task of the remote, selects the channel that
    its net number of steps gives on the ring of services; the next pass of the controller
    starts it. The flag of the program number is set afterwards exactly if a P+ was among
    the keys or it was set before. *)
Theorem channel_keys rs w n :
  ScFacts.on_ring w n -> Forall (fun r => ScFacts.move r <> None) rs -> rs <> [] ->
  let q := (World.programNumber w + ScFacts.net rs) mod (n - 1) in
  exists w',
    Rc.inputEventTask false (map Rc.Read (reads_of rs)) (listening w) =
      Val (Rc.Reading (listening w')) /\
    0 <= q <= n - 2 /\ World.programNumber w' = q /\
    Sc.task_pass w' = Sc.startChannel q (set_changeChannel false w') /\
    Gc.showProgramNumber (Gc.componentsToDraw (screen (client w'))) =
      existsb is_up rs || Gc.showProgramNumber (Gc.componentsToDraw (screen (client w))).
Proof.
  intros Hw Hrs Hne q. destruct (after_moves n rs w Hw Hrs) as (H1 & H2 & H3 & H4).
  eexists. split; [|split; [|split; [exact H2 | split; [|exact H4]]]].
  - apply task_keys,
      (deliver_fold (fun w => ScFacts.on_ring w n) (fun r => ScFacts.move r <> None) (after_move n));
      try assumption.
    intros r u. apply remote_move.
  - assert (Hn : 2 <= n <= 255) by apply Hw. unfold q.
    pose proof (Z.mod_pos_bound (World.programNumber w + ScFacts.net rs) (n - 1) ltac:(lia)). lia.
  - rewrite ScFacts.task_pass_changed by (apply H3; exact Hne). rewrite H2. reflexivity.
Qed.

(** C33: After digit keys the timer starts the dialled number if it is less than the number
    of services and else ignores it, and then forgets the digits: up to three digits count
    as they are, but any longer run counts as 100 times its last digit. *)
Theorem dial_number ds w t n :
  nothing_dialled (client w) -> ds <> [] -> Forall is_digit ds ->
  patTable w = Live t -> Pat.serviceInfoCount t = n ->
  exists w',
    press_all (map code_of ds) w = Val (Ran tt w') /\
    keyTimer (client w') = true /\ dialled (client w') = Val (number ds) /\
    0 <= number ds <= 999 /\
    keyTimer_expires w' =
      if number ds <? n
      then (_ ← Sc.startChannel (number ds); reset_dial) (set_client (disarm (client w')) w')
      else Val (Ran tt (set_client (set_dial 0 [0; 0; 0] false (client w)) w)).
Proof.
  intros Hd Hne Hds Ht Hn. exists (set_client (press_keys ds (client w)) w).
  split; [apply press_all_digits; exact Hds|].
  destruct (dialled_number ds (client w) Hd Hne) as [H1 H2]. pose proof (number_range ds Hds) as Hr.
  split; [exact H1|]. split; [exact H2|]. split; [exact Hr|].
  rewrite (keyTimer_expires_armed (set_client (press_keys ds (client w)) w) (number ds) H1 H2).
  unfold Sc.changeChannelKey, Sc.service_count.
  rewrite (proj2 (Z.ltb_lt _ _)) by lia.
  destruct (press_keys_rest ds (client w)) as (p & ks & E). destruct (Z.ltb_spec (number ds) n).
  - unfold mbind, M_bind, gets, lift. cbn [patTable set_client]. rewrite Ht.
    cbn [deref]. unfold mret, M_ret. cbn [patTable set_client]. rewrite bind_val, Hn.
    rewrite (proj2 (Z.ltb_lt _ _)) by lia. reflexivity.
  - unfold mbind, M_bind, gets, lift. cbn [patTable set_client]. rewrite Ht.
    cbn [deref]. unfold mret, M_ret. cbn [patTable set_client]. rewrite bind_val, Hn.
    rewrite (proj2 (Z.ltb_ge _ _)) by lia.
    unfold reset_dial, update, modify. cbn [client set_client]. rewrite E.
    destruct w. reflexivity.
Qed.

(** Whatever digits are pressed and whenever the timer runs out, the timer always finds
    one to three digits in the array and passes their number on; called with nothing
    dialled, changeChannel would read its local channel uninitialised. *)
Theorem timer_dials_number es w width height :
  returns (dial_run es (initial width height)) (fun t =>
    if keyTimer t
    then exists n, dialled t = Val n /\
      keyTimer_expires (set_client t w) =
        (_ ← Sc.changeChannelKey n; reset_dial) (set_client (disarm t) w)
    else keyTimer_expires (set_client t w) = Val (Ran tt (set_client t w))) /\
  changeChannel (set_client (initial width height) w) = Ub Uninitialized.
Proof.
  split; [|reflexivity]. eapply returns_mono; [apply dial_run_ok|].
  - split; [cbn; lia | split; [reflexivity | discriminate]].
  - intros t Ht. destruct (keyTimer t) eqn:E.
    + pose proof Ht as (_ & _ & Hk).
      destruct (returns_inv _ _ (dialled_ok t Ht (Hk E))) as (n & Hn & _).
      exists n. split; [exact Hn|].
      apply (keyTimer_expires_armed (set_client t w) n); assumption.
    + unfold keyTimer_expires. erewrite bindM; [|reflexivity].
      cbn [client set_client]. rewrite E. reflexivity.
Qed.

(** C34: The info key puts the PIDs of the current channel and the last date on the info
    rectangle and arms its timer; the next pass of the render thread then writes beyond its
    array of ten characters. *)
Theorem info_key `{Gc.DirectFb} w ty v temp log :
  Gc.dfb_succeeds -> Gc.showVolume (Gc.componentsToDraw (screen (client w))) = false ->
  exists g,
    remoteControllerCallback Rc.KEYCODE_INFO ty v w =
      Val (Ran tt (set_client (set_screen g (set_info (currentChannel w) (client w))) w)) /\
    Gc.videoPidToDraw g = ci_videoPid (currentChannel w) /\
    Gc.audioPidToDraw g = ci_audioPid (currentChannel w) /\
    mkCurrentDate (Gc.YearToDraw g) (Gc.tmpMonthToDraw g) (Gc.dayToDraw g) =
      currentDateMain (client w) /\
    Gc.showInfo (Gc.componentsToDraw g) = true /\ Gc.infoTimer g = true /\
    Gc.render_pass Gc.tempString_size (Gc.mkFrame g temp log) = Ub OutOfBounds.
Proof.
  intros Hok Hv.
  eexists. split; [destruct w; reflexivity|].
  split; [reflexivity|]. split; [reflexivity|].
  split.
  { transitivity (mkCurrentDate (cd_Year (currentDateMain (client w)))
      (cd_tmpMonth (currentDateMain (client w))) (cd_day (currentDateMain (client w))));
      [reflexivity | destruct (currentDateMain (client w)); reflexivity]. }
  split; [reflexivity|]. split; [reflexivity|].
  apply Gc.render_pass_overflow; [exact Hok | intros E; cbn in E, Hv; congruence | reflexivity].
Qed.
End App.

(** ** Given programs *)

#[local] Existing Instance obliging.
#[local] Existing Instance Gc.willing.

(** Both callbacks registered, a table of five services, and nothing on the
    screen. *)
Definition watching : world tv :=
  main_registered
    (set_patTable (Live (Pat.mkPatTable Pat.two_header (replicate 20 (Pat.mkPatServiceInfo 7 7)) 5))
      (start [] (initial 1920 1080))).

Lemma volume_keys_witness :
  exists w',
    Rc.inputEventTask false
      (map Rc.Read (reads_of [VolumeUp; VolumeMute; VolumeDown; VolumeUp])) (listening watching) =
      Val (Rc.Reading (listening w')) /\
    currentVolume (client w') = 1.
Proof.
  destruct (volume_keys [VolumeUp; VolumeMute; VolumeDown; VolumeUp] watching)
    as (w' & H1 & _ & _ & H2 & _).
  - split; [cbn; lia | split; reflexivity].
  - repeat constructor.
  - exists w'. split; [exact H1 | exact H2].
Defined.

Lemma channel_keys_witness :
  exists w',
    Rc.inputEventTask false
      (map Rc.Read (reads_of [ChannelDown; ChannelDown; ChannelUp; ChannelDown]))
      (listening watching) = Val (Rc.Reading (listening w')) /\
    World.programNumber w' = 2.
Proof.
  destruct (channel_keys [ChannelDown; ChannelDown; ChannelUp; ChannelDown] watching 5)
    as (w' & H1 & _ & H2 & _).
  - split; [eexists; split; reflexivity | cbn; lia].
  - repeat constructor; discriminate.
  - discriminate.
  - exists w'. split; [exact H1 | exact H2].
Defined.

Lemma dial_number_witness :
  exists w',
    press_all (map code_of [1; 2; 3; 4]) watching = Val (Ran tt w') /\
    dialled (client w') = Val 400 /\
    keyTimer_expires w' =
      Val (Ran tt (set_client (set_dial 0 [0; 0; 0] false (client watching)) watching)).
Proof.
  destruct (dial_number [1; 2; 3; 4] watching
    (Pat.mkPatTable Pat.two_header (replicate 20 (Pat.mkPatServiceInfo 7 7)) 5) 5)
    as (w' & H1 & _ & H2 & _ & H3);
    [split; reflexivity | discriminate | repeat constructor; cbn; lia | reflexivity | reflexivity |].
  exists w'. split; [exact H1 | split; [exact H2 | exact H3]].
Defined.

Lemma info_key_witness :
  exists g,
    remoteControllerCallback Rc.KEYCODE_INFO 1 1 watching =
      Val (Ran tt (set_client (set_screen g (set_info (mkChannelInfo 0 0 0) (client watching)))
                     watching)) /\
    Gc.render_pass Gc.tempString_size (Gc.mkFrame g None []) = Ub OutOfBounds.
Proof.
  destruct (info_key watching 1 1 None [] Gc.willing_succeeds eq_refl)
    as (g & H1 & _ & _ & _ & _ & _ & H2).
  exists g. split; [exact H1 | exact H2].
Defined.
End Tv.
