(* ===== verification/Program.v ===== *)
(** * Program: main of tv_app.c

    The modules put together: main loads the configuration, starts the modules
    in turn, waits for the exit key, and ends the modules again. What happens
    while it waits is a schedule of steps of the other threads, the task of the
    remote, the task of the controller, the timers and the render thread of the
    graphics controller, each of which runs until it ends; a step of the
    controller takes what it waits for from the schedule of its own world. *)

From S2P Require Import Prelude Tables PatParser PmtParser ConfigFile Machine World.
From S2P Require Import StreamController StreamProperties RemoteController Graphics TvApp.

Module Prog.

(** ** Data *)

(** The remote controller, whose program is the world of the stream controller
    with the application as its client; whether the task of the remote reads;
    whether the render thread draws, with [tempString] of its frame on the
    stack; and the calls made to DirectFB. *)
Record system := mkSystem {
  remote : @Rc.remote (world Tv.tv);
  reading : bool;
  drawing : bool;
  temp : option bytes;
  dfb_calls : list Gc.draw }.

Definition program (s : system) : world Tv.tv := Rc.program (remote s).
Definition set_remote (r : @Rc.remote (world Tv.tv)) (s : system) : system :=
  mkSystem r (reading s) (drawing s) (temp s) (dfb_calls s).
Definition set_reading (b : bool) (s : system) : system :=
  mkSystem (remote s) b (drawing s) (temp s) (dfb_calls s).
Definition set_drawing (b : bool) (s : system) : system :=
  mkSystem (remote s) (reading s) b (temp s) (dfb_calls s).
Definition set_program (w : world Tv.tv) (s : system) : system :=
  set_remote (Rc.with_program w (remote s)) s.

(** Before main: the initialisers of the files. *)
Definition loaded (schedule : list event) : system :=
  mkSystem (Rc.mkRemote None false (start schedule (Tv.initial 0 0))) false false None [].

(** One step of another thread: the task of the remote reads an event, the task
    of the controller starts, goes round its loop, or is told something by the
    library, the timer of the dialled number or a timer of the screen runs
    out, the render thread goes round its loop. *)
Inductive step :=
  | RemoteReads (r : Rc.read_result)
  | ControllerStarts
  | Controller (e : event)
  | DialTimer
  | Screen (e : Gc.gc_event)
  | Frame.

Section Main.
Context `{TdpApi} `{Gc.DirectFb}.

Abbreviation Sys := (M system).

(** ** The parts in the system *)

Definition in_world {A} (m : M (world Tv.tv) A) : Sys A := fun s =>
  match m (program s) with
  | Val (Ran a w) => Val (Ran a (set_program w s))
  | Val (Waiting w) => Val (Waiting (set_program w s))
  | Ub k => Ub k
  | NoFuel => NoFuel
  end.

Definition on_remote {A} (f : @Rc.remote (world Tv.tv) -> A * @Rc.remote (world Tv.tv)) : Sys A :=
  fun s => let r := f (remote s) in Val (Ran r.1 (set_remote r.2 s)).

Definition screen_of (s : system) : Gc.frame :=
  Gc.mkFrame (Tv.screen (client (program s))) (temp s) (dfb_calls s).
Definition with_screen (f : Gc.frame) (s : system) : system :=
  let w := program s in
  mkSystem (remote (set_program (set_client (Tv.set_screen (Gc.fr_graphics f) (client w)) w) s))
    (reading s) (drawing s) (Gc.fr_temp f) (Gc.fr_log f).

Definition in_graphics {A} (m : M Gc.frame A) : Sys A := fun s =>
  match m (screen_of s) with
  | Val (Ran a f) => Val (Ran a (with_screen f s))
  | Val (Waiting f) => Val (Waiting (with_screen f s))
  | Ub k => Ub k
  | NoFuel => NoFuel
  end.

(** ** Waiting for the end *)

Definition sys_step (e : step) : Sys unit :=
  match e with
  | RemoteReads r => fun s =>
      if reading s then
        c ← Rc.task_pass r (remote s);
        match c with
        | Next r => Val (Ran tt (set_remote r s))
        | Stop _ => Val (Ran tt (set_reading false s))
        end
      else Val (Ran tt s)
  | ControllerStarts => _ ← in_world Sc.task_init; mret tt
  | Controller Pass =>
      b ← gets (fun s => isInitialized (program s));
      if b : bool then in_world Sc.task_pass else mret tt
  | Controller e => in_world (Sc.handle e)
  | DialTimer => in_world Tv.keyTimer_expires
  | Screen e => in_world (Tv.draw (Gc.gc_step e))
  | Frame =>
      b ← gets drawing;
      if b : bool then
        stop ← gets (fun s => Gc.stopDrawing (Gc.fr_graphics (screen_of s)));
        if stop : bool then modify (set_drawing false)
        else in_graphics (Gc.render_pass Gc.tempString_size)
      else mret tt
  end.

(** [pthread_cond_wait(&deinitCond, &deinitMutex)] *)
Fixpoint wait_exit (schedule : list step) : Sys unit :=
  match schedule with
  | [] => blocked
  | e :: schedule =>
      _ ← sys_step e;
      b ← gets (fun s => Tv.deinitSignal (client (program s)));
      if b : bool then mret tt else wait_exit schedule
  end.

(** ** main *)

(** A module reports an error. *)
Definition sc_failed (m : M (world Tv.tv) StreamControllerError) : Sys bool :=
  e ← in_world m; mret (negb (bool_decide (e = SC_NO_ERROR))).
Definition rc_failed
    (f : @Rc.remote (world Tv.tv) -> Rc.RemoteControllerError * @Rc.remote (world Tv.tv))
    : Sys bool :=
  e ← on_remote f; mret (match e with Rc.RC_NO_ERROR => false | _ => true end).
Definition gc_failed (m : M Gc.frame Gc.GraphicsControllerError) : Sys bool :=
  e ← in_graphics m; mret (match e with Gc.GC_NO_ERROR => false | _ => true end).

Definition ERRORCHECK (m : Sys bool) (rest : Sys Z) : Sys Z :=
  b ← m; if b : bool then mret (-1) else rest.

(** The task of the remote starts with its module. *)
Definition start_remote (create_fails : bool) : Sys bool :=
  b ← rc_failed (fun r => (Rc.remoteControllerInit create_fails, r));
  _ ← modify (set_reading (negb b));
  mret b.

(** The render thread starts with its module. *)
Definition start_graphics : Sys bool :=
  b ← gc_failed Gc.graphicsControllerInit;
  _ ← modify (set_drawing (negb b));
  mret b.

Definition deinit_modules (join_fails : bool) : Sys Z :=
  ERRORCHECK (gc_failed Gc.graphicsControllerDeinit) (
  ERRORCHECK (rc_failed Rc.unregisterRemoteControllerCallback) (
  ERRORCHECK (rc_failed (Rc.remoteControllerDeinit join_fails)) (
  ERRORCHECK (sc_failed Sc.streamControllerDeinit) (
  mret 0)))).

Definition main (file : option bytes) (create_fails join_fails : bool) (schedule : list step)
    : Sys Z :=
  b ← sc_failed (Sc.loadInitialInfo file);
  if b : bool then mret (-1) else
  ERRORCHECK (start_remote create_fails) (
  ERRORCHECK (rc_failed (Rc.registerRemoteControllerCallback (Some Tv.rc_callback))) (
  ERRORCHECK (sc_failed (Sc.registerDateCallback (Some Tv.registerCurrentDate))) (
  ERRORCHECK (sc_failed (Sc.registerVolumeCallback (Some Tv.registerCurrentVolume))) (
  ERRORCHECK (sc_failed Sc.streamControllerInit) (
  ERRORCHECK start_graphics (
  _ ← wait_exit schedule;
  deinit_modules join_fails)))))).

(** ** Lemmas *)

Lemma in_world_run {A} (m : M (world Tv.tv) A) s a w :
  m (program s) = Val (Ran a w) -> in_world m s = Val (Ran a (set_program w s)).
Proof. intros E. unfold in_world. rewrite E. reflexivity. Qed.

Lemma ERRORCHECK_passes m rest s s' :
  m s = Val (Ran false s') -> ERRORCHECK m rest s = rest s'.
Proof. intros E. unfold ERRORCHECK. erewrite bindM; [|exact E]. reflexivity. Qed.

Lemma ERRORCHECK_stops m rest s s' :
  m s = Val (Ran true s') -> ERRORCHECK m rest s = Val (Ran (-1) s').
Proof. intros E. unfold ERRORCHECK. erewrite bindM; [|exact E]. reflexivity. Qed.

(** The world after the registrations and the start of the task, and the system
    while main waits. *)
Definition registered (c : Config.InitialInfo) (w : world Tv.tv) : world Tv.tv :=
  set_calls (PthreadCreate :: calls w)
    (Tv.main_registered (set_programNumber (i16 (Config.programNumber c)) (set_configFile c w))).

Definition waiting (c : Config.InitialInfo) (width height : Z) (schedule : list event) : system :=
  let w := registered c (start schedule (Tv.initial 0 0)) in
  mkSystem
    (Rc.mkRemote (Some Tv.rc_callback) false
       (set_client (Tv.set_screen (Gc.initial width height) (client w)) w))
    true true None (rev Gc.init_calls).

Lemma load_run file r schedule :
  Config.loadConfigFile DVB_T file Config.no_info = Val r -> Config.error r = SC_NO_ERROR ->
  sc_failed (Sc.loadInitialInfo file) (loaded schedule) =
    Val (Ran false (set_program
      (set_programNumber (i16 (Config.programNumber (Config.info r)))
         (set_configFile (Config.info r) (start schedule (Tv.initial 0 0)))) (loaded schedule))).
Proof.
  intros El Er. unfold sc_failed. erewrite bindM.
  2:{ apply in_world_run, ScFacts.loadInitialInfo_run; [exact El | exact Er]. }
  reflexivity.
Qed.

Lemma gc_init_run g f s :
  Gc.graphicsControllerInit (Gc.mkFrame g None []) = Val (Ran Gc.GC_NO_ERROR f) ->
  Tv.screen (client (program s)) = g -> temp s = None -> dfb_calls s = [] ->
  start_graphics s = Val (Ran false (set_drawing true (with_screen f s))).
Proof.
  intros E Hg Ht Hd.
  assert (R : in_graphics Gc.graphicsControllerInit s =
                Val (Ran Gc.GC_NO_ERROR (with_screen f s)))
    by (unfold in_graphics, screen_of; rewrite Hg, Ht, Hd, E; reflexivity).
  unfold start_graphics, gc_failed, mbind, M_bind. rewrite R. reflexivity.
Qed.

(** A pass of the render thread. *)
Lemma frame_run s :
  drawing s = true -> Gc.stopDrawing (Tv.screen (client (program s))) = false ->
  sys_step Frame s = in_graphics (Gc.render_pass Gc.tempString_size) s.
Proof.
  intros Hd Hs. unfold sys_step. erewrite bindM; [|reflexivity]. rewrite Hd.
  erewrite bindM; [|reflexivity]. unfold screen_of. cbn [Gc.fr_graphics]. rewrite Hs. reflexivity.
Qed.

Lemma frame_drawn s :
  Gc.dfb_succeeds -> drawing s = true ->
  let g := Tv.screen (client (program s)) in
  Gc.stopDrawing g = false -> Gc.has_image g -> Gc.showInfo (Gc.componentsToDraw g) = false ->
  sys_step Frame s = Val (Ran tt (with_screen
    (Gc.mkFrame (Gc.with_volume g) (temp s) (Gc.Flip :: Gc.frame_calls (screen_of s))) s)).
Proof.
  intros Hok Hd g Hs Hv Hi. rewrite frame_run by assumption. unfold in_graphics.
  rewrite (Gc.render_pass_frame _ (screen_of s) Hok Hv Hi). reflexivity.
Qed.

Lemma frame_breaks s :
  Gc.dfb_succeeds -> drawing s = true ->
  let g := Tv.screen (client (program s)) in
  Gc.stopDrawing g = false -> Gc.has_image g -> Gc.showInfo (Gc.componentsToDraw g) = true ->
  sys_step Frame s = Ub OutOfBounds.
Proof.
  intros Hok Hd g Hs Hv Hi. rewrite frame_run by assumption. unfold in_graphics.
  rewrite (Gc.render_pass_overflow (screen_of s) Hok Hv Hi). reflexivity.
Qed.

Lemma main_started file r join_fails schedule es :
  ScFacts.library_succeeds -> Gc.dfb_succeeds ->
  Config.loadConfigFile DVB_T file Config.no_info = Val r -> Config.error r = SC_NO_ERROR ->
  exists width height,
    main file false join_fails es (loaded schedule) =
      (_ ← wait_exit es; deinit_modules join_fails)
        (waiting (Config.info r) width height schedule).
Proof.
  intros Hlib Hdfb El Er. destruct (Gc.init_run Hdfb (Gc.initial 0 0) None) as (w & h & Ei & _).
  exists w, h. unfold main. erewrite bindM; [|apply load_run; eassumption].
  cbv beta iota.
  do 4 (erewrite ERRORCHECK_passes; [|reflexivity]).
  erewrite ERRORCHECK_passes.
  2:{ unfold sc_failed. erewrite bindM; [|apply in_world_run; unfold Sc.streamControllerInit,
        Sc.fails, Sc.external, mbind, M_bind; rewrite Hlib; reflexivity]. reflexivity. }
  erewrite ERRORCHECK_passes.
  2:{ apply (gc_init_run _ _ _ Ei); reflexivity. }
  reflexivity.
Qed.

(** The task of the remote reads, and the application listens. *)
Definition listening (s : system) : Prop :=
  reading s = true /\ Rc.callback (remote s) = Some Tv.rc_callback /\
  Tv.deinitSignal (client (program s)) = false.

(** The step in which the remote reads a key. *)
Definition key (code : Z) : step := RemoteReads (Rc.press code).

Lemma key_run code s w :
  listening s ->
  Tv.remoteControllerCallback code Rc.EV_KEY Rc.EV_VALUE_KEYPRESS (program s) =
    Val (Ran tt w) ->
  sys_step (key code) s = Val (Ran tt (set_program w s)).
Proof.
  intros (Hr & Hc & _) E. unfold sys_step, key. rewrite Hr. rewrite (Rc.task_pass_key code _ Tv.rc_callback Hc). unfold program in E.
  unfold Tv.rc_callback at 1. rewrite E. rewrite !bind_val.
  unfold set_program, Rc.with_program. rewrite Hc. reflexivity.
Qed.

Lemma key_ub code s k :
  listening s ->
  Tv.remoteControllerCallback code Rc.EV_KEY Rc.EV_VALUE_KEYPRESS (program s) = Ub k ->
  sys_step (key code) s = Ub k.
Proof.
  intros (Hr & Hc & _) E. unfold sys_step, key. rewrite Hr. rewrite (Rc.task_pass_key code _ Tv.rc_callback Hc). unfold program in E.
  unfold Tv.rc_callback at 1. rewrite E. reflexivity.
Qed.

(** A step while the program is not to end. *)
Lemma wait_goes_on e es s s' :
  sys_step e s = Val (Ran tt s') -> Tv.deinitSignal (client (program s')) = false ->
  wait_exit (e :: es) s = wait_exit es s'.
Proof.
  intros E Hd. cbn [wait_exit]. erewrite bindM; [|exact E]. erewrite bindM; [|reflexivity].
  rewrite Hd. reflexivity.
Qed.

Lemma wait_breaks e es s k : sys_step e s = Ub k -> wait_exit (e :: es) s = Ub k.
Proof. intros E. cbn [wait_exit]. unfold mbind, M_bind. rewrite E. reflexivity. Qed.

Lemma wait_volume rs es s :
  listening s -> Tv.volume_in_step (program s) -> Forall ScFacts.is_volume rs ->
  let s' := set_program (fold_left (fun w r => Tv.after_volume r w) rs (program s)) s in
  listening s' /\
  wait_exit (map (fun r => key (Tv.key_of r)) rs ++ es) s = wait_exit es s'.
Proof.
  intros Hl Hv Hrs. revert s Hl Hv. induction Hrs as [|r rs Hr Hrs IH]; intros s Hl Hv s'.
  - assert (E : s' = s) by (destruct s as [[] ? ? ? ?]; reflexivity). rewrite E. auto.
  - destruct (Tv.remote_volume r Rc.EV_KEY Rc.EV_VALUE_KEYPRESS (program s) Hv Hr) as [E Hv'].
    destruct (IH (set_program (Tv.after_volume r (program s)) s)) as [IH1 IH2].
    + exact Hl.
    + exact Hv'.
    + split; [exact IH1|]. cbn [map app].
      rewrite (wait_goes_on _ _ _ _ (key_run _ _ _ Hl E)); [exact IH2 | apply Hl].
Qed.

Lemma volumes_keep rs (w : world Tv.tv) :
  let w' := fold_left (fun w r => Tv.after_volume r w) rs w in
  World.programNumber w' = World.programNumber w /\ patTable w' = patTable w /\
  let g := Tv.screen (client w) in
  let g' := Tv.screen (client w') in
  Gc.stopDrawing g' = Gc.stopDrawing g /\
  Gc.showInfo (Gc.componentsToDraw g') = Gc.showInfo (Gc.componentsToDraw g).
Proof.
  revert w. induction rs as [|r rs IH]; intros w; [repeat split; reflexivity|].
  exact (IH (Tv.after_volume r w)).
Qed.

(** INFO puts the rectangle on the screen. *)
Definition after_info (w : world Tv.tv) : world Tv.tv :=
  let d := Tv.currentDateMain (client w) in
  let c := currentChannel w in
  set_client (Tv.set_screen (Gc.drawInfoRect (cd_tmpMonth d) (cd_day d) (cd_Year d)
    (ci_audioPid c) (ci_videoPid c) (Tv.screen (client w))) (Tv.set_info c (client w))) w.

Lemma remote_info ty v (w : world Tv.tv) :
  Tv.remoteControllerCallback Rc.KEYCODE_INFO ty v w = Val (Ran tt (after_info w)).
Proof. destruct w. reflexivity. Qed.

(** The screen that any volume keys leave. *)
Lemma volumes_screen rs (w : world Tv.tv) :
  Tv.volume_in_step w ->
  let v := fold_left (fun v r => ScFacts.vol_next r v) rs (World.currentVolume w) in
  let c := Gc.componentsToDraw (Tv.screen (client w)) in
  let g := Tv.screen (client (fold_left (fun w r => Tv.after_volume r w) rs w)) in
  Gc.showVolume c = false ->
  Gc.has_image g /\
  (if Gc.showVolume (Gc.componentsToDraw g)
   then Some (Gc.volume_file (Gc.volume (Gc.componentsToDraw g))) else None) =
    match rs with [] => None | _ => Some (Gc.volume_file v) end.
Proof.
  intros Hw v c g Hc. destruct (Tv.after_volumes rs w Hw) as (_ & _ & Hr & _ & Hs).
  fold g v in Hs. destruct rs as [|r rs].
  - change (Gc.componentsToDraw g) with c. rewrite Hc. split; [|reflexivity].
    intros E. change (Gc.showVolume c = true) in E. congruence.
  - destruct (Hs ltac:(discriminate)) as [S1 S2].
    split; [intros _; rewrite S2; exact Hr | rewrite S1, S2; reflexivity].
Qed.

(** The volume keys, and the frame after them, with the rectangle or not. *)
Lemma wait_volume_frame rs s :
  Gc.dfb_succeeds -> listening s -> Tv.volume_in_step (program s) -> drawing s = true ->
  Gc.stopDrawing (Tv.screen (client (program s))) = false ->
  Gc.showInfo (Gc.componentsToDraw (Tv.screen (client (program s)))) = false ->
  Gc.showVolume (Gc.componentsToDraw (Tv.screen (client (program s)))) = false ->
  let v := fold_left (fun v r => ScFacts.vol_next r v) rs (World.currentVolume (program s)) in
  let s' := set_program (fold_left (fun w r => Tv.after_volume r w) rs (program s)) s in
  listening s' ->
  (exists s2, wait_exit [Frame] s' = Val (Waiting s2) /\
     Gc.last_image (dfb_calls s2) =
       match rs with [] => None | _ => Some (Gc.volume_file v) end) /\
  wait_exit [key Rc.KEYCODE_INFO; Frame] s' = Ub OutOfBounds.
Proof.
  intros Hok Hl Hv Hd Hs Hi Hc v s' Hl'.
  destruct (volumes_screen rs (program s) Hv Hc) as [G1 G2].
  destruct (volumes_keep rs (program s)) as (_ & _ & K1 & K2). rewrite Hs in K1. rewrite Hi in K2.
  split.
  - erewrite wait_goes_on; [|exact (frame_drawn s' Hok Hd K1 G1 K2) | apply Hl'].
    eexists. split; [reflexivity|].
    etransitivity; [exact (Gc.frame_image (screen_of s')) | exact G2].
  - erewrite wait_goes_on; [|apply key_run; [exact Hl' | apply remote_info] | apply Hl'].
    apply wait_breaks, frame_breaks; [exact Hok | exact Hd | exact K1 | exact G1 | reflexivity].
Qed.

(** P+ before the controller has its tables. *)
Lemma remote_too_early ty v (w : world Tv.tv) :
  patTable w = Null -> Tv.remoteControllerCallback Rc.KEYCODE_P_PLUS ty v w = Ub NullDeref.
Proof.
  intros Hp. unfold Tv.remoteControllerCallback, Sc.channelUp, Sc.service_count.
  cbn [Z.eqb Pos.eqb Rc.KEYCODE_INFO Rc.KEYCODE_P_PLUS]. unfold mbind, M_bind, gets, lift.
  rewrite Hp. reflexivity.
Qed.

(** ** Properties *)

End Main.

(** ** Given programs *)

#[local] Existing Instance obliging.
#[local] Existing Instance Gc.willing.

End Prog.
