(* ===== verification/Player.v ===== *)
(** * Player: what the television player promises

    The specification of the whole program: the state its user sees and what
    each thing that can happen does to it. There are no tables, handles, keys
    of an array or mutexes here, and no other thread: a turn of the controller,
    the end of a timer and a frame of the screen are actions like the keys.
    Refinement shows that the program does what is said here. *)

From S2P Require Import Prelude Tables PmtParser World StreamController StreamProperties.

Module Player.

(** ** State *)

(** [services] counts the entries of the programme table, of which the first is
    the network; [changing] says that the selected programme is not on yet,
    [digits] are those keyed in since the last number was used, [bar] is the
    volume bar, [caption] the number of the programme and [panel] the
    information panel, when they are to be on the screen; [picture] is the level
    whose image the last frame showed; [air] holds the programme map sections
    that are still to be broadcast. *)
Record player := mkPlayer {
  services : Z;
  selected : Z;
  changing : bool;
  playing : ChannelInfo;
  level : Z;
  digits : list Z;
  date : CurrentDate;
  bar : option Z;
  caption : bool;
  panel : option (CurrentDate * ChannelInfo);
  picture : option Z;
  air : list bytes;
  off : bool }.

Definition choose (p : Z) (s : player) : player :=
  mkPlayer (services s) p true (playing s) (level s) (digits s) (date s) (bar s) (caption s)
    (panel s) (picture s) (air s) (off s).
Definition play (c : ChannelInfo) (rest : list bytes) (s : player) : player :=
  mkPlayer (services s) (selected s) (changing s) c (level s) (digits s) (date s) (bar s)
    (caption s) (panel s) (picture s) rest (off s).
Definition settle (s : player) : player :=
  mkPlayer (services s) (selected s) false (playing s) (level s) (digits s) (date s) (bar s)
    (caption s) (panel s) (picture s) (air s) (off s).
Definition set_level (v : Z) (s : player) : player :=
  mkPlayer (services s) (selected s) (changing s) (playing s) v (digits s) (date s) (Some v)
    (caption s) (panel s) (picture s) (air s) (off s).
Definition set_digits (ds : list Z) (s : player) : player :=
  mkPlayer (services s) (selected s) (changing s) (playing s) (level s) ds (date s) (bar s)
    (caption s) (panel s) (picture s) (air s) (off s).
Definition set_bar (b : option Z) (s : player) : player :=
  mkPlayer (services s) (selected s) (changing s) (playing s) (level s) (digits s) (date s) b
    (caption s) (panel s) (picture s) (air s) (off s).
Definition set_caption (b : bool) (s : player) : player :=
  mkPlayer (services s) (selected s) (changing s) (playing s) (level s) (digits s) (date s)
    (bar s) b (panel s) (picture s) (air s) (off s).
Definition set_panel (x : option (CurrentDate * ChannelInfo)) (s : player) : player :=
  mkPlayer (services s) (selected s) (changing s) (playing s) (level s) (digits s) (date s)
    (bar s) (caption s) x (picture s) (air s) (off s).
Definition set_picture (x : option Z) (s : player) : player :=
  mkPlayer (services s) (selected s) (changing s) (playing s) (level s) (digits s) (date s)
    (bar s) (caption s) (panel s) x (air s) (off s).
Definition switch_off (s : player) : player :=
  mkPlayer (services s) (selected s) (changing s) (playing s) (level s) (digits s) (date s)
    (bar s) (caption s) (panel s) (picture s) (air s) true.

(** ** Actions *)

Inductive button :=
  | Digit (d : Z) | Info | Next | Previous | Louder | Softer | Mute | Exit
  | Other (code : Z).

Inductive action :=
  | Press (b : button)
  | Turn
  | NumberTimeout
  | BarTimeout
  | CaptionTimeout
  | PanelTimeout
  | Frame.

(** The number that digits stand for: up to three digits in their places, and
    after more than three the last one in the place of the hundreds. *)
Definition dialled (ds : list Z) : Z :=
  match ds with
  | [a] => a
  | [a; b] => 10 * a + b
  | [a; b; c] => 100 * a + 10 * b + c
  | _ => 100 * List.last ds 0
  end.

(** Programme [ch] as its map section [b] describes it: the first audio and the
    first video stream. *)
Definition programme (ch : Z) (b : bytes) : ChannelInfo :=
  let es := (Pmt.decode_section b).1 in
  mkChannelInfo (ch + 1) (ScFacts.first_pid Sc.is_audio es) (ScFacts.first_pid Sc.is_video es).

(** The programme is on when its section has been broadcast. *)
Definition tune (ch : Z) (s : player) : option player :=
  match air s with
  | [] => None
  | b :: rest => Some (play (programme ch b) rest s)
  end.

Definition press (b : button) (s : player) : player :=
  let ring := services s - 1 in
  match b with
  | Digit d => set_digits (digits s ++ [d]) s
  | Info => set_panel (Some (date s, playing s)) s
  | Next => set_caption true (choose ((selected s + 1) mod ring) s)
  | Previous => choose ((selected s - 1) mod ring) s
  | Louder => set_level (Z.min (level s + 1) 10) s
  | Softer => set_level (Z.max (level s - 1) 0) s
  | Mute => set_level 0 s
  | Exit => switch_off s
  | Other _ => s
  end.

(** After an action the player goes on, waits for a section, or breaks down. *)
Inductive result :=
  | Goes (s : player)
  | Waits
  | Breaks.

Definition goes_or_waits (o : option player) : result :=
  match o with Some s => Goes s | None => Waits end.

(** A frame shows the bar. No frame can show the information panel, whose text
    is too long: it breaks the player. The number of the programme is on no
    picture. *)
Definition step (a : action) (s : player) : result :=
  match a with
  | Press b => Goes (press b s)
  | Turn => if changing s then goes_or_waits (tune (selected s) (settle s)) else Goes s
  | NumberTimeout =>
      match digits s with
      | [] => Goes s
      | ds =>
          if dialled ds <? services s
          then goes_or_waits (option_map (set_digits []) (tune (dialled ds) s))
          else Goes (set_digits [] s)
      end
  | BarTimeout => Goes (set_bar None s)
  | CaptionTimeout => Goes (set_caption false s)
  | PanelTimeout => Goes (set_panel None s)
  | Frame => match panel s with Some _ => Breaks | None => Goes (set_picture (bar s) s) end
  end.

(** A run ends when the player is off, waits, breaks down, or nothing more
    happens. *)
Inductive outcome :=
  | On (s : player)
  | Off (s : player)
  | Starved
  | Broken.

Fixpoint run (es : list action) (s : player) : outcome :=
  match es with
  | [] => On s
  | a :: es =>
      match step a s with
      | Goes s => if off s then Off s else run es s
      | Waits => Starved
      | Breaks => Broken
      end
  end.

(** ** Properties of the specification *)

(** The limits of the state. *)
Record sound (s : player) : Prop := {
  so_services : 2 <= services s <= 19;
  so_selected : 0 <= selected s <= services s - 2;
  so_level : 0 <= level s <= 10;
  so_bar : forall v, bar s = Some v -> v = level s }.

Lemma ring_range n k : 2 <= n -> 0 <= k mod (n - 1) <= n - 2.
Proof. intros Hn. pose proof (Z.mod_pos_bound k (n - 1) ltac:(lia)). lia. Qed.

Lemma press_sound b s : sound s -> sound (press b s).
Proof.
  intros [Hn Hs Hl Hb]. pose proof (fun k => ring_range (services s) k ltac:(lia)) as Hr.
  destruct b; split; cbn; auto; try lia; try congruence; intros v [= <-]; reflexivity.
Qed.

Lemma tune_sound ch s s' : sound s -> tune ch s = Some s' -> sound s'.
Proof.
  intros [] E. unfold tune in E. destruct (air s); [discriminate|]. injection E as <-.
  split; assumption.
Qed.

Lemma settle_sound s : sound s -> sound (settle s).
Proof. intros []. split; assumption. Qed.

Lemma step_sound a s s' : sound s -> step a s = Goes s' -> sound s'.
Proof.
  intros Hs E. assert (G : forall o, goes_or_waits o = Goes s' -> o = Some s')
    by (intros [] [=]; congruence).
  destruct a; cbn in E.
  - injection E as <-. apply press_sound, Hs.
  - destruct (changing s); [|congruence]. exact (tune_sound _ _ _ (settle_sound s Hs) (G _ E)).
  - destruct (digits s); [congruence|]. destruct (_ <? _).
    + apply G in E. destruct (tune _ s) as [s1|] eqn:Et; [|discriminate]. injection E as <-.
      destruct (tune_sound _ _ _ Hs Et). split; assumption.
    + injection E as <-. destruct Hs. split; assumption.
  - injection E as <-. destruct Hs. split; cbn; auto; congruence.
  - injection E as <-. destruct Hs. split; assumption.
  - injection E as <-. destruct Hs. split; assumption.
  - destruct (panel s); [discriminate|]. injection E as <-. destruct Hs. split; assumption.
Qed.

(** Only a frame changes the picture. *)
Lemma step_picture a s s' : a <> Frame -> step a s = Goes s' -> picture s' = picture s.
Proof.
  intros Ha E. destruct a as [[]| | | | | |]; try congruence; cbn in E; unfold tune in E; cbn [air settle] in E;
    repeat case_match; cbn in *; try discriminate; simplify_eq/=; reflexivity.
Qed.

(** Frames are seen and change nothing else: a run without the panel does what
    it does without its frames, but for the picture. *)
Definition is_frame (a : action) : bool := match a with Frame => true | _ => false end.

Definition no_frames (es : list action) : list action :=
  List.filter (fun a => negb (is_frame a)) es.

Definition redrawn (x : option Z) (r : result) : result :=
  match r with Goes s => Goes (set_picture x s) | r => r end.

Lemma step_redrawn a s x :
  a <> Frame -> step a (set_picture x s) = redrawn x (step a s).
Proof.
  intros Ha. destruct a as [[]| | | | | |]; try congruence; cbn; unfold tune; cbn [air settle set_picture];
    repeat case_match; cbn in *; simplify_eq/=; reflexivity.
Qed.

Lemma step_panel a s s' :
  a <> Press Info -> panel s = None -> step a s = Goes s' -> panel s' = None.
Proof.
  intros Ha Hp E. destruct a as [[]| | | | | |]; try congruence; cbn in E; unfold tune in E; cbn [air settle] in E;
    repeat case_match; cbn in *; try discriminate; simplify_eq/=; auto.
Qed.

Lemma run_frames es s x s' :
  panel s = None -> off s = false -> ~ In (Press Info) es ->
  run (no_frames es) s = On s' ->
  exists y, run es (set_picture x s) = On (set_picture y s').
Proof.
  revert s x. induction es as [|a es IH]; intros s x Hp Ho Hi E.
  - injection E as <-. exists x. reflexivity.
  - assert (Hi' : ~ In (Press Info) es) by (intros Hin; apply Hi; right; exact Hin).
    destruct (is_frame a) eqn:Ef.
    + destruct a; try discriminate. cbn [run step]. change (panel (set_picture x s)) with (panel s).
      rewrite Hp. change (off (set_picture _ _)) with (off s). rewrite Ho.
      exact (IH s (bar s) Hp Ho Hi' E).
    + unfold no_frames in E. cbn [List.filter] in E. rewrite Ef in E. cbn [negb run] in E |- *.
      rewrite step_redrawn by (intros ->; discriminate).
      destruct (step a s) as [s1| |] eqn:Ea; try discriminate. cbn [redrawn].
      change (off (set_picture x s1)) with (off s1). destruct (off s1) eqn:Eo; [discriminate|].
      apply (IH s1 x); [|exact Eo | exact Hi' | exact E].
      apply (step_panel a s s1); [intros ->; apply Hi; left; reflexivity | exact Hp | exact Ea].
Qed.

Lemma in_no_frames a es : In a es -> a <> Frame -> In a (no_frames es).
Proof.
  intros Hin Ha. apply List.filter_In. split; [exact Hin|]. destruct a; try reflexivity. congruence.
Qed.

(** The same, from the state itself. *)
Lemma run_with_frames es s s' :
  panel s = None -> off s = false -> ~ In (Press Info) (no_frames es) ->
  run (no_frames es) s = On s' -> exists y, run es s = On (set_picture y s').
Proof.
  intros Hp Ho Hi E.
  destruct (run_frames es s (picture s) s' Hp Ho) as [y Hy]; [|exact E |].
  - intros Hin. apply Hi, in_no_frames; [exact Hin | discriminate].
  - exists y. destruct s. exact Hy.
Qed.

Lemma run_app es es' s s' :
  run es s = On s' -> run (es ++ es') s = run es' s'.
Proof.
  revert s. induction es as [|a es IH]; intros s E; cbn in *.
  - injection E as <-. reflexivity.
  - destruct (step a s) as [s1| |]; try discriminate. destruct (off s1); [discriminate|].
    apply IH, E.
Qed.

Lemma run_sound es s s' : sound s -> run es s = On s' -> sound s'.
Proof.
  revert s. induction es as [|a es IH]; intros s Hs E; cbn in E.
  - injection E as <-. exact Hs.
  - destruct (step a s) as [s1| |] eqn:Ea; try discriminate. destruct (off s1); [discriminate|].
    exact (IH s1 (step_sound a s s1 Hs Ea) E).
Qed.
End Player.
