(* ===== verification/Refinement.v ===== *)
(** * Refinement: the program does what the player promises

    A relation between the system of Program and the state of Player, the
    simulation of every action by a step of the system, and the runs of main it
    gives. *)

From S2P Require Import Prelude Tables PatParser PmtParser TdtParser TotParser ConfigFile Machine.
From S2P Require Import World StreamController StreamProperties RemoteController Graphics TvApp.
From S2P Require Import Program Player.

Module Ref.

(** ** The relation *)

(** A program map section that the parser accepts. *)
Definition good_section (b : bytes) : Prop :=
  Pmt.complete b /\ byte_at b 0 = 2 /\ (Pmt.decode_section b).2 = false.

Definition dial (t : Tv.tv) : Z * list Z * bool :=
  (Tv.keysPressed t, Tv.keys t, Tv.keyTimer t).

Definition dial_of (ds : list Z) : Z * list Z * bool :=
  dial (Tv.press_keys ds (Tv.initial 0 0)).

Definition shown {A} (x : option A) : bool := match x with Some _ => true | None => false end.

Record screen_shows (g : Gc.graphics) (p : Player.player) : Prop := {
  ss_tidy : Gc.tidy g;
  ss_stop : Gc.stopDrawing g = false;
  ss_bar : Gc.showVolume (Gc.componentsToDraw g) = shown (Player.bar p);
  ss_level : forall v, Player.bar p = Some v -> Gc.volume (Gc.componentsToDraw g) = v;
  ss_caption : Gc.showProgramNumber (Gc.componentsToDraw g) = Player.caption p;
  ss_panel : Gc.showInfo (Gc.componentsToDraw g) = shown (Player.panel p);
  ss_values : forall d c, Player.panel p = Some (d, c) ->
    mkCurrentDate (Gc.YearToDraw g) (Gc.tmpMonthToDraw g) (Gc.dayToDraw g) = d /\
    Gc.audioPidToDraw g = ci_audioPid c /\ Gc.videoPidToDraw g = ci_videoPid c }.

Record client_shows (t : Tv.tv) (p : Player.player) : Prop := {
  cs_dial : dial t = dial_of (Player.digits p);
  cs_date : Tv.currentDateMain t = Player.date p;
  cs_level : Tv.currentVolume t = Player.level p;
  cs_off : Tv.deinitSignal t = Player.off p;
  cs_screen : screen_shows (Tv.screen t) p }.

(** The static variables of the controller but for its client. *)
Record world_shows {C} (w : world C) (p : Player.player) : Prop := {
  ws_pat : exists t, patTable w = Live t /\ Pat.serviceInfoCount t = Player.services p /\
             length (Pat.patServiceInfoArray t) = 20%nat;
  ws_pmt : exists t, pmtTable w = Live t /\ Pmt.table_wf t;
  ws_selected : World.programNumber w = Player.selected p;
  ws_changing : World.changeChannel w = Player.changing p;
  ws_playing : currentChannel w = Player.playing p;
  ws_level : World.currentVolume w = Player.level p;
  ws_time : timeTablesRecieved w = true;
  ws_init : isInitialized w = true;
  ws_mutex : demuxMutex w = false;
  ws_air : pending w = map Delivery (Player.air p) }.

Section Refinement.
Context `{TdpApi} `{Gc.DirectFb}.

Record shows (w : world Tv.tv) (p : Player.player) : Prop := {
  sh_callback : volumeReportCallback w = Some Tv.registerCurrentVolume;
  sh_world : world_shows w p;
  sh_client : client_shows (client w) p }.

Record represents (s : Prog.system) (p : Player.player) : Prop := {
  re_reading : Prog.reading s = true;
  re_drawing : Prog.drawing s = true;
  re_picture : Gc.last_image (Prog.dfb_calls s) = option_map Gc.volume_file (Player.picture p);
  re_remote : Rc.callback (Prog.remote s) = Some Tv.rc_callback;
  re_shows : shows (Prog.program s) p;
  re_sound : Player.sound p;
  re_sections : Forall good_section (Player.air p);
  re_digits : Forall Tv.is_digit (Player.digits p) }.

(** The code of a button; another code must not be one of them. *)
Definition code_of (b : Player.button) : Z :=
  match b with
  | Player.Digit d => Tv.code_of d
  | Player.Info => Rc.KEYCODE_INFO
  | Player.Next => Rc.KEYCODE_P_PLUS
  | Player.Previous => Rc.KEYCODE_P_MINUS
  | Player.Louder => Rc.KEYCODE_V_PLUS
  | Player.Softer => Rc.KEYCODE_V_MINUS
  | Player.Mute => Rc.KEYCODE_MUTE
  | Player.Exit => Rc.KEYCODE_EXIT
  | Player.Other c => c
  end.

Definition known_codes : list Z :=
  [358; 62; 61; 63; 64; 60; 102; 2; 3; 4; 5; 6; 7; 8; 9; 10; 11].

Definition legal (a : Player.action) : Prop :=
  match a with
  | Player.Press (Player.Digit d) => Tv.is_digit d
  | Player.Press (Player.Other c) => ~ In c known_codes
  | _ => True
  end.

(** The step of the system that an action is. *)
Definition step_of (a : Player.action) : Prog.step :=
  match a with
  | Player.Press b => Prog.key (code_of b)
  | Player.Turn => Prog.Controller Pass
  | Player.NumberTimeout => Prog.DialTimer
  | Player.BarTimeout => Prog.Screen Gc.VolumeTimer
  | Player.CaptionTimeout => Prog.Screen Gc.ProgramTimer
  | Player.PanelTimeout => Prog.Screen Gc.InfoTimer
  | Player.Frame => Prog.Frame
  end.

(** ** The controller *)

(** What the parser leaves for a good section. *)
Lemma good_reference b old :
  good_section b ->
  Pmt.reference b old =
    (TABLES_PARSE_OK, Pmt.parsed_table b (Pmt.decode_section b).1 old).
Proof.
  intros (_ & Hid & Hd). unfold Pmt.reference. rewrite Hid, Hd. reflexivity.
Qed.

Lemma streams_parsed b es old : ScFacts.streams (Pmt.parsed_table b es old) = es.
Proof.
  unfold ScFacts.streams, Pmt.parsed_table. cbn [Pmt.elementaryInfoCount
    Pmt.pmtElementaryInfoArray]. rewrite Nat2Z.id. apply take_app_length.
Qed.

(** A programme is asked for while nothing is broadcast. *)
Lemma startChannel_starved {C} (w : world C) ch t info :
  ScFacts.library_succeeds -> patTable w = Live t ->
  Pat.patServiceInfoArray t !! Z.to_nat (ch + 1) = Some info -> -1 <= ch ->
  pending w = [] -> demuxMutex w = false ->
  exists w', Sc.startChannel ch w = Val (Waiting w').
Proof.
  intros Hok Ht Hi Hch Hp Hm.
  destruct (ScFacts.startChannel_request_run w t ch info Hok Ht Hch Hi) as [f E].
  unfold Sc.startChannel. erewrite bindM; [|exact E]. cbv iota.
  eexists. unfold Sc.wait_table, Sc.wait_demux, Sc.lock, Sc.cond_wait, mbind, M_bind, gets,
    modify. cbn [demuxMutex set_filterHandle set_calls]. rewrite Hm.
  cbn [pending set_demuxMutex set_demuxSignal set_filterHandle set_calls]. rewrite Hp.
  reflexivity.
Qed.

Lemma tune_run {C} (w : world C) p ch :
  ScFacts.library_succeeds -> world_shows w p -> Player.sound p ->
  Forall good_section (Player.air p) -> 0 <= ch < Player.services p ->
  match Player.tune ch p with
  | None => exists w', Sc.startChannel ch w = Val (Waiting w')
  | Some p' =>
      exists w', Sc.startChannel ch w = Val (Ran tt w') /\ world_shows w' p' /\
        client w' = client w /\ volumeReportCallback w' = volumeReportCallback w
  end.
Proof.
  intros Hok [(t & Ht & Hn & Hlen) (old & Hold & Hwf) W1 W2 W3 W4 W5 W6 W7 W8] Hs Hair Hch.
  pose proof (Player.so_services p Hs) as Hr.
  destruct (lookup_lt_is_Some_2 (Pat.patServiceInfoArray t) (Z.to_nat (ch + 1)) ltac:(lia))
    as [info Hi].
  unfold Player.tune. destruct (Player.air p) as [|b rest] eqn:Ea.
  - apply (startChannel_starved w ch t info); auto; lia.
  - apply Forall_cons_1 in Hair as [Hb _]. pose proof Hb as (Hc & Hid & _).
    pose proof (good_reference b old Hb) as Href. set (t' := Pmt.parsed_table _ _ _) in Href.
    assert (Hcs : ScFacts.channel_starts w ch info b (map Delivery rest) t').
    { split; auto; [exists t; auto | lia | exists old; auto]. }
    destruct (ScFacts.startChannel_run w ch info b _ t' Hok Hcs) as (f & hv & ha & _ & _ & E).
    set (w' := ScFacts.tuned _ _ _ _ _ _ _ _) in E.
    exists w'. split; [|split; [|split; reflexivity]].
    + rewrite E. unfold ScFacts.time_tables_if_needed. erewrite bindM; [|reflexivity].
      change (timeTablesRecieved w') with (timeTablesRecieved w). rewrite W5. reflexivity.
    + split; auto; [exists t; auto | | ].
      * exists t'. split; [reflexivity|]. change t' with (snd (TABLES_PARSE_OK, t')).
        rewrite <- Href. apply Pmt.pmt_reference_wf; [apply Hc | exact Hwf].
      * unfold w', ScFacts.tuned, t'. rewrite streams_parsed. reflexivity.
Qed.

(** ** The digits *)

Lemma dial_press d t t' : dial t = dial t' -> dial (Tv.press_key d t) = dial (Tv.press_key d t').
Proof.
  unfold dial, Tv.press_key. cbn [Tv.keysPressed Tv.set_dial]. intros [= Hp Hk _].
  rewrite Hp, Hk. repeat case_match; reflexivity.
Qed.

Lemma dial_snoc ds d t :
  dial t = dial_of ds -> dial (Tv.press_key d t) = dial_of (ds ++ [d]).
Proof.
  intros E. unfold dial_of, Tv.press_keys. rewrite fold_left_app. apply dial_press, E.
Qed.

Lemma dial_of_number ds t :
  dial t = dial_of ds -> ds <> [] ->
  Tv.keyTimer t = true /\ Tv.dialled t = Val (Player.dialled ds).
Proof.
  intros E Hne. destruct (Tv.dialled_number ds (Tv.initial 0 0)) as [H1 H2];
    [split; reflexivity | exact Hne |].
  unfold dial_of, dial in E. injection E as Ep Ek Et. split; [congruence|].
  change (Player.dialled ds) with (Tv.number ds). rewrite <- H2. unfold Tv.dialled.
  rewrite Ep, Ek. reflexivity.
Qed.

Lemma dial_nothing t : dial t = dial_of [] -> Tv.keyTimer t = false.
Proof. intros [= _ _ E]. exact E. Qed.

(** ** The screen *)

Lemma screen_volume g p v :
  screen_shows g p -> screen_shows (Gc.drawVolumeBar v g) (Player.set_level v p).
Proof. intros [(T1 & T2 & T3) ? ? ? ? ? ?]. split; auto; [repeat split; auto | intros v' [= <-]; reflexivity]. Qed.

Lemma screen_caption g p k :
  screen_shows g p ->
  screen_shows (Gc.drawProgramNumber g) (Player.set_caption true (Player.choose k p)).
Proof. intros [(T1 & T2 & T3) ? ? ? ? ? ?]. split; auto. repeat split; auto. Qed.

Lemma screen_panel g p d c :
  screen_shows g p ->
  screen_shows (Gc.drawInfoRect (cd_tmpMonth d) (cd_day d) (cd_Year d) (ci_audioPid c)
                  (ci_videoPid c) g) (Player.set_panel (Some (d, c)) p).
Proof.
  intros [(T1 & T2 & T3) ? ? ? ? ? ?]. split; auto; [repeat split; auto|].
  intros d' c' [= <- <-]. destruct d. auto.
Qed.

(** A frame changes the image provider only. *)
Lemma screen_drawn g p x :
  screen_shows g p -> screen_shows (Gc.with_volume g) (Player.set_picture x p).
Proof.
  intros Hg. assert (G : screen_shows g (Player.set_picture x p))
    by (destruct Hg; split; assumption).
  assert (screen_shows (Gc.set_provider Freed g) (Player.set_picture x p))
    by (destruct G; split; assumption).
  clear Hg. unfold Gc.with_volume. destruct (Gc.showVolume _); assumption.
Qed.

(** The timers of the components that are shown. *)
Lemma screen_timeout a e g p p' :
  screen_shows g p -> step_of a = Prog.Screen e -> Player.step a p = Player.Goes p' ->
  screen_shows (Gc.gc_step e g) p'.
Proof.
  intros [(T1 & T2 & T3) Hst Hb Hl Hc Hp Hv] He Ea.
  destruct a; try discriminate; injection He as <-; injection Ea as <-; cbn [Gc.gc_step].
  - rewrite <- T2, Hb. destruct (Player.bar p) eqn:E; split; cbn; auto; try congruence;
      repeat split; auto.
  - rewrite <- T1. destruct (Gc.showProgramNumber _) eqn:E; split; cbn; auto; try congruence;
      repeat split; auto; congruence.
  - rewrite <- T3, Hp. destruct (Player.panel p) eqn:E; split; cbn; auto; try congruence;
      repeat split; auto.
Qed.

(** ** The steps *)

(** Only the client changes: the world shows what it showed. *)
Lemma shows_client w p p' t :
  shows w p -> client_shows t p' ->
  world_shows w p' -> shows (set_client t w) p'.
Proof. intros [Hc _ _] Ht [? ? ? ? ? ? ? ? ? ?]. split; [exact Hc | split; assumption | exact Ht]. Qed.

Lemma on_ring_shows w p :
  world_shows w p -> Player.sound p -> ScFacts.on_ring (C := Tv.tv) w (Player.services p).
Proof.
  intros [(t & Ht & Hn & _) _ Hs _ _ _ _ _ _ _] [Hr Hsel _ _].
  split; [exists t; auto|]. rewrite Hs. lia.
Qed.

Lemma volume_in_step_shows w p :
  shows w p -> Player.sound p -> Tv.volume_in_step w.
Proof.
  intros [Hc Hw Ht] Hs. pose proof (Player.so_level p Hs) as Hl.
  split; [rewrite (ws_level _ _ Hw); exact Hl|]. split; [|exact Hc].
  rewrite (cs_level _ _ Ht), (ws_level _ _ Hw). reflexivity.
Qed.

(** The volume keys. *)
Lemma volume_button r v ty vl w p :
  shows w p -> Player.sound p -> ScFacts.is_volume r ->
  ScFacts.vol_next r (Player.level p) = v ->
  exists w', Tv.remoteControllerCallback (Tv.key_of r) ty vl w = Val (Ran tt w') /\
    shows w' (Player.set_level v p).
Proof.
  intros Hsh Hs Hr <-.
  destruct (Tv.remote_volume r ty vl w (volume_in_step_shows w p Hsh Hs) Hr) as [E _].
  exists (Tv.after_volume r w). split; [exact E|].
  destruct Hsh as [Hc [? ? ? ? ? Hl ? ? ? ?] [? ? ? ? Hscr]]. unfold Tv.after_volume. rewrite Hl.
  split; [exact Hc | split; auto |]. split; auto.
  apply (screen_volume _ p), Hscr.
Qed.

(** The channel keys. *)
Lemma channel_button r k ty vl w p :
  shows w p -> Player.sound p -> ScFacts.move r = Some k ->
  exists w', Tv.remoteControllerCallback (Tv.key_of r) ty vl w = Val (Ran tt w') /\
    shows w' (Player.set_caption (Tv.is_up r || Player.caption p)
                (Player.choose ((Player.selected p + k) mod (Player.services p - 1)) p)).
Proof.
  intros [Hc Hw Ht] Hs Hk. pose proof (on_ring_shows w p Hw Hs) as Hring.
  destruct (Tv.remote_move (Player.services p) r ty vl w Hring ltac:(congruence)) as [E _].
  exists (Tv.after_move (Player.services p) r w). split; [exact E|].
  destruct Hw as [? ? Hsel ? ? ? ? ? ? ?], Ht as [? ? ? ? Hscr].
  unfold Tv.after_move. rewrite Hk, Hsel. cbn [default].
  destruct r; try discriminate; cbn [Tv.is_up orb]; (split; [exact Hc | split; auto | split; auto]).
  - apply screen_caption, Hscr.
  - destruct Hscr. split; auto.
Qed.

Lemma other_code c ty v w :
  ~ In c known_codes -> Tv.remoteControllerCallback c ty v w = Val (Ran tt w).
Proof.
  intros Hc. unfold Tv.remoteControllerCallback, Tv.digit_of.
  repeat match goal with |- context [c =? ?k] =>
    destruct (Z.eqb_spec c k) as [->|_]; [exfalso; apply Hc; cbv; tauto|] end.
  reflexivity.
Qed.

Lemma button_run b ty v w p :
  shows w p -> Player.sound p -> legal (Player.Press b) ->
  exists w', Tv.remoteControllerCallback (code_of b) ty v w = Val (Ran tt w') /\
    shows w' (Player.press b p).
Proof.
  intros Hsh Hs Hl. destruct b as [d| | | | | | | |c]; cbn [code_of Player.press].
  - rewrite Tv.remote_digit by exact Hl. eexists. split; [reflexivity|].
    destruct Hsh as [Hc [] [Hd Hdate Hlev Hoff [? ? ? ? ? ? ?]]].
    split; [exact Hc | split; auto | split; auto].
    + apply dial_snoc, Hd.
    + cbn. rewrite <- Hdate. unfold Tv.press_key. repeat case_match; reflexivity.
    + cbn. rewrite <- Hlev. unfold Tv.press_key. repeat case_match; reflexivity.
    + cbn. rewrite <- Hoff. unfold Tv.press_key. repeat case_match; reflexivity.
    + cbn. replace (Tv.screen (Tv.press_key d (client w))) with (Tv.screen (client w));
        [split; auto | unfold Tv.press_key; repeat case_match; reflexivity].
  - eexists. split; [destruct w; reflexivity|].
    destruct Hsh as [Hc Hw [Hd Hdate Hlev Hoff Hscr]].
    pose proof (ws_playing _ _ Hw) as Hp. destruct Hw.
    split; [exact Hc | split; auto | split; auto]. rewrite <- Hdate, <- Hp.
    apply (screen_panel _ p), Hscr.
  - apply (channel_button ChannelUp 1); auto.
  - destruct (channel_button ChannelDown (-1) ty v w p Hsh Hs eq_refl) as (w' & E & H').
    exists w'. split; [exact E|]. destruct p. exact H'.
  - apply (volume_button VolumeUp); auto; exact I.
  - apply (volume_button VolumeDown); auto; exact I.
  - apply (volume_button VolumeMute); auto; exact I.
  - eexists. split; [reflexivity|]. destruct Hsh as [Hc [] [? ? ? ? []]].
    split; [exact Hc | split; auto | split; auto]. split; auto.
  - exists w. split; [apply other_code, Hl | exact Hsh].
Qed.

(** What a step of the system does, against what the player does: it ends and
    the relation holds again, both wait, or the player breaks down where an
    array overflows. *)
Definition matches (r : res (ran Prog.system unit)) (next : Player.result) : Prop :=
  match next with
  | Player.Goes p => exists s, r = Val (Ran tt s) /\ represents s p
  | Player.Waits => exists s, r = Val (Waiting s)
  | Player.Breaks => r = Ub OutOfBounds
  end.

Lemma in_world_waits {A} (m : M (world Tv.tv) A) s w :
  m (Prog.program s) = Val (Waiting w) ->
  Prog.in_world m s = Val (Waiting (Prog.set_program w s)).
Proof. intros E. unfold Prog.in_world. rewrite E. reflexivity. Qed.

Lemma tune_sections ch p p' :
  Player.tune ch p = Some p' -> Forall good_section (Player.air p) ->
  Forall good_section (Player.air p').
Proof.
  unfold Player.tune. destruct (Player.air p); [discriminate|]. intros [= <-] Ha.
  apply Forall_cons_1 in Ha as [_ Ha]. exact Ha.
Qed.

Lemma client_play t c rest p : client_shows t p -> client_shows t (Player.play c rest p).
Proof. intros [? ? ? ? []]. split; auto. split; auto. Qed.

Section Step.
Hypothesis Hlib : ScFacts.library_succeeds.
Hypothesis Hdfb : Gc.dfb_succeeds.
Context (s : Prog.system) (p : Player.player).
Hypothesis Hs : represents s p.

Lemma represents_step a w' p' :
  shows w' p' -> a <> Player.Frame -> Player.step a p = Player.Goes p' -> Forall good_section (Player.air p') ->
  Forall Tv.is_digit (Player.digits p') ->
  represents (Prog.set_program w' s) p'.
Proof.
  intros Hw Ha Ea Hair Hdig. destruct Hs as [? ? Hpic ? ? Hsound ? ?].
  split; auto; [|exact (Player.step_sound a p p' Hsound Ea)].
  rewrite (Player.step_picture a p p' Ha Ea). exact Hpic.
Qed.

Lemma press_matches b :
  Player.off p = false -> legal (Player.Press b) ->
  matches (Prog.sys_step (step_of (Player.Press b)) s) (Player.step (Player.Press b) p).
Proof.
  intros Hoff Hl. destruct Hs as [Hr _ _ Hc Hsh Hsound Hair Hdig].
  destruct (button_run b Rc.EV_KEY Rc.EV_VALUE_KEYPRESS _ p Hsh Hsound Hl) as (w' & E & Hw').
  exists (Prog.set_program w' s). split.
  - apply Prog.key_run; [|exact E]. split; [exact Hr|]. split; [exact Hc|].
    rewrite (cs_off _ _ (sh_client _ _ Hsh)). exact Hoff.
  - apply (represents_step (Player.Press b)); [exact Hw' | discriminate | reflexivity | destruct b; exact Hair |].
    destruct b; try exact Hdig. apply Forall_app_2; [exact Hdig | repeat constructor; apply Hl].
Qed.

Lemma turn_matches :
  matches (Prog.sys_step (Prog.Controller Pass) s) (Player.step Player.Turn p).
Proof.
  destruct Hs as [Hr _ _ Hc [Hcb Hw Ht] Hsound Hair Hdig].
  assert (E0 : Prog.sys_step (Prog.Controller Pass) s = Prog.in_world Sc.task_pass s).
  { unfold Prog.sys_step. erewrite bindM; [|reflexivity]. cbv beta.
    change (isInitialized _) with (isInitialized (Prog.program s)).
    rewrite (ws_init _ _ Hw). reflexivity. }
  rewrite E0. cbn [Player.step]. destruct (Player.changing p) eqn:Ec.
  - assert (Hw1 : world_shows (set_changeChannel false (Prog.program s)) (Player.settle p))
      by (destruct Hw; split; auto).
    pose proof (Player.so_services p Hsound) as Hn.
    pose proof (Player.so_selected p Hsound) as Hsel.
    pose proof (tune_run _ (Player.settle p) (Player.selected p) Hlib Hw1
                  ltac:(destruct Hsound; split; auto) Hair ltac:(cbn; lia)) as Htune.
    assert (Ep : Sc.task_pass (Prog.program s) =
      Sc.startChannel (Player.selected p) (set_changeChannel false (Prog.program s))).
    { rewrite ScFacts.task_pass_changed by (rewrite (ws_changing _ _ Hw); exact Ec).
      rewrite (ws_selected _ _ Hw). reflexivity. }
    destruct (Player.tune (Player.selected p) (Player.settle p)) as [p'|] eqn:Et.
    + destruct Htune as (w' & E & Hw' & Hcl & Hcb').
      exists (Prog.set_program w' s).
      split; [apply Prog.in_world_run; rewrite Ep; exact E|].
      apply (represents_step Player.Turn).
      * split; [rewrite Hcb'; exact Hcb | exact Hw' |]. rewrite Hcl.
        unfold Player.tune in Et. destruct (Player.air _); [discriminate|]. injection Et as <-.
        apply (client_play _ _ _ (Player.settle p)). destruct Ht as [? ? ? ? []].
        split; auto. split; auto.
      * discriminate.
      * cbn [Player.step]. rewrite Ec, Et. reflexivity.
      * exact (tune_sections _ _ _ Et Hair).
      * unfold Player.tune in Et. destruct (Player.air _); [discriminate|]. injection Et as <-.
        exact Hdig.
    + destruct Htune as (w' & E). eexists. apply in_world_waits. rewrite Ep. exact E.
  - exists (Prog.set_program (Prog.program s) s). split.
    + apply Prog.in_world_run. unfold Sc.task_pass. erewrite bindM; [|reflexivity].
      rewrite (ws_changing _ _ Hw), Ec. reflexivity.
    + apply (represents_step Player.Turn); [split; assumption | discriminate | | exact Hair | exact Hdig].
      cbn [Player.step]. rewrite Ec. reflexivity.
Qed.

Lemma changeChannelKey_run {C} (w : world C) n :
  world_shows w p -> 0 <= n ->
  Sc.changeChannelKey n w =
    if n <? Player.services p then Sc.startChannel n w else Val (Ran tt w).
Proof.
  intros [(t & Ht & Hn & _) _ _ _ _ _ _ _ _ _] H0'. unfold Sc.changeChannelKey, Sc.service_count.
  rewrite (proj2 (Z.ltb_lt _ _)) by lia. unfold mbind, M_bind, gets, lift. rewrite Ht.
  cbn [deref]. unfold mret, M_ret. rewrite bind_val, Hn. destruct (n <? _); reflexivity.
Qed.

(** When the number has been used, it is forgotten. *)
Lemma forgotten_shows t t1 (w : world Tv.tv) p' :
  volumeReportCallback w = Some Tv.registerCurrentVolume -> world_shows w p' ->
  client_shows t p' -> t1 = Tv.disarm t ->
  shows (set_client (Tv.set_dial 0 [0; 0; 0] false t1) w) (Player.set_digits [] p').
Proof.
  intros Hcb Hw [? ? ? ? []] ->.
  split; [exact Hcb | destruct Hw; split; assumption | split; auto; split; auto].
Qed.

Lemma number_step w' p' :
  Tv.keyTimer_expires (Prog.program s) = Val (Ran tt w') ->
  Player.step Player.NumberTimeout p = Player.Goes p' -> shows w' p' ->
  Forall good_section (Player.air p') -> Forall Tv.is_digit (Player.digits p') ->
  exists s', Prog.in_world Tv.keyTimer_expires s = Val (Ran tt s') /\ represents s' p'.
Proof.
  intros E Ep Hsh Ha Hd. exists (Prog.set_program w' s).
  split; [apply Prog.in_world_run; exact E|].
  apply (represents_step Player.NumberTimeout); try assumption. discriminate.
Qed.

Lemma number_matches :
  matches (Prog.sys_step Prog.DialTimer s) (Player.step Player.NumberTimeout p).
Proof.
  destruct Hs as [Hr _ _ Hc [Hcb Hw Ht] Hsound Hair Hdig]. cbn [Prog.sys_step Player.step].
  pose proof number_step as Hgo. set (w := Prog.program s) in *. cbn [Player.step] in Hgo.
  destruct (Player.digits p) as [|d ds] eqn:Ed.
  - apply (Hgo w p); [|reflexivity | split; assumption | exact Hair | rewrite Ed; exact Hdig].
    unfold Tv.keyTimer_expires. erewrite bindM; [|reflexivity].
    rewrite (dial_nothing (client w)) by (rewrite (cs_dial _ _ Ht), Ed; reflexivity).
    reflexivity.
  - rewrite <- Ed in *. assert (Hne : Player.digits p <> []) by congruence.
    destruct (dial_of_number _ _ (cs_dial _ _ Ht) Hne) as [Harm Hnum].
    pose proof (Tv.number_range _ Hdig) as Hrange.
    change (Tv.number (Player.digits p)) with (Player.dialled (Player.digits p)) in Hrange.
    set (n := Player.dialled (Player.digits p)) in *.
    pose proof (Tv.keyTimer_expires_armed w n Harm Hnum) as E.
    set (w1 := set_client (Tv.disarm (client w)) w) in E.
    assert (Hw1 : world_shows w1 p) by (destruct Hw; split; assumption).
    unfold mbind at 1, M_bind at 1 in E. rewrite (changeChannelKey_run w1 n Hw1) in E by lia.
    destruct (Z.ltb_spec n (Player.services p)) as [Hlt|Hge].
    + pose proof (tune_run w1 p n Hlib Hw1 Hsound Hair ltac:(lia)) as Htune.
      destruct (Player.tune n p) as [p'|] eqn:Et; cbn [option_map] in *.
      * destruct Htune as (w' & E' & Hw' & Hcl & Hcb'). rewrite E' in E.
        apply (Hgo _ _ E eq_refl); [| exact (tune_sections _ _ _ Et Hair) | constructor].
        unfold Tv.update. rewrite Hcl.
        apply (forgotten_shows (client w) (client w1)); [exact (eq_trans Hcb' Hcb) | exact Hw' | | reflexivity].
        unfold Player.tune in Et. destruct (Player.air p); [discriminate|].
        injection Et as <-. apply client_play, Ht.
      * destruct Htune as (w' & E'). rewrite E' in E. eexists. apply in_world_waits, E.
    + apply (Hgo _ _ E eq_refl); [|exact Hair | constructor].
      apply (forgotten_shows (client w) (client w1) w1 p); auto.
Qed.

Lemma screen_matches a e :
  step_of a = Prog.Screen e -> matches (Prog.sys_step (step_of a) s) (Player.step a p).
Proof.
  intros Ea. destruct Hs as [Hr _ _ Hc [Hcb Hw [? ? ? ? Hscr]] Hsound Hair Hdig].
  assert (exists p', a <> Player.Frame /\ Player.step a p = Player.Goes p' /\ Forall good_section (Player.air p') /\
            Forall Tv.is_digit (Player.digits p') /\
            forall g, screen_shows g p' -> shows
              (set_client (Tv.set_screen g (client (Prog.program s))) (Prog.program s)) p')
    as (p' & Hf & Ep & Ha & Hd & Hsh).
  { destruct a; try discriminate; eexists; (split; [discriminate|]); (split; [reflexivity|]);
      (split; [exact Hair|]);
      (split; [exact Hdig|]); intros g Hg; (split; [exact Hcb | destruct Hw; split; assumption |]);
      split; assumption. }
  rewrite Ep. eexists. split.
  - rewrite Ea. apply Prog.in_world_run. reflexivity.
  - apply (represents_step a); [|exact Hf | exact Ep | exact Ha | exact Hd].
    apply Hsh, (screen_timeout a e _ p p'); assumption.
Qed.

(** A frame shows the bar, and overflows its array when there is a panel. *)
Lemma frame_matches :
  matches (Prog.sys_step Prog.Frame s) (Player.step Player.Frame p).
Proof.
  destruct Hs as [Hr Hd Hpic Hc [Hcb Hw [? ? ? ? Hscr]] Hsound Hair Hdig].
  assert (Hv : Gc.has_image (Tv.screen (client (Prog.program s)))).
  { intros E. rewrite (ss_bar _ _ Hscr) in E. destruct (Player.bar p) as [v|] eqn:Eb; [|discriminate].
    rewrite (ss_level _ _ Hscr v Eb), (Player.so_bar p Hsound v Eb). apply Hsound. }
  cbn [Player.step]. destruct (Player.panel p) as [x|] eqn:Ep.
  - apply Prog.frame_breaks; [exact Hdfb | exact Hd | apply Hscr | exact Hv |].
    rewrite (ss_panel _ _ Hscr), Ep. reflexivity.
  - eexists. split.
    + apply Prog.frame_drawn; [exact Hdfb | exact Hd | apply Hscr | exact Hv |].
      rewrite (ss_panel _ _ Hscr), Ep. reflexivity.
    + split; [exact Hr | exact Hd | | exact Hc | | destruct Hsound; split; assumption
             | exact Hair | exact Hdig].
      * etransitivity; [exact (Gc.frame_image (Prog.screen_of s))|].
        unfold Prog.screen_of. cbn [Gc.fr_graphics Player.picture Player.set_picture].
        rewrite (ss_bar _ _ Hscr). destruct (Player.bar p) as [v|] eqn:Eb; [|reflexivity].
        rewrite (ss_level _ _ Hscr v Eb). reflexivity.
      * apply (shows_client _ p); [split; [exact Hcb | exact Hw | split; assumption] | |
          destruct Hw; split; assumption].
        split; try assumption. apply screen_drawn, Hscr.
Qed.

(** Every action of the player is a step of the system. *)
Lemma step_matches a :
  Player.off p = false -> legal a ->
  matches (Prog.sys_step (step_of a) s) (Player.step a p).
Proof.
  intros Hoff Hl. destruct a as [b| | | | | |].
  - apply press_matches; assumption.
  - apply turn_matches.
  - apply number_matches.
  - exact (screen_matches Player.BarTimeout _ eq_refl).
  - exact (screen_matches Player.CaptionTimeout _ eq_refl).
  - exact (screen_matches Player.PanelTimeout _ eq_refl).
  - apply frame_matches.
Qed.
End Step.

(** ** Runs *)

(** How the wait of main ends, against the run of the player. *)
Definition agrees (r : res (ran Prog.system unit)) (o : Player.outcome) : Prop :=
  match o with
  | Player.On p => exists s, r = Val (Waiting s) /\ represents s p
  | Player.Off p => exists s, r = Val (Ran tt s) /\ represents s p
  | Player.Starved => exists s, r = Val (Waiting s)
  | Player.Broken => r = Ub OutOfBounds
  end.

Lemma wait_agrees es s p :
  ScFacts.library_succeeds -> Gc.dfb_succeeds -> represents s p -> Player.off p = false ->
  Forall legal es ->
  agrees (Prog.wait_exit (map step_of es) s) (Player.run es p).
Proof.
  intros Hlib Hdfb Hs Hoff Hes. revert s p Hs Hoff.
  induction Hes as [|a es Ha Hes IH]; intros s p Hs Hoff.
  - exists s. split; [reflexivity | exact Hs].
  - pose proof (step_matches Hlib Hdfb s p Hs a Hoff Ha) as Hm.
    cbn [map Prog.wait_exit Player.run]. destruct (Player.step a p) as [p'| |].
    + destruct Hm as (s' & E & Hs'). unfold mbind at 1, M_bind at 1. rewrite E.
      erewrite bindM; [|reflexivity]. cbv beta.
      change (Tv.deinitSignal _) with (Tv.deinitSignal (client (Prog.program s'))).
      rewrite (cs_off _ _ (sh_client _ _ (re_shows _ _ Hs'))).
      destruct (Player.off p') eqn:Eo; [exists s'; split; [reflexivity | exact Hs'] | apply IH; auto].
    + destruct Hm as (s' & E). exists s'. unfold mbind, M_bind. rewrite E. reflexivity.
    + unfold mbind, M_bind. cbn in Hm |- *. rewrite Hm. reflexivity.
Qed.

(** ** The start *)

(** What is broadcast first: the programme table [b0] that gives [pat], the map
    [b1] of the first programme [ch], a date section [b2] with the date [d] and
    a time offset section [b3]. *)
Record broadcast (ch : Z) (b0 b1 b2 b3 : bytes) (pat : Pat.PatTable) (d : Tdt.date) : Prop := {
  br_pat : Pat.complete b0 /\ byte_at b0 0 = 0 /\
           Pat.reference b0 Sc.zero_pat = (TABLES_PARSE_OK, pat);
  br_pmt : good_section b1;
  br_tdt : is_bytes b2 /\ 5 <= Z.of_nat (length b2) /\ byte_at b2 0 = 0x70 /\
           Tdt.mjd_date (Tdt.mjd_at b2) = Val d;
  br_tot : is_bytes b3 /\ byte_at b3 0 = 0x73 /\ exists tot,
           Tot.parseTotTable (Some b3) (Some Sc.zero_tot) = Val (TABLES_PARSE_OK, Some tot);
  br_services : 2 <= Pat.serviceInfoCount pat <= 19;
  br_channel : 0 <= ch <= Pat.serviceInfoCount pat - 2 }.

(** The player when the controller has started. *)
Definition started (ch : Z) (pat : Pat.PatTable) (b1 : bytes) (d : Tdt.date) (air : list bytes)
    : Player.player :=
  Player.mkPlayer (Pat.serviceInfoCount pat) ch false (Player.programme ch b1) 5 []
    (ScFacts.reported d) None false None None air false.

Definition schedule_of (b0 b1 b2 b3 : bytes) (air : list bytes) : list event :=
  [LockStatus STATUS_LOCKED; Delivery b0; Delivery b1; Delivery b2; Delivery b3]
    ++ map Delivery air.

Lemma broadcast_pat ch b0 b1 b2 b3 pat d : broadcast ch b0 b1 b2 b3 pat d -> Pat.table_wf pat.
Proof.
  intros [(P1 & P2 & P3) _ _ _ _ _]. change pat with (snd (TABLES_PARSE_OK, pat)). rewrite <- P3.
  apply Pat.pat_reference_wf; [apply P1 | apply ScFacts.zero_pat_wf].
Qed.

(** It starts every controller that asks for the programme [ch]. *)
Lemma broadcast_starts {C} (w : world C) ch b0 b1 b2 b3 pat d air :
  broadcast ch b0 b1 b2 b3 pat d -> pending w = schedule_of b0 b1 b2 b3 air ->
  World.programNumber w = ch -> statusMutex w = false -> demuxMutex w = false ->
  timeTablesRecieved w = false ->
  exists info tot,
    ScFacts.start_up w ch info pat (Pmt.parsed_table b1 (Pmt.decode_section b1).1 Sc.zero_pmt) d tot
      (map Delivery air).
Proof.
  intros Hbr Hp Hw Hs Hd Ht. pose proof (Pat.tw_length _ (broadcast_pat _ _ _ _ _ _ _ Hbr)) as Hlen.
  destruct Hbr as [(P1 & P2 & P3) Hpmt (T1 & T2 & T3 & T4) (O1 & O2 & tot & O3) Hn Hch].
  destruct (lookup_lt_is_Some_2 (Pat.patServiceInfoArray pat) (Z.to_nat (ch + 1)) ltac:(lia))
    as [info Hi].
  pose proof (good_reference b1 Sc.zero_pmt Hpmt) as R1. destruct Hpmt as (M1 & M2 & _).
  exists info, tot. split; [exists b0, b1, b2, b3; auto 10 | split; [exact Hw | lia]
    | exact Hi | split; assumption | exact Ht].
Qed.

Lemma started_sound ch pat b0 b1 b2 b3 d air :
  broadcast ch b0 b1 b2 b3 pat d -> Player.sound (started ch pat b1 d air).
Proof. intros []. split; cbn; auto; [lia | discriminate]. Qed.

Lemma start_represents (c : Config.InitialInfo) width height b0 b1 b2 b3 pat d air :
  ScFacts.library_succeeds -> ScFacts.library_has_memory ->
  broadcast (i16 (Config.programNumber c)) b0 b1 b2 b3 pat d -> Forall good_section air ->
  exists s, Prog.sys_step Prog.ControllerStarts
      (Prog.waiting c width height (schedule_of b0 b1 b2 b3 air)) = Val (Ran tt s) /\
    represents s (started (i16 (Config.programNumber c)) pat b1 d air).
Proof.
  intros Hlib Hmem Hbr Hair. pose proof (started_sound _ _ _ _ _ _ _ air Hbr) as Hsound.
  set (s0 := Prog.waiting _ _ _ _). set (ch := i16 _) in *.
  destruct (broadcast_starts (Prog.program s0) ch b0 b1 b2 b3 pat d air Hbr)
    as (info & tot & Hsu); [reflexivity..|].
  pose proof (Pat.tw_length _ (broadcast_pat _ _ _ _ _ _ _ Hbr)) as Hlen.
  destruct Hbr as [_ Hpmt _ _ Hn Hch].
  pose proof (good_reference b1 Sc.zero_pmt Hpmt) as R1. set (pmt := Pmt.parsed_table _ _ _) in R1, Hsu.
  destruct (ScFacts.task_init_run (Prog.program s0) ch info pat pmt d tot (map Delivery air)
    Tv.registerCurrentDate (Tv.set_date (ScFacts.reported d) (client (Prog.program s0)))
    Hlib Hmem Hsu eq_refl eq_refl)
    as (w & E & F1 & F2 & F3 & F4 & F5 & F6 & F7 & F8 & F9 & F10 & F11 & F12 & F13 & F14).
  exists (Prog.set_program w s0). split.
  { unfold Prog.sys_step. erewrite bindM; [|apply Prog.in_world_run; exact E]. reflexivity. }
  split; [reflexivity | reflexivity | reflexivity | reflexivity | | exact Hsound | exact Hair | constructor].
  change (shows w (started ch pat b1 d air)). split; [exact F14 | |].
  - split; auto; [exists pat; auto | | rewrite F2; unfold pmt; rewrite streams_parsed; reflexivity].
    exists pmt. split; [exact F4|]. change pmt with (snd (TABLES_PARSE_OK, pmt)). rewrite <- R1.
    apply Pmt.pmt_reference_wf; [apply Hpmt | apply ScFacts.zero_pmt_wf].
  - rewrite F5.
    split; try reflexivity. split; try reflexivity; [repeat split | discriminate | discriminate].
Qed.

(** A run of main from the start of the program. *)
Lemma main_agrees file r join_fails b0 b1 b2 b3 pat d air es :
  ScFacts.library_succeeds -> ScFacts.library_has_memory -> Gc.dfb_succeeds ->
  Config.loadConfigFile DVB_T file Config.no_info = Val r -> Config.error r = SC_NO_ERROR ->
  broadcast (i16 (Config.programNumber (Config.info r))) b0 b1 b2 b3 pat d ->
  Forall good_section air -> Forall legal es ->
  let run := Prog.main file false join_fails (Prog.ControllerStarts :: map step_of es)
               (Prog.loaded (schedule_of b0 b1 b2 b3 air)) in
  match Player.run es (started (i16 (Config.programNumber (Config.info r))) pat b1 d air) with
  | Player.On p => exists s, run = Val (Waiting s) /\ represents s p
  | Player.Off _ => run = Ub NotLocked
  | Player.Starved => exists s, run = Val (Waiting s)
  | Player.Broken => run = Ub OutOfBounds
  end.
Proof.
  intros Hlib Hmem Hdfb El Er Hbr Hair Hes run.
  destruct (Prog.main_started file r join_fails (schedule_of b0 b1 b2 b3 air)
    (Prog.ControllerStarts :: map step_of es) Hlib Hdfb El Er) as (w & h & E).
  destruct (start_represents (Config.info r) w h b0 b1 b2 b3 pat d air Hlib Hmem Hbr Hair)
    as (s & E1 & Hs).
  pose proof (wait_agrees es s _ Hlib Hdfb Hs eq_refl Hes) as Ha.
  assert (E2 : run = (_ ← Prog.wait_exit (map step_of es); Prog.deinit_modules join_fails) s).
  { unfold run. rewrite E. unfold mbind at 1, M_bind at 1. cbn [Prog.wait_exit].
    unfold mbind at 1, M_bind at 1. rewrite E1. erewrite bindM; [|reflexivity]. cbv beta.
    change (Tv.deinitSignal _) with (Tv.deinitSignal (client (Prog.program s))).
    rewrite (cs_off _ _ (sh_client _ _ (re_shows _ _ Hs))). reflexivity. }
  rewrite E2. unfold mbind, M_bind. destruct (Player.run es _) as [p|p| |].
  - destruct Ha as (s' & -> & Hp). exists s'. auto.
  - destruct Ha as (s' & -> & _). reflexivity.
  - destruct Ha as (s' & ->). eauto.
  - rewrite Ha. reflexivity.
Qed.

(** Channel keys, and then a turn of the controller. *)
Definition zap (rs : list request) : list Player.action :=
  map (fun r => Player.Press (match r with ChannelUp => Player.Next | _ => Player.Previous end)) rs
    ++ [Player.Turn].

Lemma zap_legal rs : Forall legal (zap rs).
Proof.
  apply Forall_app_2; [|repeat constructor]. apply Forall_map, Forall_true.
  intros []; exact I.
Qed.

Lemma zap_run rs p b rest :
  Forall (fun r => ScFacts.move r <> None) rs -> rs <> [] -> Player.sound p ->
  Player.air p = b :: rest -> Player.off p = false ->
  exists p', Player.run (zap rs) p = Player.On p' /\
    Player.playing p' =
      Player.programme ((Player.selected p + ScFacts.net rs) mod (Player.services p - 1)) b /\
    Player.changing p' = false /\ Player.air p' = rest.
Proof.
  intros Hrs. revert p. induction Hrs as [|r rs Hr Hrs IH]; intros p Hne Hs Ha Ho; [congruence|].
  set (k := match r with ChannelUp => Player.Next | _ => Player.Previous end).
  set (p1 := Player.press k p).
  assert (Hs1 : Player.sound p1) by (apply Player.press_sound, Hs).
  pose proof (Player.so_services p Hs) as Hn.
  assert (F : Player.air p1 = b :: rest /\ Player.off p1 = false /\ Player.changing p1 = true /\
    Player.services p1 = Player.services p /\
    Player.selected p1 = (Player.selected p + default 0 (ScFacts.move r)) mod (Player.services p - 1)).
  { unfold p1, k. destruct r; cbn [ScFacts.move] in Hr; try congruence; cbn; auto. }
  destruct F as (F1 & F2 & F3 & F4 & F5).
  assert (E : Player.run (zap (r :: rs)) p = Player.run (zap rs) p1).
  { unfold zap. cbn [map app Player.run Player.step]. fold k p1. rewrite F2. reflexivity. }
  rewrite E. destruct rs as [|r' rs].
  - cbn [zap map app Player.run Player.step]. rewrite F3. unfold Player.tune.
    change (Player.air (Player.settle p1)) with (Player.air p1). rewrite F1.
    cbn [Player.goes_or_waits Player.off Player.play Player.settle]. rewrite F2.
    eexists. split; [reflexivity|]. cbn [Player.playing Player.play Player.changing Player.air
      Player.settle]. rewrite F5. cbn [ScFacts.net]. rewrite Z.add_0_r. auto.
  - destruct (IH p1 ltac:(discriminate) Hs1 F1 F2) as (p' & E' & G1 & G2 & G3).
    exists p'. split; [exact E'|]. split; [|auto]. rewrite G1, F4, F5, Zplus_mod_idemp_l.
    cbn [ScFacts.net]. f_equal. f_equal. lia.
Qed.

Lemma zap_no_info rs : ~ In (Player.Press Player.Info) (zap rs).
Proof.
  unfold zap. rewrite in_app_iff, in_map_iff. intros [(r & E & _) | [E|[]]]; [|discriminate].
  destruct r; discriminate.
Qed.

(** Frames between the keys and the turn. *)
Lemma zap_frames_run rs p b rest keys :
  Forall (fun r => ScFacts.move r <> None) rs -> rs <> [] -> Player.sound p ->
  Player.air p = b :: rest -> Player.off p = false ->
  Player.no_frames keys = zap rs -> Player.panel p = None \/ keys = zap rs ->
  exists p', Player.run keys p = Player.On p' /\
    Player.playing p' =
      Player.programme ((Player.selected p + ScFacts.net rs) mod (Player.services p - 1)) b /\
    Player.changing p' = false.
Proof.
  intros Hrs Hne Hs Ha Ho Hk Hp.
  destruct (zap_run rs p b rest Hrs Hne Hs Ha Ho) as (p' & E & G1 & G2 & _).
  destruct Hp as [Hp | ->]; [|exists p'; auto].
  destruct (Player.run_with_frames keys p p' Hp Ho) as [y Hy];
    [rewrite Hk; apply zap_no_info | rewrite Hk; exact E |].
  exists (Player.set_picture y p'). auto.
Qed.

Lemma zap_frames_legal rs keys : Player.no_frames keys = zap rs -> Forall legal keys.
Proof.
  intros Hk. apply Forall_forall. intros a Ha.
  destruct (Player.is_frame a) eqn:Ef; [destruct a; try discriminate; exact I|].
  assert (Hin : In a (zap rs))
    by (rewrite <- Hk; apply Player.in_no_frames; [exact Ha | intros ->; discriminate]).
  exact (proj1 (Forall_forall _ _) (zap_legal rs) a Hin).
Qed.

Lemma run_on_off es p p' :
  Player.run es p = Player.On p' -> Player.off p = false -> Player.off p' = false.
Proof.
  revert p. induction es as [|a es IH]; intros p E Ho; cbn in E.
  - injection E as <-. exact Ho.
  - destruct (Player.step a p) as [p1| |]; try discriminate.
    destruct (Player.off p1) eqn:E1; [discriminate|]. exact (IH p1 E E1).
Qed.

(** ** Properties *)

(** C1: With willing libraries, a file that loads and a broadcast that starts the task, main
    run by any actions of the keys, the timers, the controller and the render thread agrees
    with the abstract player: it waits in a state that represents the player's, ends in the
    unlocked wait exactly after EXIT, waits for a section when no more come, and writes out
    of bounds exactly when a frame is drawn while the information panel is shown. *)
Theorem main_refines_player file r join_fails b0 b1 b2 b3 pat d air es :
  ScFacts.library_succeeds -> ScFacts.library_has_memory -> Gc.dfb_succeeds ->
  Config.loadConfigFile DVB_T file Config.no_info = Val r -> Config.error r = SC_NO_ERROR ->
  broadcast (i16 (Config.programNumber (Config.info r))) b0 b1 b2 b3 pat d ->
  Forall good_section air -> Forall legal es ->
  let run := Prog.main file false join_fails (Prog.ControllerStarts :: map step_of es)
               (Prog.loaded (schedule_of b0 b1 b2 b3 air)) in
  match Player.run es (started (i16 (Config.programNumber (Config.info r))) pat b1 d air) with
  | Player.On p => exists s, run = Val (Waiting s) /\ represents s p
  | Player.Off _ => run = Ub NotLocked
  | Player.Starved => exists s, run = Val (Waiting s)
  | Player.Broken => run = Ub OutOfBounds
  end.
Proof. intros. apply main_agrees; assumption. Qed.


End Refinement.

(** ** A given evening

    The file of the repository, five entries in the programme table, and two
    more programme maps after the start. *)

#[local] Existing Instance obliging.
#[local] Existing Instance Gc.willing.

Definition five_section : bytes :=
  Pat.encode_section (Pat.mkPatHeader 0 1 29 5 3 1 0 0)
    [Pat.mkPatServiceInfo 0 16; Pat.mkPatServiceInfo 1 4097; Pat.mkPatServiceInfo 2 4098;
     Pat.mkPatServiceInfo 3 4099; Pat.mkPatServiceInfo 4 4100] [1; 2; 3; 4].
Definition five_pat : Pat.PatTable := (Pat.reference five_section Sc.zero_pat).2.

Definition evening : list Player.action :=
  [Player.Press Player.Louder; Player.Frame; Player.Press (Player.Digit 1);
   Player.NumberTimeout; Player.Press Player.Info; Player.BarTimeout; Player.PanelTimeout].

Definition evening_start : Player.player :=
  started 2 five_pat Pmt.two_section (Tdt.int_date 56048) [Pmt.two_section; Pmt.two_section].

Lemma two_section_good : good_section Pmt.two_section.
Proof. split; [apply Pmt.pmt_two_complete | split; vm_compute; reflexivity]. Qed.

Lemma evening_broadcast :
  broadcast (i16 2) five_section Pmt.two_section ScFacts.tdt_section ScFacts.tot_section five_pat
    (Tdt.int_date 56048).
Proof.
  split.
  - split; [|split; vm_compute; reflexivity].
    split_and!; [is_bytes_tac | cbn; lia | vm_compute; discriminate].
  - apply two_section_good.
  - split; [is_bytes_tac|]. split; [vm_compute; discriminate|]. split; [reflexivity|].
    apply Tdt.mjd_date_exact. vm_compute. split; discriminate.
  - split; [is_bytes_tac|]. split; [reflexivity|].
    exists ScFacts.tot_of_section. apply ScFacts.tot_of_section_parsed.
  - vm_compute. split; discriminate.
  - vm_compute. split; discriminate.
Qed.

Lemma config_loads :
  Config.loadConfigFile DVB_T (Some Config.config_ini) Config.no_info =
    Val (Config.mkOutcome SC_NO_ERROR (Config.mkInitialInfo 754000000 8 2 0) false).
Proof. vm_compute. reflexivity. Qed.

Lemma evening_legal : Forall legal evening.
Proof. repeat constructor; cbn; lia. Qed.

Lemma evening_then_info_legal :
  Forall legal (evening ++ [Player.Press Player.Info; Player.Frame]).
Proof. apply Forall_app_2; [apply evening_legal | repeat constructor]. Qed.

Lemma evening_sections : Forall good_section [Pmt.two_section; Pmt.two_section].
Proof. repeat constructor; apply two_section_good. Qed.

Definition evening_end : Player.player :=
  match Player.run evening evening_start with Player.On p => p | _ => evening_start end.

Lemma evening_run :
  Player.run evening
    (started (i16 2) five_pat Pmt.two_section (Tdt.int_date 56048)
       [Pmt.two_section; Pmt.two_section]) = Player.On evening_end.
Proof. vm_compute. reflexivity. Qed.

Lemma evening_end_values :
  Player.level evening_end = 6 /\ Player.playing evening_end = mkChannelInfo 2 660 513 /\
  Player.air evening_end = [Pmt.two_section] /\ Player.selected evening_end = 2 /\
  Player.services evening_end = 5 /\ Player.panel evening_end = None /\
  Player.picture evening_end = Some 6 /\ Player.programme 0 Pmt.two_section = mkChannelInfo 1 660 513.
Proof. vm_compute. tauto. Qed.

(** The same evening, and the panel in a frame. *)
Lemma evening_breaks :
  Player.run (evening ++ [Player.Press Player.Info; Player.Frame])
    (started (i16 2) five_pat Pmt.two_section (Tdt.int_date 56048)
       [Pmt.two_section; Pmt.two_section]) = Player.Broken.
Proof. vm_compute. reflexivity. Qed.

Lemma main_refines_player_witness :
  (exists s,
    Prog.main (Some Config.config_ini) false false
      (Prog.ControllerStarts :: map step_of evening)
      (Prog.loaded (schedule_of five_section Pmt.two_section ScFacts.tdt_section
         ScFacts.tot_section [Pmt.two_section; Pmt.two_section])) = Val (Waiting s) /\
    represents s evening_end /\ Player.level evening_end = 6 /\
    Player.playing evening_end = mkChannelInfo 2 660 513 /\
    Player.picture evening_end = Some 6) /\
  Prog.main (Some Config.config_ini) false false
    (Prog.ControllerStarts :: map step_of (evening ++ [Player.Press Player.Info; Player.Frame]))
    (Prog.loaded (schedule_of five_section Pmt.two_section ScFacts.tdt_section
       ScFacts.tot_section [Pmt.two_section; Pmt.two_section])) = Ub OutOfBounds.
Proof.
  pose proof (fun es Hes => main_refines_player (Some Config.config_ini) _ false five_section
    Pmt.two_section ScFacts.tdt_section ScFacts.tot_section five_pat (Tdt.int_date 56048)
    [Pmt.two_section; Pmt.two_section] es ScFacts.obliging_succeeds ScFacts.obliging_memory
    Gc.willing_succeeds config_loads eq_refl evening_broadcast evening_sections Hes)
    as M. cbv zeta in M. cbn [Config.info Config.programNumber] in M. split.
  - specialize (M evening evening_legal). rewrite evening_run in M.
    destruct M as (s & E & Hr). exists s. split; [exact E|]. split; [exact Hr|].
    split; [|split]; apply evening_end_values.
  - specialize (M _ evening_then_info_legal). rewrite evening_breaks in M. exact M.
Defined.

Definition up_up : list Player.action :=
  [Player.Press Player.Next; Player.Frame; Player.Press Player.Next; Player.Turn; Player.Frame].

End Ref.
