(* ===== verification/OldApp.v ===== *)
(** * OldApp: the application of vezba_5.c

    An earlier form of tv_app.c, which the makefile does not build: it shows no
    volume, draws no program number, and registers no callbacks with the stream
    controller. It calls drawInfoRect without arguments, a function of an
    earlier graphics controller that is not in the repository; the graphics are
    parameters here. *)

From S2P Require Import Prelude Tables PatParser PmtParser TdtParser TotParser ConfigFile Machine.
From S2P Require Import World StreamController StreamProperties RemoteController Graphics TvApp.
From S2P Require Import Program Refinement.

Module Old.

(** ** Data *)

(** [keyTimer] is [true] while the timer of the dialled number is armed;
    [deinitSignal] says that the program was told to end; [screen] is the state
    of the graphics. *)
Record old (G : Type) := mkOld {
  keysPressed : Z;
  keys : list Z;
  keyTimer : bool;
  channelInfo : ChannelInfo;
  deinitSignal : bool;
  screen : G }.
Arguments mkOld {G}.
Arguments keysPressed {G}.
Arguments keys {G}.
Arguments keyTimer {G}.
Arguments channelInfo {G}.
Arguments deinitSignal {G}.
Arguments screen {G}.

(** The graphics controller it was written for. *)
Class Graphics (G : Type) := {
  graphicsControllerInit : G -> bool * G;
  graphicsControllerDeinit : G -> bool * G;
  drawInfoRect : G -> G }.

Section App.
Context `{TdpApi} `{Graphics G}.

Definition set_dial (pressed : Z) (ks : list Z) (timer : bool) (t : old G) : old G :=
  mkOld pressed ks timer (channelInfo t) (deinitSignal t) (screen t).
Definition set_info (i : ChannelInfo) (t : old G) : old G :=
  mkOld (keysPressed t) (keys t) (keyTimer t) i (deinitSignal t) (screen t).
Definition set_deinit (b : bool) (t : old G) : old G :=
  mkOld (keysPressed t) (keys t) (keyTimer t) (channelInfo t) b (screen t).
Definition set_screen (g : G) (t : old G) : old G :=
  mkOld (keysPressed t) (keys t) (keyTimer t) (channelInfo t) (deinitSignal t) g.

Definition initial (g : G) : old G := mkOld 0 [0; 0; 0] false (mkChannelInfo 0 0 0) false g.

Abbreviation App := (M (world (old G))).

Definition update (f : old G -> old G) : App unit := modify (fun w => set_client (f (client w)) w).

(** ** Dialling *)

(** The array has three cells; [keysPressed == 1;] changes nothing. *)
Definition press_key (key : Z) (t : old G) : old G :=
  let t := set_dial (keysPressed t) (keys t) true t in
  if keysPressed t =? 0 then set_dial 1 (<[0%nat := key]> (keys t)) true t
  else if keysPressed t =? 1 then set_dial 2 (<[1%nat := key]> (keys t)) true t
  else if keysPressed t =? 2 then set_dial 3 (<[2%nat := key]> (keys t)) true t
  else if keysPressed t =? 3 then set_dial 3 [key; 0; 0] true t
  else t.

Definition inputChannelNumber (key : Z) : App unit := update (press_key key).

(** The local [channel] of changeChannel. *)
Definition dialled (t : old G) : res Z :=
  if keysPressed t =? 1 then rd (keys t) 0
  else if keysPressed t =? 2 then
    a ← rd (keys t) 0; b ← rd (keys t) 1; Val (10 * a + b)
  else if keysPressed t =? 3 then
    a ← rd (keys t) 0; b ← rd (keys t) 1; c ← rd (keys t) 2; Val (100 * a + 10 * b + c)
  else Ub Uninitialized.

Definition changeChannel : App unit :=
  t ← gets client;
  channel ← lift (dialled t);
  _ ← Sc.changeChannelKey channel;
  update (fun t => set_dial 0 [0; 0; 0] (keyTimer t) t).

Definition keyTimer_expires : App unit :=
  t ← gets client;
  if keyTimer t then
    _ ← update (fun t => set_dial (keysPressed t) (keys t) false t);
    changeChannel
  else mret tt.

(** ** The remote *)

Definition show_info : App unit :=
  t ← gets client;
  r ← Sc.getChannelInfo (Some (channelInfo t));
  _ ← match r.2 with Some i => update (set_info i) | None => mret tt end;
  update (fun t => set_screen (drawInfoRect (screen t)) t).

Definition remoteControllerCallback (code type value : Z) : App unit :=
  if code =? Rc.KEYCODE_INFO then show_info
  else if code =? Rc.KEYCODE_P_PLUS then _ ← Sc.channelUp; mret tt
  else if code =? Rc.KEYCODE_P_MINUS then _ ← Sc.channelDown; mret tt
  else if code =? Rc.KEYCODE_EXIT then update (set_deinit true)
  else
    match Tv.digit_of code with
    | Some key => inputChannelNumber key
    | None => mret tt
    end.

Definition rc_callback : @Rc.RemoteControllerCallback (world (old G)) := fun code type value w =>
  match remoteControllerCallback code type value w with
  | Val (Ran _ w) => Val w
  | Val (Waiting w) => NoFuel
  | Ub k => Ub k
  | NoFuel => NoFuel
  end.

(** ** main *)

(** The modules: the remote controller, whose program is the world of the
    stream controller with the application as its client, and whether its task
    reads. *)
Record system := mkSystem {
  remote : @Rc.remote (world (old G));
  reading : bool }.

Definition program (s : system) : world (old G) := Rc.program (remote s).
Definition set_program (w : world (old G)) (s : system) : system :=
  mkSystem (Rc.mkRemote (Rc.callback (remote s)) (Rc.threadExit (remote s)) w) (reading s).

Definition loaded (schedule : list event) (g : G) : system :=
  mkSystem (Rc.mkRemote None false (start schedule (initial g))) false.

(** One step of another thread. *)
Inductive step :=
  | RemoteReads (r : Rc.read_result)
  | ControllerStarts
  | Controller (e : event)
  | DialTimer.

Abbreviation Sys := (M system).

Definition in_world {A} (m : App A) : Sys A := fun s =>
  match m (program s) with
  | Val (Ran a w) => Val (Ran a (set_program w s))
  | Val (Waiting w) => Val (Waiting (set_program w s))
  | Ub k => Ub k
  | NoFuel => NoFuel
  end.

Definition sys_step (e : step) : Sys unit :=
  match e with
  | RemoteReads r => fun s =>
      if reading s then
        c ← Rc.task_pass r (remote s);
        match c with
        | Next r => Val (Ran tt (mkSystem r (reading s)))
        | Stop _ => Val (Ran tt (mkSystem (remote s) false))
        end
      else Val (Ran tt s)
  | ControllerStarts => _ ← in_world Sc.task_init; mret tt
  | Controller Pass =>
      b ← gets (fun s => isInitialized (program s));
      if b : bool then in_world Sc.task_pass else mret tt
  | Controller e => in_world (Sc.handle e)
  | DialTimer => in_world keyTimer_expires
  end.

Fixpoint wait_exit (schedule : list step) : Sys unit :=
  match schedule with
  | [] => blocked
  | e :: schedule =>
      _ ← sys_step e;
      b ← gets (fun s => deinitSignal (client (program s)));
      if b : bool then mret tt else wait_exit schedule
  end.

(** A module reports an error. *)
Definition sc_failed (m : App StreamControllerError) : Sys bool :=
  e ← in_world m; mret (negb (bool_decide (e = SC_NO_ERROR))).
Definition rc_failed
    (f : @Rc.remote (world (old G)) -> Rc.RemoteControllerError * @Rc.remote (world (old G)))
    : Sys bool := fun s =>
  let r := f (remote s) in
  Val (Ran (match r.1 with Rc.RC_NO_ERROR => false | _ => true end) (mkSystem r.2 (reading s))).
Definition gc_failed (f : G -> bool * G) : Sys bool := fun s =>
  let r := f (screen (client (program s))) in
  Val (Ran r.1 (set_program (set_client (set_screen r.2 (client (program s))) (program s)) s)).

Definition ERRORCHECK (m : Sys bool) (rest : Sys Z) : Sys Z :=
  b ← m; if b : bool then mret (-1) else rest.

Definition start_remote (create_fails : bool) : Sys bool :=
  b ← rc_failed (fun r => (Rc.remoteControllerInit create_fails, r));
  _ ← modify (fun s => mkSystem (remote s) (negb b));
  mret b.

Definition main (file : option bytes) (create_fails join_fails : bool) (schedule : list step)
    : Sys Z :=
  b ← sc_failed (Sc.loadInitialInfo file);
  if b : bool then mret (-1) else
  ERRORCHECK (start_remote create_fails) (
  ERRORCHECK (rc_failed (Rc.registerRemoteControllerCallback (Some rc_callback))) (
  ERRORCHECK (gc_failed graphicsControllerInit) (
  ERRORCHECK (sc_failed Sc.streamControllerInit) (
  _ ← wait_exit schedule;
  ERRORCHECK (gc_failed graphicsControllerDeinit) (
  ERRORCHECK (rc_failed Rc.unregisterRemoteControllerCallback) (
  ERRORCHECK (rc_failed (Rc.remoteControllerDeinit join_fails)) (
  ERRORCHECK (sc_failed Sc.streamControllerDeinit) (
  mret 0)))))))).

(** ** The keys of both applications *)

(** The same controller, as far as the keys reach, and the same dialled number. *)
Record alike (v : world (old G)) (w : world Tv.tv) : Prop := {
  al_pat : patTable v = patTable w;
  al_program : World.programNumber v = World.programNumber w;
  al_change : World.changeChannel v = World.changeChannel w;
  al_channel : currentChannel v = currentChannel w;
  al_pressed : keysPressed (client v) = Tv.keysPressed (client w);
  al_keys : keys (client v) = Tv.keys (client w);
  al_timer : keyTimer (client v) = Tv.keyTimer (client w);
  al_exit : deinitSignal (client v) = Tv.deinitSignal (client w);
  al_info : channelInfo (client v) = Tv.channelInfo (client w) }.

(** Two runs that do alike. *)
Definition do_alike (m : res (ran (world (old G)) unit)) (n : res (ran (world Tv.tv) unit)) : Prop :=
  match m, n with
  | Val (Ran _ v), Val (Ran _ w) => alike v w
  | Ub j, Ub k => j = k
  | _, _ => False
  end.

Lemma do_alike_val u v n :
  do_alike (Val (Ran u v)) n -> exists w, n = Val (Ran tt w) /\ alike v w.
Proof. destruct n as [[[] w|w]|k|]; cbn; try contradiction. eauto. Qed.

Definition is_volume_key (code : Z) : bool :=
  (code =? Rc.KEYCODE_V_PLUS) || (code =? Rc.KEYCODE_V_MINUS) || (code =? Rc.KEYCODE_MUTE).

Lemma press_alike key v w :
  alike v w -> do_alike (inputChannelNumber key v) (Tv.inputChannelNumber key w).
Proof.
  intros []. unfold do_alike, inputChannelNumber, update, Tv.inputChannelNumber, Tv.update, modify.
  unfold press_key, Tv.press_key.
  cbn [keysPressed keys set_dial Tv.keysPressed Tv.keys Tv.set_dial].
  rewrite al_pressed0, al_keys0. repeat case_match; split; cbn; auto.
Qed.

Lemma up_alike v w :
  alike v w ->
  do_alike ((_ ← Sc.channelUp; mret tt) v) ((_ ← Sc.channelUp; Tv.draw Gc.drawProgramNumber) w).
Proof.
  intros []. unfold do_alike, Sc.channelUp, Sc.service_count.
  unfold mbind, M_bind, gets, modify, lift, mret, M_ret, Tv.draw, Tv.update, modify.
  rewrite al_pat0, al_program0. destruct (patTable w) eqn:E; cbn; auto. split; cbn; congruence.
Qed.
Lemma down_alike v w :
  alike v w ->
  do_alike ((_ ← Sc.channelDown; mret tt) v) ((_ ← Sc.channelDown; mret tt) w).
Proof.
  intros []. unfold do_alike, Sc.channelDown, Sc.service_count.
  unfold mbind, M_bind, gets, modify, lift, mret, M_ret.
  rewrite al_program0. destruct (_ <=? 0); [rewrite al_pat0; destruct (patTable w) eqn:E; cbn; auto|];
    split; cbn; congruence.
Qed.

Lemma info_alike v w : alike v w -> do_alike (show_info v) (Tv.show_info w).
Proof. intros []. split; cbn; auto. Qed.

Lemma callback_alike code ty value v w :
  is_volume_key code = false -> alike v w ->
  do_alike (remoteControllerCallback code ty value v) (Tv.remoteControllerCallback code ty value w).
Proof.
  unfold is_volume_key. intros Hk Ha. unfold remoteControllerCallback, Tv.remoteControllerCallback.
  apply orb_false_iff in Hk as [[Hk1 Hk2]%orb_false_iff Hk3]. rewrite Hk1, Hk2, Hk3.
  destruct (code =? Rc.KEYCODE_INFO); [apply info_alike, Ha|].
  destruct (code =? Rc.KEYCODE_P_PLUS); [apply up_alike, Ha|].
  destruct (code =? Rc.KEYCODE_P_MINUS); [apply down_alike, Ha|].
  destruct (code =? Rc.KEYCODE_EXIT); [destruct Ha; split; cbn; auto|].
  destruct (Tv.digit_of code); [apply press_alike, Ha | exact Ha].
Qed.

(** The keys that the remote sends, one after the other. *)
Fixpoint press_all (codes : list Z) : App unit :=
  match codes with
  | [] => mret tt
  | c :: codes => _ ← remoteControllerCallback c 1 1; press_all codes
  end.

Lemma dialled_alike v w : alike v w -> dialled (client v) = Tv.dialled (client w).
Proof. intros []. unfold dialled, Tv.dialled. rewrite al_pressed0, al_keys0. reflexivity. Qed.

(** Keys that the earlier program does not know. *)
Lemma volume_key_ignored code ty value v :
  is_volume_key code = true -> remoteControllerCallback code ty value v = Val (Ran tt v).
Proof.
  unfold is_volume_key. intros Hk.
  apply orb_true_iff in Hk as [[Hk|Hk]%orb_true_iff|Hk]; apply Z.eqb_eq in Hk; subst; reflexivity.
Qed.

(** The world while main waits. *)
Definition ready (c : Config.InitialInfo) (g : G) (schedule : list event) : world (old G) :=
  set_client (initial (graphicsControllerInit g).2)
    (set_calls [PthreadCreate]
      (set_programNumber (i16 (Config.programNumber c)) (set_configFile c
        (start schedule (initial g))))).

Definition waiting (c : Config.InitialInfo) (g : G) (schedule : list event) : system :=
  mkSystem (Rc.mkRemote (Some rc_callback) false (ready c g schedule)) true.

Lemma old_in_world_run {A} (m : App A) s a w :
  m (program s) = Val (Ran a w) -> in_world m s = Val (Ran a (set_program w s)).
Proof. intros E. unfold in_world. rewrite E. reflexivity. Qed.

Lemma old_check_passes m rest s s' :
  m s = Val (Ran false s') -> ERRORCHECK m rest s = rest s'.
Proof. intros E. unfold ERRORCHECK. erewrite bindM; [|exact E]. reflexivity. Qed.

Lemma old_gc_passes f s :
  (f (screen (client (program s)))).1 = false ->
  gc_failed f s = Val (Ran false (set_program
    (set_client (set_screen (f (screen (client (program s)))).2 (client (program s))) (program s)) s)).
Proof. intros E. unfold gc_failed. cbv zeta. rewrite E. reflexivity. Qed.

Lemma old_main_started file r join_fails g schedule es :
  ScFacts.library_succeeds -> (graphicsControllerInit g).1 = false ->
  Config.loadConfigFile DVB_T file Config.no_info = Val r -> Config.error r = SC_NO_ERROR ->
  main file false join_fails es (loaded schedule g) =
    (_ ← wait_exit es;
     ERRORCHECK (gc_failed graphicsControllerDeinit) (
     ERRORCHECK (rc_failed Rc.unregisterRemoteControllerCallback) (
     ERRORCHECK (rc_failed (Rc.remoteControllerDeinit join_fails)) (
     ERRORCHECK (sc_failed Sc.streamControllerDeinit) (mret 0)))))
      (waiting (Config.info r) g schedule).
Proof.
  intros Hlib Hg El Er. unfold main.
  erewrite (bindM _ _ _ false).
  2:{ unfold sc_failed. erewrite bindM.
      2:{ apply old_in_world_run, ScFacts.loadInitialInfo_run; [exact El | exact Er]. }
      reflexivity. }
  cbv beta iota.
  do 2 (erewrite old_check_passes; [|reflexivity]).
  erewrite old_check_passes; [|apply old_gc_passes; exact Hg].
  erewrite old_check_passes.
  2:{ unfold sc_failed. erewrite bindM; [|apply old_in_world_run; unfold Sc.streamControllerInit,
        Sc.fails, Sc.external, mbind, M_bind; rewrite Hlib; reflexivity]. reflexivity. }
  reflexivity.
Qed.

(** The volume keys pass main by. *)
Lemma volume_waits c g schedule codes es :
  Forall (fun c => is_volume_key c = true) codes ->
  wait_exit (map (fun c => RemoteReads (Rc.press c)) codes ++ es) (waiting c g schedule) =
    wait_exit es (waiting c g schedule).
Proof.
  induction 1 as [|k codes Hk _ IH]; [reflexivity|].
  cbn [map app wait_exit].
  assert (E : sys_step (RemoteReads (Rc.press k)) (waiting c g schedule) =
                Val (Ran tt (waiting c g schedule))).
  { unfold sys_step. cbn [reading waiting].
    rewrite (Rc.task_pass_key k (remote (waiting c g schedule)) rc_callback eq_refl).
    unfold rc_callback at 1. rewrite volume_key_ignored by exact Hk. reflexivity. }
  erewrite bindM; [|exact E]. erewrite bindM; [|reflexivity]. exact IH.
Qed.

(** ** Properties *)

(** C39: For all keys but those of the volume the callback of vezba_5.c does to the
    controller, the dialled number, the channel information and the exit flag what the
    callback of tv_app.c does, up to the same undefined behaviour. *)
Theorem old_keys_agree codes v w :
  alike v w -> Forall (fun c => is_volume_key c = false) codes ->
  do_alike (press_all codes v) (Tv.press_all codes w) /\
  dialled (client v) = Tv.dialled (client w).
Proof.
  intros Ha Hc. split; [|apply dialled_alike, Ha].
  revert v w Ha. induction Hc as [|c codes Hc _ IH]; intros v w Ha; [exact Ha|].
  pose proof (callback_alike c 1 1 v w Hc Ha) as Hone. cbn [press_all Tv.press_all].
  unfold do_alike, mbind, M_bind in *.
  destruct (remoteControllerCallback c 1 1 v) as [[[] v'|v']|k|],
    (Tv.remoteControllerCallback c 1 1 w) as [[[] w'|w']|k'|]; try contradiction;
    [exact (IH v' w' Hone) | exact Hone].
Qed.

(** C40: main of vezba_5.c ignores volume keys, and since it registers no callback for the
    date, its controller task calls a null pointer once the lock and the four tables have
    arrived. *)
Theorem old_main_calls_null file r join_fails g b0 b1 b2 b3 pat d air es codes :
  ScFacts.library_succeeds -> ScFacts.library_has_memory ->
  (graphicsControllerInit g).1 = false ->
  Config.loadConfigFile DVB_T file Config.no_info = Val r -> Config.error r = SC_NO_ERROR ->
  Ref.broadcast (i16 (Config.programNumber (Config.info r))) b0 b1 b2 b3 pat d ->
  Forall (fun c => is_volume_key c = true) codes ->
  let run es := main file false join_fails es (loaded (Ref.schedule_of b0 b1 b2 b3 air) g) in
  let volume := map (fun c => RemoteReads (Rc.press c)) codes in
  run volume = Val (Waiting (waiting (Config.info r) g (Ref.schedule_of b0 b1 b2 b3 air))) /\
  run (volume ++ ControllerStarts :: es) = Ub NullDeref.
Proof.
  intros Hlib Hmem Hg El Er Hb Hc run volume.
  assert (R : forall es', run es' = _) by
    (intros es'; exact (old_main_started file r join_fails g _ es' Hlib Hg El Er)).
  rewrite !R. unfold mbind, M_bind.
  assert (W : forall es', wait_exit (volume ++ es') (waiting (Config.info r) g
            (Ref.schedule_of b0 b1 b2 b3 air)) = wait_exit es' (waiting (Config.info r) g
            (Ref.schedule_of b0 b1 b2 b3 air))) by (intros es'; apply volume_waits, Hc).
  split.
  - rewrite <- (app_nil_r volume), W. reflexivity.
  - rewrite W. cbn [wait_exit sys_step].
    set (s := waiting _ _ _).
    destruct (Ref.broadcast_starts (program s) _ b0 b1 b2 b3 pat d air Hb)
      as (info & tot & Hs); [reflexivity..|].
    unfold mbind, M_bind, in_world.
    rewrite (ScFacts.task_init_no_callback _ _ _ _ _ _ _ _ Hlib Hmem Hs eq_refl). reflexivity.
Qed.
End App.

(** ** Given runs *)

#[local] Existing Instance obliging.

(** A screen that only counts its drawings. *)
Definition counting : Graphics nat := {|
  graphicsControllerInit := fun n => (false, n);
  graphicsControllerDeinit := fun n => (false, n);
  drawInfoRect := S |}.
#[local] Existing Instance counting.

Definition some_keys : list Z :=
  [Rc.KEYCODE_INFO; Rc.KEYCODE_P_PLUS; Rc.KEYCODE_P_PLUS; Rc.KEYCODE_P_MINUS; Rc.KEYCODE_2;
   Rc.KEYCODE_4; Rc.KEYCODE_EXIT].

Definition five_old : world (old nat) := set_patTable (Live Ref.five_pat) (start [] (initial 0%nat)).
Definition five_new : world Tv.tv := set_patTable (Live Ref.five_pat) (start [] (Tv.initial 720 576)).

Lemma some_keys_run :
  exists v', press_all some_keys five_old = Val (Ran tt v') /\ World.programNumber v' = 1 /\
    keys (client v') = [2; 4; 0] /\ screen (client v') = 1%nat.
Proof. eexists. split; [vm_compute; reflexivity|]. vm_compute. auto. Qed.

Lemma old_keys_agree_witness :
  exists v' w', press_all some_keys five_old = Val (Ran tt v') /\
    Tv.press_all some_keys five_new = Val (Ran tt w') /\ alike v' w' /\
    World.programNumber v' = 1.
Proof.
  assert (Ha : alike five_old five_new) by (split; reflexivity).
  assert (Hk : Forall (fun c => is_volume_key c = false) some_keys) by (repeat constructor).
  pose proof (proj1 (old_keys_agree some_keys five_old five_new Ha Hk)) as M.
  destruct some_keys_run as (v' & E & Hp & _). rewrite E in M.
  destruct (do_alike_val _ _ _ M) as (w' & E' & Hw).
  exists v', w'. exact (conj E (conj E' (conj Hw Hp))).
Defined.

Lemma old_main_calls_null_witness :
  main (Some Config.config_ini) false false
    [RemoteReads (Rc.press Rc.KEYCODE_V_PLUS); ControllerStarts]
    (loaded (Ref.schedule_of Ref.five_section Pmt.two_section ScFacts.tdt_section
               ScFacts.tot_section []) 0%nat) = Ub NullDeref.
Proof.
  pose proof (old_main_calls_null (Some Config.config_ini) _ false 0%nat Ref.five_section
    Pmt.two_section ScFacts.tdt_section ScFacts.tot_section Ref.five_pat (Tdt.int_date 56048) [] []
    [Rc.KEYCODE_V_PLUS] ScFacts.obliging_succeeds ScFacts.obliging_memory eq_refl
    Ref.config_loads eq_refl Ref.evening_broadcast ltac:(repeat constructor)) as M.
  cbv zeta in M. cbn [map app] in M. exact (proj2 M).
Defined.
End Old.
