(* ===== verification/DateTest.v ===== *)
(** * DateTest: the program test.c

    test.c carries out the computation of parseTdtTable on one fixed date and
    prints it three times. Its statements are those of the parser, so that the
    computation is [Tdt.mjd_date]. *)

From S2P Require Import Prelude Calendar TdtParser ConfigFile.

Module Test.

(** The date of the program. *)
Definition mjdTime : Z := 55097.

Definition month_text (m : Z) : option string :=
  match m with
  | 1 => Some "January"%string
  | 2 => Some "February"%string
  | 3 => Some "March"%string
  | 4 => Some "April"%string
  | 5 => Some "May"%string
  | 6 => Some "June"%string
  | 7 => Some "July"%string
  | 8 => Some "August"%string
  | 9 => Some "September"%string
  | 10 => Some "October"%string
  | 11 => Some "November"%string
  | 12 => Some "December"%string
  | _ => None
  end.

(** A line of the output: the text, three parts with a slash between them, a
    blank and the end of the line. *)
Definition info_line (a b c : bytes) : bytes :=
  bytes_of_string "INFO: Time read from stream: " ++ a ++ [47] ++ b ++ [47] ++ c ++ [32; 10].

(** What main prints for the date [mjd]. *)
Definition main (mjd : Z) : res bytes :=
  d ← Tdt.mjd_date mjd;
  let day := Config.decimal (Tdt.d_day d) in
  let month := Config.decimal (Tdt.d_tmpMonth d) in
  let year := Config.decimal (Tdt.d_Year d) in
  Val (bytes_of_string "Rad na sortiranju!" ++ info_line year month day ++
       match month_text (Tdt.d_tmpMonth d) with
       | Some name => info_line (bytes_of_string name) day year
       | None => []
       end ++ info_line year month day).

(** The date is 23 September 2009, one that has no error. *)
Lemma mjdTime_civil :
  Cal.mjd_of (Cal.mkCivil 2009 9 23) = mjdTime /\ Tdt.day_error (Cal.mkCivil 2009 9 23) = 0.
Proof. split; vm_compute; reflexivity. Qed.

(** So the program prints the right date; on 1 May 2012 it would print a day 0. *)
Lemma main_prints :
  main mjdTime = Val (bytes_of_string "Rad na sortiranju!" ++
    info_line (bytes_of_string "2009") (bytes_of_string "9") (bytes_of_string "23") ++
    info_line (bytes_of_string "September") (bytes_of_string "23") (bytes_of_string "2009") ++
    info_line (bytes_of_string "2009") (bytes_of_string "9") (bytes_of_string "23")).
Proof. vm_compute. reflexivity. Qed.

Lemma main_prints_day_zero :
  Cal.mjd_of (Cal.mkCivil 2012 5 1) = 56048 /\
  main 56048 = Val (bytes_of_string "Rad na sortiranju!" ++
    info_line (bytes_of_string "2012") (bytes_of_string "5") (bytes_of_string "0") ++
    info_line (bytes_of_string "May") (bytes_of_string "0") (bytes_of_string "2012") ++
    info_line (bytes_of_string "2012") (bytes_of_string "5") (bytes_of_string "0")).
Proof. split; vm_compute; reflexivity. Qed.
End Test.
